(** * HSE-Financial-App: the transactional core, embedded in Rocq

    A shallow embedding of the ledger core of the application: [Money]
    (binary64 amounts, as [Decimal = double] in [common/types.h]), the
    [BankAccount], [Category] and [Operation] entities, the in-memory
    repositories and the caching proxy in front of the account repository,
    the domain services, the commands with their undo, and the command
    history.

    C++ objects held by [std::shared_ptr] and mutated in place (accounts,
    commands) live in a heap indexed by locations, so that aliases of one
    object see each other's writes, also when an exception interrupts a
    method.  Exceptions are values of [Exception]; a computation returns an
    [Outcome] together with the state it leaves behind.  The system clock,
    the steady clock and the random generator of [IdGenerator] are read
    from an oracle carried by the state: the n-th reading is [oracle n],
    and nothing is assumed about it. *)

From Stdlib Require Import ZArith Floats String Ascii List Bool Lia DecimalString
  Sorted.
From stdpp Require Import gmap strings list fin_maps.

Open Scope string_scope.

(** ** common/types.h *)

Abbreviation Id := string (only parsing).
Abbreviation DateTime := Z (only parsing).
Abbreviation Decimal := float (only parsing).

(** Addresses of heap-allocated objects (what a [std::shared_ptr] holds). *)
Abbreviation loc := positive (only parsing).

Inductive OperationType := OperationType_INCOME | OperationType_EXPENSE.
Inductive CategoryType := CategoryType_INCOME | CategoryType_EXPENSE.

(** ** common/exceptions.h

    The exception classes that the core throws.  [InsufficientFundsException]
    keeps the two amounts its message is built from; [runtime_error] is the
    [std::runtime_error] of the command layer.  [null_dereference] is the one
    addition: it marks the use of a pointer that owns no object, which the
    C++ code cannot express and never does. *)
Inductive Exception :=
  | DomainException (what : string)
  | ValidationException (what : string)
  | EntityNotFoundException (entityType : string) (id : Id)
  | InsufficientFundsException (requested available : Decimal)
  | runtime_error (what : string)
  | null_dereference.

Inductive Outcome (A : Type) :=
  | Returned (a : A)
  | Thrown (e : Exception).
Arguments Returned {A} a.
Arguments Thrown {A} e.

#[global] Instance Outcome_ret : MRet Outcome := fun A a => Returned a.
#[global] Instance Outcome_bind : MBind Outcome := fun A B k m =>
  match m with
  | Returned a => k a
  | Thrown e => Thrown e
  end.

Definition is_Returned {A} (m : Outcome A) : bool :=
  match m with Returned _ => true | Thrown _ => false end.

#[global] Instance Outcome_fmap : FMap Outcome := fun A B f m =>
  match m with
  | Returned a => Returned (f a)
  | Thrown e => Thrown e
  end.

(** ** common/validation.h *)
Module Validator.

Definition decimal_of_nat (n : nat) : string :=
  NilZero.string_of_uint (Nat.to_uint n).

Definition validateNotEmpty (value fieldName : string) : Outcome unit :=
  if bool_decide (value = "")
  then Thrown (ValidationException (fieldName ++ " cannot be empty"))
  else Returned tt.

Definition validatePositive (value : Decimal) (fieldName : string) : Outcome unit :=
  if (value <=? 0)%float
  then Thrown (ValidationException (fieldName ++ " must be positive"))
  else Returned tt.

Definition validateNonNegative (value : Decimal) (fieldName : string) : Outcome unit :=
  if (value <? 0)%float
  then Thrown (ValidationException (fieldName ++ " cannot be negative"))
  else Returned tt.

Definition validateMaxLength (value : string) (maxLength : nat) (fieldName : string)
  : Outcome unit :=
  if (maxLength <? String.length value)%nat
  then Thrown (ValidationException
                 (fieldName ++ " exceeds maximum length of " ++ decimal_of_nat maxLength))
  else Returned tt.

(** One character of the class [[a-zA-Z0-9-]]. *)
Definition id_char (c : ascii) : bool :=
  let n := nat_of_ascii c in
  ((97 <=? n) && (n <=? 122) || (65 <=? n) && (n <=? 90)
   || (48 <=? n) && (n <=? 57) || (n =? 45))%nat.

Fixpoint all_chars (p : ascii -> bool) (s : string) : bool :=
  match s with
  | EmptyString => true
  | String c s' => p c && all_chars p s'
  end.

(** [std::regex_match(id, "^[a-zA-Z0-9-]+$")], after the emptiness check. *)
Definition validateId (id : string) : Outcome unit :=
  validateNotEmpty id "ID";;
  if all_chars id_char id
  then Returned tt
  else Thrown (ValidationException "Invalid ID format").

Definition hex_char (c : ascii) : bool :=
  let n := nat_of_ascii c in
  ((48 <=? n) && (n <=? 57) || (65 <=? n) && (n <=? 70)
   || (97 <=? n) && (n <=? 102))%nat.

(** [std::regex_match(color, "^#[0-9A-Fa-f]{3}([0-9A-Fa-f]{3})?$")]. *)
Definition color_matches (color : string) : bool :=
  match color with
  | String c rest =>
      bool_decide (c = "#"%char)
      && all_chars hex_char rest
      && ((String.length rest =? 3) || (String.length rest =? 6))%nat
  | EmptyString => false
  end.

Definition validateColor (color : string) : Outcome unit :=
  validateNotEmpty color "Color";;
  if color_matches color
  then Returned tt
  else Thrown (ValidationException
    "Invalid color format. Expected #RGB or #RRGGBB (e.g., #FF5733, #abc).").

End Validator.

(** ** domain/value_objects/money.h *)
Module Money.

Record t := Build { amount_ : Decimal; currency_ : string }.

(** The fixed tolerance of [isZero] and [equals]: the double nearest to 0.001. *)
Definition epsilon : Decimal := Eval cbv in 0x1.0624dd2f1a9fcp-10%float.

(** [Money(amount, currency)]: the validating constructor. *)
Definition new (amount : Decimal) (currency : string) : Outcome t :=
  Validator.validateNotEmpty currency "Currency";;
  Validator.validateMaxLength currency 3 "Currency";;
  Returned (Build amount currency).

(** [Money()]: no currency; C++ leaves the amount of a default-initialised
    member indeterminate, the commands overwrite it before reading it. *)
Definition default : t := Build 0%float "".

Definition getAmount (self : t) : Decimal := amount_ self.
Definition getCurrency (self : t) : string := currency_ self.

Definition add (self other : t) : Outcome t :=
  if bool_decide (currency_ self = currency_ other)
  then new (amount_ self + amount_ other)%float (currency_ self)
  else Thrown (ValidationException "Cannot add money with different currencies").

Definition subtract (self other : t) : Outcome t :=
  if bool_decide (currency_ self = currency_ other)
  then new (amount_ self - amount_ other)%float (currency_ self)
  else Thrown (ValidationException "Cannot subtract money with different currencies").

Definition multiply (self : t) (factor : Decimal) : Outcome t :=
  new (amount_ self * factor)%float (currency_ self).

Definition isPositive (self : t) : bool := (0 <? amount_ self)%float.
Definition isNegative (self : t) : bool := (amount_ self <? 0)%float.
Definition isZero (self : t) : bool := (abs (amount_ self) <? epsilon)%float.

(** [equals] and [operator==]. *)
Definition equals (self other : t) : bool :=
  (abs (amount_ self - amount_ other) <? epsilon)%float
  && bool_decide (currency_ self = currency_ other).

(** [operator<]. *)
Definition lt (self other : t) : Outcome bool :=
  if bool_decide (currency_ self = currency_ other)
  then Returned (amount_ self <? amount_ other)%float
  else Thrown (ValidationException "Cannot compare money with different currencies").

Definition gt (self other : t) : Outcome bool := lt other self.
Definition le (self other : t) : Outcome bool := negb <$> gt self other.
Definition ge (self other : t) : Outcome bool := negb <$> lt self other.

Definition zero (currency : string) : Outcome t := new 0%float currency.

End Money.

(** ** domain/value_objects/date_range.h *)
Module DateRange.

Record t := Build { start_ : DateTime; end_ : DateTime }.

(** [DateRange(start, end)]: refused when [start > end]. *)
Definition new (start stop : DateTime) : Outcome t :=
  if (stop <? start)%Z
  then Thrown (ValidationException "Start date must be before end date")
  else Returned (Build start stop).

Definition getStart (self : t) : DateTime := start_ self.
Definition getEnd (self : t) : DateTime := end_ self.

Definition contains (self : t) (date : DateTime) : bool :=
  (start_ self <=? date)%Z && (date <=? end_ self)%Z.

Definition overlaps (self other : t) : bool :=
  (start_ self <=? end_ other)%Z && (start_ other <=? end_ self)%Z.

End DateRange.

(** ** The entities, as the objects' fields *)

(** domain/entities/bank_account.h *)
Module BankAccount.
Record t := Build {
  id_ : Id;
  name_ : string;
  balance_ : Money.t;
  accountNumber_ : string;
  isActive_ : bool;
  createdAt_ : DateTime;
  updatedAt_ : DateTime;
  currency_ : string
}.
Definition set_balance_ (v : Money.t) (a : t) : t :=
  Build (id_ a) (name_ a) v (accountNumber_ a) (isActive_ a)
        (createdAt_ a) (updatedAt_ a) (currency_ a).
Definition set_updatedAt_ (v : DateTime) (a : t) : t :=
  Build (id_ a) (name_ a) (balance_ a) (accountNumber_ a) (isActive_ a)
        (createdAt_ a) v (currency_ a).
Definition set_isActive_ (v : bool) (a : t) : t :=
  Build (id_ a) (name_ a) (balance_ a) (accountNumber_ a) v
        (createdAt_ a) (updatedAt_ a) (currency_ a).
End BankAccount.

(** domain/entities/category.h *)
Module Category.
Record t := Build {
  id_ : Id;
  type_ : CategoryType;
  name_ : string;
  description_ : string;
  color_ : string;
  icon_ : string
}.
End Category.

(** domain/entities/operation.h *)
Module Operation.
Record t := Build {
  id_ : Id;
  type_ : OperationType;
  bankAccountId_ : Id;
  amount_ : Money.t;
  date_ : DateTime;
  description_ : string;
  categoryId_ : Id;
  createdAt_ : DateTime;
  updatedAt_ : DateTime;
  isRecurring_ : bool;
  recurringPattern_ : string
}.
Definition getId (self : t) : Id := id_ self.
Definition isIncome (self : t) : bool :=
  match type_ self with OperationType_INCOME => true | OperationType_EXPENSE => false end.
Definition isExpense (self : t) : bool :=
  match type_ self with OperationType_EXPENSE => true | OperationType_INCOME => false end.
Definition getSignedAmount (self : t) : Outcome Money.t :=
  if isExpense self then Money.multiply (amount_ self) (-1)%float
  else Returned (amount_ self).
End Operation.

(** domain/services/domain_services.h: the record [checkAccountBalance] returns. *)
Module AccountBalance.
Record t := Build {
  accountId : Id;
  accountName : string;
  balance : Money.t;
  calculatedBalance : Money.t;
  hasDiscrepancy : bool
}.
End AccountBalance.

(** infrastructure/proxy/caching_proxy.h: [CacheEntry<BankAccount>]; [data] is
    the shared pointer, [expiry] a point of the steady clock. *)
Module CacheEntry.
Record t := Build { data : loc; expiry : Z }.
End CacheEntry.

(** ** application/commands/commands.h: the command objects' fields

    Every command carries the two fields of [BaseCommand]. An empty
    [std::shared_ptr] member is [None]. *)
Module CreateAccountCommand.
Record t := Build {
  name_ : string;
  executed_ : bool;
  accountName_ : string;
  initialBalance_ : Money.t;
  accountNumber_ : string;
  createdAccount_ : option loc
}.
End CreateAccountCommand.

Module CreateCategoryCommand.
Record t := Build {
  name_ : string;
  executed_ : bool;
  type_ : CategoryType;
  categoryName_ : string;
  description_ : string;
  createdCategory_ : option Category.t
}.
End CreateCategoryCommand.

Module AddOperationCommand.
Record t := Build {
  name_ : string;
  executed_ : bool;
  type_ : OperationType;
  bankAccountId_ : Id;
  amount_ : Money.t;
  categoryId_ : Id;
  description_ : string;
  createdOperation_ : option Operation.t;
  account_ : option loc;
  previousBalance_ : Money.t
}.
End AddOperationCommand.

Module TransferCommand.
Record t := Build {
  name_ : string;
  executed_ : bool;
  fromAccountId_ : Id;
  toAccountId_ : Id;
  amount_ : Money.t;
  description_ : string;
  withdrawOperation_ : option Operation.t;
  depositOperation_ : option Operation.t
}.
End TransferCommand.

(** The dynamic type of a command object behind an [ICommand] pointer. *)
Inductive Command :=
  | CreateAccount (c : CreateAccountCommand.t)
  | CreateCategory (c : CreateCategoryCommand.t)
  | AddOperation (c : AddOperationCommand.t)
  | Transfer (c : TransferCommand.t).

(** ** The state of the running program

    What [ServiceConfigurator::configureServices(useCaching)] registers, and
    the objects reachable from it.  The account repository is the in-memory
    one, behind the caching proxy when [useCaching] is set; operations and
    categories are never mutated through a pointer by the code modelled
    here, so their repositories hold the values. *)
Record World := BuildWorld {
  accounts_heap : gmap loc BankAccount.t;
  accountRepo_storage_ : gmap Id loc;
  accountRepo_cache_ : gmap Id CacheEntry.t;
  accountRepo_cacheDuration_ : Z;
  useCaching : bool;
  categoryRepo_storage_ : gmap Id Category.t;
  operationRepo_storage_ : gmap Id Operation.t;
  commands_heap : gmap loc Command;
  oracle : nat -> Z;
  oracle_reads : nat
}.

Definition set_accounts_heap (v : gmap loc BankAccount.t) (w : World) : World :=
  BuildWorld v (accountRepo_storage_ w) (accountRepo_cache_ w)
    (accountRepo_cacheDuration_ w) (useCaching w) (categoryRepo_storage_ w)
    (operationRepo_storage_ w) (commands_heap w) (oracle w) (oracle_reads w).
Definition set_accountRepo_storage_ (v : gmap Id loc) (w : World) : World :=
  BuildWorld (accounts_heap w) v (accountRepo_cache_ w)
    (accountRepo_cacheDuration_ w) (useCaching w) (categoryRepo_storage_ w)
    (operationRepo_storage_ w) (commands_heap w) (oracle w) (oracle_reads w).
Definition set_accountRepo_cache_ (v : gmap Id CacheEntry.t) (w : World) : World :=
  BuildWorld (accounts_heap w) (accountRepo_storage_ w) v
    (accountRepo_cacheDuration_ w) (useCaching w) (categoryRepo_storage_ w)
    (operationRepo_storage_ w) (commands_heap w) (oracle w) (oracle_reads w).
Definition set_accountRepo_cacheDuration_ (v : Z) (w : World) : World :=
  BuildWorld (accounts_heap w) (accountRepo_storage_ w) (accountRepo_cache_ w)
    v (useCaching w) (categoryRepo_storage_ w)
    (operationRepo_storage_ w) (commands_heap w) (oracle w) (oracle_reads w).
Definition set_categoryRepo_storage_ (v : gmap Id Category.t) (w : World) : World :=
  BuildWorld (accounts_heap w) (accountRepo_storage_ w) (accountRepo_cache_ w)
    (accountRepo_cacheDuration_ w) (useCaching w) v
    (operationRepo_storage_ w) (commands_heap w) (oracle w) (oracle_reads w).
Definition set_operationRepo_storage_ (v : gmap Id Operation.t) (w : World) : World :=
  BuildWorld (accounts_heap w) (accountRepo_storage_ w) (accountRepo_cache_ w)
    (accountRepo_cacheDuration_ w) (useCaching w) (categoryRepo_storage_ w)
    v (commands_heap w) (oracle w) (oracle_reads w).
Definition set_commands_heap (v : gmap loc Command) (w : World) : World :=
  BuildWorld (accounts_heap w) (accountRepo_storage_ w) (accountRepo_cache_ w)
    (accountRepo_cacheDuration_ w) (useCaching w) (categoryRepo_storage_ w)
    (operationRepo_storage_ w) v (oracle w) (oracle_reads w).
Definition set_oracle_reads (v : nat) (w : World) : World :=
  BuildWorld (accounts_heap w) (accountRepo_storage_ w) (accountRepo_cache_ w)
    (accountRepo_cacheDuration_ w) (useCaching w) (categoryRepo_storage_ w)
    (operationRepo_storage_ w) (commands_heap w) (oracle w) v.

(** ** Computations: a state that survives exceptions *)

Definition M (A : Type) : Type := World -> Outcome A * World.

#[global] Instance M_ret : MRet M := fun A a w => (Returned a, w).
#[global] Instance M_bind : MBind M := fun A B k m w =>
  match m w with
  | (Returned a, w') => k a w'
  | (Thrown e, w') => (Thrown e, w')
  end.

#[global] Instance M_fmap : FMap M := fun A B f m w =>
  match m w with
  | (Returned a, w') => (Returned (f a), w')
  | (Thrown e, w') => (Thrown e, w')
  end.

Definition throw {A} (e : Exception) : M A := fun w => (Thrown e, w).
Definition lift {A} (o : Outcome A) : M A := fun w => (o, w).
Definition get : M World := fun w => (Returned w, w).
Definition modify (f : World -> World) : M unit := fun w => (Returned tt, f w).

(** [try { body } catch (...) { handler; }], the handler receiving the
    exception in flight. *)
Definition try_catch {A} (body : M A) (handler : Exception -> M A) : M A := fun w =>
  match body w with
  | (Returned a, w') => (Returned a, w')
  | (Thrown e, w') => handler e w'
  end.

(** The next reading of the environment. *)
Definition read_oracle : M Z := fun w =>
  (Returned (oracle w (oracle_reads w)), set_oracle_reads (S (oracle_reads w)) w).

(** [std::chrono::steady_clock::now()]. *)
Definition steady_clock_now : M Z := read_oracle.

(** ** common/utils.h *)

(** [DateTimeUtils::now()]. *)
Definition DateTimeUtils_now : M DateTime := read_oracle.

Definition hex_digit (d : N) : ascii :=
  match d with
  | 0 => "0" | 1 => "1" | 2 => "2" | 3 => "3" | 4 => "4" | 5 => "5" | 6 => "6"
  | 7 => "7" | 8 => "8" | 9 => "9" | 10 => "a" | 11 => "b" | 12 => "c"
  | 13 => "d" | 14 => "e" | _ => "f"
  end%N%char.

Fixpoint hex_digits (fuel : nat) (n : N) (rest : string) : string :=
  match fuel with
  | O => rest
  | S fuel' =>
      let rest' := String (hex_digit (n mod 16)) rest in
      if (n / 16 =? 0)%N then rest' else hex_digits fuel' (n / 16) rest'
  end.

(** [ss << std::hex << v] for an unsigned value. *)
Definition hex (n : N) : string := hex_digits (S (N.to_nat (N.log2 n))) n "".

(** [system_clock::to_time_t]: whole seconds of a time point counted in
    nanoseconds; printed in hex as the 64-bit pattern of the [long]. *)
Definition to_time_t (t : DateTime) : Z := Z.quot t 1000000000.
Definition hex_time_t (t : Z) : string := hex (Z.to_N (t mod 2 ^ 64)).

(** [dis_(gen_)]: one draw of the uniform distribution on 0..15. *)
Definition IdGenerator_dis : M N := (fun r => Z.to_N (r mod 16)) <$> read_oracle.

Fixpoint IdGenerator_random_part (n : nat) : M string :=
  match n with
  | O => mret ""
  | S n' =>
      d ← IdGenerator_dis;
      rest ← IdGenerator_random_part n';
      mret (String (hex_digit d) rest)
  end.

(** [IdGenerator::generate(prefix)]. *)
Definition IdGenerator_generate (prefix : string) : M Id :=
  now ← DateTimeUtils_now;
  random ← IdGenerator_random_part 8;
  mret ((if bool_decide (prefix = "") then "" else prefix ++ "-")
          ++ hex_time_t (to_time_t now) ++ "-" ++ random).

(** ** Objects on the heap *)

(** [*p] for a [std::shared_ptr<BankAccount>]. *)
Definition deref (p : loc) : M BankAccount.t := fun w =>
  match accounts_heap w !! p with
  | Some a => (Returned a, w)
  | None => (Thrown null_dereference, w)
  end.

(** A write to fields of the object [p] points to. *)
Definition assign (p : loc) (f : BankAccount.t -> BankAccount.t) : M unit :=
  a ← deref p;
  modify (fun w => set_accounts_heap (<[p := f a]> (accounts_heap w)) w).

(** [std::make_shared<BankAccount>]: the object gets an address no live
    object has. *)
Definition make_shared (a : BankAccount.t) : M loc := fun w =>
  let p := fresh (dom (accounts_heap w)) in
  (Returned p, set_accounts_heap (<[p := a]> (accounts_heap w)) w).

Definition deref_command (c : loc) : M Command := fun w =>
  match commands_heap w !! c with
  | Some cmd => (Returned cmd, w)
  | None => (Thrown null_dereference, w)
  end.

Definition assign_command (c : loc) (cmd : Command) : M unit :=
  modify (fun w => set_commands_heap (<[c := cmd]> (commands_heap w)) w).

(** ** domain/entities/bank_account.h: the methods *)

Definition BankAccount_validate (a : BankAccount.t) : Outcome unit :=
  Validator.validateId (BankAccount.id_ a);;
  Validator.validateNotEmpty (BankAccount.name_ a) "Account name";;
  Validator.validateMaxLength (BankAccount.name_ a) 100 "Account name";;
  Validator.validateMaxLength (BankAccount.accountNumber_ a) 20 "Account number".

(** The constructor: the members are initialised, then [validate()] runs. *)
Definition BankAccount_new (id : Id) (name : string) (initialBalance : Money.t)
    (accountNumber : string) (isActive : bool) : M BankAccount.t :=
  createdAt ← DateTimeUtils_now;
  updatedAt ← DateTimeUtils_now;
  let a := BankAccount.Build id name initialBalance accountNumber isActive
             createdAt updatedAt (Money.getCurrency initialBalance) in
  lift (BankAccount_validate a);;
  mret a.

Definition BankAccount_getId (this : loc) : M Id := BankAccount.id_ <$> deref this.
Definition BankAccount_getBalance (this : loc) : M Money.t :=
  BankAccount.balance_ <$> deref this.

Definition BankAccount_updateTimestamp (this : loc) : M unit :=
  now ← DateTimeUtils_now;
  assign this (BankAccount.set_updatedAt_ now).

Definition BankAccount_activate (this : loc) : M unit :=
  assign this (BankAccount.set_isActive_ true);;
  BankAccount_updateTimestamp this.

Definition BankAccount_deactivate (this : loc) : M unit :=
  assign this (BankAccount.set_isActive_ false);;
  BankAccount_updateTimestamp this.

Definition BankAccount_deposit (this : loc) (amount : Money.t) : M unit :=
  a ← deref this;
  if negb (BankAccount.isActive_ a)
  then throw (DomainException "Cannot deposit to inactive account")
  else if negb (bool_decide (Money.getCurrency amount = BankAccount.currency_ a))
  then throw (ValidationException "Currency mismatch")
  else if negb (Money.isPositive amount)
  then throw (ValidationException "Deposit amount must be positive")
  else
    balance ← lift (Money.add (BankAccount.balance_ a) amount);
    assign this (BankAccount.set_balance_ balance);;
    BankAccount_updateTimestamp this.

Definition BankAccount_withdraw (this : loc) (amount : Money.t) : M unit :=
  a ← deref this;
  if negb (BankAccount.isActive_ a)
  then throw (DomainException "Cannot withdraw from inactive account")
  else if negb (bool_decide (Money.getCurrency amount = BankAccount.currency_ a))
  then throw (ValidationException "Currency mismatch")
  else if negb (Money.isPositive amount)
  then throw (ValidationException "Withdrawal amount must be positive")
  else
    short ← lift (Money.lt (BankAccount.balance_ a) amount);
    if (short : bool)
    then throw (InsufficientFundsException (Money.getAmount amount)
                  (Money.getAmount (BankAccount.balance_ a)))
    else
      balance ← lift (Money.subtract (BankAccount.balance_ a) amount);
      assign this (BankAccount.set_balance_ balance);;
      BankAccount_updateTimestamp this.

Definition BankAccount_transfer (this targetAccount : loc) (amount : Money.t) : M unit :=
  a ← deref this;
  target ← deref targetAccount;
  if negb (BankAccount.isActive_ a) || negb (BankAccount.isActive_ target)
  then throw (DomainException "Both accounts must be active for transfer")
  else if bool_decide (BankAccount.id_ a = BankAccount.id_ target)
  then throw (ValidationException "Cannot transfer to the same account")
  else
    BankAccount_withdraw this amount;;
    try_catch (BankAccount_deposit targetAccount amount)
      (fun e => BankAccount_deposit this amount;; throw e).

Definition BankAccount_canWithdraw (this : loc) (amount : Money.t) : M bool :=
  a ← deref this;
  if BankAccount.isActive_ a
  then
    enough ← lift (Money.ge (BankAccount.balance_ a) amount);
    mret (enough && bool_decide (Money.getCurrency amount = BankAccount.currency_ a))
  else mret false.

Definition BankAccount_recalculateBalance (this : loc) (newBalance : Money.t) : M unit :=
  a ← deref this;
  if negb (bool_decide (Money.getCurrency newBalance = BankAccount.currency_ a))
  then throw (ValidationException "Currency mismatch during recalculation")
  else
    assign this (BankAccount.set_balance_ newBalance);;
    BankAccount_updateTimestamp this.

Definition BankAccount_set_name_ (v : string) (a : BankAccount.t) : BankAccount.t :=
  BankAccount.Build (BankAccount.id_ a) v (BankAccount.balance_ a)
    (BankAccount.accountNumber_ a) (BankAccount.isActive_ a)
    (BankAccount.createdAt_ a) (BankAccount.updatedAt_ a) (BankAccount.currency_ a).

Definition BankAccount_set_accountNumber_ (v : string) (a : BankAccount.t)
  : BankAccount.t :=
  BankAccount.Build (BankAccount.id_ a) (BankAccount.name_ a) (BankAccount.balance_ a)
    v (BankAccount.isActive_ a)
    (BankAccount.createdAt_ a) (BankAccount.updatedAt_ a) (BankAccount.currency_ a).

Definition BankAccount_setName (this : loc) (name : string) : M unit :=
  lift (Validator.validateNotEmpty name "Account name");;
  lift (Validator.validateMaxLength name 100 "Account name");;
  assign this (BankAccount_set_name_ name);;
  BankAccount_updateTimestamp this.

Definition BankAccount_setAccountNumber (this : loc) (accountNumber : string) : M unit :=
  lift (Validator.validateMaxLength accountNumber 20 "Account number");;
  assign this (BankAccount_set_accountNumber_ accountNumber);;
  BankAccount_updateTimestamp this.

(** ** domain/entities/category.h, operation.h: the constructors *)

Definition Category_validate (c : Category.t) : Outcome unit :=
  Validator.validateId (Category.id_ c);;
  Validator.validateColor (Category.color_ c);;
  Validator.validateNotEmpty (Category.name_ c) "Category name";;
  Validator.validateMaxLength (Category.name_ c) 50 "Category name";;
  Validator.validateMaxLength (Category.description_ c) 200 "Category description".

(** [Category(id, type, name, description)], with the default colour and icon. *)
Definition Category_new (id : Id) (type : CategoryType) (name description : string)
  : Outcome Category.t :=
  let c := Category.Build id type name description "#000000" "default" in
  Category_validate c;;
  Returned c.

(** The setters of [Category]: each one checks, then writes one field; the
    object is returned as the call leaves it, and is as it was when the
    call throws. *)
Definition Category_setName (name : string) (c : Category.t) : Outcome Category.t :=
  Validator.validateNotEmpty name "Category name";;
  Validator.validateMaxLength name 50 "Category name";;
  Returned (Category.Build (Category.id_ c) (Category.type_ c) name
              (Category.description_ c) (Category.color_ c) (Category.icon_ c)).

Definition Category_setDescription (description : string) (c : Category.t)
  : Outcome Category.t :=
  Validator.validateMaxLength description 200 "Category description";;
  Returned (Category.Build (Category.id_ c) (Category.type_ c) (Category.name_ c)
              description (Category.color_ c) (Category.icon_ c)).

(** [setColor(color)] passes the member [color_] to the validator. *)
Definition Category_setColor (color : string) (c : Category.t) : Outcome Category.t :=
  Validator.validateColor (Category.color_ c);;
  Returned (Category.Build (Category.id_ c) (Category.type_ c) (Category.name_ c)
              (Category.description_ c) color (Category.icon_ c)).

Definition Category_setIcon (icon : string) (c : Category.t) : Category.t :=
  Category.Build (Category.id_ c) (Category.type_ c) (Category.name_ c)
    (Category.description_ c) (Category.color_ c) icon.

Definition Operation_validate (o : Operation.t) : Outcome unit :=
  Validator.validateId (Operation.id_ o);;
  Validator.validateId (Operation.bankAccountId_ o);;
  Validator.validateId (Operation.categoryId_ o);;
  (if negb (Money.isPositive (Operation.amount_ o))
   then Thrown (ValidationException "Operation amount must be positive")
   else Returned tt);;
  Validator.validateMaxLength (Operation.description_ o) 500 "Operation description".

(** [Operation(id, type, bankAccountId, amount, date, categoryId, description)]:
    not recurring, no pattern. *)
Definition Operation_new (id : Id) (type : OperationType) (bankAccountId : Id)
    (amount : Money.t) (date : DateTime) (categoryId : Id) (description : string)
  : M Operation.t :=
  createdAt ← DateTimeUtils_now;
  updatedAt ← DateTimeUtils_now;
  let o := Operation.Build id type bankAccountId amount date description categoryId
             createdAt updatedAt false "" in
  lift (Operation_validate o);;
  mret o.

Definition Operation_isInDateRange (self : Operation.t) (range : DateRange.t) : bool :=
  DateRange.contains range (Operation.date_ self).

(** [cloneForDate(newDate)]: a new operation under a generated id; the
    constructor is called with [isRecurring = false] and no pattern. *)
Definition Operation_cloneForDate (self : Operation.t) (newDate : DateTime)
  : M Operation.t :=
  id ← IdGenerator_generate "OP";
  Operation_new id (Operation.type_ self) (Operation.bankAccountId_ self)
    (Operation.amount_ self) newDate (Operation.categoryId_ self)
    (Operation.description_ self ++ " (Recurring)").

(** ** domain/factories/entity_factory.h *)

Definition EntityFactory_createBankAccount (name : string) (initialBalance : Money.t)
    (accountNumber : string) : M loc :=
  lift (Validator.validateNotEmpty name "Account name");;
  lift (Validator.validateMaxLength name 100 "Account name");;
  lift (Validator.validateNonNegative (Money.getAmount initialBalance) "Initial balance");;
  id ← IdGenerator_generate "ACC";
  account ← BankAccount_new id name initialBalance accountNumber true;
  make_shared account.

Definition EntityFactory_createCategory (type : CategoryType) (name description : string)
  : M Category.t :=
  lift (Validator.validateNotEmpty name "Category name");;
  lift (Validator.validateMaxLength name 50 "Category name");;
  lift (Validator.validateMaxLength description 500 "Category description");;
  id ← IdGenerator_generate "CAT";
  lift (Category_new id type name description).

(** [createOperation]; a caller that leaves [date] out passes
    [DateTimeUtils::now()], read at the call. *)
Definition EntityFactory_createOperation (type : OperationType) (bankAccountId : Id)
    (amount : Money.t) (categoryId : Id) (description : string) (date : DateTime)
  : M Operation.t :=
  lift (Validator.validateId bankAccountId);;
  lift (Validator.validateId categoryId);;
  lift (Validator.validatePositive (Money.getAmount amount) "Operation amount");;
  lift (Validator.validateMaxLength description 500 "Operation description");;
  id ← IdGenerator_generate "OP";
  Operation_new id type bankAccountId amount date categoryId description.

(** ** infrastructure/persistence/in_memory_repository.h

    [InMemoryRepository<T>]: [storage_] maps an id to the stored entity (a
    pointer for accounts, the value for the other two).  The mutex is not
    modelled: every method runs to its end under it. *)
Module InMemoryRepository.
Section Generic.
Context {T : Type} (getId : T -> Id).

Definition save (entity : T) (storage_ : gmap Id T) : gmap Id T :=
  <[getId entity := entity]> storage_.

(** The outcome, and the map the call leaves behind. *)
Definition update (entity : T) (storage_ : gmap Id T) : Outcome unit * gmap Id T :=
  match storage_ !! getId entity with
  | None => (Thrown (EntityNotFoundException "Entity" (getId entity)), storage_)
  | Some _ => (Returned tt, <[getId entity := entity]> storage_)
  end.

Definition remove (id : Id) (storage_ : gmap Id T) : gmap Id T :=
  delete id storage_.

Definition findById (id : Id) (storage_ : gmap Id T) : option T :=
  storage_ !! id.

(** The entities in the order the map enumerates them (unspecified for
    [std::unordered_map]). *)
Definition findAll (storage_ : gmap Id T) : list T :=
  (map_to_list storage_).*2.

Definition count (storage_ : gmap Id T) : nat := size storage_.

Definition clear (storage_ : gmap Id T) : gmap Id T := ∅.
End Generic.
End InMemoryRepository.

(** [InMemoryBankAccountRepository]: the stored entity is the pointer, its
    id is read through it. *)
Definition InMemoryBankAccountRepository_save (entity : loc) : M unit :=
  id ← BankAccount_getId entity;
  modify (fun w => set_accountRepo_storage_
            (InMemoryRepository.save (fun _ => id) entity (accountRepo_storage_ w)) w).

Definition InMemoryBankAccountRepository_update (entity : loc) : M unit :=
  id ← BankAccount_getId entity;
  w ← get;
  let '(outcome, storage) :=
    InMemoryRepository.update (fun _ => id) entity (accountRepo_storage_ w) in
  modify (set_accountRepo_storage_ storage);;
  lift outcome.

Definition InMemoryBankAccountRepository_remove (id : Id) : M unit :=
  modify (fun w => set_accountRepo_storage_
            (InMemoryRepository.remove id (accountRepo_storage_ w)) w).

Definition InMemoryBankAccountRepository_findById (id : Id) : M (option loc) :=
  w ← get; mret (InMemoryRepository.findById id (accountRepo_storage_ w)).

Definition InMemoryBankAccountRepository_findAll : M (list loc) :=
  w ← get; mret (InMemoryRepository.findAll (accountRepo_storage_ w)).

Definition InMemoryBankAccountRepository_clear : M unit :=
  modify (fun w => set_accountRepo_storage_
            (InMemoryRepository.clear (accountRepo_storage_ w)) w).

(** [InMemoryCategoryRepository]. *)
Definition ICategoryRepository_save (entity : Category.t) : M unit :=
  modify (fun w => set_categoryRepo_storage_
            (InMemoryRepository.save Category.id_ entity (categoryRepo_storage_ w)) w).

Definition ICategoryRepository_remove (id : Id) : M unit :=
  modify (fun w => set_categoryRepo_storage_
            (InMemoryRepository.remove id (categoryRepo_storage_ w)) w).

(** The first category of that name met in the map's enumeration. *)
Definition ICategoryRepository_findByName (name : string) : M (option Category.t) :=
  w ← get;
  mret (head (filter (fun c => Category.name_ c = name)
                (InMemoryRepository.findAll (categoryRepo_storage_ w)))).

(** [InMemoryOperationRepository]. *)
Definition IOperationRepository_save (entity : Operation.t) : M unit :=
  modify (fun w => set_operationRepo_storage_
            (InMemoryRepository.save Operation.getId entity (operationRepo_storage_ w)) w).

Definition IOperationRepository_remove (id : Id) : M unit :=
  modify (fun w => set_operationRepo_storage_
            (InMemoryRepository.remove id (operationRepo_storage_ w)) w).

Definition IOperationRepository_findById (id : Id) : M (option Operation.t) :=
  w ← get; mret (InMemoryRepository.findById id (operationRepo_storage_ w)).

Fixpoint insert_by_date (o : Operation.t) (l : list Operation.t) : list Operation.t :=
  match l with
  | [] => [o]
  | x :: rest =>
      if (Operation.date_ x <? Operation.date_ o)%Z
      then o :: l
      else x :: insert_by_date o rest
  end.

(** [std::sort] with [a->getDate() > b->getDate()]: latest first; the order
    among equal dates, which [std::sort] leaves open, is the one of
    insertion. *)
Definition sort_by_date_desc (l : list Operation.t) : list Operation.t :=
  foldr insert_by_date [] l.

Definition IOperationRepository_findByAccount (accountId : Id) : M (list Operation.t) :=
  w ← get;
  mret (sort_by_date_desc
          (filter (fun o => Operation.bankAccountId_ o = accountId)
             (InMemoryRepository.findAll (operationRepo_storage_ w)))).

Definition IOperationRepository_findByCategory (categoryId : Id) : M (list Operation.t) :=
  w ← get;
  mret (filter (fun o => Operation.categoryId_ o = categoryId)
          (InMemoryRepository.findAll (operationRepo_storage_ w))).

(** [findByDateRange(start, end)]: the range is constructed first, which
    throws for [start > end]. *)
Definition IOperationRepository_findByDateRange (start stop : DateTime)
  : M (list Operation.t) :=
  w ← get;
  range ← lift (DateRange.new start stop);
  mret (sort_by_date_desc
          (filter (fun o => Operation_isInDateRange o range = true)
             (InMemoryRepository.findAll (operationRepo_storage_ w)))).

Definition ICategoryRepository_findById (id : Id) : M (option Category.t) :=
  w ← get; mret (InMemoryRepository.findById id (categoryRepo_storage_ w)).

(** ** infrastructure/proxy/caching_proxy.h

    [CachingRepositoryProxy<BankAccount>], the one instance of the template
    that [CachingProxyFactory] builds, over the in-memory account
    repository.  [CachingBankAccountRepository] forwards to it. *)

Definition CacheEntry_isExpired (e : CacheEntry.t) : M bool :=
  now ← steady_clock_now;
  mret (CacheEntry.expiry e <? now)%Z.

Definition CachingRepositoryProxy_invalidateCache : M unit :=
  modify (set_accountRepo_cache_ ∅).

Definition CachingRepositoryProxy_cacheEntity (entity : loc) : M unit :=
  id ← BankAccount_getId entity;
  now ← steady_clock_now;
  modify (fun w => set_accountRepo_cache_
            (<[id := CacheEntry.Build entity (now + accountRepo_cacheDuration_ w)]>
               (accountRepo_cache_ w)) w).

Definition CachingRepositoryProxy_save (entity : loc) : M unit :=
  InMemoryBankAccountRepository_save entity;;
  CachingRepositoryProxy_cacheEntity entity.

Definition CachingRepositoryProxy_update (entity : loc) : M unit :=
  InMemoryBankAccountRepository_update entity;;
  CachingRepositoryProxy_cacheEntity entity.

Definition CachingRepositoryProxy_remove (id : Id) : M unit :=
  InMemoryBankAccountRepository_remove id;;
  modify (fun w => set_accountRepo_cache_ (delete id (accountRepo_cache_ w)) w).

Definition CachingRepositoryProxy_findById (id : Id) : M (option loc) :=
  w ← get;
  hit ← match accountRepo_cache_ w !! id with
        | Some entry =>
            expired ← CacheEntry_isExpired entry;
            mret (if (expired : bool) then None else Some (CacheEntry.data entry))
        | None => mret None
        end;
  match hit with
  | Some p => mret (Some p)
  | None =>
      result ← InMemoryBankAccountRepository_findById id;
      match result with
      | Some p => CachingRepositoryProxy_cacheEntity p;; mret (Some p)
      | None => mret None
      end
  end.

Fixpoint CachingRepositoryProxy_cacheAll (entities : list loc) : M unit :=
  match entities with
  | [] => mret tt
  | entity :: rest =>
      CachingRepositoryProxy_cacheEntity entity;;
      CachingRepositoryProxy_cacheAll rest
  end.

Definition CachingRepositoryProxy_findAll : M (list loc) :=
  results ← InMemoryBankAccountRepository_findAll;
  CachingRepositoryProxy_cacheAll results;;
  mret results.

Definition CachingRepositoryProxy_clear : M unit :=
  InMemoryBankAccountRepository_clear;;
  CachingRepositoryProxy_invalidateCache.

Definition CachingRepositoryProxy_setCacheDuration (duration : Z) : M unit :=
  modify (set_accountRepo_cacheDuration_ duration);;
  CachingRepositoryProxy_invalidateCache.

(** ** The account repository the service locator hands out

    [ServiceLocator::get<IBankAccountRepository>()]: the caching repository
    or the in-memory one, as configured. *)
Definition IBankAccountRepository_save (entity : loc) : M unit :=
  w ← get;
  if useCaching w then CachingRepositoryProxy_save entity
  else InMemoryBankAccountRepository_save entity.

Definition IBankAccountRepository_update (entity : loc) : M unit :=
  w ← get;
  if useCaching w then CachingRepositoryProxy_update entity
  else InMemoryBankAccountRepository_update entity.

Definition IBankAccountRepository_remove (id : Id) : M unit :=
  w ← get;
  if useCaching w then CachingRepositoryProxy_remove id
  else InMemoryBankAccountRepository_remove id.

Definition IBankAccountRepository_findById (id : Id) : M (option loc) :=
  w ← get;
  if useCaching w then CachingRepositoryProxy_findById id
  else InMemoryBankAccountRepository_findById id.

(** ** domain/services/domain_services.h *)

Fixpoint fold_operations (calculated : Money.t) (operations : list Operation.t)
  : Outcome Money.t :=
  match operations with
  | [] => Returned calculated
  | op :: rest =>
      calculated' ← (if Operation.isIncome op
                     then Money.add calculated (Operation.amount_ op)
                     else Money.subtract calculated (Operation.amount_ op));
      fold_operations calculated' rest
  end.

Definition BalanceReconciliationService_checkAccountBalance (accountId : Id)
  : M AccountBalance.t :=
  account ← IBankAccountRepository_findById accountId;
  match account with
  | None => throw (EntityNotFoundException "BankAccount" accountId)
  | Some p =>
      a ← deref p;
      operations ← IOperationRepository_findByAccount accountId;
      zero ← lift (Money.zero (BankAccount.currency_ a));
      calculated ← lift (fold_operations zero operations);
      mret (AccountBalance.Build accountId (BankAccount.name_ a)
              (BankAccount.balance_ a) calculated
              (negb (Money.equals (BankAccount.balance_ a) calculated)))
  end.

Definition BalanceReconciliationService_recalculateBalance (accountId : Id)
    (autoFix : bool) : M unit :=
  result ← BalanceReconciliationService_checkAccountBalance accountId;
  if AccountBalance.hasDiscrepancy result && autoFix
  then
    account ← IBankAccountRepository_findById accountId;
    match account with
    | Some p =>
        BankAccount_recalculateBalance p (AccountBalance.calculatedBalance result);;
        IBankAccountRepository_update p
    | None => mret tt
    end
  else mret tt.

Definition OperationProcessingService_processOperation (operation : Operation.t)
  : M unit :=
  account ← IBankAccountRepository_findById (Operation.bankAccountId_ operation);
  match account with
  | None => throw (EntityNotFoundException "BankAccount"
                     (Operation.bankAccountId_ operation))
  | Some p =>
      (if Operation.isIncome operation
       then BankAccount_deposit p (Operation.amount_ operation)
       else BankAccount_withdraw p (Operation.amount_ operation));;
      IOperationRepository_save operation;;
      IBankAccountRepository_update p
  end.

(** ** application/commands/commands.h *)

Definition Command_name_ (c : Command) : string :=
  match c with
  | CreateAccount c => CreateAccountCommand.name_ c
  | CreateCategory c => CreateCategoryCommand.name_ c
  | AddOperation c => AddOperationCommand.name_ c
  | Transfer c => TransferCommand.name_ c
  end.

Definition Command_executed_ (c : Command) : bool :=
  match c with
  | CreateAccount c => CreateAccountCommand.executed_ c
  | CreateCategory c => CreateCategoryCommand.executed_ c
  | AddOperation c => AddOperationCommand.executed_ c
  | Transfer c => TransferCommand.executed_ c
  end.

Definition Command_set_executed_ (v : bool) (c : Command) : Command :=
  match c with
  | CreateAccount c =>
      CreateAccount (CreateAccountCommand.Build (CreateAccountCommand.name_ c) v
        (CreateAccountCommand.accountName_ c) (CreateAccountCommand.initialBalance_ c)
        (CreateAccountCommand.accountNumber_ c) (CreateAccountCommand.createdAccount_ c))
  | CreateCategory c =>
      CreateCategory (CreateCategoryCommand.Build (CreateCategoryCommand.name_ c) v
        (CreateCategoryCommand.type_ c) (CreateCategoryCommand.categoryName_ c)
        (CreateCategoryCommand.description_ c) (CreateCategoryCommand.createdCategory_ c))
  | AddOperation c =>
      AddOperation (AddOperationCommand.Build (AddOperationCommand.name_ c) v
        (AddOperationCommand.type_ c) (AddOperationCommand.bankAccountId_ c)
        (AddOperationCommand.amount_ c) (AddOperationCommand.categoryId_ c)
        (AddOperationCommand.description_ c) (AddOperationCommand.createdOperation_ c)
        (AddOperationCommand.account_ c) (AddOperationCommand.previousBalance_ c))
  | Transfer c =>
      Transfer (TransferCommand.Build (TransferCommand.name_ c) v
        (TransferCommand.fromAccountId_ c) (TransferCommand.toAccountId_ c)
        (TransferCommand.amount_ c) (TransferCommand.description_ c)
        (TransferCommand.withdrawOperation_ c) (TransferCommand.depositOperation_ c))
  end.

(** The constructors: a command that has not run. *)
Definition CreateAccountCommand_new (accountName : string) (initialBalance : Money.t)
    (accountNumber : string) : Command :=
  CreateAccount (CreateAccountCommand.Build "-Создать Счет-" false
                   accountName initialBalance accountNumber None).

Definition CreateCategoryCommand_new (type : CategoryType) (categoryName description : string)
  : Command :=
  CreateCategory (CreateCategoryCommand.Build "-Создать Категорию-" false
                    type categoryName description None).

Definition AddOperationCommand_new (type : OperationType) (bankAccountId : Id)
    (amount : Money.t) (categoryId : Id) (description : string) : Command :=
  AddOperation (AddOperationCommand.Build "Добавить Операцию" false
                  type bankAccountId amount categoryId description
                  None None Money.default).

Definition TransferCommand_new (fromAccountId toAccountId : Id) (amount : Money.t)
    (description : string) : Command :=
  Transfer (TransferCommand.Build "Перевод" false
              fromAccountId toAccountId amount description None None).


Definition CreateAccountCommand_set_createdAccount_ (v : option loc)
    (c : CreateAccountCommand.t) : CreateAccountCommand.t :=
  CreateAccountCommand.Build (CreateAccountCommand.name_ c)
    (CreateAccountCommand.executed_ c) (CreateAccountCommand.accountName_ c)
    (CreateAccountCommand.initialBalance_ c) (CreateAccountCommand.accountNumber_ c) v.

Definition CreateAccountCommand_doExecute (this : loc) (c : CreateAccountCommand.t)
  : M unit :=
  created ← EntityFactory_createBankAccount (CreateAccountCommand.accountName_ c)
              (CreateAccountCommand.initialBalance_ c)
              (CreateAccountCommand.accountNumber_ c);
  assign_command this
    (CreateAccount (CreateAccountCommand_set_createdAccount_ (Some created) c));;
  IBankAccountRepository_save created.

Definition CreateAccountCommand_doUndo (this : loc) (c : CreateAccountCommand.t)
  : M unit :=
  match CreateAccountCommand.createdAccount_ c with
  | Some created =>
      id ← BankAccount_getId created;
      IBankAccountRepository_remove id;;
      assign_command this (CreateAccount (CreateAccountCommand_set_createdAccount_ None c))
  | None => mret tt
  end.

Definition CreateCategoryCommand_set_createdCategory_ (v : option Category.t)
    (c : CreateCategoryCommand.t) : CreateCategoryCommand.t :=
  CreateCategoryCommand.Build (CreateCategoryCommand.name_ c)
    (CreateCategoryCommand.executed_ c) (CreateCategoryCommand.type_ c)
    (CreateCategoryCommand.categoryName_ c) (CreateCategoryCommand.description_ c) v.

Definition CreateCategoryCommand_doExecute (this : loc) (c : CreateCategoryCommand.t)
  : M unit :=
  created ← EntityFactory_createCategory (CreateCategoryCommand.type_ c)
              (CreateCategoryCommand.categoryName_ c)
              (CreateCategoryCommand.description_ c);
  assign_command this
    (CreateCategory (CreateCategoryCommand_set_createdCategory_ (Some created) c));;
  ICategoryRepository_save created.

Definition CreateCategoryCommand_doUndo (this : loc) (c : CreateCategoryCommand.t)
  : M unit :=
  match CreateCategoryCommand.createdCategory_ c with
  | Some created =>
      ICategoryRepository_remove (Category.id_ created);;
      assign_command this
        (CreateCategory (CreateCategoryCommand_set_createdCategory_ None c))
  | None => mret tt
  end.

Definition AddOperationCommand_set_account_ (account : option loc)
    (previousBalance : Money.t) (c : AddOperationCommand.t) : AddOperationCommand.t :=
  AddOperationCommand.Build (AddOperationCommand.name_ c)
    (AddOperationCommand.executed_ c) (AddOperationCommand.type_ c)
    (AddOperationCommand.bankAccountId_ c) (AddOperationCommand.amount_ c)
    (AddOperationCommand.categoryId_ c) (AddOperationCommand.description_ c)
    (AddOperationCommand.createdOperation_ c) account previousBalance.

Definition AddOperationCommand_set_createdOperation_ (v : option Operation.t)
    (c : AddOperationCommand.t) : AddOperationCommand.t :=
  AddOperationCommand.Build (AddOperationCommand.name_ c)
    (AddOperationCommand.executed_ c) (AddOperationCommand.type_ c)
    (AddOperationCommand.bankAccountId_ c) (AddOperationCommand.amount_ c)
    (AddOperationCommand.categoryId_ c) (AddOperationCommand.description_ c)
    v (AddOperationCommand.account_ c) (AddOperationCommand.previousBalance_ c).

Definition AddOperationCommand_doExecute (this : loc) (c : AddOperationCommand.t)
  : M unit :=
  accountOpt ← IBankAccountRepository_findById (AddOperationCommand.bankAccountId_ c);
  match accountOpt with
  | None => throw (EntityNotFoundException "BankAccount"
                     (AddOperationCommand.bankAccountId_ c))
  | Some p =>
      previousBalance ← BankAccount_getBalance p;
      let c1 := AddOperationCommand_set_account_ (Some p) previousBalance c in
      assign_command this (AddOperation c1);;
      date ← DateTimeUtils_now;
      created ← EntityFactory_createOperation (AddOperationCommand.type_ c)
                  (AddOperationCommand.bankAccountId_ c) (AddOperationCommand.amount_ c)
                  (AddOperationCommand.categoryId_ c)
                  (AddOperationCommand.description_ c) date;
      assign_command this
        (AddOperation (AddOperationCommand_set_createdOperation_ (Some created) c1));;
      OperationProcessingService_processOperation created
  end.

Definition AddOperationCommand_doUndo (this : loc) (c : AddOperationCommand.t)
  : M unit :=
  match AddOperationCommand.createdOperation_ c, AddOperationCommand.account_ c with
  | Some created, Some p =>
      IOperationRepository_remove (Operation.getId created);;
      BankAccount_recalculateBalance p (AddOperationCommand.previousBalance_ c);;
      IBankAccountRepository_update p;;
      assign_command this
        (AddOperation (AddOperationCommand_set_createdOperation_ None c))
  | _, _ => mret tt
  end.

Definition TransferCommand_set_withdrawOperation_ (v : option Operation.t)
    (c : TransferCommand.t) : TransferCommand.t :=
  TransferCommand.Build (TransferCommand.name_ c) (TransferCommand.executed_ c)
    (TransferCommand.fromAccountId_ c) (TransferCommand.toAccountId_ c)
    (TransferCommand.amount_ c) (TransferCommand.description_ c)
    v (TransferCommand.depositOperation_ c).

Definition TransferCommand_set_depositOperation_ (v : option Operation.t)
    (c : TransferCommand.t) : TransferCommand.t :=
  TransferCommand.Build (TransferCommand.name_ c) (TransferCommand.executed_ c)
    (TransferCommand.fromAccountId_ c) (TransferCommand.toAccountId_ c)
    (TransferCommand.amount_ c) (TransferCommand.description_ c)
    (TransferCommand.withdrawOperation_ c) v.

Definition TransferCommand_doExecute (this : loc) (c : TransferCommand.t) : M unit :=
  fromAccountOpt ← IBankAccountRepository_findById (TransferCommand.fromAccountId_ c);
  toAccountOpt ← IBankAccountRepository_findById (TransferCommand.toAccountId_ c);
  match fromAccountOpt, toAccountOpt with
  | None, _ => throw (EntityNotFoundException "BankAccount"
                        (TransferCommand.fromAccountId_ c))
  | Some _, None => throw (EntityNotFoundException "BankAccount"
                             (TransferCommand.toAccountId_ c))
  | Some fromAccount, Some toAccount =>
      BankAccount_transfer fromAccount toAccount (TransferCommand.amount_ c);;
      IBankAccountRepository_update fromAccount;;
      IBankAccountRepository_update toAccount;;
      found ← ICategoryRepository_findByName "Перевод";
      transferCategory ←
        match found with
        | Some category => mret category
        | None =>
            category ← EntityFactory_createCategory CategoryType_EXPENSE
                         "Перевод" "Переводы между счетами";
            ICategoryRepository_save category;;
            mret category
        end;
      date ← DateTimeUtils_now;
      withdrawOperation ← EntityFactory_createOperation OperationType_EXPENSE
                            (TransferCommand.fromAccountId_ c) (TransferCommand.amount_ c)
                            (Category.id_ transferCategory)
                            (TransferCommand.description_ c) date;
      let c1 := TransferCommand_set_withdrawOperation_ (Some withdrawOperation) c in
      assign_command this (Transfer c1);;
      IOperationRepository_save withdrawOperation;;
      date' ← DateTimeUtils_now;
      depositOperation ← EntityFactory_createOperation OperationType_INCOME
                           (TransferCommand.toAccountId_ c) (TransferCommand.amount_ c)
                           (Category.id_ transferCategory)
                           (TransferCommand.description_ c) date';
      assign_command this
        (Transfer (TransferCommand_set_depositOperation_ (Some depositOperation) c1));;
      IOperationRepository_save depositOperation
  end.

Definition TransferCommand_doUndo (this : loc) (c : TransferCommand.t) : M unit :=
  fromAccountOpt ← IBankAccountRepository_findById (TransferCommand.fromAccountId_ c);
  toAccountOpt ← IBankAccountRepository_findById (TransferCommand.toAccountId_ c);
  match fromAccountOpt, toAccountOpt with
  | Some fromAccount, Some toAccount =>
      BankAccount_transfer toAccount fromAccount (TransferCommand.amount_ c);;
      IBankAccountRepository_update fromAccount;;
      IBankAccountRepository_update toAccount
  | _, _ => mret tt
  end.

(** The virtual calls of [BaseCommand]. *)
Definition doExecute (this : loc) : M unit :=
  c ← deref_command this;
  match c with
  | CreateAccount c => CreateAccountCommand_doExecute this c
  | CreateCategory c => CreateCategoryCommand_doExecute this c
  | AddOperation c => AddOperationCommand_doExecute this c
  | Transfer c => TransferCommand_doExecute this c
  end.

Definition doUndo (this : loc) : M unit :=
  c ← deref_command this;
  match c with
  | CreateAccount c => CreateAccountCommand_doUndo this c
  | CreateCategory c => CreateCategoryCommand_doUndo this c
  | AddOperation c => AddOperationCommand_doUndo this c
  | Transfer c => TransferCommand_doUndo this c
  end.

(** All four commands override [canUndo] to return [true]. *)
Definition canUndo (c : Command) : bool := true.

Definition BaseCommand_execute (this : loc) : M unit :=
  c ← deref_command this;
  if Command_executed_ c
  then throw (runtime_error ("Команда уже выполнена: " ++ Command_name_ c))
  else
    doExecute this;;
    c' ← deref_command this;
    assign_command this (Command_set_executed_ true c').

Definition BaseCommand_undo (this : loc) : M unit :=
  c ← deref_command this;
  if negb (Command_executed_ c)
  then throw (runtime_error ("Команда не выполнена: " ++ Command_name_ c))
  else if negb (canUndo c)
  then throw (runtime_error ("Команда не может быть отменена: " ++ Command_name_ c))
  else
    doUndo this;;
    c' ← deref_command this;
    assign_command this (Command_set_executed_ false c').

(** ** [CommandHistory], over any implementation of [ICommand]

    [execute], [undo] and [canUndo] are the virtual methods of the command
    behind a pointer of type [Cmd], acting on a program state [State]; the
    history itself is the pair of [history_] and [currentIndex_].  An index
    outside the vector, undefined in C++, shows as [null_dereference]. *)
Module CommandHistory.
Record t (Cmd : Type) := Build { history_ : list Cmd; currentIndex_ : nat }.
Arguments Build {Cmd} history_ currentIndex_.
Arguments history_ {Cmd} _.
Arguments currentIndex_ {Cmd} _.

Section Generic.
Context {State Cmd : Type}.
Variable ICommand_execute : Cmd -> State -> Outcome unit * State.
Variable ICommand_undo : Cmd -> State -> Outcome unit * State.
Variable ICommand_canUndo : Cmd -> State -> bool.

(** The state of a newly constructed history. *)
Definition new : t Cmd := Build [] 0.

Definition execute (command : Cmd) (h : t Cmd) (s : State)
  : Outcome unit * t Cmd * State :=
  let h1 := if (currentIndex_ h <? length (history_ h))%nat
            then Build (take (currentIndex_ h) (history_ h)) (currentIndex_ h)
            else h in
  match ICommand_execute command s with
  | (Thrown e, s') => (Thrown e, h1, s')
  | (Returned _, s') =>
      let history := (history_ h1 ++ [command])%list in
      (Returned tt, Build history (length history), s')
  end.

Definition canUndo (h : t Cmd) (s : State) : Outcome bool :=
  if (0 <? currentIndex_ h)%nat
  then match history_ h !! (currentIndex_ h - 1)%nat with
       | Some command => Returned (ICommand_canUndo command s)
       | None => Thrown null_dereference
       end
  else Returned false.

Definition canRedo (h : t Cmd) : bool :=
  (currentIndex_ h <? length (history_ h))%nat.

Definition undo (h : t Cmd) (s : State) : Outcome unit * t Cmd * State :=
  match canUndo h s with
  | Thrown e => (Thrown e, h, s)
  | Returned false => (Returned tt, h, s)
  | Returned true =>
      match history_ h !! (currentIndex_ h - 1)%nat with
      | None => (Thrown null_dereference, h, s)
      | Some command =>
          if ICommand_canUndo command s
          then match ICommand_undo command s with
               | (Thrown e, s') => (Thrown e, h, s')
               | (Returned _, s') =>
                   (Returned tt, Build (history_ h) (currentIndex_ h - 1), s')
               end
          else (Returned tt, h, s)
      end
  end.

Definition redo (h : t Cmd) (s : State) : Outcome unit * t Cmd * State :=
  if canRedo h
  then match history_ h !! currentIndex_ h with
       | None => (Thrown null_dereference, h, s)
       | Some command =>
           match ICommand_execute command s with
           | (Thrown e, s') => (Thrown e, h, s')
           | (Returned _, s') =>
               (Returned tt, Build (history_ h) (S (currentIndex_ h)), s')
           end
       end
  else (Returned tt, h, s).

Definition clear (h : t Cmd) : t Cmd := Build [] 0.

(** The commands strictly before the cursor. *)
Definition applied (h : t Cmd) : list Cmd := take (currentIndex_ h) (history_ h).
End Generic.
End CommandHistory.

(** The commands of this application as an [ICommand] implementation. *)
Definition ICommand_canUndo (this : loc) (w : World) : bool :=
  match commands_heap w !! this with
  | Some c => canUndo c
  | None => false
  end.

(** ** application/facades/account_facade.h, operation_facade.h

    The methods of the facades that work on the repositories directly;
    [accountRepo_] is the repository of the service locator. *)

Definition AccountFacade_getAccount (accountId : Id) : M (option loc) :=
  IBankAccountRepository_findById accountId.

Definition AccountFacade_activateAccount (accountId : Id) : M unit :=
  account ← AccountFacade_getAccount accountId;
  match account with
  | None => throw (EntityNotFoundException "BankAccount" accountId)
  | Some p => BankAccount_activate p;; IBankAccountRepository_update p
  end.

Definition AccountFacade_deactivateAccount (accountId : Id) : M unit :=
  account ← AccountFacade_getAccount accountId;
  match account with
  | None => throw (EntityNotFoundException "BankAccount" accountId)
  | Some p => BankAccount_deactivate p;; IBankAccountRepository_update p
  end.

Definition AccountFacade_deleteAccount (accountId : Id) : M unit :=
  account ← AccountFacade_getAccount accountId;
  match account with
  | None => throw (EntityNotFoundException "BankAccount" accountId)
  | Some p =>
      balance ← BankAccount_getBalance p;
      if negb (Money.isZero balance)
      then throw (DomainException "Невозможно удалить счёт с ненулевым балансом")
      else IBankAccountRepository_remove accountId
  end.

Definition OperationFacade_getOperation (operationId : Id) : M (option Operation.t) :=
  IOperationRepository_findById operationId.

Definition OperationFacade_deleteOperation (operationId : Id) : M unit :=
  operation ← OperationFacade_getOperation operationId;
  match operation with
  | None => throw (EntityNotFoundException "Operation" operationId)
  | Some op =>
      let accountId := Operation.bankAccountId_ op in
      IOperationRepository_remove operationId;;
      BalanceReconciliationService_recalculateBalance accountId true
  end.

Definition CategoryFacade_deleteCategory (categoryId : Id) : M unit :=
  operations ← IOperationRepository_findByCategory categoryId;
  match operations with
  | _ :: _ =>
      throw (DomainException "Невозможно удалить категорию с существующими операциями")
  | [] =>
      found ← ICategoryRepository_findById categoryId;
      match found with
      | None => throw (DomainException "Категории с таким ID не существует!")
      | Some _ => ICategoryRepository_remove categoryId
      end
  end.

(** ** Invariants the statements refer to *)

(** What the constructor of [BankAccount] establishes: the fields pass
    [validate()], and the balance is in the currency of the account. *)
Definition BankAccount_invariant (a : BankAccount.t) : Prop :=
  BankAccount_validate a = Returned tt
  /\ Money.currency_ (BankAccount.balance_ a) = BankAccount.currency_ a.

(** Every cached pointer is the pointer the repository holds under the same
    id: what [save], [update], [remove] and [clear] of the proxy keep. *)
Definition cache_coherent (w : World) : Prop :=
  forall id entry,
    accountRepo_cache_ w !! id = Some entry ->
    accountRepo_storage_ w !! id = Some (CacheEntry.data entry).

(** Every pointer the account repository stores is live and is stored
    under the id of its object: what [save] and [update] write. *)
Definition storage_keyed_by_id (w : World) : Prop :=
  forall id p,
    accountRepo_storage_ w !! id = Some p ->
    exists a, accounts_heap w !! p = Some a /\ BankAccount.id_ a = id.

(** The cache, where there is one, is coherent. *)
Definition cache_ok (w : World) : Prop :=
  useCaching w = true -> cache_coherent w.

(** The invariant of the account repository and its proxy. *)
Definition World_wf (w : World) : Prop :=
  storage_keyed_by_id w /\ cache_ok w.

(** [w'] is [w] up to the state of the account repository (storage and
    cache) and the number of readings taken from the environment. *)
Definition same_but_accountRepo (w w' : World) : Prop :=
  accounts_heap w' = accounts_heap w
  /\ accountRepo_cacheDuration_ w' = accountRepo_cacheDuration_ w
  /\ useCaching w' = useCaching w
  /\ categoryRepo_storage_ w' = categoryRepo_storage_ w
  /\ operationRepo_storage_ w' = operationRepo_storage_ w
  /\ commands_heap w' = commands_heap w
  /\ oracle w' = oracle w.

(** What [withdraw] and [deposit] decide from the fields of the account:
    the exception they throw, or the balance they store.  (The methods are
    shown below to do exactly this, and to write nothing when they throw.) *)
Definition withdraw_outcome (a : BankAccount.t) (amount : Money.t) : Outcome Money.t :=
  if negb (BankAccount.isActive_ a)
  then Thrown (DomainException "Cannot withdraw from inactive account")
  else if negb (bool_decide (Money.getCurrency amount = BankAccount.currency_ a))
  then Thrown (ValidationException "Currency mismatch")
  else if negb (Money.isPositive amount)
  then Thrown (ValidationException "Withdrawal amount must be positive")
  else
    short ← Money.lt (BankAccount.balance_ a) amount;
    if (short : bool)
    then Thrown (InsufficientFundsException (Money.getAmount amount)
                   (Money.getAmount (BankAccount.balance_ a)))
    else Money.subtract (BankAccount.balance_ a) amount.

Definition deposit_outcome (a : BankAccount.t) (amount : Money.t) : Outcome Money.t :=
  if negb (BankAccount.isActive_ a)
  then Thrown (DomainException "Cannot deposit to inactive account")
  else if negb (bool_decide (Money.getCurrency amount = BankAccount.currency_ a))
  then Thrown (ValidationException "Currency mismatch")
  else if negb (Money.isPositive amount)
  then Thrown (ValidationException "Deposit amount must be positive")
  else Money.add (BankAccount.balance_ a) amount.

(** The requests for a new account that pass every check on the way from
    the factory to the constructor. *)
Definition valid_account_request (name : string) (initialBalance : Money.t)
    (accountNumber : string) : bool :=
  negb (bool_decide (name = ""))
  && (String.length name <=? 100)%nat
  && negb (Money.amount_ initialBalance <? 0)%float
  && (String.length accountNumber <=? 20)%nat.

(** A computation that changes nothing but the number of readings taken
    from the environment. *)
Definition reads_only {A} (m : M A) : Prop :=
  forall w r w', m w = (r, w') -> w' = set_oracle_reads (oracle_reads w') w.

(** [w'] is [w] up to the cache of the proxy and the number of readings
    taken from the environment. *)
Definition same_objects (w w' : World) : Prop :=
  accounts_heap w' = accounts_heap w
  /\ accountRepo_storage_ w' = accountRepo_storage_ w
  /\ accountRepo_cacheDuration_ w' = accountRepo_cacheDuration_ w
  /\ useCaching w' = useCaching w
  /\ categoryRepo_storage_ w' = categoryRepo_storage_ w
  /\ operationRepo_storage_ w' = operationRepo_storage_ w
  /\ commands_heap w' = commands_heap w
  /\ oracle w' = oracle w.

(** The state after a method has replaced the object at [p] by [a'] and
    has called [updateTimestamp()]. *)
Definition touched (p : loc) (a' : BankAccount.t) (w : World) : World :=
  set_accounts_heap
    (<[p := BankAccount.set_updatedAt_ (oracle w (oracle_reads w)) a']> (accounts_heap w))
    (set_oracle_reads (S (oracle_reads w)) w).

(** The value of a finite float, in units of [2 ^ emin]. *)
Definition SF_value (x : spec_float) : option Z :=
  match x with
  | S754_zero _ => Some 0%Z
  | S754_finite s m e => Some (cond_Zopp s (Zpos m * 2 ^ (e - emin)))
  | _ => None
  end.

(** The binary64 sum of [x] and [y] is their sum: both are finite, and
    so is the rounded sum, whose value is the sum of their values. *)
Definition exact_sum (x y : float) : bool :=
  match SF_value (Prim2SF x), SF_value (Prim2SF y), SF_value (Prim2SF (x + y)) with
  | Some vx, Some vy, Some vz => (vz =? vx + vy)%Z
  | _, _, _ => false
  end.


(** An application that has just started: nothing is stored; [caching]
    tells whether the account repository is behind the proxy. *)
Definition initial_World (caching : bool) (oracle : nat -> Z) : World :=
  BuildWorld ∅ ∅ ∅ 60 caching ∅ ∅ ∅ oracle 0.

(** A computation that keeps the invariant of the account repository,
    whether it returns or throws. *)
Definition keeps_World_wf {A} (m : M A) : Prop :=
  forall w r w', World_wf w -> m w = (r, w') -> World_wf w'.

(** What a method of [BankAccount] called on the object at [this] has to
    guarantee to keep the invariant of the class: it writes to that object
    only, the object still satisfies the invariant and has the id, the
    creation time and the currency of before, and it is as before when
    the method throws. *)
Definition keeps_BankAccount_invariant (this : loc) (m : M unit) : Prop :=
  forall w a r w',
    accounts_heap w !! this = Some a ->
    BankAccount_invariant a ->
    m w = (r, w') ->
    exists a',
      accounts_heap w' = <[this := a']> (accounts_heap w)
      /\ BankAccount_invariant a'
      /\ BankAccount.id_ a' = BankAccount.id_ a
      /\ BankAccount.createdAt_ a' = BankAccount.createdAt_ a
      /\ BankAccount.currency_ a' = BankAccount.currency_ a
      /\ (is_Returned r = false -> a' = a).

(** * Properties *)

(** ** Running computations *)

Lemma bind_run {A B} (m : M A) (k : A -> M B) (w : World) :
  (m ≫= k) w =
  match m w with
  | (Returned a, w') => k a w'
  | (Thrown e, w') => (Thrown e, w')
  end.
Proof. reflexivity. Qed.

Lemma bind_Returned {A B} (m : M A) (k : A -> M B) w a w' :
  m w = (Returned a, w') -> (m ≫= k) w = k a w'.
Proof. intros H. rewrite bind_run, H. reflexivity. Qed.

Lemma bind_Thrown {A B} (m : M A) (k : A -> M B) w e w' :
  m w = (Thrown e, w') -> (m ≫= k) w = (Thrown e, w').
Proof. intros H. rewrite bind_run, H. reflexivity. Qed.

Lemma bind_inv {A B} (m : M A) (k : A -> M B) w r w2 :
  (m ≫= k) w = (r, w2) ->
  (exists e, m w = (Thrown e, w2) /\ r = Thrown e)
  \/ (exists a w1, m w = (Returned a, w1) /\ k a w1 = (r, w2)).
Proof.
  rewrite bind_run. destruct (m w) as [[a|e] w1]; intros H.
  - right. eauto.
  - left. inversion H; subst. eauto.
Qed.

Lemma bind_Returned_inv {A B} (m : M A) (k : A -> M B) w b w2 :
  (m ≫= k) w = (Returned b, w2) ->
  exists a w1, m w = (Returned a, w1) /\ k a w1 = (Returned b, w2).
Proof.
  intros H. apply bind_inv in H as [(e & _ & He)|H]; [discriminate|exact H].
Qed.

Lemma fmap_run {A B} (f : A -> B) (m : M A) (w : World) :
  (f <$> m) w =
  match m w with
  | (Returned a, w') => (Returned (f a), w')
  | (Thrown e, w') => (Thrown e, w')
  end.
Proof. reflexivity. Qed.

(** Pushes a computation through the binds whose first part is known. *)
Ltac mrun :=
  repeat first
    [ rewrite bind_run
    | rewrite fmap_run
    | progress unfold get, modify, throw, lift, try_catch
    | progress unfold mret, M_ret
    | progress cbv beta iota ].

Lemma same_objects_refl w : same_objects w w.
Proof. repeat split. Qed.

Lemma same_objects_trans w1 w2 w3 :
  same_objects w1 w2 -> same_objects w2 w3 -> same_objects w1 w3.
Proof.
  unfold same_objects. intros (?&?&?&?&?&?&?&?) (?&?&?&?&?&?&?&?).
  repeat split; congruence.
Qed.

(** ** C9: [InMemoryRepository<T>::update] *)

Section InMemoryRepository_update.
Context {T : Type} (getId : T -> Id).
Implicit Types (e : T) (storage : gmap Id T).

Lemma update_absent e storage :
  InMemoryRepository.findById (getId e) storage = None ->
  InMemoryRepository.update getId e storage
  = (Thrown (EntityNotFoundException "Entity" (getId e)), storage).
Proof.
  unfold InMemoryRepository.findById, InMemoryRepository.update.
  intros ->. reflexivity.
Qed.

Lemma update_present e storage :
  is_Some (InMemoryRepository.findById (getId e) storage) ->
  InMemoryRepository.update getId e storage
  = (Returned tt, <[getId e := e]> storage).
Proof.
  unfold InMemoryRepository.findById, InMemoryRepository.update.
  intros [old ->]. reflexivity.
Qed.

(** C9. [update(e)] throws, and then [EntityNotFoundException], exactly
    when no entity is stored under the id of [e]; the call that throws
    leaves the storage as it was; the call that returns has stored [e]
    under its id and has touched no other id. *)
Theorem C9_update_not_found_iff_absent e storage :
  let (outcome, storage1) := InMemoryRepository.update getId e storage in
  (is_Returned outcome = false
     <-> InMemoryRepository.findById (getId e) storage = None)
  /\ (is_Returned outcome = false ->
      outcome = Thrown (EntityNotFoundException "Entity" (getId e))
      /\ storage1 = storage)
  /\ (is_Returned outcome = true ->
      InMemoryRepository.findById (getId e) storage1 = Some e
      /\ InMemoryRepository.count storage1 = InMemoryRepository.count storage
      /\ forall id, id <> getId e ->
           InMemoryRepository.findById id storage1
           = InMemoryRepository.findById id storage).
Proof.
  destruct (InMemoryRepository.findById (getId e) storage) as [old|] eqn:Hfind.
  - rewrite update_present by (rewrite Hfind; eauto).
    unfold InMemoryRepository.findById, InMemoryRepository.count in *.
    split; [split; discriminate|]. split; [discriminate|].
    intros _. split; [apply lookup_insert_eq|]. split.
    + apply map_size_insert_Some. eauto.
    + intros id Hne. apply lookup_insert_ne. congruence.
  - rewrite update_absent by exact Hfind.
    split; [split; reflexivity|]. split; [intros _; split; reflexivity|].
    discriminate.
Qed.
End InMemoryRepository_update.

(** ** C5: the history after [execute(A); execute(B); undo(); execute(C)] *)

Section CommandHistory_facts.
Context {State Cmd : Type}.
Variable ICommand_execute : Cmd -> State -> Outcome unit * State.
Variable ICommand_undo : Cmd -> State -> Outcome unit * State.
Variable ICommand_canUndo : Cmd -> State -> bool.

Local Abbreviation execute := (CommandHistory.execute ICommand_execute).
Local Abbreviation undo := (CommandHistory.undo ICommand_undo ICommand_canUndo).
Local Abbreviation applied := CommandHistory.applied.

Lemma applied_all (h : CommandHistory.t Cmd) :
  CommandHistory.currentIndex_ h = length (CommandHistory.history_ h) ->
  applied h = CommandHistory.history_ h.
Proof.
  unfold applied. intros ->. apply firstn_all.
Qed.

(** A call of [execute] that returns has dropped what lay beyond the
    cursor and appended the command; the cursor stands at the end. *)
Lemma execute_Returned command h s h' s' :
  execute command h s = (Returned tt, h', s') ->
  CommandHistory.history_ h' = (applied h ++ [command])%list
  /\ CommandHistory.currentIndex_ h' = length (CommandHistory.history_ h')
  /\ ICommand_execute command s = (Returned tt, s').
Proof.
  unfold CommandHistory.execute, applied.
  destruct (ICommand_execute command s) as [[[]|e] s1]; [|discriminate].
  destruct (Nat.ltb_spec (CommandHistory.currentIndex_ h)
              (length (CommandHistory.history_ h))) as [Hlt|Hge];
    intros H; inversion H; subst; clear H; simpl.
  - auto.
  - rewrite firstn_all2 by lia. auto.
Qed.

(** A call of [undo] at the end of a history whose last command can be
    undone, when it returns, has moved the cursor back by one and has
    kept the vector. *)
Lemma undo_Returned_at_end hist command h s h' s' :
  CommandHistory.history_ h = (hist ++ [command])%list ->
  CommandHistory.currentIndex_ h = length (CommandHistory.history_ h) ->
  ICommand_canUndo command s = true ->
  undo h s = (Returned tt, h', s') ->
  CommandHistory.history_ h' = (hist ++ [command])%list
  /\ CommandHistory.currentIndex_ h' = length hist
  /\ ICommand_undo command s = (Returned tt, s').
Proof.
  intros Hhist Hidx Hcan. unfold CommandHistory.undo, CommandHistory.canUndo.
  rewrite Hidx, Hhist, length_app. simpl.
  replace (length hist + 1 - 1)%nat with (length hist) by lia.
  replace (0 <? length hist + 1)%nat with true
    by (symmetry; apply Nat.ltb_lt; lia).
  rewrite lookup_app_r by lia. rewrite Nat.sub_diag. simpl. rewrite !Hcan.
  destruct (ICommand_undo command s) as [[[]|e] s1]; [|discriminate].
  intros H; inversion H; subst; clear H. simpl. auto.
Qed.

(** C5. Whatever the commands do, if the four calls return and [B]
    reports that it can be undone, the history holds the commands that
    were applied before, then [A], then [C]; the cursor stands at the end,
    so nothing is left to redo.  For a history that starts empty the
    vector is exactly [A; C], and [B] (another pointer than [A] and [C])
    is no longer in it. *)
Theorem C5_undone_command_is_discarded (A B C : Cmd) h0 s0 h1 s1 h2 s2 h3 s3 h4 s4 :
  execute A h0 s0 = (Returned tt, h1, s1) ->
  execute B h1 s1 = (Returned tt, h2, s2) ->
  ICommand_canUndo B s2 = true ->
  undo h2 s2 = (Returned tt, h3, s3) ->
  execute C h3 s3 = (Returned tt, h4, s4) ->
  CommandHistory.history_ h4 = (applied h0 ++ [A; C])%list
  /\ applied h4 = (applied h0 ++ [A; C])%list
  /\ CommandHistory.currentIndex_ h4 = length (CommandHistory.history_ h4)
  /\ CommandHistory.canRedo h4 = false
  /\ (CommandHistory.history_ h0 = [] ->
      CommandHistory.history_ h4 = [A; C]
      /\ applied h4 = [A; C]
      /\ (B <> A -> B <> C -> ~ In B (CommandHistory.history_ h4))).
Proof.
  intros HA HB Hcan HU HC.
  apply execute_Returned in HA as (HA1 & HA2 & _).
  apply execute_Returned in HB as (HB1 & HB2 & _).
  rewrite (applied_all h1 HA2), HA1 in HB1.
  apply (undo_Returned_at_end _ _ _ _ _ _ HB1 HB2 Hcan) in HU as (HU1 & HU2 & _).
  apply execute_Returned in HC as (HC1 & HC2 & _).
  assert (Happ3 : applied h3 = (applied h0 ++ [A])%list).
  { unfold applied at 1. rewrite HU1, HU2.
    rewrite take_app_length. reflexivity. }
  rewrite Happ3, <- app_assoc in HC1. simpl in HC1.
  assert (Happ4 : applied h4 = (applied h0 ++ [A; C])%list).
  { rewrite (applied_all h4 HC2). exact HC1. }
  split; [exact HC1|]. split; [exact Happ4|]. split; [exact HC2|].
  split.
  - unfold CommandHistory.canRedo. rewrite HC2. apply Nat.ltb_irrefl.
  - intros Hempty.
    assert (Hnil : applied h0 = []).
    { unfold applied. rewrite Hempty. apply firstn_nil. }
    rewrite Happ4, HC1, Hnil. simpl.
    split; [reflexivity|]. split; [reflexivity|].
    intros HBA HBC [H|[H|[]]]; congruence.
Qed.
End CommandHistory_facts.

Lemma C5_undone_command_is_discarded_witness :
  let A := 1%positive in
  let B := 2%positive in
  let C := 3%positive in
  let s0 := BuildWorld ∅ ∅ ∅ 60 true ∅ ∅
              {[A := CreateAccountCommand_new "Main" (Money.Build 100000 "RUB") "";
                B := CreateCategoryCommand_new CategoryType_EXPENSE "Food" "";
                C := CreateCategoryCommand_new CategoryType_INCOME "Salary" ""]}
              (fun n => Z.of_nat n) 0 in
  let execute := CommandHistory.execute BaseCommand_execute in
  let undo := CommandHistory.undo BaseCommand_undo ICommand_canUndo in
  let r1 := execute A CommandHistory.new s0 in
  let r2 := execute B r1.1.2 r1.2 in
  let r3 := undo r2.1.2 r2.2 in
  let r4 := execute C r3.1.2 r3.2 in
  CommandHistory.history_ r4.1.2 = [A; C]
  /\ CommandHistory.applied r4.1.2 = [A; C]
  /\ CommandHistory.canRedo r4.1.2 = false
  /\ ~ In B (CommandHistory.history_ r4.1.2).
Proof.
  intros A B C s0 execute undo r1 r2 r3 r4.
  destruct (C5_undone_command_is_discarded BaseCommand_execute BaseCommand_undo
              ICommand_canUndo A B C CommandHistory.new s0
              r1.1.2 r1.2 r2.1.2 r2.2 r3.1.2 r3.2 r4.1.2 r4.2)
    as (_ & _ & _ & Hredo & Hempty).
  - vm_compute. reflexivity.
  - vm_compute. reflexivity.
  - vm_compute. reflexivity.
  - vm_compute. reflexivity.
  - vm_compute. reflexivity.
  - destruct (Hempty eq_refl) as (Hhistory & Happlied & Hgone).
    split; [exact Hhistory|]. split; [exact Happlied|]. split; [exact Hredo|].
    apply Hgone; discriminate.
Defined.

(** ** Pointers, and the two account repositories *)

Lemma deref_Some w p a :
  accounts_heap w !! p = Some a -> deref p w = (Returned a, w).
Proof. unfold deref. intros ->. reflexivity. Qed.

Lemma deref_inv w p r w' :
  deref p w = (r, w') ->
  w' = w /\ (r = Thrown null_dereference \/
             exists a, r = Returned a /\ accounts_heap w !! p = Some a).
Proof.
  unfold deref. destruct (accounts_heap w !! p) as [a|];
    intros H; inversion H; subst; eauto.
Qed.

Lemma BankAccount_getId_Some w p a :
  accounts_heap w !! p = Some a ->
  BankAccount_getId p w = (Returned (BankAccount.id_ a), w).
Proof.
  intros H. unfold BankAccount_getId. rewrite fmap_run, (deref_Some _ _ _ H).
  reflexivity.
Qed.

Lemma BankAccount_getBalance_Some w p a :
  accounts_heap w !! p = Some a ->
  BankAccount_getBalance p w = (Returned (BankAccount.balance_ a), w).
Proof.
  intros H. unfold BankAccount_getBalance. rewrite fmap_run, (deref_Some _ _ _ H).
  reflexivity.
Qed.

Lemma InMemoryBankAccountRepository_update_present w entity a old :
  accounts_heap w !! entity = Some a ->
  accountRepo_storage_ w !! BankAccount.id_ a = Some old ->
  InMemoryBankAccountRepository_update entity w
  = (Returned tt,
     set_accountRepo_storage_
       (<[BankAccount.id_ a := entity]> (accountRepo_storage_ w)) w).
Proof.
  intros Ha Hold. unfold InMemoryBankAccountRepository_update.
  rewrite (bind_Returned _ _ _ _ _ (BankAccount_getId_Some _ _ _ Ha)).
  rewrite bind_run. simpl. unfold InMemoryRepository.update. rewrite Hold.
  reflexivity.
Qed.

Lemma InMemoryBankAccountRepository_update_absent w entity a :
  accounts_heap w !! entity = Some a ->
  accountRepo_storage_ w !! BankAccount.id_ a = None ->
  exists w',
    InMemoryBankAccountRepository_update entity w
    = (Thrown (EntityNotFoundException "Entity" (BankAccount.id_ a)), w')
    /\ accountRepo_storage_ w' = accountRepo_storage_ w
    /\ accountRepo_cache_ w' = accountRepo_cache_ w
    /\ same_objects w w'.
Proof.
  intros Ha Hnone. unfold InMemoryBankAccountRepository_update.
  rewrite (bind_Returned _ _ _ _ _ (BankAccount_getId_Some _ _ _ Ha)).
  rewrite bind_run. simpl. unfold InMemoryRepository.update. rewrite Hnone.
  eexists. split; [reflexivity|]. simpl. repeat split.
Qed.

Lemma CachingRepositoryProxy_cacheEntity_Some w entity a :
  accounts_heap w !! entity = Some a ->
  CachingRepositoryProxy_cacheEntity entity w
  = (Returned tt,
     set_accountRepo_cache_
       (<[BankAccount.id_ a :=
            CacheEntry.Build entity
              (oracle w (oracle_reads w) + accountRepo_cacheDuration_ w)]>
          (accountRepo_cache_ w))
       (set_oracle_reads (S (oracle_reads w)) w)).
Proof.
  intros Ha. unfold CachingRepositoryProxy_cacheEntity.
  rewrite (bind_Returned _ _ _ _ _ (BankAccount_getId_Some _ _ _ Ha)).
  reflexivity.
Qed.

Lemma CachingRepositoryProxy_update_present w entity a old :
  accounts_heap w !! entity = Some a ->
  accountRepo_storage_ w !! BankAccount.id_ a = Some old ->
  CachingRepositoryProxy_update entity w
  = (Returned tt,
     set_accountRepo_cache_
       (<[BankAccount.id_ a :=
            CacheEntry.Build entity
              (oracle w (oracle_reads w) + accountRepo_cacheDuration_ w)]>
          (accountRepo_cache_ w))
       (set_oracle_reads (S (oracle_reads w))
          (set_accountRepo_storage_
             (<[BankAccount.id_ a := entity]> (accountRepo_storage_ w)) w))).
Proof.
  intros Ha Hold. unfold CachingRepositoryProxy_update.
  rewrite (bind_Returned _ _ _ _ _
             (InMemoryBankAccountRepository_update_present _ _ _ _ Ha Hold)).
  rewrite (CachingRepositoryProxy_cacheEntity_Some _ _ a) by exact Ha.
  reflexivity.
Qed.

(** [findById] of the proxy when the cache holds an entry for the id: the
    cached pointer while the entry lives, the stored one after. *)
Lemma CachingRepositoryProxy_findById_cached w id entry p a :
  accountRepo_cache_ w !! id = Some entry ->
  accountRepo_storage_ w !! id = Some p ->
  accounts_heap w !! p = Some a ->
  exists w',
    CachingRepositoryProxy_findById id w
    = (Returned (Some (if (CacheEntry.expiry entry <? oracle w (oracle_reads w))%Z
                       then p else CacheEntry.data entry)), w')
    /\ same_objects w w'.
Proof.
  intros Hcache Hstore Hheap. unfold CachingRepositoryProxy_findById.
  mrun. rewrite Hcache.
  unfold CacheEntry_isExpired, steady_clock_now, read_oracle. mrun.
  destruct (CacheEntry.expiry entry <? oracle w (oracle_reads w))%Z.
  - unfold InMemoryBankAccountRepository_findById. mrun.
    unfold InMemoryRepository.findById.
    replace (accountRepo_storage_ (set_oracle_reads (S (oracle_reads w)) w) !! id)
      with (Some p) by (symmetry; exact Hstore).
    mrun.
    rewrite (CachingRepositoryProxy_cacheEntity_Some _ _ a) by exact Hheap.
    eexists. split; [reflexivity|]. repeat split.
  - eexists. split; [reflexivity|]. repeat split.
Qed.

(** ** C6: the proxy after [update] *)

(** C6. For an account object [e] whose id the underlying repository
    holds, [update(e)] on the proxy returns, having stored [e] in the
    repository and in the cache; [findById] of that id, called next, returns
    [e].  Nothing is assumed of the cache before the call (it may hold
    another pointer under the id, expired or not), of the cache duration, or
    of the clock. *)
Theorem C6_update_then_findById (w : World) (e : loc) (a : BankAccount.t) (old : loc) :
  accounts_heap w !! e = Some a ->
  InMemoryRepository.findById (BankAccount.id_ a) (accountRepo_storage_ w) = Some old ->
  exists w1 w2,
    CachingRepositoryProxy_update e w = (Returned tt, w1)
    /\ InMemoryRepository.findById (BankAccount.id_ a) (accountRepo_storage_ w1) = Some e
    /\ CacheEntry.data <$> accountRepo_cache_ w1 !! BankAccount.id_ a = Some e
    /\ CachingRepositoryProxy_findById (BankAccount.id_ a) w1 = (Returned (Some e), w2)
    /\ accounts_heap w2 = accounts_heap w
    /\ accountRepo_storage_ w2 = accountRepo_storage_ w1.
Proof.
  intros Ha Hold. unfold InMemoryRepository.findById in *.
  rewrite (CachingRepositoryProxy_update_present _ _ _ _ Ha Hold).
  set (t1 := (oracle w (oracle_reads w) + accountRepo_cacheDuration_ w)%Z).
  set (w1 := set_accountRepo_cache_ _ _).
  assert (Hcache : accountRepo_cache_ w1 !! BankAccount.id_ a
                   = Some (CacheEntry.Build e t1)).
  { subst w1. simpl. apply lookup_insert_eq. }
  assert (Hstore : accountRepo_storage_ w1 !! BankAccount.id_ a = Some e).
  { subst w1. simpl. apply lookup_insert_eq. }
  assert (Hheap : accounts_heap w1 !! e = Some a) by exact Ha.
  destruct (CachingRepositoryProxy_findById_cached _ _ _ _ _ Hcache Hstore Hheap)
    as (w2 & Hfind & Hsame).
  exists w1, w2. split; [reflexivity|]. split; [exact Hstore|].
  split; [rewrite Hcache; reflexivity|]. split.
  - rewrite Hfind. simpl. destruct (t1 <? _)%Z; reflexivity.
  - destruct Hsame as (Hh & Hs & _). split; [exact Hh|exact Hs].
Qed.

Lemma C6_update_then_findById_witness :
  let a := BankAccount.Build "ACC-A" "A" (Money.Build 100 "RUB") "" true 0 0 "RUB" in
  let a' := BankAccount.Build "ACC-A" "A" (Money.Build 250 "RUB") "" true 0 9 "RUB" in
  let w := BuildWorld {[1%positive := a; 2%positive := a']}
             {["ACC-A" := 1%positive]}
             {["ACC-A" := CacheEntry.Build 1%positive 1000]} 60 true ∅ ∅ ∅
             (fun n => Z.of_nat n) 0 in
  CacheEntry_isExpired (CacheEntry.Build 1%positive 1000) w = (Returned false, set_oracle_reads 1 w)
  /\ exists w1 w2,
       CachingRepositoryProxy_update 2%positive w = (Returned tt, w1)
       /\ CachingRepositoryProxy_findById "ACC-A" w1 = (Returned (Some 2%positive), w2).
Proof.
  intros a a' w. split; [vm_compute; reflexivity|].
  destruct (C6_update_then_findById w 2%positive a' 1%positive eq_refl eq_refl)
    as (w1 & w2 & Hupdate & _ & _ & Hfind & _).
  exists w1, w2. split; [exact Hupdate|exact Hfind].
Defined.

(** ** Binary64 facts used below

    From the specification of the primitive floats ([FloatAxioms]). *)

Lemma digits2_pos_bounds m :
  (2 ^ (Zpos (digits2_pos m) - 1) <= Zpos m < 2 ^ Zpos (digits2_pos m))%Z.
Proof.
  induction m as [p IH|p IH|]; simpl digits2_pos.
  - rewrite Pos2Z.inj_succ.
    replace (Z.succ (Zpos (digits2_pos p)) - 1)%Z
      with (Z.succ (Zpos (digits2_pos p) - 1)) by lia.
    rewrite !Z.pow_succ_r by lia. lia.
  - rewrite Pos2Z.inj_succ.
    replace (Z.succ (Zpos (digits2_pos p)) - 1)%Z
      with (Z.succ (Zpos (digits2_pos p) - 1)) by lia.
    rewrite !Z.pow_succ_r by lia. lia.
  - simpl. lia.
Qed.

Lemma iter_xO_correct d m : Zpos (Pos.iter xO m d) = (Zpos m * 2 ^ Zpos d)%Z.
Proof.
  change (Pos.iter xO m d) with (shift_pos d m).
  rewrite shift_pos_correct. change (Zpower_pos 2 d) with (2 ^ Zpos d)%Z. lia.
Qed.

Lemma canonical_exponent_ge_emin m e :
  canonical_mantissa prec emax m e = true -> (emin <= e)%Z.
Proof.
  unfold canonical_mantissa, fexp. intros H%Z.eqb_eq. lia.
Qed.

Lemma canonical_digits_le m e :
  canonical_mantissa prec emax m e = true -> (Zpos (digits2_pos m) <= prec)%Z.
Proof.
  unfold canonical_mantissa, fexp. intros H%Z.eqb_eq. lia.
Qed.

Lemma canonical_digits_normal m e :
  canonical_mantissa prec emax m e = true -> (emin < e)%Z ->
  Zpos (digits2_pos m) = prec.
Proof.
  unfold canonical_mantissa, fexp. intros H%Z.eqb_eq. lia.
Qed.

Lemma binary_round_not_negative m e :
  SFltb (binary_round prec emax false m e) (S754_zero false) = false.
Proof.
  unfold binary_round.
  destruct (shl_align m e _) as [mz ez].
  unfold binary_round_aux.
  destruct (shr_fexp prec emax (Zpos mz) ez loc_Exact) as [mrs1 e1].
  destruct (shr_fexp prec emax _ e1 loc_Exact) as [mrs2 e2].
  destruct (shr_m mrs2); [reflexivity| |reflexivity].
  destruct (e2 <=? emax - prec)%Z; reflexivity.
Qed.

Lemma binary_normalize_not_negative z e :
  (0 <= z)%Z ->
  SFltb (binary_normalize prec emax z e false) (S754_zero false) = false.
Proof.
  destruct z as [|p|p]; intros Hz.
  - reflexivity.
  - apply binary_round_not_negative.
  - lia.
Qed.

(** The difference of two floats, the second positive and not above the
    first, is not below zero: rounding cannot change the sign of the exact
    difference of the aligned mantissas. *)
Lemma SFsub_not_negative X Y :
  valid_binary X = true -> valid_binary Y = true ->
  SFltb (S754_zero false) Y = true ->
  SFltb X Y = false ->
  SFltb (SF64sub X Y) (S754_zero false) = false.
Proof.
  intros HX HY Hpos Hge.
  destruct Y as [sy|sy| |sy my ey]; try discriminate Hpos;
    destruct sy; try discriminate Hpos;
    destruct X as [sx|sx| |sx mx ex]; try reflexivity;
    try (destruct sx; first [discriminate Hge | reflexivity]).
  destruct sx; [discriminate Hge|].
  unfold SF64sub, SFsub. apply binary_normalize_not_negative.
  unfold cond_Zopp.
  simpl in HX, HY. unfold bounded in HX, HY.
  apply andb_prop in HX as [HX _]. apply andb_prop in HY as [HY _].
  unfold SFltb, SFcompare in Hge.
  unfold shl_align.
  destruct (Z.compare_spec ex ey) as [Heq|Hlt|Hgt]; [| discriminate Hge |].
  - subst ey. rewrite Z.min_id, Z.sub_diag. cbn [fst].
    change (Pos.compare_cont Eq mx my) with (mx ?= my)%positive in Hge.
    destruct (Pos.compare_spec mx my) as [Hc|Hc|Hc]; [|discriminate Hge|]; lia.
  - rewrite Z.min_r by lia. rewrite Z.sub_diag.
    destruct (ey - ex)%Z as [|d|d] eqn:Hd; try lia. cbn [fst].
    rewrite iter_xO_correct.
    pose proof (canonical_exponent_ge_emin _ _ HY) as Hemin.
    pose proof (canonical_digits_normal _ _ HX ltac:(lia)) as HdX.
    pose proof (canonical_digits_le _ _ HY) as HdY.
    pose proof (digits2_pos_bounds mx) as [HbX _].
    pose proof (digits2_pos_bounds my) as [_ HbY].
    rewrite HdX in HbX.
    assert (2 ^ Zpos (digits2_pos my) <= 2 ^ prec)%Z
      by (apply Z.pow_le_mono_r; lia).
    assert (2 ^ 1 <= 2 ^ Zpos d)%Z by (apply Z.pow_le_mono_r; lia).
    change (2 ^ 1)%Z with 2%Z in *.
    change (2 ^ prec)%Z with (2 * 2 ^ (prec - 1))%Z in *.
    nia.
Qed.

Lemma sub_not_negative (x y : float) :
  (0 <? y)%float = true -> (x <? y)%float = false -> (x - y <? 0)%float = false.
Proof.
  rewrite !ltb_spec, sub_spec. change (Prim2SF 0) with (S754_zero false).
  apply SFsub_not_negative; apply Prim2SF_valid.
Qed.

(** A float that is not below zero is at least zero, unless it is NaN. *)
Lemma not_negative_leb (x : float) :
  (x <? 0)%float = false -> (x =? x)%float = true -> (0 <=? x)%float = true.
Proof.
  rewrite ltb_spec, FloatAxioms.eqb_spec, leb_spec.
  change (Prim2SF 0) with (S754_zero false).
  destruct (Prim2SF x) as [s|s| |s m e]; try destruct s;
    try reflexivity; discriminate.
Qed.

(** ** The methods of [BankAccount] *)

Lemma assign_Some w p a f :
  accounts_heap w !! p = Some a ->
  assign p f w = (Returned tt, set_accounts_heap (<[p := f a]> (accounts_heap w)) w).
Proof.
  intros Ha. unfold assign. rewrite (bind_Returned _ _ _ _ _ (deref_Some _ _ _ Ha)).
  reflexivity.
Qed.

Lemma assign_then_updateTimestamp w p a f :
  accounts_heap w !! p = Some a ->
  (assign p f;; BankAccount_updateTimestamp p) w = (Returned tt, touched p (f a) w).
Proof.
  intros Ha. rewrite (bind_Returned _ _ _ _ _ (assign_Some _ _ _ f Ha)).
  unfold BankAccount_updateTimestamp, DateTimeUtils_now, read_oracle. mrun.
  rewrite (assign_Some _ _ (f a)) by (simpl; apply lookup_insert_eq).
  unfold touched. simpl. rewrite insert_insert_eq. reflexivity.
Qed.

Lemma touched_same_objects_but_heap p a' w :
  accountRepo_storage_ (touched p a' w) = accountRepo_storage_ w
  /\ accountRepo_cache_ (touched p a' w) = accountRepo_cache_ w
  /\ operationRepo_storage_ (touched p a' w) = operationRepo_storage_ w
  /\ categoryRepo_storage_ (touched p a' w) = categoryRepo_storage_ w
  /\ commands_heap (touched p a' w) = commands_heap w
  /\ useCaching (touched p a' w) = useCaching w.
Proof. repeat split. Qed.

Lemma Money_new_Returned amount currency m :
  Money.new amount currency = Returned m -> m = Money.Build amount currency.
Proof.
  unfold Money.new. destruct (Validator.validateNotEmpty _ _); [|discriminate].
  simpl. destruct (Validator.validateMaxLength _ _ _); [|discriminate].
  simpl. intros H. inversion H. reflexivity.
Qed.

(** [withdraw] and [deposit] on a live object, as functions of its fields. *)
Lemma BankAccount_withdraw_run w this a amount :
  accounts_heap w !! this = Some a ->
  BankAccount_withdraw this amount w =
  if negb (BankAccount.isActive_ a)
  then (Thrown (DomainException "Cannot withdraw from inactive account"), w)
  else if negb (bool_decide (Money.getCurrency amount = BankAccount.currency_ a))
  then (Thrown (ValidationException "Currency mismatch"), w)
  else if negb (Money.isPositive amount)
  then (Thrown (ValidationException "Withdrawal amount must be positive"), w)
  else match Money.lt (BankAccount.balance_ a) amount with
       | Thrown e => (Thrown e, w)
       | Returned true =>
           (Thrown (InsufficientFundsException (Money.getAmount amount)
                      (Money.getAmount (BankAccount.balance_ a))), w)
       | Returned false =>
           match Money.subtract (BankAccount.balance_ a) amount with
           | Thrown e => (Thrown e, w)
           | Returned balance =>
               (Returned tt, touched this (BankAccount.set_balance_ balance a) w)
           end
       end.
Proof.
  intros Ha. unfold BankAccount_withdraw.
  rewrite (bind_Returned _ _ _ _ _ (deref_Some _ _ _ Ha)).
  destruct (negb (BankAccount.isActive_ a)); [reflexivity|].
  destruct (negb (bool_decide _)); [reflexivity|].
  destruct (negb (Money.isPositive amount)); [reflexivity|].
  mrun. destruct (Money.lt _ _) as [[]|e]; try reflexivity.
  mrun. destruct (Money.subtract _ _) as [balance|e]; [|reflexivity].
  apply (assign_then_updateTimestamp _ _ _ _ Ha).
Qed.

Lemma BankAccount_deposit_run w this a amount :
  accounts_heap w !! this = Some a ->
  BankAccount_deposit this amount w =
  if negb (BankAccount.isActive_ a)
  then (Thrown (DomainException "Cannot deposit to inactive account"), w)
  else if negb (bool_decide (Money.getCurrency amount = BankAccount.currency_ a))
  then (Thrown (ValidationException "Currency mismatch"), w)
  else if negb (Money.isPositive amount)
  then (Thrown (ValidationException "Deposit amount must be positive"), w)
  else match Money.add (BankAccount.balance_ a) amount with
       | Thrown e => (Thrown e, w)
       | Returned balance =>
           (Returned tt, touched this (BankAccount.set_balance_ balance a) w)
       end.
Proof.
  intros Ha. unfold BankAccount_deposit.
  rewrite (bind_Returned _ _ _ _ _ (deref_Some _ _ _ Ha)).
  destruct (negb (BankAccount.isActive_ a)); [reflexivity|].
  destruct (negb (bool_decide _)); [reflexivity|].
  destruct (negb (Money.isPositive amount)); [reflexivity|].
  mrun. destruct (Money.add _ _) as [balance|e]; [|reflexivity].
  apply (assign_then_updateTimestamp _ _ _ _ Ha).
Qed.

Lemma BankAccount_recalculateBalance_run w this a newBalance :
  accounts_heap w !! this = Some a ->
  BankAccount_recalculateBalance this newBalance w =
  if negb (bool_decide (Money.getCurrency newBalance = BankAccount.currency_ a))
  then (Thrown (ValidationException "Currency mismatch during recalculation"), w)
  else (Returned tt, touched this (BankAccount.set_balance_ newBalance a) w).
Proof.
  intros Ha. unfold BankAccount_recalculateBalance.
  rewrite (bind_Returned _ _ _ _ _ (deref_Some _ _ _ Ha)).
  destruct (negb (bool_decide _)); [reflexivity|].
  apply (assign_then_updateTimestamp _ _ _ _ Ha).
Qed.

Lemma Money_subtract_Returned a b m :
  Money.subtract a b = Returned m ->
  Money.currency_ a = Money.currency_ b
  /\ m = Money.Build (Money.amount_ a - Money.amount_ b)%float (Money.currency_ a).
Proof.
  unfold Money.subtract. case_bool_decide; [|discriminate].
  intros Hnew%Money_new_Returned. auto.
Qed.

Lemma Money_add_Returned a b m :
  Money.add a b = Returned m ->
  Money.currency_ a = Money.currency_ b
  /\ m = Money.Build (Money.amount_ a + Money.amount_ b)%float (Money.currency_ a).
Proof.
  unfold Money.add. case_bool_decide; [|discriminate].
  intros Hnew%Money_new_Returned. auto.
Qed.

(** A failing [withdraw] or [deposit] has written nothing. *)
Lemma BankAccount_withdraw_Thrown w this a amount e w' :
  accounts_heap w !! this = Some a ->
  BankAccount_withdraw this amount w = (Thrown e, w') -> w' = w.
Proof.
  intros Ha. rewrite (BankAccount_withdraw_run _ _ _ _ Ha).
  repeat match goal with
         | |- context [if ?b then _ else _] => destruct b
         | |- context [match ?o with Returned _ => _ | Thrown _ => _ end] => destruct o
         end; intros H; inversion H; reflexivity.
Qed.

Lemma BankAccount_deposit_Thrown w this a amount e w' :
  accounts_heap w !! this = Some a ->
  BankAccount_deposit this amount w = (Thrown e, w') -> w' = w.
Proof.
  intros Ha. rewrite (BankAccount_deposit_run _ _ _ _ Ha).
  repeat match goal with
         | |- context [if ?b then _ else _] => destruct b
         | |- context [match ?o with Returned _ => _ | Thrown _ => _ end] => destruct o
         end; intros H; inversion H; reflexivity.
Qed.

(** A [withdraw] that returns has passed the four checks and has replaced
    the balance by the difference. *)
Lemma BankAccount_withdraw_Returned w this a amount w' :
  accounts_heap w !! this = Some a ->
  BankAccount_withdraw this amount w = (Returned tt, w') ->
  BankAccount.isActive_ a = true
  /\ Money.getCurrency amount = BankAccount.currency_ a
  /\ Money.isPositive amount = true
  /\ Money.currency_ (BankAccount.balance_ a) = Money.currency_ amount
  /\ (Money.amount_ (BankAccount.balance_ a) <? Money.amount_ amount)%float = false
  /\ w' = touched this
            (BankAccount.set_balance_
               (Money.Build
                  (Money.amount_ (BankAccount.balance_ a) - Money.amount_ amount)%float
                  (Money.currency_ (BankAccount.balance_ a))) a) w.
Proof.
  intros Ha. rewrite (BankAccount_withdraw_run _ _ _ _ Ha).
  destruct (BankAccount.isActive_ a); [|discriminate]. simpl negb. cbv iota.
  case_bool_decide as Hcur; [|discriminate]. simpl negb. cbv iota.
  destruct (Money.isPositive amount); [|discriminate]. simpl negb. cbv iota.
  unfold Money.lt. case_bool_decide as Hbal; [|discriminate].
  destruct (Money.amount_ (BankAccount.balance_ a) <? Money.amount_ amount)%float;
    [discriminate|].
  destruct (Money.subtract _ _) as [balance|e] eqn:Hsub; [|discriminate].
  apply Money_subtract_Returned in Hsub as [_ ->].
  intros H; inversion H. auto 10.
Qed.

(** A [deposit] that returns has passed the three checks and has replaced
    the balance by the sum. *)
Lemma BankAccount_deposit_Returned w this a amount w' :
  accounts_heap w !! this = Some a ->
  BankAccount_deposit this amount w = (Returned tt, w') ->
  BankAccount.isActive_ a = true
  /\ Money.getCurrency amount = BankAccount.currency_ a
  /\ Money.isPositive amount = true
  /\ Money.currency_ (BankAccount.balance_ a) = Money.currency_ amount
  /\ w' = touched this
            (BankAccount.set_balance_
               (Money.Build
                  (Money.amount_ (BankAccount.balance_ a) + Money.amount_ amount)%float
                  (Money.currency_ (BankAccount.balance_ a))) a) w.
Proof.
  intros Ha. rewrite (BankAccount_deposit_run _ _ _ _ Ha).
  destruct (BankAccount.isActive_ a); [|discriminate]. simpl negb. cbv iota.
  case_bool_decide as Hcur; [|discriminate]. simpl negb. cbv iota.
  destruct (Money.isPositive amount); [|discriminate]. simpl negb. cbv iota.
  destruct (Money.add _ _) as [balance|e] eqn:Hadd; [|discriminate].
  apply Money_add_Returned in Hadd as [Hbal ->].
  intros H; inversion H. auto 10.
Qed.

(** ** C2: [withdraw] never overdraws *)

(** C2 (as amended). For an account [a] at [this] and any amount: a
    request above the balance fails; a failing call, whatever the reason,
    leaves the whole state as it was; the failure is
    [InsufficientFundsException] when the account is active and the amount
    is positive and in the account's currency (the checks made before the
    comparison throw their own exceptions); a call that returns has replaced
    the balance by the binary64 difference of the old balance and the
    amount, which is not below zero (and is at least zero unless it is NaN),
    and has changed no other field but [updatedAt_]. *)
Theorem C2_withdraw_never_overdraws
    (w : World) (this : loc) (a : BankAccount.t) (amount : Money.t)
    (r : Outcome unit) (w' : World) :
  accounts_heap w !! this = Some a ->
  BankAccount_withdraw this amount w = (r, w') ->
  let old := Money.amount_ (BankAccount.balance_ a) in
  ((old <? Money.amount_ amount)%float = true -> is_Returned r = false)
  /\ (is_Returned r = false -> w' = w)
  /\ ((old <? Money.amount_ amount)%float = true ->
      BankAccount.isActive_ a = true ->
      Money.getCurrency amount = BankAccount.currency_ a ->
      Money.isPositive amount = true ->
      Money.currency_ (BankAccount.balance_ a) = BankAccount.currency_ a ->
      r = Thrown (InsufficientFundsException (Money.amount_ amount) old))
  /\ (is_Returned r = true ->
      exists a',
        accounts_heap w' = <[this := a']> (accounts_heap w)
        /\ BankAccount.balance_ a'
           = Money.Build (old - Money.amount_ amount)%float
               (Money.currency_ (BankAccount.balance_ a))
        /\ (Money.amount_ (BankAccount.balance_ a') <? 0)%float = false
        /\ ((Money.amount_ (BankAccount.balance_ a')
             =? Money.amount_ (BankAccount.balance_ a'))%float = true ->
            (0 <=? Money.amount_ (BankAccount.balance_ a'))%float = true)
        /\ BankAccount.id_ a' = BankAccount.id_ a
        /\ BankAccount.name_ a' = BankAccount.name_ a
        /\ BankAccount.accountNumber_ a' = BankAccount.accountNumber_ a
        /\ BankAccount.isActive_ a' = BankAccount.isActive_ a
        /\ BankAccount.createdAt_ a' = BankAccount.createdAt_ a
        /\ BankAccount.currency_ a' = BankAccount.currency_ a).
Proof.
  intros Ha Hrun old. destruct r as [[]|e]; simpl is_Returned.
  - apply (BankAccount_withdraw_Returned _ _ _ _ _ Ha) in Hrun
      as (Hact & Hcur & Hpos & Hbal & Hlt & ->).
    fold old in Hlt. split; [congruence|]. split; [discriminate|].
    split; [congruence|]. intros _.
    eexists. split; [reflexivity|]. simpl.
    assert (Hneg : (old - Money.amount_ amount <? 0)%float = false)
      by (apply sub_not_negative; assumption).
    split; [reflexivity|]. split; [exact Hneg|].
    split; [apply not_negative_leb; exact Hneg|]. auto 10.
  - pose proof (BankAccount_withdraw_Thrown _ _ _ _ _ _ Ha Hrun) as ->.
    split; [reflexivity|]. split; [reflexivity|]. split; [|discriminate].
    intros Hlt Hact Hcur Hpos Hinv.
    rewrite (BankAccount_withdraw_run _ _ _ _ Ha) in Hrun.
    rewrite Hact, Hpos, bool_decide_eq_true_2 in Hrun by exact Hcur.
    simpl negb in Hrun. cbv iota in Hrun. unfold Money.lt in Hrun.
    rewrite bool_decide_eq_true_2 in Hrun
      by (unfold Money.getCurrency in Hcur; congruence).
    fold old in Hrun. rewrite Hlt in Hrun. inversion Hrun. reflexivity.
Qed.

(** C2, the claim as stated, fails: on an inactive account a request above
    the balance is refused with a [DomainException] that is not the
    insufficient-funds exception. *)
Lemma C2_counterexample_inactive_account :
  let a := BankAccount.Build "ACC-1" "Main" (Money.Build 0 "RUB") "" false 0 0 "RUB" in
  let w := BuildWorld {[1%positive := a]} ∅ ∅ 60 false ∅ ∅ ∅ (fun _ => 0%Z) 0 in
  let amount := Money.Build 10 "RUB" in
  (Money.amount_ (BankAccount.balance_ a) <? Money.amount_ amount)%float = true
  /\ BankAccount_withdraw 1%positive amount w
     = (Thrown (DomainException "Cannot withdraw from inactive account"), w)
  /\ forall requested available,
       DomainException "Cannot withdraw from inactive account"
       <> InsufficientFundsException requested available.
Proof.
  split; [reflexivity|]. split; [reflexivity|]. discriminate.
Qed.

Lemma C2_withdraw_never_overdraws_witness :
  let a := BankAccount.Build "ACC-1" "Main" (Money.Build 100 "RUB") "" true 0 0 "RUB" in
  let w := BuildWorld {[1%positive := a]} ∅ ∅ 60 false ∅ ∅ ∅ (fun _ => 7%Z) 0 in
  let amount := Money.Build 30 "RUB" in
  exists a',
    accounts_heap (BankAccount_withdraw 1%positive amount w).2
    = <[1%positive := a']> (accounts_heap w)
    /\ BankAccount.balance_ a' = Money.Build 70 "RUB"
    /\ (Money.amount_ (BankAccount.balance_ a') <? 0)%float = false.
Proof.
  intros a w amount.
  destruct (C2_withdraw_never_overdraws w 1%positive a amount
              (BankAccount_withdraw 1%positive amount w).1
              (BankAccount_withdraw 1%positive amount w).2)
    as (_ & _ & _ & H).
  - reflexivity.
  - vm_compute. reflexivity.
  - destruct (H eq_refl) as (a' & H1 & H2 & H3 & _).
    exists a'. split; [exact H1|]. split; [rewrite H2; reflexivity|exact H3].
Defined.

(** ** Computations that only read the environment *)

Lemma reads_only_ret {A} (a : A) : reads_only (mret a).
Proof. intros w r w' H. inversion H. destruct w'. reflexivity. Qed.

Lemma reads_only_throw {A} e : reads_only (@throw A e).
Proof. intros w r w' H. inversion H. destruct w'. reflexivity. Qed.

Lemma reads_only_lift {A} (o : Outcome A) : reads_only (lift o).
Proof. intros w r w' H. inversion H. destruct w'. reflexivity. Qed.

Lemma reads_only_read_oracle : reads_only read_oracle.
Proof. intros w r w' H. inversion H. reflexivity. Qed.

Lemma reads_only_bind {A B} (m : M A) (k : A -> M B) :
  reads_only m -> (forall a, reads_only (k a)) -> reads_only (m ≫= k).
Proof.
  intros Hm Hk w r w' H. apply bind_inv in H as [(e & H & _)|(a & w1 & H1 & H2)].
  - exact (Hm _ _ _ H).
  - apply Hm in H1. apply Hk in H2. rewrite H2, H1. reflexivity.
Qed.

Lemma reads_only_fmap {A B} (f : A -> B) (m : M A) :
  reads_only m -> reads_only (f <$> m).
Proof.
  intros Hm w r w'. rewrite fmap_run.
  destruct (m w) as [[a|e] w1] eqn:H; intros H'; inversion H'; subst;
    exact (Hm _ _ _ H).
Qed.

Create HintDb reads.
#[local] Hint Resolve reads_only_ret reads_only_throw reads_only_lift
  reads_only_read_oracle reads_only_bind reads_only_fmap : reads.

Lemma reads_only_IdGenerator_random_part n : reads_only (IdGenerator_random_part n).
Proof.
  induction n as [|n IH]; simpl; [apply reads_only_ret|].
  unfold IdGenerator_dis. auto 10 with reads.
Qed.

Lemma reads_only_IdGenerator_generate prefix : reads_only (IdGenerator_generate prefix).
Proof.
  unfold IdGenerator_generate, DateTimeUtils_now.
  pose proof reads_only_IdGenerator_random_part. auto 10 with reads.
Qed.

Lemma reads_only_Operation_new id type bankAccountId amount date categoryId description :
  reads_only (Operation_new id type bankAccountId amount date categoryId description).
Proof. unfold Operation_new, DateTimeUtils_now. auto 10 with reads. Qed.

Lemma reads_only_BankAccount_new id name initialBalance accountNumber isActive :
  reads_only (BankAccount_new id name initialBalance accountNumber isActive).
Proof. unfold BankAccount_new, DateTimeUtils_now. auto 10 with reads. Qed.

Lemma reads_only_createOperation type bankAccountId amount categoryId description date :
  reads_only (EntityFactory_createOperation type bankAccountId amount categoryId
                description date).
Proof.
  unfold EntityFactory_createOperation.
  pose proof reads_only_IdGenerator_generate.
  pose proof reads_only_Operation_new. auto 15 with reads.
Qed.

Lemma reads_only_createCategory type name description :
  reads_only (EntityFactory_createCategory type name description).
Proof.
  unfold EntityFactory_createCategory.
  pose proof reads_only_IdGenerator_generate. auto 15 with reads.
Qed.

(** What a computation that only reads leaves in place. *)
Lemma reads_only_same w w' :
  w' = set_oracle_reads (oracle_reads w') w ->
  accounts_heap w' = accounts_heap w
  /\ accountRepo_storage_ w' = accountRepo_storage_ w
  /\ accountRepo_cache_ w' = accountRepo_cache_ w
  /\ operationRepo_storage_ w' = operationRepo_storage_ w
  /\ categoryRepo_storage_ w' = categoryRepo_storage_ w
  /\ commands_heap w' = commands_heap w
  /\ useCaching w' = useCaching w
  /\ accountRepo_cacheDuration_ w' = accountRepo_cacheDuration_ w.
Proof. intros ->. repeat split. Qed.

(** ** Generated ids are well-formed *)

Lemma all_chars_app p s1 s2 :
  Validator.all_chars p (s1 ++ s2)
  = Validator.all_chars p s1 && Validator.all_chars p s2.
Proof.
  induction s1 as [|c s1 IH]; simpl; [reflexivity|].
  rewrite IH. apply andb_assoc.
Qed.

Lemma hex_digit_id_char d : Validator.id_char (hex_digit d) = true.
Proof.
  destruct d as [|p]; [reflexivity|].
  repeat (destruct p as [p|p|]; try reflexivity).
Qed.

Lemma hex_digits_id_chars fuel n rest :
  Validator.all_chars Validator.id_char rest = true ->
  Validator.all_chars Validator.id_char (hex_digits fuel n rest) = true.
Proof.
  revert n rest. induction fuel as [|fuel IH]; intros n rest Hrest; simpl;
    [exact Hrest|].
  assert (Validator.all_chars Validator.id_char
            (String (hex_digit (n mod 16)) rest) = true) as Hcons.
  { simpl. rewrite hex_digit_id_char, Hrest. reflexivity. }
  destruct (n / 16 =? 0)%N; [exact Hcons|]. apply IH. exact Hcons.
Qed.

Lemma hex_time_t_id_chars t :
  Validator.all_chars Validator.id_char (hex_time_t t) = true.
Proof. apply hex_digits_id_chars. reflexivity. Qed.

Lemma IdGenerator_random_part_Returned n w :
  exists random w',
    IdGenerator_random_part n w = (Returned random, w')
    /\ Validator.all_chars Validator.id_char random = true.
Proof.
  revert w. induction n as [|n IH]; intros w; simpl.
  - do 2 eexists. split; reflexivity.
  - unfold IdGenerator_dis, read_oracle. mrun.
    destruct (IH (set_oracle_reads (S (oracle_reads w)) w)) as (rest & w' & -> & Hok).
    mrun. do 2 eexists. split; [reflexivity|].
    simpl. rewrite hex_digit_id_char. exact Hok.
Qed.

(** [IdGenerator::generate] with one of the prefixes the factory uses
    returns an id that [Validator::validateId] accepts. *)
Lemma IdGenerator_generate_Returned prefix w :
  prefix <> "" ->
  Validator.all_chars Validator.id_char prefix = true ->
  exists id w',
    IdGenerator_generate prefix w = (Returned id, w')
    /\ Validator.validateId id = Returned tt
    /\ w' = set_oracle_reads (oracle_reads w') w.
Proof.
  intros Hne Hprefix.
  destruct (IdGenerator_generate prefix w) as [r w'] eqn:Hrun.
  pose proof (reads_only_IdGenerator_generate prefix _ _ _ Hrun) as Hreads.
  unfold IdGenerator_generate, DateTimeUtils_now, read_oracle in Hrun.
  revert Hrun. mrun.
  destruct (IdGenerator_random_part_Returned 8 (set_oracle_reads (S (oracle_reads w)) w))
    as (random & w1 & -> & Hrandom).
  mrun. intros Hrun. inversion Hrun; subst r w1. clear Hrun.
  do 2 eexists. split; [reflexivity|]. split; [|exact Hreads].
  rewrite bool_decide_eq_false_2 by exact Hne.
  unfold Validator.validateId, Validator.validateNotEmpty.
  rewrite bool_decide_eq_false_2 by (destruct prefix; [contradiction|discriminate]).
  simpl mbind. cbv beta iota.
  rewrite !all_chars_app, Hprefix, hex_time_t_id_chars, Hrandom. reflexivity.
Qed.

(** ** [EntityFactory::createBankAccount] *)

Lemma validateMaxLength_Returned value maxLength fieldName :
  (String.length value <=? maxLength)%nat = true ->
  Validator.validateMaxLength value maxLength fieldName = Returned tt.
Proof.
  intros H%Nat.leb_le. unfold Validator.validateMaxLength.
  destruct (Nat.ltb_spec maxLength (String.length value)); [lia|reflexivity].
Qed.

Lemma validateMaxLength_Thrown value maxLength fieldName :
  (String.length value <=? maxLength)%nat = false ->
  exists what,
    Validator.validateMaxLength value maxLength fieldName
    = Thrown (ValidationException what).
Proof.
  intros H%Nat.leb_gt. unfold Validator.validateMaxLength.
  destruct (Nat.ltb_spec maxLength (String.length value)); [eauto|lia].
Qed.

(** The factory on a valid request: a new object with the requested
    fields, at an address that was free. *)
Lemma EntityFactory_createBankAccount_valid w name initialBalance accountNumber :
  valid_account_request name initialBalance accountNumber = true ->
  exists p a w',
    EntityFactory_createBankAccount name initialBalance accountNumber w = (Returned p, w')
    /\ accounts_heap w !! p = None
    /\ w' = set_accounts_heap (<[p := a]> (accounts_heap w))
              (set_oracle_reads (oracle_reads w') w)
    /\ BankAccount.name_ a = name
    /\ BankAccount.balance_ a = initialBalance
    /\ BankAccount.accountNumber_ a = accountNumber
    /\ BankAccount.isActive_ a = true
    /\ BankAccount.currency_ a = Money.getCurrency initialBalance
    /\ Validator.validateId (BankAccount.id_ a) = Returned tt.
Proof.
  unfold valid_account_request.
  intros (((Hname & Hlen)%andb_prop & Hneg)%andb_prop & Hnum)%andb_prop.
  apply negb_true_iff in Hname, Hneg.
  unfold EntityFactory_createBankAccount.
  unfold Validator.validateNotEmpty at 1. rewrite Hname.
  rewrite (validateMaxLength_Returned _ _ _ Hlen).
  unfold Validator.validateNonNegative, Money.getAmount. rewrite Hneg. mrun.
  destruct (IdGenerator_generate_Returned "ACC" w) as (id & w1 & -> & Hid & Hw1);
    [discriminate|reflexivity|].
  set (n := oracle_reads w1) in Hw1. clearbody n. subst w1.
  mrun. unfold BankAccount_new, DateTimeUtils_now, read_oracle. mrun.
  unfold BankAccount_validate. cbn [BankAccount.id_ BankAccount.name_
                                      BankAccount.accountNumber_].
  rewrite Hid. unfold Validator.validateNotEmpty. rewrite Hname.
  rewrite (validateMaxLength_Returned _ _ _ Hlen),
    (validateMaxLength_Returned _ _ _ Hnum).
  simpl mbind. mrun. unfold make_shared.
  do 3 eexists. split; [reflexivity|].
  split.
  { simpl. apply not_elem_of_dom. apply is_fresh. }
  split; [reflexivity|].
  simpl. auto 10.
Qed.

(** The factory on an invalid request: a [ValidationException], and
    nothing allocated. *)
Lemma EntityFactory_createBankAccount_invalid w name initialBalance accountNumber :
  valid_account_request name initialBalance accountNumber = false ->
  exists what w',
    EntityFactory_createBankAccount name initialBalance accountNumber w
    = (Thrown (ValidationException what), w')
    /\ w' = set_oracle_reads (oracle_reads w') w.
Proof.
  unfold valid_account_request. intros Hinvalid.
  unfold EntityFactory_createBankAccount.
  unfold Validator.validateNotEmpty at 1.
  destruct (bool_decide (name = "")) eqn:Hname.
  { mrun. do 2 eexists. split; [reflexivity|]. destruct w; reflexivity. }
  destruct (String.length name <=? 100)%nat eqn:Hlen.
  2:{ destruct (validateMaxLength_Thrown _ _ "Account name" Hlen) as (what & ->).
      mrun. do 2 eexists. split; [reflexivity|]. destruct w; reflexivity. }
  rewrite (validateMaxLength_Returned _ _ _ Hlen).
  unfold Validator.validateNonNegative, Money.getAmount.
  destruct (Money.amount_ initialBalance <? 0)%float eqn:Hneg.
  { mrun. do 2 eexists. split; [reflexivity|]. destruct w; reflexivity. }
  simpl in Hinvalid. mrun.
  destruct (IdGenerator_generate_Returned "ACC" w) as (id & w1 & -> & Hid & Hw1);
    [discriminate|reflexivity|].
  set (n := oracle_reads w1) in Hw1. clearbody n. subst w1.
  mrun. unfold BankAccount_new, DateTimeUtils_now, read_oracle. mrun.
  unfold BankAccount_validate. cbn [BankAccount.id_ BankAccount.name_
                                      BankAccount.accountNumber_].
  rewrite Hid. unfold Validator.validateNotEmpty. rewrite Hname.
  rewrite (validateMaxLength_Returned _ _ _ Hlen).
  destruct (validateMaxLength_Thrown _ _ "Account number" Hinvalid) as (what & ->).
  simpl mbind. mrun. do 2 eexists. split; reflexivity.
Qed.

(** ** The account repository behind [IBankAccountRepository] *)

Lemma cache_coherent_insert w w' id p t :
  cache_coherent w ->
  accountRepo_storage_ w' = <[id := p]> (accountRepo_storage_ w) ->
  accountRepo_cache_ w' = <[id := CacheEntry.Build p t]> (accountRepo_cache_ w) ->
  cache_coherent w'.
Proof.
  intros Hco Hs Hc id' entry. rewrite Hs, Hc.
  destruct (decide (id = id')) as [->|Hne].
  - rewrite !lookup_insert_eq. intros H; inversion H. reflexivity.
  - rewrite !lookup_insert_ne by exact Hne. apply Hco.
Qed.

Lemma cache_coherent_cache_only w w' id p t :
  cache_coherent w ->
  accountRepo_storage_ w' = accountRepo_storage_ w ->
  accountRepo_storage_ w !! id = Some p ->
  accountRepo_cache_ w' = <[id := CacheEntry.Build p t]> (accountRepo_cache_ w) ->
  cache_coherent w'.
Proof.
  intros Hco Hs Hp Hc.
  apply (cache_coherent_insert w w' id p t Hco); [|exact Hc].
  rewrite Hs. symmetry. apply insert_id. exact Hp.
Qed.

Lemma cache_coherent_storage_only w w' id p :
  cache_coherent w ->
  accountRepo_cache_ w !! id = None ->
  accountRepo_storage_ w' = <[id := p]> (accountRepo_storage_ w) ->
  accountRepo_cache_ w' = accountRepo_cache_ w ->
  cache_coherent w'.
Proof.
  intros Hco Hnone Hs Hc id' entry. rewrite Hs, Hc.
  destruct (decide (id = id')) as [->|Hne].
  - rewrite Hnone. discriminate.
  - rewrite lookup_insert_ne by exact Hne. apply Hco.
Qed.

(** [save]: the pointer is stored under the id of its object. *)
Lemma IBankAccountRepository_save_Some w entity a :
  accounts_heap w !! entity = Some a ->
  exists w',
    IBankAccountRepository_save entity w = (Returned tt, w')
    /\ accountRepo_storage_ w'
       = <[BankAccount.id_ a := entity]> (accountRepo_storage_ w)
    /\ same_but_accountRepo w w'
    /\ (cache_ok w -> cache_ok w').
Proof.
  intros Ha. unfold IBankAccountRepository_save. mrun.
  destruct (useCaching w) eqn:Hcaching.
  - unfold CachingRepositoryProxy_save, InMemoryBankAccountRepository_save.
    rewrite !bind_run, (BankAccount_getId_Some _ _ _ Ha). mrun.
    rewrite (CachingRepositoryProxy_cacheEntity_Some _ _ a) by exact Ha.
    eexists. split; [reflexivity|]. split; [reflexivity|].
    split; [repeat split|].
    intros Hco _. eapply cache_coherent_insert; [exact (Hco Hcaching)|reflexivity..].
  - unfold InMemoryBankAccountRepository_save.
    rewrite !bind_run, (BankAccount_getId_Some _ _ _ Ha). mrun.
    eexists. split; [reflexivity|]. split; [reflexivity|].
    split; [repeat split|]. intros _ H. simpl in H. congruence.
Qed.

(** [update] of a pointer whose id the repository holds. *)
Lemma IBankAccountRepository_update_present w entity a old :
  accounts_heap w !! entity = Some a ->
  accountRepo_storage_ w !! BankAccount.id_ a = Some old ->
  exists w',
    IBankAccountRepository_update entity w = (Returned tt, w')
    /\ accountRepo_storage_ w'
       = <[BankAccount.id_ a := entity]> (accountRepo_storage_ w)
    /\ same_but_accountRepo w w'
    /\ (cache_ok w -> cache_ok w').
Proof.
  intros Ha Hold. unfold IBankAccountRepository_update. mrun.
  destruct (useCaching w) eqn:Hcaching.
  - rewrite (CachingRepositoryProxy_update_present _ _ _ _ Ha Hold).
    eexists. split; [reflexivity|]. split; [reflexivity|].
    split; [repeat split|].
    intros Hco _. eapply cache_coherent_insert; [exact (Hco Hcaching)|reflexivity..].
  - rewrite (InMemoryBankAccountRepository_update_present _ _ _ _ Ha Hold).
    eexists. split; [reflexivity|]. split; [reflexivity|].
    split; [repeat split|]. intros _ H. simpl in H. congruence.
Qed.

(** [findById] under the invariant: the stored pointer, whatever the cache
    and the clock. *)
Lemma IBankAccountRepository_findById_wf w id :
  World_wf w ->
  exists w',
    IBankAccountRepository_findById id w
    = (Returned (accountRepo_storage_ w !! id), w')
    /\ same_objects w w'
    /\ World_wf w'.
Proof.
  intros [Hkeys Hco].
  assert (Hwf : forall w', same_objects w w' -> cache_ok w' -> World_wf w').
  { intros w' (Hh & Hs & _) Hok. split; [|exact Hok].
    intros id' p. rewrite Hs, Hh. apply Hkeys. }
  unfold IBankAccountRepository_findById. mrun.
  destruct (useCaching w) eqn:Hcaching.
  - specialize (Hco Hcaching).
    destruct (accountRepo_cache_ w !! id) as [entry|] eqn:Hcache.
    + pose proof (Hco _ _ Hcache) as Hstore.
      destruct (Hkeys _ _ Hstore) as (a & Ha & Hid).
      destruct (CachingRepositoryProxy_findById_cached _ _ _ _ _ Hcache Hstore Ha)
        as (w' & Hfind & Hsame).
      exists w'. rewrite Hfind, Hstore. split; [destruct (_ <? _)%Z; reflexivity|].
      split; [exact Hsame|]. apply Hwf; [exact Hsame|]. intros _.
      revert Hfind. unfold CachingRepositoryProxy_findById. mrun. rewrite Hcache.
      unfold CacheEntry_isExpired, steady_clock_now, read_oracle. mrun.
      destruct (CacheEntry.expiry entry <? oracle w (oracle_reads w))%Z.
      * unfold InMemoryBankAccountRepository_findById. mrun.
        unfold InMemoryRepository.findById.
        replace (accountRepo_storage_ (set_oracle_reads (S (oracle_reads w)) w) !! id)
          with (Some (CacheEntry.data entry)) by (symmetry; exact Hstore).
        mrun.
        rewrite (CachingRepositoryProxy_cacheEntity_Some _ _ a) by exact Ha.
        intros H; inversion H; subst w'.
        eapply (cache_coherent_cache_only w); [exact Hco|reflexivity| |reflexivity].
        rewrite Hid. exact Hstore.
      * intros H; inversion H; subst w'. exact Hco.
    + unfold CachingRepositoryProxy_findById. mrun. rewrite Hcache. mrun.
      unfold InMemoryBankAccountRepository_findById. mrun.
      unfold InMemoryRepository.findById.
      destruct (accountRepo_storage_ w !! id) as [p|] eqn:Hstore; mrun.
      * destruct (Hkeys _ _ Hstore) as (a & Ha & Hid).
        rewrite (CachingRepositoryProxy_cacheEntity_Some _ _ a) by exact Ha.
        eexists. split; [reflexivity|]. split; [repeat split|].
        apply Hwf; [repeat split|]. intros _.
        eapply (cache_coherent_cache_only w); [exact Hco|reflexivity| |reflexivity].
        rewrite Hid. exact Hstore.
      * eexists. split; [reflexivity|]. split; [repeat split|].
        apply Hwf; [repeat split|]. intros _. exact Hco.
  - unfold InMemoryBankAccountRepository_findById. mrun.
    eexists. split; [reflexivity|]. split; [repeat split|].
    apply Hwf; [repeat split|]. intros H. simpl in H. congruence.
Qed.

Lemma deref_command_Some w c cmd :
  commands_heap w !! c = Some cmd -> deref_command c w = (Returned cmd, w).
Proof. unfold deref_command. intros ->. reflexivity. Qed.

(** [BaseCommand::execute] and [undo] on a live command object, in terms
    of the [doExecute] and [doUndo] of its class. *)
Lemma BaseCommand_execute_run w this c :
  commands_heap w !! this = Some c ->
  Command_executed_ c = false ->
  BaseCommand_execute this w =
  match (match c with
         | CreateAccount c => CreateAccountCommand_doExecute this c
         | CreateCategory c => CreateCategoryCommand_doExecute this c
         | AddOperation c => AddOperationCommand_doExecute this c
         | Transfer c => TransferCommand_doExecute this c
         end) w with
  | (Returned _, w1) =>
      match commands_heap w1 !! this with
      | Some c' =>
          (Returned tt,
           set_commands_heap (<[this := Command_set_executed_ true c']> (commands_heap w1)) w1)
      | None => (Thrown null_dereference, w1)
      end
  | (Thrown e, w1) => (Thrown e, w1)
  end.
Proof.
  intros Hcmd Hfresh. unfold BaseCommand_execute.
  rewrite (bind_Returned _ _ _ _ _ (deref_command_Some _ _ _ Hcmd)).
  cbv beta. rewrite Hfresh. unfold doExecute.
  rewrite bind_run, (bind_Returned _ _ _ _ _ (deref_command_Some _ _ _ Hcmd)).
  cbv beta.
  destruct ((match c with
             | CreateAccount c => CreateAccountCommand_doExecute this c
             | CreateCategory c => CreateCategoryCommand_doExecute this c
             | AddOperation c => AddOperationCommand_doExecute this c
             | Transfer c => TransferCommand_doExecute this c
             end) w) as [[[]|e] w1]; [|reflexivity].
  rewrite bind_run. unfold deref_command.
  destruct (commands_heap w1 !! this); reflexivity.
Qed.

Lemma BaseCommand_undo_run w this c :
  commands_heap w !! this = Some c ->
  Command_executed_ c = true ->
  BaseCommand_undo this w =
  match (match c with
         | CreateAccount c => CreateAccountCommand_doUndo this c
         | CreateCategory c => CreateCategoryCommand_doUndo this c
         | AddOperation c => AddOperationCommand_doUndo this c
         | Transfer c => TransferCommand_doUndo this c
         end) w with
  | (Returned _, w1) =>
      match commands_heap w1 !! this with
      | Some c' =>
          (Returned tt,
           set_commands_heap (<[this := Command_set_executed_ false c']> (commands_heap w1)) w1)
      | None => (Thrown null_dereference, w1)
      end
  | (Thrown e, w1) => (Thrown e, w1)
  end.
Proof.
  intros Hcmd Hdone. unfold BaseCommand_undo.
  rewrite (bind_Returned _ _ _ _ _ (deref_command_Some _ _ _ Hcmd)).
  cbv beta. rewrite Hdone. unfold canUndo. cbn [negb]. unfold doUndo.
  rewrite bind_run, (bind_Returned _ _ _ _ _ (deref_command_Some _ _ _ Hcmd)).
  cbv beta.
  destruct ((match c with
             | CreateAccount c => CreateAccountCommand_doUndo this c
             | CreateCategory c => CreateCategoryCommand_doUndo this c
             | AddOperation c => AddOperationCommand_doUndo this c
             | Transfer c => TransferCommand_doUndo this c
             end) w) as [[[]|e] w1]; [|reflexivity].
  rewrite bind_run. unfold deref_command.
  destruct (commands_heap w1 !! this); reflexivity.
Qed.

(** ** C7: creating an account *)

(** C7 (as amended). Executing a [CreateAccountCommand] that has not run:
    when the request passes the four checks of the factory and of the
    constructor (name not empty and of at most 100 characters, initial
    balance not below zero, account number of at most 20 characters), the
    command returns, having allocated an active account with that name,
    balance and number and having saved it under its generated id; when one
    of the checks fails (so in particular when the name is empty or the
    balance is negative) it throws a [ValidationException], and neither the
    heap of accounts nor the repository has changed. *)
Theorem C7_account_creation_is_validated
    (w : World) (this : loc) (cmd : CreateAccountCommand.t) :
  commands_heap w !! this = Some (CreateAccount cmd) ->
  CreateAccountCommand.executed_ cmd = false ->
  let name := CreateAccountCommand.accountName_ cmd in
  let initialBalance := CreateAccountCommand.initialBalance_ cmd in
  let accountNumber := CreateAccountCommand.accountNumber_ cmd in
  (name = "" \/ (Money.amount_ initialBalance <? 0)%float = true ->
   valid_account_request name initialBalance accountNumber = false)
  /\ (valid_account_request name initialBalance accountNumber = false ->
      exists what w',
        BaseCommand_execute this w = (Thrown (ValidationException what), w')
        /\ accounts_heap w' = accounts_heap w
        /\ accountRepo_storage_ w' = accountRepo_storage_ w
        /\ commands_heap w' = commands_heap w)
  /\ (valid_account_request name initialBalance accountNumber = true ->
      exists p a w',
        BaseCommand_execute this w = (Returned tt, w')
        /\ accounts_heap w !! p = None
        /\ accounts_heap w' = <[p := a]> (accounts_heap w)
        /\ accountRepo_storage_ w'
           = <[BankAccount.id_ a := p]> (accountRepo_storage_ w)
        /\ BankAccount.name_ a = name
        /\ BankAccount.balance_ a = initialBalance
        /\ BankAccount.accountNumber_ a = accountNumber
        /\ BankAccount.isActive_ a = true
        /\ BankAccount.currency_ a = Money.getCurrency initialBalance
        /\ commands_heap w' !! this
           = Some (Command_set_executed_ true
                     (CreateAccount
                        (CreateAccountCommand_set_createdAccount_ (Some p) cmd)))).
Proof.
  intros Hcmd Hfresh name initialBalance accountNumber.
  split.
  { unfold valid_account_request. intros [-> | ->].
    - reflexivity.
    - rewrite !andb_false_r. reflexivity. }
  rewrite (BaseCommand_execute_run _ _ _ Hcmd Hfresh).
  unfold CreateAccountCommand_doExecute. split.
  - intros Hinvalid.
    destruct (EntityFactory_createBankAccount_invalid w _ _ _ Hinvalid)
      as (what & w1 & Hrun & Hw1).
    fold name initialBalance accountNumber.
    rewrite !bind_run, Hrun. exists what, w1. split; [reflexivity|].
    rewrite Hw1. repeat split.
  - intros Hvalid.
    destruct (EntityFactory_createBankAccount_valid w _ _ _ Hvalid)
      as (p & a & w1 & Hrun & Hfree & Hw1 & Hname & Hbal & Hnum & Hact & Hcur & _).
    fold name initialBalance accountNumber.
    rewrite !bind_run, Hrun. unfold assign_command at 1. mrun.
    set (cmd1 := CreateAccount (CreateAccountCommand_set_createdAccount_ (Some p) cmd)).
    set (w2 := set_commands_heap _ w1).
    assert (Ha : accounts_heap w2 !! p = Some a).
    { subst w2. rewrite Hw1. simpl. apply lookup_insert_eq. }
    destruct (IBankAccountRepository_save_Some _ _ _ Ha)
      as (w3 & -> & Hstore & (Hheap & _ & _ & _ & _ & Hcmds & _) & _).
    assert (Hcmd3 : commands_heap w3 !! this = Some cmd1).
    { rewrite Hcmds. subst w2. simpl. apply lookup_insert_eq. }
    rewrite Hcmd3.
    exists p, a. eexists. split; [reflexivity|]. split; [exact Hfree|].
    simpl. rewrite Hheap, Hstore. subst w2. rewrite Hw1. simpl.
    split; [reflexivity|]. split; [reflexivity|].
    repeat (split; [assumption|]). apply lookup_insert_eq.
Qed.

(** C7, the claim as stated, fails: a request with a name and a balance
    that pass the two checks is still refused when the account number is
    longer than 20 characters, and nothing is created. *)
Lemma C7_counterexample_long_account_number :
  let cmd := CreateAccountCommand_new "Main" (Money.Build 0 "RUB")
               "123456789012345678901" in
  let w := BuildWorld ∅ ∅ ∅ 60 true ∅ ∅ {[1%positive := cmd]} (fun n => Z.of_nat n) 0 in
  "Main" <> ""
  /\ (0 <? 0)%float = false
  /\ (BaseCommand_execute 1%positive w).1
     = Thrown (ValidationException "Account number exceeds maximum length of 20")
  /\ accounts_heap (BaseCommand_execute 1%positive w).2 = ∅
  /\ accountRepo_storage_ (BaseCommand_execute 1%positive w).2 = ∅.
Proof.
  split; [discriminate|]. split; [reflexivity|].
  split; [vm_compute; reflexivity|]. split; vm_compute; reflexivity.
Qed.

Lemma C7_account_creation_is_validated_witness :
  let cmd := CreateAccountCommand.Build "-Создать Счет-" false "Main"
               (Money.Build 100000 "RUB") "" None in
  let w := BuildWorld ∅ ∅ ∅ 60 true ∅ ∅ {[1%positive := CreateAccount cmd]}
             (fun n => Z.of_nat n) 0 in
  exists p a w',
    BaseCommand_execute 1%positive w = (Returned tt, w')
    /\ accounts_heap w' = <[p := a]> (accounts_heap w)
    /\ accountRepo_storage_ w' = <[BankAccount.id_ a := p]> (accountRepo_storage_ w)
    /\ BankAccount.name_ a = "Main"
    /\ BankAccount.balance_ a = Money.Build 100000 "RUB".
Proof.
  intros cmd w.
  destruct (C7_account_creation_is_validated w 1%positive cmd eq_refl eq_refl)
    as (_ & _ & H).
  destruct (H eq_refl) as (p & a & w' & H1 & _ & H2 & H3 & H4 & H5 & _).
  exists p, a, w'. auto.
Defined.

(** ** The invariant along the steps of a command *)

Lemma cache_ok_same w w' :
  useCaching w' = useCaching w ->
  accountRepo_cache_ w' = accountRepo_cache_ w ->
  accountRepo_storage_ w' = accountRepo_storage_ w ->
  cache_ok w -> cache_ok w'.
Proof.
  unfold cache_ok, cache_coherent. intros -> -> ->. auto.
Qed.

Lemma World_wf_same w w' :
  accounts_heap w' = accounts_heap w ->
  accountRepo_storage_ w' = accountRepo_storage_ w ->
  cache_ok w' ->
  World_wf w -> World_wf w'.
Proof.
  intros Hh Hs Hok [Hkeys _]. split; [|exact Hok].
  intros id p. rewrite Hs, Hh. apply Hkeys.
Qed.

(** Replacing an object by one of the same id keeps the repository keyed. *)
Lemma storage_keyed_by_id_update w w' p a a' :
  storage_keyed_by_id w ->
  accounts_heap w !! p = Some a ->
  BankAccount.id_ a' = BankAccount.id_ a ->
  accounts_heap w' = <[p := a']> (accounts_heap w) ->
  accountRepo_storage_ w' = accountRepo_storage_ w ->
  storage_keyed_by_id w'.
Proof.
  intros Hkeys Ha Hid Hh Hs id q. rewrite Hs, Hh. intros Hq.
  destruct (Hkeys _ _ Hq) as (b & Hb & Hbid).
  destruct (decide (p = q)) as [<-|Hne].
  - rewrite lookup_insert_eq. exists a'. split; [reflexivity|]. congruence.
  - rewrite lookup_insert_ne by exact Hne. eauto.
Qed.

(** The invariant holds of a state whose cache is empty and whose storage
    maps each id to a live account with that id. *)
Lemma World_wf_empty_cache w :
  accountRepo_cache_ w = ∅ ->
  map_Forall (fun id p => BankAccount.id_ <$> accounts_heap w !! p = Some id)
    (accountRepo_storage_ w) ->
  World_wf w.
Proof.
  intros Hcache Hall. split.
  - intros id p Hp. specialize (Hall id p Hp).
    simpl in Hall. destruct (accounts_heap w !! p) as [a|]; simpl in Hall.
    + exists a. split; [reflexivity|]. congruence.
    + discriminate Hall.
  - intros _ id entry Hentry. rewrite Hcache in Hentry. discriminate.
Qed.

(** ** [OperationProcessingService::processOperation] *)

(** The deposit or withdrawal that applies an operation, when it returns:
    the account is of the currency of its balance and of the amount, and
    only its balance and time stamp have changed. *)
Lemma apply_operation_Returned w p a operation w' :
  accounts_heap w !! p = Some a ->
  (if Operation.isIncome operation
   then BankAccount_deposit p (Operation.amount_ operation)
   else BankAccount_withdraw p (Operation.amount_ operation)) w = (Returned tt, w') ->
  exists balance,
    w' = touched p (BankAccount.set_balance_ balance a) w
    /\ Money.currency_ (BankAccount.balance_ a) = BankAccount.currency_ a
    /\ BankAccount.isActive_ a = true
    /\ balance
       = Money.Build
           (if Operation.isIncome operation
            then Money.amount_ (BankAccount.balance_ a)
                 + Money.amount_ (Operation.amount_ operation)
            else Money.amount_ (BankAccount.balance_ a)
                 - Money.amount_ (Operation.amount_ operation))%float
           (Money.currency_ (BankAccount.balance_ a)).
Proof.
  intros Ha. destruct (Operation.isIncome operation); intros Hrun.
  - apply (BankAccount_deposit_Returned _ _ _ _ _ Ha) in Hrun
      as (Hact & Hcur & _ & Hbal & ->).
    eexists. split; [reflexivity|]. unfold Money.getCurrency in Hcur.
    split; [congruence|]. split; [exact Hact|reflexivity].
  - apply (BankAccount_withdraw_Returned _ _ _ _ _ Ha) in Hrun
      as (Hact & Hcur & _ & Hbal & _ & ->).
    eexists. split; [reflexivity|]. unfold Money.getCurrency in Hcur.
    split; [congruence|]. split; [exact Hact|reflexivity].
Qed.

(** [processOperation], when it returns, has applied the operation to the
    account stored under its account id, has saved the operation, and has
    left the repository pointing at the same object. *)
Lemma processOperation_Returned w operation w' :
  World_wf w ->
  OperationProcessingService_processOperation operation w = (Returned tt, w') ->
  exists p a balance updatedAt,
    accountRepo_storage_ w !! Operation.bankAccountId_ operation = Some p
    /\ accounts_heap w !! p = Some a
    /\ BankAccount.id_ a = Operation.bankAccountId_ operation
    /\ Money.currency_ (BankAccount.balance_ a) = BankAccount.currency_ a
    /\ balance
       = Money.Build
           (if Operation.isIncome operation
            then Money.amount_ (BankAccount.balance_ a)
                 + Money.amount_ (Operation.amount_ operation)
            else Money.amount_ (BankAccount.balance_ a)
                 - Money.amount_ (Operation.amount_ operation))%float
           (Money.currency_ (BankAccount.balance_ a))
    /\ accounts_heap w'
       = <[p := BankAccount.set_updatedAt_ updatedAt
                  (BankAccount.set_balance_ balance a)]> (accounts_heap w)
    /\ accountRepo_storage_ w' = accountRepo_storage_ w
    /\ operationRepo_storage_ w'
       = <[Operation.getId operation := operation]> (operationRepo_storage_ w)
    /\ commands_heap w' = commands_heap w
    /\ categoryRepo_storage_ w' = categoryRepo_storage_ w
    /\ useCaching w' = useCaching w
    /\ World_wf w'.
Proof.
  intros Hwf. unfold OperationProcessingService_processOperation.
  destruct (IBankAccountRepository_findById_wf w (Operation.bankAccountId_ operation) Hwf)
    as (w1 & Hfind & (Hh1 & Hs1 & _ & Hu1 & Hc1 & Ho1 & Hm1 & _) & Hwf1).
  rewrite bind_run, Hfind.
  destruct (accountRepo_storage_ w !! Operation.bankAccountId_ operation) as [p|] eqn:Hp;
    [|discriminate].
  destruct Hwf as [Hkeys Hok].
  destruct (Hkeys _ _ Hp) as (a & Ha & Hid).
  assert (Ha1 : accounts_heap w1 !! p = Some a) by (rewrite Hh1; exact Ha).
  rewrite bind_run.
  destruct ((if Operation.isIncome operation
             then BankAccount_deposit p (Operation.amount_ operation)
             else BankAccount_withdraw p (Operation.amount_ operation)) w1)
    as [[[]|e] w2] eqn:Happly; [|discriminate].
  destruct (apply_operation_Returned _ _ _ _ _ Ha1 Happly)
    as (balance & -> & Hinv & _ & Hbalance).
  unfold IOperationRepository_save. mrun.
  set (w3 := set_operationRepo_storage_ _ _).
  pose (a' := BankAccount.set_updatedAt_ (oracle w1 (oracle_reads w1))
                (BankAccount.set_balance_ balance a)).
  assert (Ha3 : accounts_heap w3 !! p = Some a')
    by (subst w3; simpl; apply lookup_insert_eq).
  assert (Hp3 : accountRepo_storage_ w3 !! BankAccount.id_ a' = Some p)
    by (subst w3 a'; simpl; rewrite Hs1, Hid; exact Hp).
  destruct (IBankAccountRepository_update_present _ _ _ _ Ha3 Hp3)
    as (w4 & -> & Hs4 & (Hh4 & _ & Hu4 & Hc4 & Ho4 & Hm4 & _) & Hok4).
  intros H; inversion H; subst w'. clear H.
  assert (Hs : accountRepo_storage_ w4 = accountRepo_storage_ w).
  { rewrite Hs4. subst w3. simpl. rewrite Hs1. apply insert_id.
    subst a'. simpl. rewrite Hid. exact Hp. }
  exists p, a, balance, (oracle w1 (oracle_reads w1)).
  split; [reflexivity|]. split; [exact Ha|]. split; [exact Hid|].
  split; [exact Hinv|]. split; [exact Hbalance|].
  split; [rewrite Hh4; subst w3; simpl; rewrite Hh1; reflexivity|].
  split; [exact Hs|].
  split; [rewrite Ho4; subst w3; simpl; rewrite Ho1; reflexivity|].
  split; [rewrite Hm4; subst w3; simpl; exact Hm1|].
  split; [rewrite Hc4; subst w3; simpl; exact Hc1|].
  split; [rewrite Hu4; subst w3; simpl; exact Hu1|].
  split.
  - eapply (storage_keyed_by_id_update w w4 p a a'); try eassumption.
    + reflexivity.
    + rewrite Hh4. subst w3. simpl. rewrite Hh1. reflexivity.
  - apply Hok4. destruct Hwf1 as [_ Hok1].
    eapply (cache_ok_same w1); [| | |exact Hok1]; reflexivity.
Qed.

(** ** [AddOperationCommand] *)

Lemma Operation_new_Returned id type bankAccountId amount date categoryId description
    w o w' :
  Operation_new id type bankAccountId amount date categoryId description w
  = (Returned o, w') ->
  Operation.id_ o = id
  /\ Operation.type_ o = type
  /\ Operation.bankAccountId_ o = bankAccountId
  /\ Operation.amount_ o = amount
  /\ Operation.categoryId_ o = categoryId.
Proof.
  unfold Operation_new, DateTimeUtils_now, read_oracle. mrun.
  destruct (Operation_validate _); [|discriminate].
  mrun. intros H; inversion H. repeat split.
Qed.

Lemma EntityFactory_createOperation_Returned type bankAccountId amount categoryId
    description date w o w' :
  EntityFactory_createOperation type bankAccountId amount categoryId description date w
  = (Returned o, w') ->
  Operation.type_ o = type
  /\ Operation.bankAccountId_ o = bankAccountId
  /\ Operation.amount_ o = amount
  /\ Operation.categoryId_ o = categoryId
  /\ w' = set_oracle_reads (oracle_reads w') w.
Proof.
  intros Hrun.
  pose proof (reads_only_createOperation _ _ _ _ _ _ _ _ _ Hrun) as Hreads.
  revert Hrun. unfold EntityFactory_createOperation.
  repeat (rewrite bind_run; unfold lift;
          match goal with
          | |- context [match ?v with Returned _ => _ | Thrown _ => _ end] =>
              destruct v; [|discriminate]
          end).
  rewrite bind_run.
  destruct (IdGenerator_generate "OP" w) as [[id|e] w1]; [|discriminate].
  intros (_ & H2 & H3 & H4 & H5)%Operation_new_Returned. auto.
Qed.

Lemma assign_command_run c cmd w :
  assign_command c cmd w
  = (Returned tt, set_commands_heap (<[c := cmd]> (commands_heap w)) w).
Proof. reflexivity. Qed.

Lemma read_oracle_run w :
  read_oracle w
  = (Returned (oracle w (oracle_reads w)), set_oracle_reads (S (oracle_reads w)) w).
Proof. reflexivity. Qed.

(** [AddOperationCommand::doExecute], when it returns. *)
Lemma AddOperationCommand_doExecute_Returned w this cmd w' :
  World_wf w ->
  AddOperationCommand_doExecute this cmd w = (Returned tt, w') ->
  exists p a created balance updatedAt,
    accountRepo_storage_ w !! AddOperationCommand.bankAccountId_ cmd = Some p
    /\ accounts_heap w !! p = Some a
    /\ BankAccount.id_ a = AddOperationCommand.bankAccountId_ cmd
    /\ Money.currency_ (BankAccount.balance_ a) = BankAccount.currency_ a
    /\ Operation.type_ created = AddOperationCommand.type_ cmd
    /\ Operation.bankAccountId_ created = AddOperationCommand.bankAccountId_ cmd
    /\ Operation.amount_ created = AddOperationCommand.amount_ cmd
    /\ balance
       = Money.Build
           (if Operation.isIncome created
            then Money.amount_ (BankAccount.balance_ a)
                 + Money.amount_ (AddOperationCommand.amount_ cmd)
            else Money.amount_ (BankAccount.balance_ a)
                 - Money.amount_ (AddOperationCommand.amount_ cmd))%float
           (Money.currency_ (BankAccount.balance_ a))
    /\ accounts_heap w'
       = <[p := BankAccount.set_updatedAt_ updatedAt
                  (BankAccount.set_balance_ balance a)]> (accounts_heap w)
    /\ accountRepo_storage_ w' = accountRepo_storage_ w
    /\ operationRepo_storage_ w'
       = <[Operation.getId created := created]> (operationRepo_storage_ w)
    /\ commands_heap w'
       = <[this := AddOperation
                     (AddOperationCommand_set_createdOperation_ (Some created)
                        (AddOperationCommand_set_account_ (Some p)
                           (BankAccount.balance_ a) cmd))]> (commands_heap w)
    /\ categoryRepo_storage_ w' = categoryRepo_storage_ w
    /\ useCaching w' = useCaching w
    /\ World_wf w'.
Proof.
  intros Hwf. unfold AddOperationCommand_doExecute.
  destruct (IBankAccountRepository_findById_wf w
              (AddOperationCommand.bankAccountId_ cmd) Hwf)
    as (w1 & Hfind & (Hh1 & Hs1 & _ & Hu1 & Hc1 & Ho1 & Hm1 & _) & Hwf1).
  rewrite bind_run, Hfind.
  destruct (accountRepo_storage_ w !! AddOperationCommand.bankAccountId_ cmd)
    as [p|] eqn:Hp; [|discriminate].
  destruct (proj1 Hwf _ _ Hp) as (a & Ha & Hid).
  assert (Ha1 : accounts_heap w1 !! p = Some a) by (rewrite Hh1; exact Ha).
  rewrite bind_run, (BankAccount_getBalance_Some _ _ _ Ha1).
  set (c1 := AddOperationCommand_set_account_ (Some p) (BankAccount.balance_ a) cmd).
  rewrite bind_run, assign_command_run.
  unfold DateTimeUtils_now. rewrite bind_run, read_oracle_run.
  set (w2 := set_oracle_reads _ _).
  rewrite bind_run.
  destruct (EntityFactory_createOperation _ _ _ _ _ _ w2) as [[created|e] w3] eqn:Hcreate;
    [|discriminate].
  apply EntityFactory_createOperation_Returned in Hcreate
    as (Htype & Hacc & Hamount & _ & Hw3).
  rewrite bind_run, assign_command_run.
  set (w4 := set_commands_heap _ w3).
  assert (Hwf4 : World_wf w4).
  { apply (World_wf_same w1); [| | |exact Hwf1].
    - subst w4. rewrite Hw3. reflexivity.
    - subst w4. rewrite Hw3. reflexivity.
    - eapply (cache_ok_same w1); [| | |exact (proj2 Hwf1)];
        subst w4; rewrite Hw3; reflexivity. }
  intros Hprocess.
  apply (processOperation_Returned _ _ _ Hwf4) in Hprocess
    as (p' & a' & balance & updatedAt & Hp' & Ha' & _ & Hinv & Hbalance & Hheap & Hstore
        & Hops & Hcmds & Hcats & Hcaching & Hwf').
  assert (Hh4 : accounts_heap w4 = accounts_heap w)
    by (subst w4; rewrite Hw3; simpl; exact Hh1).
  assert (Hs4 : accountRepo_storage_ w4 = accountRepo_storage_ w)
    by (subst w4; rewrite Hw3; simpl; exact Hs1).
  rewrite Hs4, Hacc, Hp in Hp'. inversion Hp'; subst p'. clear Hp'.
  rewrite Hh4, Ha in Ha'. inversion Ha'; subst a'. clear Ha'.
  exists p, a, created, balance, updatedAt.
  split; [reflexivity|]. split; [exact Ha|]. split; [exact Hid|].
  split; [exact Hinv|]. split; [exact Htype|]. split; [exact Hacc|].
  split; [exact Hamount|]. split; [rewrite <- Hamount; exact Hbalance|].
  split; [rewrite Hheap, Hh4; reflexivity|].
  split; [rewrite Hstore; exact Hs4|].
  split; [rewrite Hops; subst w4; rewrite Hw3; simpl; rewrite Ho1; reflexivity|].
  split.
  { rewrite Hcmds. subst w4. rewrite Hw3. simpl. rewrite Hm1.
    apply insert_insert_eq. }
  split; [rewrite Hcats; subst w4; rewrite Hw3; simpl; exact Hc1|].
  split; [rewrite Hcaching; subst w4; rewrite Hw3; simpl; exact Hu1|].
  exact Hwf'.
Qed.

Lemma BaseCommand_execute_Returned_fresh w this c w' :
  commands_heap w !! this = Some c ->
  BaseCommand_execute this w = (Returned tt, w') ->
  Command_executed_ c = false.
Proof.
  intros Hcmd. unfold BaseCommand_execute.
  rewrite (bind_Returned _ _ _ _ _ (deref_command_Some _ _ _ Hcmd)). cbv beta.
  destruct (Command_executed_ c); [discriminate|reflexivity].
Qed.

(** [undo] of an executed [AddOperationCommand] that holds its operation
    and its account. *)
Lemma BaseCommand_undo_AddOperation w this c created p a old :
  commands_heap w !! this = Some (AddOperation c) ->
  AddOperationCommand.executed_ c = true ->
  AddOperationCommand.createdOperation_ c = Some created ->
  AddOperationCommand.account_ c = Some p ->
  accounts_heap w !! p = Some a ->
  Money.getCurrency (AddOperationCommand.previousBalance_ c) = BankAccount.currency_ a ->
  accountRepo_storage_ w !! BankAccount.id_ a = Some old ->
  exists w' a',
    BaseCommand_undo this w = (Returned tt, w')
    /\ operationRepo_storage_ w'
       = InMemoryRepository.remove (Operation.getId created) (operationRepo_storage_ w)
    /\ accounts_heap w' = <[p := a']> (accounts_heap w)
    /\ BankAccount.balance_ a' = AddOperationCommand.previousBalance_ c
    /\ BankAccount.id_ a' = BankAccount.id_ a
    /\ accountRepo_storage_ w'
       = <[BankAccount.id_ a := p]> (accountRepo_storage_ w).
Proof.
  intros Hcmd Hdone Hcreated Haccount Ha Hcur Hold.
  rewrite (BaseCommand_undo_run _ _ _ Hcmd Hdone).
  unfold AddOperationCommand_doUndo. rewrite Hcreated, Haccount.
  unfold IOperationRepository_remove. mrun.
  set (w2 := set_operationRepo_storage_ _ w).
  assert (Ha2 : accounts_heap w2 !! p = Some a) by exact Ha.
  rewrite (BankAccount_recalculateBalance_run _ _ _ _ Ha2).
  rewrite bool_decide_eq_true_2 by exact Hcur.
  cbn [negb]. cbv iota.
  set (a2 := BankAccount.set_balance_ (AddOperationCommand.previousBalance_ c) a).
  set (a3 := BankAccount.set_updatedAt_ (oracle w2 (oracle_reads w2)) a2).
  set (w3 := touched p a2 w2).
  assert (Ha3 : accounts_heap w3 !! p = Some a3).
  { subst w3. unfold touched. simpl. apply lookup_insert_eq. }
  assert (Hp3 : accountRepo_storage_ w3 !! BankAccount.id_ a3 = Some old)
    by exact Hold.
  destruct (IBankAccountRepository_update_present _ _ _ _ Ha3 Hp3)
    as (w4 & Hupdate & Hs4 & (Hh4 & _ & _ & _ & Ho4 & Hm4 & _) & _).
  rewrite bind_run, Hupdate, assign_command_run.
  cbn [commands_heap set_commands_heap].
  rewrite lookup_insert_eq.
  exists (set_commands_heap
            (<[this := Command_set_executed_ false
                         (AddOperation
                            (AddOperationCommand_set_createdOperation_ None c))]>
               (<[this := AddOperation
                            (AddOperationCommand_set_createdOperation_ None c)]>
                  (commands_heap w4)))
            (set_commands_heap
               (<[this := AddOperation
                            (AddOperationCommand_set_createdOperation_ None c)]>
                  (commands_heap w4)) w4)), a3.
  split; [reflexivity|].
  cbn [operationRepo_storage_ accounts_heap accountRepo_storage_ set_commands_heap].
  rewrite Ho4, Hh4, Hs4.
  split; [reflexivity|]. split; [reflexivity|]. split; [reflexivity|].
  split; reflexivity.
Qed.

(** ** C3: undoing an [AddOperationCommand] *)

(** C3. Let an [AddOperationCommand] be executed, from a state that
    satisfies the repository invariant, and let [execute] return.  The
    command has found the target account [p] under its account id and has
    saved the operation it created.  [undo], called next, returns; it has
    removed that operation from the operation repository, and the balance of
    [p] is again, field by field, the balance [p] had before [execute];
    the repository still holds [p] under the id. *)
Theorem C3_undo_restores_balance_and_removes_operation
    (w : World) (this : loc) (cmd : AddOperationCommand.t) (w1 : World) :
  World_wf w ->
  commands_heap w !! this = Some (AddOperation cmd) ->
  BaseCommand_execute this w = (Returned tt, w1) ->
  exists p a created w2,
    accountRepo_storage_ w !! AddOperationCommand.bankAccountId_ cmd = Some p
    /\ accounts_heap w !! p = Some a
    /\ operationRepo_storage_ w1 !! Operation.getId created = Some created
    /\ BaseCommand_undo this w1 = (Returned tt, w2)
    /\ operationRepo_storage_ w2
       = InMemoryRepository.remove (Operation.getId created) (operationRepo_storage_ w1)
    /\ operationRepo_storage_ w2 !! Operation.getId created = None
    /\ BankAccount.balance_ <$> accounts_heap w2 !! p = Some (BankAccount.balance_ a)
    /\ accountRepo_storage_ w2 !! AddOperationCommand.bankAccountId_ cmd = Some p.
Proof.
  intros Hwf Hcmd Hexec.
  pose proof (BaseCommand_execute_Returned_fresh _ _ _ _ Hcmd Hexec) as Hfresh.
  rewrite (BaseCommand_execute_run _ _ _ Hcmd Hfresh) in Hexec.
  destruct (AddOperationCommand_doExecute this cmd w) as [[[]|e] w'] eqn:Hdo;
    [|discriminate].
  apply (AddOperationCommand_doExecute_Returned _ _ _ _ Hwf) in Hdo
    as (p & a & created & balance & updatedAt & Hp & Ha & Hid & Hinv & _ & _ & _ & _
        & Hheap & Hstore & Hops & Hcmds & _ & _ & Hwf').
  rewrite Hcmds, lookup_insert_eq in Hexec. inversion Hexec; subst w1. clear Hexec.
  set (w1 := set_commands_heap _ w').
  set (a1 := BankAccount.set_updatedAt_ updatedAt (BankAccount.set_balance_ balance a)).
  assert (Hcmd1 : commands_heap w1 !! this
                  = Some (AddOperation
                            (AddOperationCommand.Build (AddOperationCommand.name_ cmd) true
                               (AddOperationCommand.type_ cmd)
                               (AddOperationCommand.bankAccountId_ cmd)
                               (AddOperationCommand.amount_ cmd)
                               (AddOperationCommand.categoryId_ cmd)
                               (AddOperationCommand.description_ cmd)
                               (Some created) (Some p) (BankAccount.balance_ a))))
    by (subst w1; simpl; apply lookup_insert_eq).
  assert (Ha1 : accounts_heap w1 !! p = Some a1)
    by (subst w1; simpl; rewrite Hheap; apply lookup_insert_eq).
  assert (Hold : accountRepo_storage_ w1 !! BankAccount.id_ a1 = Some p)
    by (subst w1 a1; simpl; rewrite Hstore, Hid; exact Hp).
  destruct (BaseCommand_undo_AddOperation _ _ _ created p a1 p Hcmd1 eq_refl eq_refl
              eq_refl Ha1 Hinv Hold)
    as (w2 & a2 & Hundo & Hops2 & Hheap2 & Hbal2 & _ & Hstore2).
  exists p, a, created, w2.
  split; [exact Hp|]. split; [exact Ha|].
  split; [subst w1; simpl; rewrite Hops; apply lookup_insert_eq|].
  split; [exact Hundo|]. split; [exact Hops2|].
  split; [rewrite Hops2; apply lookup_delete_eq|].
  split; [rewrite Hheap2, lookup_insert_eq; simpl; rewrite Hbal2; reflexivity|].
  rewrite Hstore2. subst w1 a1. simpl. rewrite Hstore, Hid.
  rewrite insert_id by exact Hp. exact Hp.
Qed.

Lemma C3_undo_restores_balance_and_removes_operation_witness :
  let a := BankAccount.Build "ACC-A" "A" (Money.Build 100 "RUB") "" true 0 0 "RUB" in
  let w := BuildWorld {[1%positive := a]} {["ACC-A" := 1%positive]} ∅ 60 true ∅ ∅
             {[1%positive := AddOperationCommand_new OperationType_INCOME "ACC-A"
                               (Money.Build 50 "RUB") "CAT-1" "salary"]}
             (fun n => Z.of_nat n) 0 in
  let w1 := (BaseCommand_execute 1%positive w).2 in
  BankAccount.balance_ <$> accounts_heap w1 !! 1%positive = Some (Money.Build 150 "RUB")
  /\ size (operationRepo_storage_ w1) = 1
  /\ exists w2,
       BaseCommand_undo 1%positive w1 = (Returned tt, w2)
       /\ BankAccount.balance_ <$> accounts_heap w2 !! 1%positive
          = Some (Money.Build 100 "RUB")
       /\ operationRepo_storage_ w2 = ∅.
Proof.
  intros a w w1.
  assert (Hwf : World_wf w).
  { apply World_wf_empty_cache; [reflexivity|].
    apply map_Forall_singleton. vm_compute. reflexivity. }
  assert (Hexec : BaseCommand_execute 1%positive w = (Returned tt, w1))
    by (vm_compute; reflexivity).
  split; [vm_compute; reflexivity|]. split; [vm_compute; reflexivity|].
  destruct (C3_undo_restores_balance_and_removes_operation w 1%positive
              (AddOperationCommand.Build "Добавить Операцию" false OperationType_INCOME
                 "ACC-A" (Money.Build 50 "RUB") "CAT-1" "salary" None None Money.default)
              w1 Hwf eq_refl Hexec)
    as (p & a0 & created & w2 & Hp & Ha & _ & Hundo & _ & _ & Hbalance & _).
  vm_compute in Hp. injection Hp as <-.
  vm_compute in Ha. injection Ha as <-.
  exists w2. split; [exact Hundo|]. split; [exact Hbalance|].
  replace w2 with (BaseCommand_undo 1%positive w1).2 by (rewrite Hundo; reflexivity).
  vm_compute. reflexivity.
Defined.

(** ** [BankAccount::transfer] *)

Lemma BankAccount_withdraw_outcome w this a amount :
  accounts_heap w !! this = Some a ->
  BankAccount_withdraw this amount w =
  match withdraw_outcome a amount with
  | Returned balance => (Returned tt, touched this (BankAccount.set_balance_ balance a) w)
  | Thrown e => (Thrown e, w)
  end.
Proof.
  intros Ha. rewrite (BankAccount_withdraw_run _ _ _ _ Ha). unfold withdraw_outcome.
  destruct (negb (BankAccount.isActive_ a)); [reflexivity|].
  destruct (negb (bool_decide _)); [reflexivity|].
  destruct (negb (Money.isPositive amount)); [reflexivity|].
  destruct (Money.lt _ _) as [[]|e]; reflexivity.
Qed.

Lemma BankAccount_deposit_outcome w this a amount :
  accounts_heap w !! this = Some a ->
  BankAccount_deposit this amount w =
  match deposit_outcome a amount with
  | Returned balance => (Returned tt, touched this (BankAccount.set_balance_ balance a) w)
  | Thrown e => (Thrown e, w)
  end.
Proof.
  intros Ha. rewrite (BankAccount_deposit_run _ _ _ _ Ha). unfold deposit_outcome.
  destruct (negb (BankAccount.isActive_ a)); [reflexivity|].
  destruct (negb (bool_decide _)); [reflexivity|].
  destruct (negb (Money.isPositive amount)); [reflexivity|].
  destruct (Money.add _ _); reflexivity.
Qed.

(** A request above the balance is always refused. *)
Lemma withdraw_outcome_short a amount :
  (Money.amount_ (BankAccount.balance_ a) <? Money.amount_ amount)%float = true ->
  is_Returned (withdraw_outcome a amount) = false.
Proof.
  intros Hshort. unfold withdraw_outcome.
  destruct (negb (BankAccount.isActive_ a)); [reflexivity|].
  destruct (negb (bool_decide _)); [reflexivity|].
  destruct (negb (Money.isPositive amount)); [reflexivity|].
  unfold Money.lt. case_bool_decide; [|reflexivity].
  simpl. rewrite Hshort. reflexivity.
Qed.

Lemma withdraw_outcome_insufficient a amount :
  BankAccount.isActive_ a = true ->
  Money.getCurrency amount = BankAccount.currency_ a ->
  Money.isPositive amount = true ->
  Money.currency_ (BankAccount.balance_ a) = BankAccount.currency_ a ->
  (Money.amount_ (BankAccount.balance_ a) <? Money.amount_ amount)%float = true ->
  withdraw_outcome a amount
  = Thrown (InsufficientFundsException (Money.amount_ amount)
              (Money.amount_ (BankAccount.balance_ a))).
Proof.
  intros Hact Hcur Hpos Hinv Hshort. unfold withdraw_outcome.
  rewrite Hact, Hpos, bool_decide_eq_true_2 by exact Hcur. cbn [negb].
  unfold Money.lt. rewrite bool_decide_eq_true_2
    by (unfold Money.getCurrency in Hcur; congruence).
  simpl. rewrite Hshort. reflexivity.
Qed.

(** [transfer] between two live objects (which may be the same object). *)
Lemma BankAccount_transfer_run w this target a b amount :
  accounts_heap w !! this = Some a ->
  accounts_heap w !! target = Some b ->
  BankAccount_transfer this target amount w =
  if negb (BankAccount.isActive_ a) || negb (BankAccount.isActive_ b)
  then (Thrown (DomainException "Both accounts must be active for transfer"), w)
  else if bool_decide (BankAccount.id_ a = BankAccount.id_ b)
  then (Thrown (ValidationException "Cannot transfer to the same account"), w)
  else
    match withdraw_outcome a amount with
    | Thrown e => (Thrown e, w)
    | Returned withdrawn =>
        let w1 := touched this (BankAccount.set_balance_ withdrawn a) w in
        let a1 := BankAccount.set_updatedAt_ (oracle w (oracle_reads w))
                    (BankAccount.set_balance_ withdrawn a) in
        match deposit_outcome b amount with
        | Returned deposited =>
            (Returned tt, touched target (BankAccount.set_balance_ deposited b) w1)
        | Thrown e =>
            match deposit_outcome a1 amount with
            | Returned restored =>
                (Thrown e, touched this (BankAccount.set_balance_ restored a1) w1)
            | Thrown e' => (Thrown e', w1)
            end
        end
    end.
Proof.
  intros Ha Hb. unfold BankAccount_transfer.
  rewrite (bind_Returned _ _ _ _ _ (deref_Some _ _ _ Ha)). cbv beta.
  rewrite (bind_Returned _ _ _ _ _ (deref_Some _ _ _ Hb)). cbv beta.
  destruct (negb (BankAccount.isActive_ a) || negb (BankAccount.isActive_ b));
    [reflexivity|].
  case_bool_decide as Hid; [reflexivity|].
  assert (Hne : this <> target) by (intros ->; congruence).
  rewrite bind_run, (BankAccount_withdraw_outcome _ _ _ _ Ha).
  destruct (withdraw_outcome a amount) as [withdrawn|e]; [|reflexivity].
  cbv zeta. unfold try_catch.
  set (w1 := touched this (BankAccount.set_balance_ withdrawn a) w).
  assert (Hb1 : accounts_heap w1 !! target = Some b).
  { subst w1. unfold touched. simpl. rewrite lookup_insert_ne by exact Hne. exact Hb. }
  assert (Ha1 : accounts_heap w1 !! this
                = Some (BankAccount.set_updatedAt_ (oracle w (oracle_reads w))
                          (BankAccount.set_balance_ withdrawn a))).
  { subst w1. unfold touched. simpl. apply lookup_insert_eq. }
  rewrite (BankAccount_deposit_outcome _ _ _ _ Hb1).
  destruct (deposit_outcome b amount) as [deposited|e]; [reflexivity|].
  rewrite bind_run, (BankAccount_deposit_outcome _ _ _ _ Ha1).
  destruct (deposit_outcome _ amount); reflexivity.
Qed.

(** ** [TransferCommand] *)

(** [doExecute] up to the transfer between the two objects: both lookups
    answer from the storage, and an exception of [transfer] leaves
    [doExecute] at once. *)
Lemma TransferCommand_doExecute_prefix w this cmd pa pb :
  World_wf w ->
  accountRepo_storage_ w !! TransferCommand.fromAccountId_ cmd = Some pa ->
  accountRepo_storage_ w !! TransferCommand.toAccountId_ cmd = Some pb ->
  exists w2,
    same_objects w w2
    /\ World_wf w2
    /\ forall e w3,
         BankAccount_transfer pa pb (TransferCommand.amount_ cmd) w2 = (Thrown e, w3) ->
         TransferCommand_doExecute this cmd w = (Thrown e, w3).
Proof.
  intros Hwf Hpa Hpb. unfold TransferCommand_doExecute.
  destruct (IBankAccountRepository_findById_wf w (TransferCommand.fromAccountId_ cmd) Hwf)
    as (w1 & Hfind1 & Hsame1 & Hwf1).
  destruct (IBankAccountRepository_findById_wf w1 (TransferCommand.toAccountId_ cmd) Hwf1)
    as (w2 & Hfind2 & Hsame2 & Hwf2).
  exists w2. split; [exact (same_objects_trans _ _ _ Hsame1 Hsame2)|].
  split; [exact Hwf2|]. intros e w3 Htransfer.
  rewrite bind_run, Hfind1, bind_run, Hfind2.
  destruct Hsame1 as (_ & -> & _). rewrite Hpa, Hpb.
  rewrite bind_run, Htransfer. reflexivity.
Qed.

Lemma Money_new_same_currency x y c m :
  Money.new x c = Returned m -> Money.new y c = Returned (Money.Build y c).
Proof.
  unfold Money.new. destruct (Validator.validateNotEmpty _ _); [|discriminate].
  simpl. destruct (Validator.validateMaxLength _ _ _); [|discriminate].
  reflexivity.
Qed.

(** After a withdrawal, the deposit of the same amount into the same account
    is accepted. *)
Lemma deposit_outcome_after_withdraw a amount withdrawn t :
  withdraw_outcome a amount = Returned withdrawn ->
  deposit_outcome (BankAccount.set_updatedAt_ t (BankAccount.set_balance_ withdrawn a))
    amount
  = Returned (Money.Build (Money.amount_ withdrawn + Money.amount_ amount)%float
                (Money.currency_ withdrawn))
  /\ withdrawn
     = Money.Build (Money.amount_ (BankAccount.balance_ a) - Money.amount_ amount)%float
         (Money.currency_ (BankAccount.balance_ a)).
Proof.
  unfold withdraw_outcome, deposit_outcome. simpl.
  destruct (BankAccount.isActive_ a); [|discriminate]. cbn [negb].
  case_bool_decide as Hcur; [|discriminate]. cbn [negb].
  destruct (Money.isPositive amount); [|discriminate]. cbn [negb].
  unfold Money.lt. case_bool_decide as Hbal; [|discriminate]. simpl.
  destruct (_ <? _)%float; [discriminate|].
  intros Hsub. pose proof (Money_subtract_Returned _ _ _ Hsub) as [_ ->].
  split; [|reflexivity].
  unfold Money.subtract in Hsub. rewrite bool_decide_eq_true_2 in Hsub by exact Hbal.
  unfold Money.add. simpl. rewrite bool_decide_eq_true_2 by exact Hbal.
  apply (Money_new_same_currency _ _ _ _ Hsub).
Qed.

(** ** A transfer that returns, and the two updates that follow it

    [doExecute] and [doUndo] of [TransferCommand] both call [transfer]
    between the two stored objects and then [update] on the source and on
    the destination of the command.  [src] and [dst] are the two objects in
    the direction of the call, [p] and [q] the same two in the order of the
    updates. *)
Lemma transfer_and_update_Returned w src dst p q a b amount w1 :
  World_wf w ->
  accounts_heap w !! src = Some a ->
  accounts_heap w !! dst = Some b ->
  accountRepo_storage_ w !! BankAccount.id_ a = Some src ->
  accountRepo_storage_ w !! BankAccount.id_ b = Some dst ->
  (p = src /\ q = dst) \/ (p = dst /\ q = src) ->
  BankAccount_transfer src dst amount w = (Returned tt, w1) ->
  exists withdrawn deposited ta tb w2 w3,
    BankAccount.isActive_ a = true
    /\ BankAccount.isActive_ b = true
    /\ BankAccount.id_ a <> BankAccount.id_ b
    /\ withdraw_outcome a amount = Returned withdrawn
    /\ deposit_outcome b amount = Returned deposited
    /\ IBankAccountRepository_update p w1 = (Returned tt, w2)
    /\ IBankAccountRepository_update q w2 = (Returned tt, w3)
    /\ accounts_heap w3
       = <[dst := BankAccount.set_updatedAt_ tb (BankAccount.set_balance_ deposited b)]>
           (<[src := BankAccount.set_updatedAt_ ta
                       (BankAccount.set_balance_ withdrawn a)]> (accounts_heap w))
    /\ accountRepo_storage_ w3 = accountRepo_storage_ w
    /\ useCaching w3 = useCaching w
    /\ categoryRepo_storage_ w3 = categoryRepo_storage_ w
    /\ operationRepo_storage_ w3 = operationRepo_storage_ w
    /\ commands_heap w3 = commands_heap w
    /\ World_wf w3.
Proof.
  intros [Hkeys Hok] Ha Hb Hsrc Hdst Horder.
  rewrite (BankAccount_transfer_run _ _ _ _ _ _ Ha Hb).
  destruct (BankAccount.isActive_ a); [|discriminate].
  destruct (BankAccount.isActive_ b); [|discriminate].
  cbn [negb orb]. case_bool_decide as Hid; [discriminate|].
  destruct (withdraw_outcome a amount) as [withdrawn|e]; [|discriminate].
  cbv zeta.
  destruct (deposit_outcome b amount) as [deposited|e];
    [|destruct (deposit_outcome _ amount); discriminate].
  assert (Hne : src <> dst) by (intros ->; congruence).
  set (a1 := BankAccount.set_updatedAt_ (oracle w (oracle_reads w))
               (BankAccount.set_balance_ withdrawn a)).
  set (w0 := touched src (BankAccount.set_balance_ withdrawn a) w).
  set (b1 := BankAccount.set_updatedAt_ (oracle w0 (oracle_reads w0))
               (BankAccount.set_balance_ deposited b)).
  intros Hw1. injection Hw1 as <-.
  set (w1' := touched dst (BankAccount.set_balance_ deposited b) w0).
  assert (Hh1 : accounts_heap w1' = <[dst := b1]> (<[src := a1]> (accounts_heap w)))
    by reflexivity.
  assert (Ha1 : accounts_heap w1' !! src = Some a1).
  { rewrite Hh1, lookup_insert_ne by (intros H; apply Hne; symmetry; exact H).
    apply lookup_insert_eq. }
  assert (Hb1 : accounts_heap w1' !! dst = Some b1)
    by (rewrite Hh1; apply lookup_insert_eq).
  assert (Hok1 : cache_ok w1')
    by (eapply (cache_ok_same w); [| | |exact Hok]; reflexivity).
  assert (Hupd : forall x c w2,
             accounts_heap w2 = accounts_heap w1' ->
             accountRepo_storage_ w2 = accountRepo_storage_ w ->
             accounts_heap w1' !! x = Some c ->
             accountRepo_storage_ w !! BankAccount.id_ c = Some x ->
             exists w3, IBankAccountRepository_update x w2 = (Returned tt, w3)
                        /\ accounts_heap w3 = accounts_heap w1'
                        /\ accountRepo_storage_ w3 = accountRepo_storage_ w
                        /\ same_but_accountRepo w2 w3
                        /\ (cache_ok w2 -> cache_ok w3)).
  { intros x c w2 Hh2 Hs2 Hc Hx.
    assert (Hc2 : accounts_heap w2 !! x = Some c) by (rewrite Hh2; exact Hc).
    assert (Hx2 : accountRepo_storage_ w2 !! BankAccount.id_ c = Some x)
      by (rewrite Hs2; exact Hx).
    destruct (IBankAccountRepository_update_present _ _ _ _ Hc2 Hx2)
      as (w3 & Hrun & Hs3 & Hsame & Hco).
    exists w3. split; [exact Hrun|].
    split; [rewrite (proj1 Hsame); exact Hh2|].
    split; [rewrite Hs3, Hs2; apply insert_id; exact Hx|].
    split; [exact Hsame|exact Hco]. }
  assert (Hfirst : exists c, accounts_heap w1' !! p = Some c
                             /\ accountRepo_storage_ w !! BankAccount.id_ c = Some p).
  { destruct Horder as [[-> _]|[-> _]]; [exists a1|exists b1]; split; assumption. }
  assert (Hsecond : exists c, accounts_heap w1' !! q = Some c
                              /\ accountRepo_storage_ w !! BankAccount.id_ c = Some q).
  { destruct Horder as [[_ ->]|[_ ->]]; [exists b1|exists a1]; split; assumption. }
  destruct Hfirst as (c1 & Hc1 & Hp). destruct Hsecond as (c2 & Hc2 & Hq).
  destruct (Hupd p c1 w1' eq_refl eq_refl Hc1 Hp)
    as (w2 & Hrun2 & Hh2 & Hs2 & (_ & _ & Hu2 & Hg2 & Ho2 & Hm2 & _) & Hco2).
  destruct (Hupd q c2 w2 Hh2 Hs2 Hc2 Hq)
    as (w3 & Hrun3 & Hh3 & Hs3 & (_ & _ & Hu3 & Hg3 & Ho3 & Hm3 & _) & Hco3).
  exists withdrawn, deposited, (oracle w (oracle_reads w)),
    (oracle w0 (oracle_reads w0)), w2, w3.
  split; [reflexivity|]. split; [reflexivity|]. split; [exact Hid|].
  split; [reflexivity|]. split; [reflexivity|].
  split; [exact Hrun2|]. split; [exact Hrun3|].
  split; [rewrite Hh3; exact Hh1|]. split; [exact Hs3|].
  split; [rewrite Hu3, Hu2; reflexivity|].
  split; [rewrite Hg3, Hg2; reflexivity|].
  split; [rewrite Ho3, Ho2; reflexivity|].
  split; [rewrite Hm3, Hm2; reflexivity|].
  split; [|exact (Hco3 (Hco2 Hok1))].
  intros id x. rewrite Hs3, Hh3, Hh1. intros Hx.
  destruct (Hkeys _ _ Hx) as (c & Hc & Hcid).
  destruct (decide (x = dst)) as [->|Hxd].
  { rewrite lookup_insert_eq. exists b1. split; [reflexivity|].
    rewrite Hb in Hc. inversion Hc. subst c. exact Hcid. }
  rewrite lookup_insert_ne by (intros H; apply Hxd; symmetry; exact H).
  destruct (decide (x = src)) as [->|Hxs].
  { rewrite lookup_insert_eq. exists a1. split; [reflexivity|].
    rewrite Ha in Hc. inversion Hc. subst c. exact Hcid. }
  rewrite lookup_insert_ne by (intros H; apply Hxs; symmetry; exact H).
  exists c. split; assumption.
Qed.

(** The category "Перевод" is looked up, and created when it is missing:
    the step touches the category repository and the readings only. *)
Lemma transfer_category_frame (found : option Category.t) w r w' :
  (match found with
   | Some category => mret category
   | None =>
       category ← EntityFactory_createCategory CategoryType_EXPENSE
                    "Перевод" "Переводы между счетами";
       ICategoryRepository_save category;;
       mret category
   end : M Category.t) w = (r, w') ->
  accounts_heap w' = accounts_heap w
  /\ accountRepo_storage_ w' = accountRepo_storage_ w
  /\ accountRepo_cache_ w' = accountRepo_cache_ w
  /\ useCaching w' = useCaching w
  /\ operationRepo_storage_ w' = operationRepo_storage_ w
  /\ commands_heap w' = commands_heap w.
Proof.
  destruct found as [category|].
  - intros H. injection H as _ <-. repeat split.
  - rewrite bind_run.
    destruct (EntityFactory_createCategory _ _ _ w) as [[category|e] w1] eqn:Hcreate;
      apply reads_only_createCategory in Hcreate;
      set (n := oracle_reads w1) in Hcreate; clearbody n; subst w1.
    + unfold ICategoryRepository_save. mrun. intros H. injection H as _ <-.
      repeat split.
    + intros H. injection H as _ <-. repeat split.
Qed.



(** After a deposit, the withdrawal of the same amount from the same
    account is decided by the comparison with the new balance alone. *)
Lemma withdraw_outcome_after_deposit b amount deposited t :
  deposit_outcome b amount = Returned deposited ->
  withdraw_outcome (BankAccount.set_updatedAt_ t (BankAccount.set_balance_ deposited b))
    amount
  = (if (Money.amount_ deposited <? Money.amount_ amount)%float
     then Thrown (InsufficientFundsException (Money.amount_ amount)
                    (Money.amount_ deposited))
     else Returned (Money.Build (Money.amount_ deposited - Money.amount_ amount)%float
                      (Money.currency_ deposited)))
  /\ deposited
     = Money.Build (Money.amount_ (BankAccount.balance_ b) + Money.amount_ amount)%float
         (Money.currency_ (BankAccount.balance_ b)).
Proof.
  unfold withdraw_outcome, deposit_outcome. simpl.
  destruct (BankAccount.isActive_ b); [|discriminate]. cbn [negb].
  case_bool_decide as Hcur; [|discriminate]. cbn [negb].
  destruct (Money.isPositive amount); [|discriminate]. cbn [negb].
  intros Hadd. pose proof (Money_add_Returned _ _ _ Hadd) as [Hbal ->].
  split; [|reflexivity].
  unfold Money.lt. simpl. rewrite bool_decide_eq_true_2 by exact Hbal. simpl.
  destruct (_ <? _)%float; [reflexivity|].
  unfold Money.add in Hadd. rewrite bool_decide_eq_true_2 in Hadd by exact Hbal.
  unfold Money.subtract. simpl. rewrite bool_decide_eq_true_2 by exact Hbal.
  apply (Money_new_same_currency _ _ _ _ Hadd).
Qed.

Lemma deposit_outcome_positive b amount deposited :
  deposit_outcome b amount = Returned deposited ->
  (0 <? Money.amount_ amount)%float = true.
Proof.
  unfold deposit_outcome.
  destruct (negb (BankAccount.isActive_ b)); [discriminate|].
  destruct (negb (bool_decide _)); [discriminate|].
  unfold Money.isPositive. destruct (0 <? Money.amount_ amount)%float; [reflexivity|].
  discriminate.
Qed.


(** ** C1: [BalanceReconciliationService::checkAccountBalance] *)




(** ** Exact binary64 sums

    Rounding, as [SpecFloat] defines it, returns a float unchanged however
    its value is written; so a subtraction whose exact result is a float
    commits no error. *)

Lemma binary_round_aux_canonical s m e :
  canonical_mantissa prec emax m e = true ->
  (e <=? emax - prec)%Z = true ->
  binary_round_aux prec emax s (Zpos m) e loc_Exact = S754_finite s m e.
Proof.
  intros Hcan Hmax. unfold binary_round_aux, shr_fexp.
  unfold canonical_mantissa in Hcan. apply Z.eqb_eq in Hcan.
  cbn [Zdigits2 shr_record_of_loc]. rewrite Hcan, Z.sub_diag.
  cbn [shr shr_m loc_of_shr_record round_nearest_even Zdigits2 shr_record_of_loc].
  rewrite Hcan, Z.sub_diag. cbn [shr shr_m]. rewrite Hmax. reflexivity.
Qed.

Lemma iter_pos_iter {A} (f : A -> A) n x : SpecFloat.iter_pos f n x = Pos.iter f x n.
Proof.
  revert x. induction n as [n IH|n IH|]; intros x; simpl.
  - rewrite !IH, <- !Pos.iter_swap. reflexivity.
  - rewrite !IH. reflexivity.
  - reflexivity.
Qed.

Lemma iter_pos_shr_1 n m :
  SpecFloat.iter_pos shr_1 n (Build_shr_record (Zpos (Pos.iter xO m n)) false false)
  = Build_shr_record (Zpos m) false false.
Proof.
  rewrite iter_pos_iter. revert m. induction n as [|n IH] using Pos.peano_ind; intros m.
  - reflexivity.
  - rewrite Pos.iter_succ, Pos.iter_succ_r, IH. reflexivity.
Qed.

Lemma digits2_pos_iter_xO m n :
  Zpos (digits2_pos (Pos.iter xO m n)) = (Zpos (digits2_pos m) + Zpos n)%Z.
Proof.
  induction n as [|n IH] using Pos.peano_ind.
  - simpl. lia.
  - rewrite Pos.iter_succ. cbn [digits2_pos]. lia.
Qed.

Lemma binary_round_shifted s m e n :
  canonical_mantissa prec emax m (e + Zpos n) = true ->
  (e + Zpos n <=? emax - prec)%Z = true ->
  binary_round prec emax s (Pos.iter xO m n) e = S754_finite s m (e + Zpos n).
Proof.
  intros Hcan Hmax. pose proof Hcan as Hfexp.
  unfold canonical_mantissa in Hfexp. apply Z.eqb_eq in Hfexp.
  assert (Hshift : fexp prec emax (Zpos (digits2_pos (Pos.iter xO m n)) + e)
                   = (e + Zpos n)%Z).
  { rewrite digits2_pos_iter_xO, <- Hfexp at 1. f_equal. lia. }
  unfold binary_round. rewrite Hshift. unfold shl_align.
  replace (e + Zpos n - e)%Z with (Zpos n) by lia.
  unfold binary_round_aux, shr_fexp. cbn [Zdigits2 shr_record_of_loc].
  rewrite Hshift. replace (e + Zpos n - e)%Z with (Zpos n) by lia.
  cbn [shr]. rewrite iter_pos_shr_1.
  cbn [shr_m loc_of_shr_record round_nearest_even Zdigits2 shr_record_of_loc].
  rewrite Hfexp, Z.sub_diag. cbn [shr shr_m]. rewrite Hmax. reflexivity.
Qed.

Lemma binary_round_canonical s m e :
  canonical_mantissa prec emax m e = true ->
  (e <=? emax - prec)%Z = true ->
  binary_round prec emax s m e = S754_finite s m e.
Proof.
  intros Hcan Hmax. pose proof Hcan as Hfexp.
  unfold canonical_mantissa in Hfexp. apply Z.eqb_eq in Hfexp.
  unfold binary_round. rewrite Hfexp. unfold shl_align. rewrite Z.sub_diag.
  apply binary_round_aux_canonical; assumption.
Qed.

Lemma shl_align_fst m e e' :
  (e' <= e)%Z -> Zpos (fst (shl_align m e e')) = (Zpos m * 2 ^ (e - e'))%Z.
Proof.
  intros Hle. unfold shl_align.
  destruct (e' - e)%Z as [|d|d] eqn:Hd; cbn [fst].
  - replace (e - e')%Z with 0%Z by lia. lia.
  - lia.
  - rewrite iter_xO_correct. replace (e - e')%Z with (Zpos d) by lia. reflexivity.
Qed.

(** Rounding any way of writing the value of a float gives the float. *)
Lemma binary_round_exact s m e p e0 :
  canonical_mantissa prec emax m e = true ->
  (e <=? emax - prec)%Z = true ->
  (emin <= e0)%Z ->
  (Zpos p * 2 ^ (e0 - emin) = Zpos m * 2 ^ (e - emin))%Z ->
  binary_round prec emax s p e0 = S754_finite s m e.
Proof.
  intros Hcan Hmax Hmin Hvalue.
  pose proof (canonical_exponent_ge_emin _ _ Hcan) as Hemin.
  destruct (Z.compare_spec e0 e) as [Heq|Hlt|Hgt].
  - subst e0. apply Z.mul_reg_r in Hvalue; [|lia].
    injection Hvalue as ->. apply binary_round_canonical; assumption.
  - destruct (e - e0)%Z as [|n|n] eqn:Hn; try lia.
    replace (e - emin)%Z with (Zpos n + (e0 - emin))%Z in Hvalue by lia.
    rewrite Z.pow_add_r, Z.mul_assoc in Hvalue by lia.
    apply Z.mul_reg_r in Hvalue; [|lia].
    rewrite <- iter_xO_correct in Hvalue. injection Hvalue as ->.
    replace e with (e0 + Zpos n)%Z in Hcan, Hmax |- * by lia.
    apply binary_round_shifted; assumption.
  - destruct (e0 - e)%Z as [|k|k] eqn:Hk; try lia.
    replace (e0 - emin)%Z with (Zpos k + (e - emin))%Z in Hvalue by lia.
    rewrite Z.pow_add_r, Z.mul_assoc in Hvalue by lia.
    apply Z.mul_reg_r in Hvalue; [|lia].
    rewrite <- iter_xO_correct in Hvalue. injection Hvalue as Hm.
    pose proof Hcan as Hfexp. unfold canonical_mantissa in Hfexp.
    apply Z.eqb_eq in Hfexp. rewrite <- Hm, digits2_pos_iter_xO in Hfexp.
    unfold binary_round.
    replace (Zpos (digits2_pos p) + e0)%Z
      with (Zpos (digits2_pos p) + Zpos k + e)%Z by lia.
    rewrite Hfexp. unfold shl_align.
    replace (e - e0)%Z with (Zneg k) by lia. rewrite Hm.
    apply binary_round_aux_canonical; assumption.
Qed.

Lemma binary_normalize_exact s m e z e0 :
  canonical_mantissa prec emax m e = true ->
  (e <=? emax - prec)%Z = true ->
  (emin <= e0)%Z ->
  (z * 2 ^ (e0 - emin) = cond_Zopp s (Zpos m * 2 ^ (e - emin)))%Z ->
  binary_normalize prec emax z e0 false = S754_finite s m e.
Proof.
  intros Hcan Hmax Hmin Hvalue.
  pose proof (canonical_exponent_ge_emin _ _ Hcan) as Hemin.
  assert (0 < 2 ^ (e0 - emin))%Z by (apply Z.pow_pos_nonneg; lia).
  assert (0 < 2 ^ (e - emin))%Z by (apply Z.pow_pos_nonneg; lia).
  destruct z as [|p|p], s; cbn [cond_Zopp binary_normalize] in *; try nia.
  - apply binary_round_exact; assumption.
  - apply binary_round_exact; try assumption. lia.
Qed.

(** Two floats of the same value are the same float. *)
Lemma SF_value_inj sx mx ex sy my ey :
  valid_binary (S754_finite sx mx ex) = true ->
  valid_binary (S754_finite sy my ey) = true ->
  SF_value (S754_finite sx mx ex) = SF_value (S754_finite sy my ey) ->
  S754_finite sx mx ex = S754_finite sy my ey.
Proof.
  cbn [valid_binary SF_value]. unfold bounded.
  intros [HXc HXm]%andb_prop [HYc HYm]%andb_prop Hvalue.
  injection Hvalue as Hvalue.
  pose proof (canonical_exponent_ge_emin _ _ HXc) as HXmin.
  rewrite <- (binary_normalize_exact sx mx ex (cond_Zopp sx (Zpos mx * 2 ^ (ex - emin)))
                emin HXc HXm) by (rewrite ?Z.sub_diag, ?Z.mul_1_r; lia).
  rewrite Hvalue.
  apply binary_normalize_exact; try assumption;
    [lia|rewrite Z.sub_diag, Z.mul_1_r; reflexivity].
Qed.

Lemma valid_finite_pow s m e :
  valid_binary (S754_finite s m e) = true ->
  canonical_mantissa prec emax m e = true
  /\ (e <=? emax - prec)%Z = true
  /\ (emin <= e)%Z
  /\ (0 < 2 ^ (e - emin))%Z.
Proof.
  cbn [valid_binary]. unfold bounded. intros [Hc Hm]%andb_prop.
  pose proof (canonical_exponent_ge_emin _ _ Hc).
  repeat split; try assumption. apply Z.pow_pos_nonneg; lia.
Qed.

(** Subtraction is exact whenever the difference is a float. *)
Lemma SFsub_exact Z Y X vz vy vx :
  valid_binary Z = true -> valid_binary Y = true -> valid_binary X = true ->
  SF_value Z = Some vz -> SF_value Y = Some vy -> SF_value X = Some vx ->
  (vz - vy = vx)%Z ->
  match X with
  | S754_finite _ _ _ => SF64sub Z Y = X
  | _ => exists s, SF64sub Z Y = S754_zero s
  end.
Proof.
  intros HZ HY HX HvZ HvY HvX Hdiff.
  destruct Z as [sz| | |sz mz ez]; try discriminate HvZ;
    destruct Y as [sy| | |sy my ey]; try discriminate HvY;
    injection HvZ as <-; injection HvY as <-;
    destruct X as [sx| | |sx mx ex]; try discriminate HvX; injection HvX as <-;
    try (apply valid_finite_pow in HX as HX'; destruct HX' as (HXc & HXm & HXmin & HXp));
    try (apply valid_finite_pow in HY as HY'; destruct HY' as (HYc & HYm & HYmin & HYp));
    try (apply valid_finite_pow in HZ as HZ'; destruct HZ' as (HZc & HZm & HZmin & HZp)).
  - destruct sz, sy; eexists; reflexivity.
  - exfalso. destruct sx; cbn [cond_Zopp] in Hdiff; lia.
  - exfalso. destruct sy; cbn [cond_Zopp] in Hdiff; lia.
  - cbn [SF64sub SFsub]. symmetry. apply SF_value_inj; [assumption|exact HY|].
    cbn [SF_value]. f_equal. rewrite <- Hdiff.
    destruct sy; cbn [cond_Zopp negb]; lia.
  - exfalso. destruct sz; cbn [cond_Zopp] in Hdiff; lia.
  - cbn [SF64sub SFsub]. apply SF_value_inj; [assumption|assumption|].
    cbn [SF_value]. f_equal. lia.
  - unfold SF64sub, SFsub. set (e0 := Z.min ez ey).
    rewrite !shl_align_fst by (subst e0; lia).
    assert (0 < 2 ^ (e0 - emin))%Z by (apply Z.pow_pos_nonneg; subst e0; lia).
    assert (Hvalue : ((cond_Zopp sz (Zpos mz * 2 ^ (ez - e0))
                       - cond_Zopp sy (Zpos my * 2 ^ (ey - e0))) * 2 ^ (e0 - emin)
                      = 0)%Z).
    { rewrite <- Hdiff.
      replace (ez - emin)%Z with ((ez - e0) + (e0 - emin))%Z by lia.
      replace (ey - emin)%Z with ((ey - e0) + (e0 - emin))%Z by lia.
      rewrite !Z.pow_add_r by (subst e0; lia).
      destruct sz, sy; cbn [cond_Zopp]; lia. }
    match type of Hvalue with (?d * _ = 0)%Z => assert (Hd : d = 0%Z) by nia end.
    rewrite Hd. exists false. reflexivity.
  - unfold SF64sub, SFsub. set (e0 := Z.min ez ey).
    rewrite !shl_align_fst by (subst e0; lia).
    apply binary_normalize_exact; try assumption; [subst e0; lia|].
    rewrite <- Hdiff.
    replace (ez - emin)%Z with ((ez - e0) + (e0 - emin))%Z by lia.
    replace (ey - emin)%Z with ((ey - e0) + (e0 - emin))%Z by lia.
    rewrite !Z.pow_add_r by (subst e0; lia).
    destruct sz, sy; cbn [cond_Zopp]; lia.
Qed.

Lemma SF_value_valid_sub_zero D X v :
  valid_binary D = true -> valid_binary X = true ->
  SF_value D = Some v -> SF_value X = Some v ->
  exists s, SF64sub D X = S754_zero s.
Proof.
  intros HD HX HvD HvX.
  apply (SFsub_exact D X (S754_zero false) v v 0%Z HD HX eq_refl HvD HvX eq_refl).
  lia.
Qed.

Lemma SFeqb_same_value D X v :
  valid_binary D = true -> valid_binary X = true ->
  SF_value D = Some v -> SF_value X = Some v ->
  SFeqb D X = true.
Proof.
  intros HD HX HvD HvX.
  destruct D as [sd| | |sd md ed]; try discriminate HvD;
    destruct X as [sx| | |sx mx ex]; try discriminate HvX.
  - reflexivity.
  - exfalso. apply valid_finite_pow in HX as (_ & _ & _ & Hp).
    injection HvD as <-. injection HvX as HvX.
    destruct sx; cbn [cond_Zopp] in HvX; lia.
  - exfalso. apply valid_finite_pow in HD as (_ & _ & _ & Hp).
    injection HvX as <-. injection HvD as HvD.
    destruct sd; cbn [cond_Zopp] in HvD; lia.
  - rewrite (SF_value_inj sd md ed sx mx ex HD HX) by congruence.
    unfold SFeqb, SFcompare. rewrite Z.compare_refl.
    change (Pos.compare_cont Eq mx mx) with (mx ?= mx)%positive.
    rewrite Pos.compare_refl. destruct sx; reflexivity.
Qed.

(** When the sum of [a] and [b] is exact, subtracting [b] from it gives
    [a]. *)
Lemma add_sub_exact (a b : float) :
  exact_sum a b = true ->
  (a + b - b =? a)%float = true
  /\ (abs (a + b - b - a) <? Money.epsilon)%float = true.
Proof.
  unfold exact_sum.
  destruct (SF_value (Prim2SF a)) as [va|] eqn:Ha; [|discriminate].
  destruct (SF_value (Prim2SF b)) as [vb|] eqn:Hb; [|discriminate].
  destruct (SF_value (Prim2SF (a + b))) as [vz|] eqn:Hz; [|discriminate].
  intros Hsum%Z.eqb_eq.
  assert (Hd : SF_value (Prim2SF (a + b - b)) = Some va).
  { rewrite sub_spec.
    pose proof (SFsub_exact _ _ _ vz vb va (Prim2SF_valid (a + b)) (Prim2SF_valid b)
                  (Prim2SF_valid a) Hz Hb Ha ltac:(lia)) as Hsub.
    destruct (Prim2SF a) as [sa| | |sa ma ea]; try discriminate Ha.
    - destruct Hsub as [s ->]. exact Ha.
    - rewrite Hsub. exact Ha. }
  split.
  - rewrite FloatAxioms.eqb_spec.
    apply (SFeqb_same_value _ _ va); auto using Prim2SF_valid.
  - rewrite ltb_spec, abs_spec, sub_spec.
    destruct (SF_value_valid_sub_zero _ _ va (Prim2SF_valid (a + b - b))
                (Prim2SF_valid a) Hd Ha) as [s ->].
    vm_compute. reflexivity.
Qed.

(** ** Rounding error *)

Lemma shr_1_m x : (0 <= shr_m x)%Z -> shr_m (shr_1 x) = (shr_m x / 2)%Z.
Proof.
  destruct x as [[|[p|p|]|p] r s]; cbn [shr_1 shr_m]; intros H; try lia.
  - reflexivity.
  - rewrite Pos2Z.inj_xI. apply (Z.div_unique _ _ _ 1); lia.
  - rewrite Pos2Z.inj_xO. apply (Z.div_unique _ _ _ 0); lia.
  - reflexivity.
Qed.

Lemma shr_m_iter n x :
  (0 <= shr_m x)%Z ->
  shr_m (SpecFloat.iter_pos shr_1 n x) = (shr_m x / 2 ^ Zpos n)%Z.
Proof.
  intros Hx. rewrite iter_pos_iter.
  induction n as [|n IH] using Pos.peano_ind.
  - cbn [Pos.iter]. rewrite shr_1_m by exact Hx. reflexivity.
  - rewrite Pos.iter_succ, shr_1_m.
    + rewrite IH, Pos2Z.inj_succ, Z.pow_succ_r by lia.
      rewrite Z.div_div by lia. f_equal. lia.
    + rewrite IH. apply Z.div_pos; lia.
Qed.

Lemma round_nearest_even_bounds q l :
  (q <= round_nearest_even q l <= q + 1)%Z.
Proof.
  destruct l as [|[]]; cbn [round_nearest_even]; try lia.
  destruct (Z.even q); lia.
Qed.

(** The number of digits, from a bound. *)
Lemma digits2_pos_le p x y :
  (0 <= x)%Z -> (Zpos p * 2 ^ x < 2 ^ y)%Z -> (Zpos (digits2_pos p) + x <= y)%Z.
Proof.
  intros Hx Hlt. pose proof (digits2_pos_bounds p) as [Hlow _].
  destruct (Z_le_gt_dec (Zpos (digits2_pos p) + x) y) as [|Hgt]; [assumption|exfalso].
  assert (2 ^ y <= 2 ^ (Zpos (digits2_pos p) - 1 + x))%Z
    by (apply Z.pow_le_mono_r; lia).
  rewrite Z.pow_add_r in H by lia.
  assert (0 < 2 ^ x)%Z by (apply Z.pow_pos_nonneg; lia).
  nia.
Qed.

Lemma div_bounds a b : (0 < b)%Z -> (a / b * b <= a < (a / b + 1) * b)%Z.
Proof.
  intros Hb. pose proof (Z.mul_div_le a b Hb). pose proof (Z.mul_succ_div_gt a b Hb).
  lia.
Qed.

(** The second shift of [binary_round_aux], on a mantissa that is not
    negative: a division by a power of two. *)
Lemma shr_fexp_m q e :
  (0 <= q)%Z ->
  let k := Z.max 0 (fexp prec emax (Zdigits2 q + e) - e) in
  shr_fexp prec emax q e loc_Exact
  = (fst (shr_fexp prec emax q e loc_Exact), (e + k)%Z)
  /\ shr_m (fst (shr_fexp prec emax q e loc_Exact)) = (q / 2 ^ k)%Z.
Proof.
  intros Hq k. unfold shr_fexp, shr. cbn [shr_record_of_loc]. subst k.
  destruct (fexp prec emax (Zdigits2 q + e) - e)%Z as [|n|n]; cbn [fst].
  - rewrite Z.add_0_r, Z.div_1_r. split; reflexivity.
  - rewrite shr_m_iter by exact Hq. rewrite Z.max_r by lia. split; reflexivity.
  - rewrite Z.max_l by lia. rewrite Z.add_0_r, Z.div_1_r. split; reflexivity.
Qed.

Lemma binary_round_error s p e M :
  (emin <= e)%Z ->
  (emin + prec <= M)%Z ->
  (M < emax)%Z ->
  (Zpos p * 2 ^ (e - emin) < 2 ^ (M - emin))%Z ->
  exists v,
    SF_value (binary_round prec emax s p e) = Some v
    /\ (Z.abs (v - cond_Zopp s (Zpos p * 2 ^ (e - emin)))
        <= 3 * 2 ^ (M - prec - emin))%Z.
Proof.
  intros Hmin HM Hmax Hlt.
  assert (Hprec : (0 < prec)%Z) by reflexivity.
  assert (Hemax : (emax - prec = 971)%Z) by reflexivity.
  pose proof (digits2_pos_le p (e - emin) (M - emin) ltac:(lia) Hlt) as Hdigits.
  set (e1 := fexp prec emax (Zpos (digits2_pos p) + e)).
  assert (He1 : (emin <= e1 <= M - prec)%Z) by (subst e1; unfold fexp; lia).
  set (U := (2 ^ (M - prec - emin))%Z).
  assert (HU : (0 < U)%Z) by (apply Z.pow_pos_nonneg; lia).
  set (E := (2 ^ (e - emin))%Z) in *.
  assert (HE : (0 < E)%Z) by (apply Z.pow_pos_nonneg; lia).
  destruct (Z_le_gt_dec e1 e) as [Hle|Hgt].
  - (* the mantissa is shifted to the left, or not at all: no error *)
    assert (exists m, Zpos m = (Zpos p * 2 ^ (e - e1))%Z) as [m Hm].
    { destruct (e - e1)%Z as [|d|d] eqn:Hd; try lia.
      - exists p. lia.
      - exists (Pos.iter xO p d). apply iter_xO_correct. }
    assert (Hcan : canonical_mantissa prec emax m e1 = true).
    { unfold canonical_mantissa. apply Z.eqb_eq.
      assert (Zpos (digits2_pos m) = (Zpos (digits2_pos p) + (e - e1))%Z) as ->.
      { destruct (e - e1)%Z as [|d|d] eqn:Hd; try lia.
        - replace m with p by lia. lia.
        - rewrite <- iter_xO_correct in Hm. injection Hm as ->.
          apply digits2_pos_iter_xO. }
      replace (Zpos (digits2_pos p) + (e - e1) + e1)%Z
        with (Zpos (digits2_pos p) + e)%Z by lia.
      reflexivity. }
    rewrite (binary_round_exact s m e1 p e Hcan).
    + eexists. split; [reflexivity|].
      replace (Zpos m * 2 ^ (e1 - emin))%Z with (Zpos p * E)%Z.
      * rewrite Z.sub_diag. cbn [Z.abs]. lia.
      * rewrite Hm, <- Z.mul_assoc, <- Z.pow_add_r by lia.
        subst E. do 2 f_equal. lia.
    + apply Z.leb_le. lia.
    + exact Hmin.
    + rewrite Hm, <- Z.mul_assoc, <- Z.pow_add_r by lia. do 2 f_equal. lia.
  - (* the mantissa is shifted to the right and rounded *)
    destruct (e1 - e)%Z as [|n|n] eqn:Hn; try lia.
    unfold binary_round. fold e1. unfold shl_align. rewrite Hn.
    unfold binary_round_aux.
    assert (Hfirst : shr_fexp prec emax (Zpos p) e loc_Exact
                     = (SpecFloat.iter_pos shr_1 n (Build_shr_record (Zpos p) false false),
                        e1)).
    { unfold shr_fexp. cbn [Zdigits2 shr_record_of_loc]. fold e1. rewrite Hn.
      cbn [shr]. f_equal. lia. }
    rewrite Hfirst.
    set (mrs := SpecFloat.iter_pos shr_1 n (Build_shr_record (Zpos p) false false)).
    assert (Hq : shr_m mrs = (Zpos p / 2 ^ Zpos n)%Z)
      by (subst mrs; rewrite shr_m_iter by (cbn; lia); reflexivity).
    set (q := round_nearest_even (shr_m mrs) (loc_of_shr_record mrs)).
    pose proof (round_nearest_even_bounds (shr_m mrs) (loc_of_shr_record mrs)) as Hq'.
    fold q in Hq'. rewrite Hq in Hq'.
    set (N := (2 ^ Zpos n)%Z) in *.
    assert (HN : (0 < N)%Z) by (apply Z.pow_pos_nonneg; lia).
    set (q0 := (Zpos p / N)%Z) in *.
    assert (Hdiv : (q0 * N <= Zpos p < (q0 + 1) * N)%Z).
    { exact (div_bounds (Zpos p) N HN). }
    assert (Hq0 : (0 <= q0)%Z) by (apply Z.div_pos; lia).
    set (A := (N * E)%Z).
    assert (HA : (2 ^ (e1 - emin))%Z = A).
    { subst A N E. rewrite <- Z.pow_add_r by lia. f_equal. lia. }
    assert (HAU : (0 < A <= U)%Z).
    { split; [subst A; nia|]. rewrite <- HA. apply Z.pow_le_mono_r; lia. }
    assert (HMU : (2 ^ (M - emin))%Z = (2 ^ prec * U)%Z).
    { subst U. rewrite <- Z.pow_add_r by lia. f_equal. lia. }
    destruct (shr_fexp_m q e1 ltac:(lia)) as [Heq Hm]. rewrite Heq. clear Heq.
    set (k := Z.max 0 (fexp prec emax (Zdigits2 q + e1) - e1)) in *.
    rewrite Hm. clear Hm.
    set (K := (2 ^ k)%Z).
    assert (HK : (0 < K)%Z) by (apply Z.pow_pos_nonneg; lia).
    set (m2 := (q / K)%Z).
    assert (Hdiv2 : (m2 * K <= q < (m2 + 1) * K)%Z).
    { exact (div_bounds q K HK). }
    assert (Hm2 : (0 <= m2)%Z) by (apply Z.div_pos; lia).
    assert ((e1 + k <= M - prec + 1)%Z /\ (K * A <= 2 * U)%Z) as [Hk HKA].
    { assert (Hk : (e1 + k <= M - prec + 1)%Z).
      { destruct q as [|Q|Q] eqn:HQ; try lia.
        { subst k. cbn [Zdigits2]. unfold fexp. lia. }
        assert (Zpos Q * 2 ^ (e1 - emin) < 2 ^ (M + 1 - emin))%Z.
        { rewrite HA. replace (M + 1 - emin)%Z with (Z.succ (M - emin)) by lia.
          rewrite Z.pow_succ_r, HMU by lia.
          assert (Zpos Q * A <= Zpos p * E + A)%Z by (subst A; nia).
          assert (0 < 2 ^ prec)%Z by (apply Z.pow_pos_nonneg; lia).
          nia. }
        pose proof (digits2_pos_le Q (e1 - emin) (M + 1 - emin) ltac:(lia) H).
        subst k. cbn [Zdigits2]. unfold fexp. lia. }
      split; [exact Hk|].
      replace (K * A)%Z with (2 ^ (e1 + k - emin))%Z.
      - replace (2 * U)%Z with (2 ^ (M - prec + 1 - emin))%Z.
        + apply Z.pow_le_mono_r; lia.
        + subst U. replace (M - prec + 1 - emin)%Z with (Z.succ (M - prec - emin)) by lia.
          rewrite Z.pow_succ_r by lia. reflexivity.
      - rewrite <- HA. subst K. rewrite <- Z.pow_add_r by lia. f_equal. lia. }
    assert (Hvalue : forall m : Z, m = m2 ->
              (Z.abs (cond_Zopp s (m * 2 ^ (e1 + k - emin)) - cond_Zopp s (Zpos p * E))
               <= 3 * U)%Z).
    { intros m ->.
      replace (2 ^ (e1 + k - emin))%Z with (K * A)%Z
        by (rewrite <- HA; subst K; rewrite <- Z.pow_add_r by lia; f_equal; lia).
      assert (m2 * (K * A) <= Zpos p * E + A)%Z by (subst A; nia).
      assert (Zpos p * E < m2 * (K * A) + K * A + A)%Z by (subst A; nia).
      destruct s; cbn [cond_Zopp]; lia. }
    destruct m2 as [|m|m] eqn:Hm2e; [| |lia].
    + exists 0%Z. split; [reflexivity|].
      specialize (Hvalue 0%Z eq_refl). rewrite Z.mul_0_l in Hvalue.
      destruct s; exact Hvalue.
    + assert (Hfit : (e1 + k <=? emax - prec)%Z = true)
        by (apply Z.leb_le; lia).
      rewrite Hfit. eexists. split; [reflexivity|]. apply Hvalue. reflexivity.
Qed.

Lemma binary_normalize_error z e M :
  (emin <= e)%Z ->
  (emin + prec <= M)%Z ->
  (M < emax)%Z ->
  (Z.abs (z * 2 ^ (e - emin)) < 2 ^ (M - emin))%Z ->
  exists v,
    SF_value (binary_normalize prec emax z e false) = Some v
    /\ (Z.abs (v - z * 2 ^ (e - emin)) <= 3 * 2 ^ (M - prec - emin))%Z.
Proof.
  intros Hmin HM Hmax Hlt.
  assert (0 < 2 ^ (M - prec - emin))%Z by (apply Z.pow_pos_nonneg; lia).
  destruct z as [|p|p]; cbn [binary_normalize].
  - exists 0%Z. split; [reflexivity|]. cbn. lia.
  - apply (binary_round_error false p e M); try assumption.
    rewrite Z.abs_eq in Hlt by lia. exact Hlt.
  - destruct (binary_round_error true p e M) as (v & Hv & Herr); try assumption.
    + rewrite <- Z.abs_opp in Hlt. rewrite Z.abs_eq in Hlt by lia. lia.
    + exists v. split; [exact Hv|]. cbn [cond_Zopp] in Herr. lia.
Qed.

(** The sum and the difference of two finite floats, up to three units in
    the last place of the bound [2 ^ M] on the exact result. *)
Lemma SFadd_error X Y vx vy M :
  valid_binary X = true -> valid_binary Y = true ->
  SF_value X = Some vx -> SF_value Y = Some vy ->
  (emin + prec <= M)%Z ->
  (M < emax)%Z ->
  (Z.abs (vx + vy) < 2 ^ (M - emin))%Z ->
  exists v,
    SF_value (SF64add X Y) = Some v
    /\ (Z.abs (v - (vx + vy)) <= 3 * 2 ^ (M - prec - emin))%Z.
Proof.
  intros HX HY HvX HvY HM Hmax Hlt.
  assert (0 < 2 ^ (M - prec - emin))%Z by (apply Z.pow_pos_nonneg; lia).
  destruct X as [sx| | |sx mx ex]; try discriminate HvX;
    destruct Y as [sy| | |sy my ey]; try discriminate HvY;
    injection HvX as <-; injection HvY as <-.
  - exists 0%Z. split; [destruct sx, sy; reflexivity|]. cbn. lia.
  - eexists. split; [reflexivity|]. rewrite Z.add_0_l, Z.sub_diag. cbn. lia.
  - eexists. split; [reflexivity|]. rewrite Z.add_0_r, Z.sub_diag. cbn. lia.
  - apply valid_finite_pow in HX as (_ & _ & HXmin & _).
    apply valid_finite_pow in HY as (_ & _ & HYmin & _).
    unfold SF64add, SFadd. set (e0 := Z.min ex ey).
    rewrite !shl_align_fst by (subst e0; lia).
    assert (Hvalue : ((cond_Zopp sx (Zpos mx * 2 ^ (ex - e0))
                       + cond_Zopp sy (Zpos my * 2 ^ (ey - e0))) * 2 ^ (e0 - emin)
                      = cond_Zopp sx (Zpos mx * 2 ^ (ex - emin))
                        + cond_Zopp sy (Zpos my * 2 ^ (ey - emin)))%Z).
    { replace (ex - emin)%Z with ((ex - e0) + (e0 - emin))%Z by lia.
      replace (ey - emin)%Z with ((ey - e0) + (e0 - emin))%Z by lia.
      rewrite !Z.pow_add_r by (subst e0; lia).
      destruct sx, sy; cbn [cond_Zopp]; lia. }
    rewrite <- Hvalue in *.
    apply binary_normalize_error; try assumption. subst e0; lia.
Qed.

Lemma SFsub_error X Y vx vy M :
  valid_binary X = true -> valid_binary Y = true ->
  SF_value X = Some vx -> SF_value Y = Some vy ->
  (emin + prec <= M)%Z ->
  (M < emax)%Z ->
  (Z.abs (vx - vy) < 2 ^ (M - emin))%Z ->
  exists v,
    SF_value (SF64sub X Y) = Some v
    /\ (Z.abs (v - (vx - vy)) <= 3 * 2 ^ (M - prec - emin))%Z.
Proof.
  intros HX HY HvX HvY HM Hmax Hlt.
  assert (0 < 2 ^ (M - prec - emin))%Z by (apply Z.pow_pos_nonneg; lia).
  destruct X as [sx| | |sx mx ex]; try discriminate HvX;
    destruct Y as [sy| | |sy my ey]; try discriminate HvY;
    injection HvX as <-; injection HvY as <-.
  - exists 0%Z. split; [destruct sx, sy; reflexivity|]. cbn. lia.
  - eexists. split; [reflexivity|].
    replace (cond_Zopp (negb sy) (Zpos my * 2 ^ (ey - emin)))
      with (0 - cond_Zopp sy (Zpos my * 2 ^ (ey - emin)))%Z
      by (destruct sy; cbn [cond_Zopp negb]; lia).
    rewrite Z.sub_diag. cbn. lia.
  - eexists. split; [reflexivity|]. rewrite Z.sub_0_r, Z.sub_diag. cbn. lia.
  - apply valid_finite_pow in HX as (_ & _ & HXmin & _).
    apply valid_finite_pow in HY as (_ & _ & HYmin & _).
    unfold SF64sub, SFsub. set (e0 := Z.min ex ey).
    rewrite !shl_align_fst by (subst e0; lia).
    assert (Hvalue : ((cond_Zopp sx (Zpos mx * 2 ^ (ex - e0))
                       - cond_Zopp sy (Zpos my * 2 ^ (ey - e0))) * 2 ^ (e0 - emin)
                      = cond_Zopp sx (Zpos mx * 2 ^ (ex - emin))
                        - cond_Zopp sy (Zpos my * 2 ^ (ey - emin)))%Z).
    { replace (ex - emin)%Z with ((ex - e0) + (e0 - emin))%Z by lia.
      replace (ey - emin)%Z with ((ey - e0) + (e0 - emin))%Z by lia.
      rewrite !Z.pow_add_r by (subst e0; lia).
      destruct sx, sy; cbn [cond_Zopp]; lia. }
    rewrite <- Hvalue in *.
    apply binary_normalize_error; try assumption. subst e0; lia.
Qed.

(** Comparing the absolute value of a finite float with a positive float
    compares the values. *)
Lemma SFltb_abs_value T mc ec v :
  valid_binary T = true ->
  valid_binary (S754_finite false mc ec) = true ->
  SF_value T = Some v ->
  (Z.abs v < Zpos mc * 2 ^ (ec - emin))%Z ->
  SFltb (SFabs T) (S754_finite false mc ec) = true.
Proof.
  intros HT HC Hv Hlt.
  destruct T as [st| | |st mt et]; try discriminate Hv; [reflexivity|].
  injection Hv as <-.
  apply valid_finite_pow in HT as (HTc & _ & HTmin & HTp).
  apply valid_finite_pow in HC as (HCc & _ & HCmin & HCp).
  assert (Hlt' : (Zpos mt * 2 ^ (et - emin) < Zpos mc * 2 ^ (ec - emin))%Z)
    by (destruct st; cbn [cond_Zopp] in Hlt; lia).
  unfold SFltb. cbn [SFabs SFcompare].
  destruct (Z.compare_spec et ec) as [Heq|Hl|Hg].
  - subst ec. change (Pos.compare_cont Eq mt mc) with (mt ?= mc)%positive.
    assert (Hm : (mt < mc)%positive) by nia.
    rewrite (proj2 (Pos.compare_lt_iff mt mc) Hm). reflexivity.
  - reflexivity.
  - exfalso.
    pose proof (canonical_digits_normal _ _ HTc ltac:(lia)) as Hdt.
    pose proof (canonical_digits_le _ _ HCc) as Hdc.
    pose proof (digits2_pos_bounds mt) as [Hlow _].
    pose proof (digits2_pos_bounds mc) as [_ Hhigh].
    rewrite Hdt in Hlow.
    assert (2 ^ Zpos (digits2_pos mc) <= 2 ^ prec)%Z
      by (apply Z.pow_le_mono_r; lia).
    replace (et - emin)%Z with ((et - ec) + (ec - emin))%Z in Hlt' by lia.
    rewrite Z.pow_add_r in Hlt' by lia.
    assert (2 ^ 1 <= 2 ^ (et - ec))%Z by (apply Z.pow_le_mono_r; lia).
    change (2 ^ 1)%Z with 2%Z in *.
    change (2 ^ prec)%Z with (2 * 2 ^ (prec - 1))%Z in *.
    rewrite Z.mul_assoc in Hlt'. apply Z.mul_lt_mono_pos_r in Hlt'; [|exact HCp].
    nia.
Qed.

Lemma SFleb_abs_value X mc ec :
  valid_binary X = true ->
  valid_binary (S754_finite false mc ec) = true ->
  SFleb (SFabs X) (S754_finite false mc ec) = true ->
  exists v, SF_value X = Some v /\ (Z.abs v <= Zpos mc * 2 ^ (ec - emin))%Z.
Proof.
  intros HX HC Hle.
  destruct X as [sx|sx| |sx mx ex]; try discriminate Hle.
  - exists 0%Z. split; [reflexivity|]. cbn. lia.
  - apply valid_finite_pow in HX as (HXc & _ & HXmin & HXp).
    apply valid_finite_pow in HC as (HCc & _ & HCmin & HCp).
    eexists. split; [reflexivity|].
    assert (Z.abs (cond_Zopp sx (Zpos mx * 2 ^ (ex - emin))) = Zpos mx * 2 ^ (ex - emin))%Z
      as -> by (destruct sx; cbn [cond_Zopp]; lia).
    unfold SFleb in Hle. cbn [SFabs SFcompare] in Hle.
    destruct (Z.compare_spec ex ec) as [Heq|Hl|Hg]; [| |discriminate Hle].
    + subst ec. change (Pos.compare_cont Eq mx mc) with (mx ?= mc)%positive in Hle.
      destruct (Pos.compare_spec mx mc) as [H|H|H]; [| |discriminate Hle]; nia.
    + pose proof (canonical_digits_normal _ _ HCc ltac:(lia)) as Hdc.
      pose proof (canonical_digits_le _ _ HXc) as Hdx.
      pose proof (digits2_pos_bounds mc) as [Hlow _].
      pose proof (digits2_pos_bounds mx) as [_ Hhigh].
      rewrite Hdc in Hlow.
      assert (2 ^ Zpos (digits2_pos mx) <= 2 ^ prec)%Z
        by (apply Z.pow_le_mono_r; lia).
      replace (ec - emin)%Z with ((ec - ex) + (ex - emin))%Z by lia.
      rewrite Z.pow_add_r, Z.mul_assoc by lia.
      apply Z.mul_le_mono_nonneg_r; [lia|].
      assert (2 ^ 1 <= 2 ^ (ec - ex))%Z by (apply Z.pow_le_mono_r; lia).
      change (2 ^ 1)%Z with 2%Z in *.
      change (2 ^ prec)%Z with (2 * 2 ^ (prec - 1))%Z in *.
      nia.
Qed.

(** For amounts of absolute value at most [2 ^ 38], adding [b] and
    subtracting it again moves [a] by less than epsilon: each of the two
    operations is off by at most three units in the last place of
    [2 ^ 40]. *)
Lemma add_sub_in_range (a b : float) :
  (abs a <=? 0x1p38)%float = true ->
  (abs b <=? 0x1p38)%float = true ->
  (abs (a + b - b - a) <? Money.epsilon)%float = true.
Proof.
  rewrite !leb_spec, !abs_spec, ltb_spec, abs_spec.
  change (Prim2SF 0x1p38) with (S754_finite false 4503599627370496 (-14)).
  change (Prim2SF Money.epsilon) with (S754_finite false 4611686018427388 (-62)).
  intros Ha Hb.
  apply SFleb_abs_value in Ha as (va & Ha & Hva); [|apply Prim2SF_valid|reflexivity].
  apply SFleb_abs_value in Hb as (vb & Hb & Hvb); [|apply Prim2SF_valid|reflexivity].
  set (B := (4503599627370496 * 2 ^ (-14 - emin))%Z) in *.
  set (U := (2 ^ (40 - prec - emin))%Z).
  set (U' := (2 ^ (-10 - prec - emin))%Z).
  assert (HB : (2 ^ (40 - emin) = 4 * B)%Z) by reflexivity.
  assert (HU : (B = 2 ^ 51 * U)%Z) by reflexivity.
  assert (HU8 : (2 ^ (-10 - emin) = 8 * U)%Z) by reflexivity.
  assert (HU' : (U = 2 ^ 50 * U')%Z) by reflexivity.
  assert (HU'0 : (0 < U')%Z) by reflexivity.
  assert (Heps : (6 * U + 3 * U' < 4611686018427388 * 2 ^ (-62 - emin))%Z) by reflexivity.
  destruct (SFadd_error _ _ va vb 40 (Prim2SF_valid a) (Prim2SF_valid b) Ha Hb)
    as (vs & Hs & Hes); [discriminate|reflexivity|rewrite HB; lia|].
  rewrite <- add_spec in Hs. fold U in Hes.
  destruct (SFsub_error _ _ vs vb 40 (Prim2SF_valid (a + b)) (Prim2SF_valid b) Hs Hb)
    as (vd & Hd & Hed); [discriminate|reflexivity|rewrite HB; lia|].
  rewrite <- sub_spec in Hd. fold U in Hed.
  destruct (SFsub_error _ _ vd va (-10) (Prim2SF_valid (a + b - b)) (Prim2SF_valid a)
              Hd Ha)
    as (vt & Ht & Het); [discriminate|reflexivity|rewrite HU8; lia|].
  rewrite <- sub_spec in Ht. fold U' in Het.
  apply (SFltb_abs_value _ 4611686018427388 (-62) vt (Prim2SF_valid _) eq_refl Ht).
  lia.
Qed.

(** The same for subtracting [b] and adding it again. *)
Lemma sub_add_in_range (a b : float) :
  (abs a <=? 0x1p38)%float = true ->
  (abs b <=? 0x1p38)%float = true ->
  (abs (a - b + b - a) <? Money.epsilon)%float = true.
Proof.
  rewrite !leb_spec, !abs_spec, ltb_spec, abs_spec.
  change (Prim2SF 0x1p38) with (S754_finite false 4503599627370496 (-14)).
  change (Prim2SF Money.epsilon) with (S754_finite false 4611686018427388 (-62)).
  intros Ha Hb.
  apply SFleb_abs_value in Ha as (va & Ha & Hva); [|apply Prim2SF_valid|reflexivity].
  apply SFleb_abs_value in Hb as (vb & Hb & Hvb); [|apply Prim2SF_valid|reflexivity].
  set (B := (4503599627370496 * 2 ^ (-14 - emin))%Z) in *.
  set (U := (2 ^ (40 - prec - emin))%Z).
  set (U' := (2 ^ (-10 - prec - emin))%Z).
  assert (HB : (2 ^ (40 - emin) = 4 * B)%Z) by reflexivity.
  assert (HU : (B = 2 ^ 51 * U)%Z) by reflexivity.
  assert (HU8 : (2 ^ (-10 - emin) = 8 * U)%Z) by reflexivity.
  assert (HU' : (U = 2 ^ 50 * U')%Z) by reflexivity.
  assert (HU'0 : (0 < U')%Z) by reflexivity.
  assert (Heps : (6 * U + 3 * U' < 4611686018427388 * 2 ^ (-62 - emin))%Z) by reflexivity.
  destruct (SFsub_error _ _ va vb 40 (Prim2SF_valid a) (Prim2SF_valid b) Ha Hb)
    as (vs & Hs & Hes); [discriminate|reflexivity|rewrite HB; lia|].
  rewrite <- sub_spec in Hs. fold U in Hes.
  destruct (SFadd_error _ _ vs vb 40 (Prim2SF_valid (a - b)) (Prim2SF_valid b) Hs Hb)
    as (vd & Hd & Hed); [discriminate|reflexivity|rewrite HB; lia|].
  rewrite <- add_spec in Hd. fold U in Hed.
  destruct (SFsub_error _ _ vd va (-10) (Prim2SF_valid (a - b + b)) (Prim2SF_valid a)
              Hd Ha)
    as (vt & Ht & Het); [discriminate|reflexivity|rewrite HU8; lia|].
  rewrite <- sub_spec in Ht. fold U' in Het.
  apply (SFltb_abs_value _ 4611686018427388 (-62) vt (Prim2SF_valid _) eq_refl Ht).
  lia.
Qed.

(** ** Rounding is not below a float that the exact value is not below *)

Lemma binary_round_aux_canonical_or_overflow s m e :
  canonical_mantissa prec emax m e = true ->
  binary_round_aux prec emax s (Zpos m) e loc_Exact
  = if (e <=? emax - prec)%Z then S754_finite s m e else S754_infinity s.
Proof.
  intros Hcan. unfold binary_round_aux, shr_fexp.
  unfold canonical_mantissa in Hcan. apply Z.eqb_eq in Hcan.
  cbn [Zdigits2 shr_record_of_loc]. rewrite Hcan, Z.sub_diag.
  cbn [shr shr_m loc_of_shr_record round_nearest_even Zdigits2 shr_record_of_loc].
  rewrite Hcan, Z.sub_diag. cbn [shr shr_m]. reflexivity.
Qed.

Lemma SFltb_finite_false m1 e1 m2 e2 :
  (e2 < e1)%Z \/ (e1 = e2 /\ (m2 <= m1)%positive) ->
  SFltb (S754_finite false m1 e1) (S754_finite false m2 e2) = false.
Proof.
  unfold SFltb. cbn [SFcompare]. intros [Hlt|[-> Hle]].
  - rewrite (proj2 (Z.compare_gt_iff e1 e2)) by lia. reflexivity.
  - rewrite Z.compare_refl.
    change (Pos.compare_cont Eq m1 m2) with (m1 ?= m2)%positive.
    destruct (Pos.compare_spec m1 m2) as [H|H|H]; try reflexivity. lia.
Qed.

Lemma binary_round_not_below m e p e0 :
  canonical_mantissa prec emax m e = true ->
  (emin <= e0)%Z ->
  (Zpos m * 2 ^ (e - emin) <= Zpos p * 2 ^ (e0 - emin))%Z ->
  SFltb (binary_round prec emax false p e0) (S754_finite false m e) = false.
Proof.
  intros Hcan Hmin Hle.
  assert (Hprec : (prec = 53)%Z) by reflexivity.
  pose proof (canonical_exponent_ge_emin _ _ Hcan) as Hemin.
  pose proof Hcan as Hfexp. unfold canonical_mantissa in Hfexp.
  apply Z.eqb_eq in Hfexp.
  set (d := Zpos (digits2_pos p)).
  assert (Hd : (Zpos (digits2_pos m) + e <= d + e0)%Z).
  { pose proof (digits2_pos_bounds m) as [Hlow _].
    pose proof (digits2_pos_bounds p) as [_ Hhigh]. fold d in Hhigh.
    assert (Hlt : (2 ^ (Zpos (digits2_pos m) - 1) * 2 ^ (e - emin)
                   < 2 ^ d * 2 ^ (e0 - emin))%Z).
    { assert (0 < 2 ^ (e - emin))%Z by (apply Z.pow_pos_nonneg; lia).
      assert (0 < 2 ^ (e0 - emin))%Z by (apply Z.pow_pos_nonneg; lia).
      nia. }
    rewrite <- !Z.pow_add_r in Hlt by (subst d; lia).
    apply Z.pow_lt_mono_r_iff in Hlt; subst d; lia. }
  set (e1 := fexp prec emax (d + e0)).
  assert (He1 : (e <= e1)%Z) by (subst e1; unfold fexp in *; lia).
  destruct (Z_le_gt_dec e1 e0) as [Hexact|Hround].
  - assert (exists mz, Zpos mz = (Zpos p * 2 ^ (e0 - e1))%Z) as [mz Hmz].
    { destruct (e0 - e1)%Z as [|k|k] eqn:Hk; try lia.
      - exists p. lia.
      - exists (Pos.iter xO p k). apply iter_xO_correct. }
    assert (Hshl : shl_align p e0 e1 = (mz, e1)).
    { unfold shl_align. destruct (e1 - e0)%Z as [|k|k] eqn:Hk; try lia.
      - replace (e0 - e1)%Z with 0%Z in Hmz by lia. f_equal; lia.
      - replace (e0 - e1)%Z with (Zpos k) in Hmz by lia.
        rewrite <- iter_xO_correct in Hmz. injection Hmz as ->. reflexivity. }
    assert (Hcanz : canonical_mantissa prec emax mz e1 = true).
    { unfold canonical_mantissa. apply Z.eqb_eq.
      assert (Zpos (digits2_pos mz) = (d + (e0 - e1))%Z) as ->.
      { destruct (e0 - e1)%Z as [|k|k] eqn:Hk; try lia.
        - replace mz with p by lia. subst d. lia.
        - rewrite <- iter_xO_correct in Hmz. injection Hmz as ->.
          apply digits2_pos_iter_xO. }
      replace (d + (e0 - e1) + e1)%Z with (d + e0)%Z by lia. reflexivity. }
    unfold binary_round. fold d e1. rewrite Hshl.
    rewrite (binary_round_aux_canonical_or_overflow _ _ _ Hcanz).
    destruct (e1 <=? emax - prec)%Z; [|reflexivity].
    apply SFltb_finite_false.
    destruct (Z.eq_dec e1 e) as [Heq|Hne]; [right|left; lia].
    split; [exact Heq|].
    assert (Zpos m * 2 ^ (e - emin) <= Zpos mz * 2 ^ (e - emin))%Z.
    { rewrite Hmz, <- Z.mul_assoc, <- Z.pow_add_r by lia.
      replace (e0 - e1 + (e - emin))%Z with (e0 - emin)%Z by lia.
      exact Hle. }
    assert (0 < 2 ^ (e - emin))%Z by (apply Z.pow_pos_nonneg; lia).
    nia.
  - destruct (e1 - e0)%Z as [|n|n] eqn:Hn; try lia.
    assert (Hnd : (Zpos n = d - prec)%Z) by (subst e1; unfold fexp in *; lia).
    unfold binary_round. fold d e1. unfold shl_align. rewrite Hn.
    unfold binary_round_aux.
    assert (Hfirst : shr_fexp prec emax (Zpos p) e0 loc_Exact
                     = (SpecFloat.iter_pos shr_1 n (Build_shr_record (Zpos p) false false),
                        e1)).
    { unfold shr_fexp. cbn [Zdigits2 shr_record_of_loc]. fold d e1. rewrite Hn.
      cbn [shr]. f_equal. lia. }
    rewrite Hfirst.
    set (mrs := SpecFloat.iter_pos shr_1 n (Build_shr_record (Zpos p) false false)).
    assert (Hq : shr_m mrs = (Zpos p / 2 ^ Zpos n)%Z)
      by (subst mrs; rewrite shr_m_iter by (cbn; lia); reflexivity).
    set (q := round_nearest_even (shr_m mrs) (loc_of_shr_record mrs)).
    pose proof (round_nearest_even_bounds (shr_m mrs) (loc_of_shr_record mrs)) as Hq'.
    fold q in Hq'. rewrite Hq in Hq'.
    set (N := (2 ^ Zpos n)%Z) in *.
    assert (HN : (0 < N)%Z) by (apply Z.pow_pos_nonneg; lia).
    set (q0 := (Zpos p / N)%Z) in *.
    pose proof (div_bounds (Zpos p) N HN) as Hdiv. fold q0 in Hdiv.
    assert (Hq0 : (1 <= q0)%Z).
    { pose proof (digits2_pos_bounds p) as [Hlow _]. fold d in Hlow.
      assert (N <= 2 ^ (d - 1))%Z by (apply Z.pow_le_mono_r; lia).
      nia. }
    assert (Hqm : e1 = e -> (Zpos m <= q0)%Z).
    { intros Heq.
      replace (e - emin)%Z with (Zpos n + (e0 - emin))%Z in Hle by lia.
      rewrite Z.pow_add_r, Z.mul_assoc in Hle by lia. fold N in Hle.
      apply Z.mul_le_mono_pos_r in Hle; [|apply Z.pow_pos_nonneg; lia].
      nia. }
    destruct (shr_fexp_m q e1 ltac:(lia)) as [Heq Hm]. rewrite Heq. clear Heq.
    set (k := Z.max 0 (fexp prec emax (Zdigits2 q + e1) - e1)) in *.
    rewrite Hm. clear Hm.
    set (K := (2 ^ k)%Z).
    assert (HK : (0 < K)%Z) by (apply Z.pow_pos_nonneg; lia).
    pose proof (div_bounds q K HK) as Hdiv2.
    set (m2 := (q / K)%Z) in *.
    assert (HKq : (K <= q)%Z).
    { destruct q as [|Q|Q] eqn:HQ; try lia.
      pose proof (digits2_pos_bounds Q) as [Hlow _].
      assert (K <= 2 ^ (Zpos (digits2_pos Q) - 1))%Z.
      { apply Z.pow_le_mono_r; [lia|]. subst k. cbn [Zdigits2]. unfold fexp. lia. }
      lia. }
    assert (Hm2 : (1 <= m2)%Z) by nia.
    destruct m2 as [|M2|M2] eqn:Hm2e; try lia.
    destruct (e1 + k <=? emax - prec)%Z; [|reflexivity].
    apply SFltb_finite_false.
    destruct (Z.eq_dec (e1 + k)%Z e) as [Heq|Hne]; [right|left; lia].
    split; [exact Heq|].
    assert (k = 0%Z) by lia.
    assert (K = 1%Z) by (subst K; rewrite H; reflexivity).
    specialize (Hqm ltac:(lia)). nia.
Qed.

(** Adding an amount to a balance that is not negative gives a balance
    that is not below the amount. *)
Lemma SFadd_not_below X Y :
  valid_binary X = true -> valid_binary Y = true ->
  SFltb X (S754_zero false) = false ->
  SFltb (S754_zero false) Y = true ->
  SFltb (SF64add X Y) Y = false.
Proof.
  intros HX HY Hx Hy.
  destruct Y as [sy|sy| |sy my ey]; try discriminate Hy;
    destruct sy; try discriminate Hy;
    destruct X as [sx|sx| |sx mx ex]; try reflexivity;
    try (destruct sx; first [discriminate Hx | reflexivity]).
  - destruct sx; unfold SF64add, SFadd; apply SFltb_finite_false; right;
      split; try reflexivity; lia.
  - destruct sx; [discriminate Hx|].
    apply valid_finite_pow in HX as (_ & _ & HXmin & _).
    apply valid_finite_pow in HY as (HYc & _ & HYmin & HYp).
    unfold SF64add, SFadd. set (e0 := Z.min ex ey). cbn [cond_Zopp].
    assert (exists p, Zpos p = (Zpos (fst (shl_align mx ex e0))
                                + Zpos (fst (shl_align my ey e0)))%Z) as [p Hp]
      by (eexists; reflexivity).
    rewrite <- Hp. cbn [binary_normalize].
    apply binary_round_not_below; [exact HYc|subst e0; lia|].
    rewrite Hp, (shl_align_fst my) by (subst e0; lia).
    rewrite Z.mul_add_distr_r, <- Z.mul_assoc, <- Z.pow_add_r by (subst e0; lia).
    replace (ey - e0 + (e0 - emin))%Z with (ey - emin)%Z by lia.
    assert (0 < 2 ^ (e0 - emin))%Z by (apply Z.pow_pos_nonneg; subst e0; lia).
    nia.
Qed.

Lemma add_not_below (x y : float) :
  (x <? 0)%float = false -> (0 <? y)%float = true -> (x + y <? y)%float = false.
Proof.
  rewrite !ltb_spec, add_spec. change (Prim2SF 0) with (S754_zero false).
  apply SFadd_not_below; apply Prim2SF_valid.
Qed.

(** ** C4: a transfer that fails *)

(** C4 (as amended). A [TransferCommand] that has not run, between two
    accounts [a] (at [pa]) and [b] (at [pb]) that the repository holds:
    - when the balance of [a] is below the amount, [execute] throws, and the
      heap of accounts, the account repository, the operation repository
      and the command objects are as before; the exception is
      [InsufficientFundsException] when both accounts are active and
      distinct and the amount is positive and in the currency of [a] (an
      inactive account, equal ids, a currency mismatch or a non-positive
      amount is reported first, by its own exception);
    - when the withdrawal from [a] is accepted and the deposit into [b] is
      refused with [e], [execute] throws [e]; before that the amount was
      deposited back into [a], whose balance is the binary64 value
      (old - amount) + amount, equal to the old balance under [equals] when
      both are of absolute value at most 2^38; [b], the repositories and the
      command objects are as before. *)
Theorem C4_failed_transfer_leaves_balances
    (w : World) (this : loc) (cmd : TransferCommand.t)
    (pa pb : loc) (a b : BankAccount.t) :
  World_wf w ->
  commands_heap w !! this = Some (Transfer cmd) ->
  TransferCommand.executed_ cmd = false ->
  accountRepo_storage_ w !! TransferCommand.fromAccountId_ cmd = Some pa ->
  accountRepo_storage_ w !! TransferCommand.toAccountId_ cmd = Some pb ->
  accounts_heap w !! pa = Some a ->
  accounts_heap w !! pb = Some b ->
  let amount := TransferCommand.amount_ cmd in
  let old := Money.amount_ (BankAccount.balance_ a) in
  ((old <? Money.amount_ amount)%float = true ->
   exists e w',
     BaseCommand_execute this w = (Thrown e, w')
     /\ accounts_heap w' = accounts_heap w
     /\ accountRepo_storage_ w' = accountRepo_storage_ w
     /\ operationRepo_storage_ w' = operationRepo_storage_ w
     /\ commands_heap w' = commands_heap w
     /\ (BankAccount.isActive_ a = true ->
         BankAccount.isActive_ b = true ->
         BankAccount.id_ a <> BankAccount.id_ b ->
         Money.getCurrency amount = BankAccount.currency_ a ->
         Money.isPositive amount = true ->
         Money.currency_ (BankAccount.balance_ a) = BankAccount.currency_ a ->
         e = InsufficientFundsException (Money.amount_ amount) old))
  /\ (forall withdrawn e,
        BankAccount.isActive_ a = true ->
        BankAccount.isActive_ b = true ->
        BankAccount.id_ a <> BankAccount.id_ b ->
        withdraw_outcome a amount = Returned withdrawn ->
        deposit_outcome b amount = Thrown e ->
        exists w' a',
          BaseCommand_execute this w = (Thrown e, w')
          /\ accounts_heap w' = <[pa := a']> (accounts_heap w)
          /\ BankAccount.balance_ a'
             = Money.Build (old - Money.amount_ amount + Money.amount_ amount)%float
                 (Money.currency_ (BankAccount.balance_ a))
          /\ ((abs old <=? 0x1p38)%float = true ->
              (abs (Money.amount_ amount) <=? 0x1p38)%float = true ->
              Money.equals (BankAccount.balance_ a') (BankAccount.balance_ a) = true)
          /\ BankAccount.id_ a' = BankAccount.id_ a
          /\ BankAccount.isActive_ a' = BankAccount.isActive_ a
          /\ BankAccount.currency_ a' = BankAccount.currency_ a
          /\ accounts_heap w' !! pb = Some b
          /\ accountRepo_storage_ w' = accountRepo_storage_ w
          /\ operationRepo_storage_ w' = operationRepo_storage_ w
          /\ commands_heap w' = commands_heap w).
Proof.
  intros Hwf Hcmd Hfresh Hpa Hpb Ha Hb amount old.
  rewrite (BaseCommand_execute_run _ _ _ Hcmd Hfresh).
  destruct (TransferCommand_doExecute_prefix w this cmd pa pb Hwf Hpa Hpb)
    as (w2 & (Hh2 & Hs2 & _ & _ & _ & Ho2 & Hm2 & _) & _ & Hthrown).
  assert (Ha2 : accounts_heap w2 !! pa = Some a) by (rewrite Hh2; exact Ha).
  assert (Hb2 : accounts_heap w2 !! pb = Some b) by (rewrite Hh2; exact Hb).
  pose proof (BankAccount_transfer_run w2 pa pb a b amount Ha2 Hb2) as Hrun.
  split.
  - intros Hshort.
    pose proof (withdraw_outcome_short a amount Hshort) as Hout.
    assert (exists e, BankAccount_transfer pa pb amount w2 = (Thrown e, w2)
                      /\ (BankAccount.isActive_ a = true ->
                          BankAccount.isActive_ b = true ->
                          BankAccount.id_ a <> BankAccount.id_ b ->
                          withdraw_outcome a amount = Thrown e))
      as (e & Htransfer & He).
    { rewrite Hrun.
      destruct (BankAccount.isActive_ a), (BankAccount.isActive_ b); cbn [negb orb];
        try (eexists; split; [reflexivity|]; intros; discriminate).
      case_bool_decide as Hid;
        [eexists; split; [reflexivity|]; intros; contradiction|].
      destruct (withdraw_outcome a amount) as [withdrawn|e]; [discriminate|].
      exists e. split; [reflexivity|]. reflexivity. }
    rewrite (Hthrown _ _ Htransfer). exists e, w2.
    split; [reflexivity|]. split; [exact Hh2|]. split; [exact Hs2|].
    split; [exact Ho2|]. split; [exact Hm2|].
    intros Hact Hactb Hid Hcur Hpos Hinv.
    specialize (He Hact Hactb Hid).
    rewrite (withdraw_outcome_insufficient _ _ Hact Hcur Hpos Hinv Hshort) in He.
    inversion He. reflexivity.
  - intros withdrawn e Hact Hactb Hid Hwithdraw Hdeposit.
    rewrite Hact, Hactb, bool_decide_eq_false_2, Hwithdraw, Hdeposit in Hrun
      by exact Hid.
    cbn [negb orb] in Hrun. cbv zeta in Hrun.
    destruct (deposit_outcome_after_withdraw a amount withdrawn
                (oracle w2 (oracle_reads w2)) Hwithdraw) as [Hrestore Hwithdrawn].
    rewrite Hrestore in Hrun. rewrite (Hthrown _ _ Hrun).
    assert (Hne : pa <> pb) by (intros ->; congruence).
    eexists. eexists. split; [reflexivity|].
    unfold touched. simpl. rewrite insert_insert_eq, Hh2, Hs2, Ho2, Hm2.
    split; [reflexivity|]. simpl. rewrite Hwithdrawn. simpl.
    split; [reflexivity|].
    split.
    { intros Hold Hamount. unfold Money.equals. cbn [Money.amount_ Money.currency_].
      rewrite bool_decide_eq_true_2 by reflexivity. rewrite andb_true_r.
      apply sub_add_in_range; assumption. }
    split; [reflexivity|]. split; [reflexivity|].
    split; [reflexivity|].
    split; [rewrite lookup_insert_ne by exact Hne; exact Hb|].
    repeat split.
Qed.

(** C4, the claim as stated, fails: when the source account is inactive, a
    transfer above its balance is refused with a [DomainException] that is
    not the insufficient-funds exception (the balances are unchanged). *)
Lemma C4_counterexample_inactive_source :
  let a := BankAccount.Build "ACC-A" "A" (Money.Build 0 "RUB") "" false 0 0 "RUB" in
  let b := BankAccount.Build "ACC-B" "B" (Money.Build 5 "RUB") "" true 0 0 "RUB" in
  let amount := Money.Build 20000 "RUB" in
  let w := BuildWorld {[1%positive := a; 2%positive := b]}
             {["ACC-A" := 1%positive; "ACC-B" := 2%positive]} ∅ 60 false ∅ ∅
             {[1%positive := TransferCommand_new "ACC-A" "ACC-B" amount ""]}
             (fun _ => 0%Z) 0 in
  BankAccount.id_ a <> BankAccount.id_ b
  /\ (Money.amount_ (BankAccount.balance_ a) <? Money.amount_ amount)%float = true
  /\ BaseCommand_execute 1%positive w
     = (Thrown (DomainException "Both accounts must be active for transfer"), w)
  /\ forall requested available,
       DomainException "Both accounts must be active for transfer"
       <> InsufficientFundsException requested available.
Proof.
  split; [discriminate|]. split; [reflexivity|].
  split; [vm_compute; reflexivity|]. discriminate.
Qed.

Lemma C4_failed_transfer_leaves_balances_witness :
  let a := BankAccount.Build "ACC-A" "A" (Money.Build 100 "RUB") "" true 0 0 "RUB" in
  let b := BankAccount.Build "ACC-B" "B" (Money.Build 5 "USD") "" true 0 0 "USD" in
  let world amount :=
    BuildWorld {[1%positive := a; 2%positive := b]}
      {["ACC-A" := 1%positive; "ACC-B" := 2%positive]} ∅ 60 true ∅ ∅
      {[1%positive := TransferCommand_new "ACC-A" "ACC-B" amount ""]}
      (fun n => Z.of_nat n) 0 in
  (exists w',
     BaseCommand_execute 1%positive (world (Money.Build 20000 "RUB"))
     = (Thrown (InsufficientFundsException 20000 100), w')
     /\ accounts_heap w' = {[1%positive := a; 2%positive := b]}
     /\ operationRepo_storage_ w' = ∅)
  /\ (exists w' a',
        BaseCommand_execute 1%positive (world (Money.Build 30 "RUB"))
        = (Thrown (ValidationException "Currency mismatch"), w')
        /\ accounts_heap w' !! 1%positive = Some a'
        /\ BankAccount.balance_ a' = Money.Build 100 "RUB"
        /\ accounts_heap w' !! 2%positive = Some b
        /\ operationRepo_storage_ w' = ∅).
Proof.
  intros a b world.
  assert (Hwf : forall amount, World_wf (world amount)).
  { intros amount. apply World_wf_empty_cache; [reflexivity|].
    apply map_Forall_insert_2; [vm_compute; reflexivity|].
    apply map_Forall_singleton. vm_compute. reflexivity. }
  split.
  - destruct (C4_failed_transfer_leaves_balances (world (Money.Build 20000 "RUB"))
                1%positive
                (TransferCommand.Build "Перевод" false "ACC-A" "ACC-B"
                   (Money.Build 20000 "RUB") "" None None)
                1%positive 2%positive a b (Hwf _) eq_refl eq_refl eq_refl eq_refl
                eq_refl eq_refl) as [H _].
    destruct (H eq_refl) as (e & w' & Hrun & Hheap & _ & Hops & _ & He).
    exists w'. rewrite Hrun, Hheap, Hops.
    rewrite (He eq_refl eq_refl ltac:(discriminate) eq_refl eq_refl eq_refl).
    repeat split.
  - destruct (C4_failed_transfer_leaves_balances (world (Money.Build 30 "RUB"))
                1%positive
                (TransferCommand.Build "Перевод" false "ACC-A" "ACC-B"
                   (Money.Build 30 "RUB") "" None None)
                1%positive 2%positive a b (Hwf _) eq_refl eq_refl eq_refl eq_refl
                eq_refl eq_refl) as [_ H].
    destruct (H (Money.Build 70 "RUB") (ValidationException "Currency mismatch")
                eq_refl eq_refl ltac:(discriminate) eq_refl eq_refl)
      as (w' & a' & Hrun & Hheap & Hbal & _ & _ & _ & _ & Hb & _ & Hops & _).
    exists w', a'. rewrite Hrun, Hbal, Hops, Hb.
    split; [reflexivity|]. split; [rewrite Hheap; apply lookup_insert_eq|].
    split; [reflexivity|]. split; reflexivity.
Defined.

(** ** C10: undoing a [TransferCommand] *)



(** ** C8: [a.add(b).subtract(b)] *)

(** C8 (as amended). For a [Money] value [a] that the checked constructor
    built and a value [b] of the same currency, [a.add(b)] returns,
    [subtract(b)] on the result returns, and the value it returns has the
    currency of [a] and the binary64 amount (a + b) - b; it [equals] [a]
    exactly when that amount is within epsilon of the amount of [a].  This
    is the case
    - whenever the sum a + b is exact (both amounts are finite and
      rounding the sum changes nothing): the round trip then gives back the
      amount of [a] itself;
    - whenever both amounts are of absolute value at most 2^38. *)
Theorem C8_add_then_subtract_round_trip (a b : Money.t) :
  Money.new (Money.amount_ a) (Money.currency_ a) = Returned a ->
  Money.currency_ a = Money.currency_ b ->
  exists s d,
    Money.add a b = Returned s
    /\ Money.subtract s b = Returned d
    /\ Money.currency_ d = Money.currency_ a
    /\ Money.amount_ d = (Money.amount_ a + Money.amount_ b - Money.amount_ b)%float
    /\ Money.equals d a = (abs (Money.amount_ d - Money.amount_ a) <? Money.epsilon)%float
    /\ (exact_sum (Money.amount_ a) (Money.amount_ b) = true ->
        (Money.amount_ d =? Money.amount_ a)%float = true
        /\ Money.equals d a = true)
    /\ ((abs (Money.amount_ a) <=? 0x1p38)%float = true ->
        (abs (Money.amount_ b) <=? 0x1p38)%float = true ->
        Money.equals d a = true).
Proof.
  intros Hnew Hcur.
  pose proof (Money_new_same_currency _ (Money.amount_ a + Money.amount_ b)%float
                _ _ Hnew) as Hsum.
  pose proof (Money_new_same_currency _
                (Money.amount_ a + Money.amount_ b - Money.amount_ b)%float
                _ _ Hnew) as Hdiff.
  eexists. eexists.
  split; [unfold Money.add; rewrite bool_decide_eq_true_2 by exact Hcur; exact Hsum|].
  split.
  { unfold Money.subtract. cbn [Money.currency_ Money.amount_].
    rewrite bool_decide_eq_true_2 by exact Hcur. exact Hdiff. }
  cbn [Money.currency_ Money.amount_].
  split; [reflexivity|]. split; [reflexivity|].
  assert (Hequals : Money.equals
                      (Money.Build (Money.amount_ a + Money.amount_ b - Money.amount_ b)
                         (Money.currency_ a)) a
                    = (abs (Money.amount_ a + Money.amount_ b - Money.amount_ b
                            - Money.amount_ a) <? Money.epsilon)%float).
  { unfold Money.equals. cbn [Money.currency_ Money.amount_].
    rewrite bool_decide_eq_true_2 by reflexivity. apply andb_true_r. }
  split; [exact Hequals|]. split.
  - intros [Hsame Hnear]%add_sub_exact.
    split; [exact Hsame|]. rewrite Hequals. exact Hnear.
  - intros Ha Hb. rewrite Hequals. apply add_sub_in_range; assumption.
Qed.

(** C8, the claim as stated, fails: 1 RUB added to 1e20 RUB is absorbed
    by the rounding of the sum, and subtracting 1e20 RUB leaves 0 RUB, which
    is not within epsilon of 1 RUB. *)
Lemma C8_counterexample_absorbed_amount :
  let a := Money.Build 1 "RUB" in
  let b := Money.Build 1e20 "RUB" in
  Money.new 1 "RUB" = Returned a
  /\ Money.new 1e20 "RUB" = Returned b
  /\ Money.add a b = Returned b
  /\ Money.subtract b b = Returned (Money.Build 0 "RUB")
  /\ Money.equals (Money.Build 0 "RUB") a = false.
Proof.
  repeat split; vm_compute; reflexivity.
Qed.

Lemma C8_add_then_subtract_round_trip_witness :
  (let a := Money.Build 100000 "RUB" in
   let b := Money.Build 50000 "RUB" in
   exists s d,
     Money.add a b = Returned s
     /\ Money.subtract s b = Returned d
     /\ (Money.amount_ d =? 100000)%float = true
     /\ Money.equals d a = true)
  /\ (let a := Money.Build 0x1.999999999999ap-4 "RUB" in
      let b := Money.Build 0x1.999999999999ap-3 "RUB" in
      exact_sum (Money.amount_ a) (Money.amount_ b) = false
      /\ exists s d,
           Money.add a b = Returned s
           /\ Money.subtract s b = Returned d
           /\ Money.equals d a = true).
Proof.
  split.
  - intros a b.
    destruct (C8_add_then_subtract_round_trip a b eq_refl eq_refl)
      as (s & d & Hadd & Hsub & _ & _ & _ & Hexact & _).
    destruct (Hexact ltac:(vm_compute; reflexivity)) as [Hsame Hequals].
    exists s, d. auto.
  - intros a b. split; [vm_compute; reflexivity|].
    destruct (C8_add_then_subtract_round_trip a b eq_refl eq_refl)
      as (s & d & Hadd & Hsub & _ & _ & _ & _ & Hrange).
    exists s, d. split; [exact Hadd|]. split; [exact Hsub|].
    apply Hrange; vm_compute; reflexivity.
Defined.

(** * Further properties of the code

    Properties of the functions around the ones above: the generic
    repository and the queries of the operation repository, the caching
    proxy, the id generator, the factory, the entities, the commands, the
    command history, the reconciliation service and the facades. *)

(** ** [InMemoryRepository]: [save], [remove], [findById] *)

Section InMemoryRepository_facts.
Context {T : Type} (getId : T -> Id).
Implicit Types (e : T) (storage : gmap Id T).

(** X1. [save] stores the entity under its own id: [findById] of that id
    then returns it, every other id answers as before, the count grows by
    one exactly when the id was not stored yet, and saving the same
    entity again changes nothing. *)
Theorem X1_save_then_findById e storage :
  let storage1 := InMemoryRepository.save getId e storage in
  InMemoryRepository.findById (getId e) storage1 = Some e
  /\ (forall id, id <> getId e ->
        InMemoryRepository.findById id storage1 = InMemoryRepository.findById id storage)
  /\ InMemoryRepository.count storage1
     = match InMemoryRepository.findById (getId e) storage with
       | Some _ => InMemoryRepository.count storage
       | None => S (InMemoryRepository.count storage)
       end
  /\ InMemoryRepository.save getId e storage1 = storage1.
Proof.
  unfold InMemoryRepository.save, InMemoryRepository.findById, InMemoryRepository.count.
  cbn zeta. repeat split.
  - apply lookup_insert_eq.
  - intros id Hid. apply lookup_insert_ne. congruence.
  - rewrite map_size_insert. destruct (storage !! getId e); reflexivity.
  - apply insert_insert_eq.
Qed.

(** X2. [remove] never throws: after it [findById] of the id finds
    nothing and every other id answers as before; removing an id that is
    not stored leaves the repository as it was; removing a stored entity
    lowers the count by one, and saving that entity again restores the
    repository. *)
Theorem X2_remove_then_findById id storage :
  let storage1 := InMemoryRepository.remove id storage in
  InMemoryRepository.findById id storage1 = None
  /\ (forall id', id' <> id ->
        InMemoryRepository.findById id' storage1 = InMemoryRepository.findById id' storage)
  /\ (InMemoryRepository.findById id storage = None -> storage1 = storage)
  /\ (forall e, InMemoryRepository.findById id storage = Some e ->
        S (InMemoryRepository.count storage1) = InMemoryRepository.count storage
        /\ (getId e = id -> InMemoryRepository.save getId e storage1 = storage)).
Proof.
  unfold InMemoryRepository.remove, InMemoryRepository.findById, InMemoryRepository.count,
    InMemoryRepository.save.
  cbn zeta. repeat split.
  - apply lookup_delete_eq.
  - intros id' Hid. apply lookup_delete_ne. congruence.
  - intros Hnone. apply delete_id. exact Hnone.
  - rewrite map_size_delete, H. assert (size storage <> 0) by (apply (map_size_ne_0_lookup_2 storage id); eauto). simpl.
    destruct (size storage); [congruence | reflexivity].
  - intros <-. apply insert_delete_id. exact H.
Qed.
End InMemoryRepository_facts.

(** ** Queries of the operation repository *)

Lemma insert_by_date_Permutation o l : insert_by_date o l ≡ₚ o :: l.
Proof.
  induction l as [|x rest IH]; simpl; [reflexivity|].
  destruct (Operation.date_ x <? Operation.date_ o)%Z; [reflexivity|].
  rewrite IH. apply Permutation_swap.
Qed.

Lemma sort_by_date_desc_Permutation l : sort_by_date_desc l ≡ₚ l.
Proof.
  unfold sort_by_date_desc.
  induction l as [|x rest IH]; simpl; [reflexivity|].
  rewrite insert_by_date_Permutation, IH. reflexivity.
Qed.

Lemma insert_by_date_sorted o l :
  StronglySorted (fun x y => (Operation.date_ y <= Operation.date_ x)%Z) l ->
  StronglySorted (fun x y => (Operation.date_ y <= Operation.date_ x)%Z)
    (insert_by_date o l).
Proof.
  induction 1 as [|x rest Hrest IH Hx]; simpl.
  - repeat constructor.
  - destruct (Operation.date_ x <? Operation.date_ o)%Z eqn:Hlt.
    + apply Z.ltb_lt in Hlt. constructor; [constructor; assumption|].
      constructor; [lia|].
      eapply Forall_impl; [exact Hx|]. simpl. intros y Hy. lia.
    + apply Z.ltb_ge in Hlt. constructor; [exact IH|].
      rewrite insert_by_date_Permutation. constructor; assumption.
Qed.

Lemma sort_by_date_desc_sorted l :
  StronglySorted (fun x y => (Operation.date_ y <= Operation.date_ x)%Z)
    (sort_by_date_desc l).
Proof.
  unfold sort_by_date_desc.
  induction l as [|x rest IH]; simpl; [constructor|].
  apply insert_by_date_sorted, IH.
Qed.

Lemma In_findAll {T} (storage : gmap Id T) (e : T) :
  In e (InMemoryRepository.findAll storage) <-> exists id, storage !! id = Some e.
Proof.
  unfold InMemoryRepository.findAll. rewrite <- list_elem_of_In, list_elem_of_fmap.
  split.
  - intros [[id e'] [-> Hin]]. exists id. apply elem_of_map_to_list. exact Hin.
  - intros [id Hid]. exists (id, e). split; [reflexivity|].
    apply elem_of_map_to_list. exact Hid.
Qed.

(** X3. [findByAccount] changes nothing and returns exactly the stored
    operations of the account, each as often as it is stored, ordered by
    date, latest first. *)
Theorem X3_findByAccount_sorted_filter (accountId : Id) (w : World) :
  exists operations,
    IOperationRepository_findByAccount accountId w = (Returned operations, w)
    /\ operations ≡ₚ filter (fun o => Operation.bankAccountId_ o = accountId)
                       (InMemoryRepository.findAll (operationRepo_storage_ w))
    /\ StronglySorted (fun x y => (Operation.date_ y <= Operation.date_ x)%Z) operations
    /\ forall o, In o operations <->
         (exists id, operationRepo_storage_ w !! id = Some o)
         /\ Operation.bankAccountId_ o = accountId.
Proof.
  eexists. split; [reflexivity|]. split; [apply sort_by_date_desc_Permutation|].
  split; [apply sort_by_date_desc_sorted|].
  intros o. rewrite <- list_elem_of_In, sort_by_date_desc_Permutation.
  rewrite list_elem_of_filter, list_elem_of_In, In_findAll. tauto.
Qed.

(** X4. [findByDateRange(start, end)] throws the [ValidationException] of
    the [DateRange] constructor when [start > end], instead of returning
    an empty list; otherwise it returns the stored operations whose date
    lies in the closed range, latest first.  The repository is unchanged
    either way. *)
Theorem X4_findByDateRange_checks_range (start stop : DateTime) (w : World) :
  ((stop < start)%Z ->
   IOperationRepository_findByDateRange start stop w
   = (Thrown (ValidationException "Start date must be before end date"), w))
  /\ ((start <= stop)%Z ->
      exists operations,
        IOperationRepository_findByDateRange start stop w = (Returned operations, w)
        /\ StronglySorted (fun x y => (Operation.date_ y <= Operation.date_ x)%Z)
             operations
        /\ forall o, In o operations <->
             (exists id, operationRepo_storage_ w !! id = Some o)
             /\ (start <= Operation.date_ o <= stop)%Z).
Proof.
  unfold IOperationRepository_findByDateRange, DateRange.new. split.
  - intros Hlt. apply Z.ltb_lt in Hlt. mrun. rewrite Hlt. reflexivity.
  - intros Hle. apply Z.ltb_ge in Hle. mrun. rewrite Hle.
    eexists. split; [reflexivity|]. split; [apply sort_by_date_desc_sorted|].
    intros o. rewrite <- list_elem_of_In, sort_by_date_desc_Permutation.
    rewrite list_elem_of_filter, list_elem_of_In, In_findAll.
    unfold Operation_isInDateRange, DateRange.contains. simpl.
    rewrite andb_true_iff, !Z.leb_le. tauto.
Qed.

Lemma X4_findByDateRange_checks_range_witness :
  let op1 := Operation.Build "OP-1" OperationType_INCOME "ACC-A" (Money.Build 40 "RUB")
               5 "" "CAT-1" 0 0 false "" in
  let op2 := Operation.Build "OP-2" OperationType_EXPENSE "ACC-A" (Money.Build 10 "RUB")
               9 "" "CAT-2" 0 0 false "" in
  let w := BuildWorld ∅ ∅ ∅ 60 true ∅ {["OP-1" := op1; "OP-2" := op2]} ∅
             (fun n => Z.of_nat n) 0 in
  IOperationRepository_findByDateRange 7 3 w
  = (Thrown (ValidationException "Start date must be before end date"), w)
  /\ exists operations,
       IOperationRepository_findByDateRange 3 7 w = (Returned operations, w)
       /\ In op1 operations
       /\ ~ In op2 operations.
Proof.
  intros op1 op2 w. split.
  - apply (X4_findByDateRange_checks_range 7 3 w). lia.
  - destruct (X4_findByDateRange_checks_range 3 7 w) as [_ H].
    destruct H as (operations & Hrun & _ & Hin); [lia|].
    exists operations. split; [exact Hrun|]. split.
    + apply Hin. split; [exists "OP-1"; vm_compute; reflexivity|simpl; lia].
    + intros Hop2. apply Hin in Hop2. destruct Hop2 as [_ Hdate].
      simpl in Hdate. lia.
Defined.

(** X5. Two ranges that the constructor accepted overlap exactly when
    some date is contained in both; [overlaps] is symmetric, and a range
    contains its own start and end. *)
Theorem X5_DateRange_overlaps_iff_common_date (s1 e1 s2 e2 : DateTime)
    (r1 r2 : DateRange.t) :
  DateRange.new s1 e1 = Returned r1 ->
  DateRange.new s2 e2 = Returned r2 ->
  (DateRange.overlaps r1 r2 = true
   <-> exists d, DateRange.contains r1 d = true /\ DateRange.contains r2 d = true)
  /\ DateRange.overlaps r2 r1 = DateRange.overlaps r1 r2
  /\ DateRange.contains r1 s1 = true
  /\ DateRange.contains r1 e1 = true.
Proof.
  unfold DateRange.new, DateRange.overlaps, DateRange.contains.
  destruct (e1 <? s1)%Z eqn:H1; [discriminate|].
  destruct (e2 <? s2)%Z eqn:H2; [discriminate|].
  intros [= <-] [= <-]. simpl.
  apply Z.ltb_ge in H1, H2. repeat split.
  - rewrite andb_true_iff, !Z.leb_le. intros [Ha Hb].
    exists (Z.max s1 s2). rewrite !andb_true_iff, !Z.leb_le. lia.
  - intros [d Hd]. rewrite !andb_true_iff, !Z.leb_le in Hd.
    rewrite andb_true_iff, !Z.leb_le. lia.
  - apply andb_comm.
  - rewrite andb_true_iff, !Z.leb_le. lia.
  - rewrite andb_true_iff, !Z.leb_le. lia.
Qed.

Lemma X5_DateRange_overlaps_iff_common_date_witness :
  let r1 := DateRange.Build 10 20 in
  let r2 := DateRange.Build 20 30 in
  DateRange.new 10 20 = Returned r1
  /\ DateRange.new 20 30 = Returned r2
  /\ (DateRange.overlaps r1 r2 = true
      <-> exists d, DateRange.contains r1 d = true /\ DateRange.contains r2 d = true)
  /\ DateRange.overlaps r1 r2 = true.
Proof.
  split; [reflexivity|]. split; [reflexivity|]. split; [|reflexivity].
  apply (X5_DateRange_overlaps_iff_common_date 10 20 20 30); reflexivity.
Defined.

(** ** The account repository and its invariant *)

Lemma BankAccount_getId_inv w p r w' :
  BankAccount_getId p w = (r, w') ->
  w' = w /\ (r = Thrown null_dereference \/
             exists a, r = Returned (BankAccount.id_ a) /\ accounts_heap w !! p = Some a).
Proof.
  unfold BankAccount_getId. rewrite fmap_run. unfold deref.
  destruct (accounts_heap w !! p) as [a|]; intros [= <- <-]; split; eauto.
Qed.

Lemma World_wf_set_oracle_reads n w : World_wf w -> World_wf (set_oracle_reads n w).
Proof. intros [Hk Hc]. split; [exact Hk|exact Hc]. Qed.

Lemma World_wf_remove id w1 w :
  accounts_heap w1 = accounts_heap w ->
  useCaching w1 = useCaching w ->
  accountRepo_storage_ w1 = delete id (accountRepo_storage_ w) ->
  (useCaching w = true -> accountRepo_cache_ w1 = delete id (accountRepo_cache_ w)) ->
  World_wf w -> World_wf w1.
Proof.
  intros Hh Hu Hs Hc [Hk Hco]. split.
  - intros id' p. rewrite Hs, Hh. intros Hp.
    apply lookup_delete_Some in Hp as [_ Hp]. exact (Hk _ _ Hp).
  - intros Hcaching. rewrite Hu in Hcaching. intros id' entry.
    rewrite Hs, (Hc Hcaching). intros He.
    apply lookup_delete_Some in He as [Hne He].
    rewrite lookup_delete_ne by exact Hne. exact (Hco Hcaching _ _ He).
Qed.

Lemma IBankAccountRepository_remove_run id w :
  exists w1,
    IBankAccountRepository_remove id w = (Returned tt, w1)
    /\ accounts_heap w1 = accounts_heap w
    /\ useCaching w1 = useCaching w
    /\ accountRepo_storage_ w1 = delete id (accountRepo_storage_ w)
    /\ (useCaching w = true -> accountRepo_cache_ w1 = delete id (accountRepo_cache_ w))
    /\ operationRepo_storage_ w1 = operationRepo_storage_ w
    /\ categoryRepo_storage_ w1 = categoryRepo_storage_ w
    /\ commands_heap w1 = commands_heap w.
Proof.
  unfold IBankAccountRepository_remove. mrun.
  destruct (useCaching w) eqn:Hcaching.
  - unfold CachingRepositoryProxy_remove, InMemoryBankAccountRepository_remove. mrun.
    eexists. split; [reflexivity|]. simpl. repeat split; try assumption.
  - unfold InMemoryBankAccountRepository_remove. mrun.
    eexists. split; [reflexivity|]. simpl. repeat split; try assumption. discriminate.
Qed.

Lemma CachingRepositoryProxy_cacheEntity_wf entity w r w' :
  World_wf w ->
  (forall a, accounts_heap w !! entity = Some a ->
             accountRepo_storage_ w !! BankAccount.id_ a = Some entity) ->
  CachingRepositoryProxy_cacheEntity entity w = (r, w') ->
  World_wf w'
  /\ accounts_heap w' = accounts_heap w
  /\ accountRepo_storage_ w' = accountRepo_storage_ w.
Proof.
  intros [Hk Hco] Hstored.
  destruct (accounts_heap w !! entity) as [a|] eqn:Ha.
  - rewrite (CachingRepositoryProxy_cacheEntity_Some _ _ a) by exact Ha.
    intros [= <- <-]. split; [|split; reflexivity]. split; [exact Hk|].
    intros Hcaching.
    eapply (cache_coherent_cache_only w);
      [exact (Hco Hcaching)|reflexivity|exact (Hstored _ eq_refl)|reflexivity].
  - unfold CachingRepositoryProxy_cacheEntity. rewrite bind_run.
    unfold BankAccount_getId. rewrite fmap_run. unfold deref. rewrite Ha.
    intros [= <- <-]. split; [split; assumption|split; reflexivity].
Qed.

Lemma storage_keyed_by_id_insert w w' entity a :
  storage_keyed_by_id w ->
  accounts_heap w !! entity = Some a ->
  accounts_heap w' = accounts_heap w ->
  accountRepo_storage_ w' = <[BankAccount.id_ a := entity]> (accountRepo_storage_ w) ->
  storage_keyed_by_id w'.
Proof.
  intros Hk Ha Hh Hs id p. rewrite Hs, Hh.
  destruct (decide (BankAccount.id_ a = id)) as [<-|Hne].
  - rewrite lookup_insert_eq. intros [= <-]. eauto.
  - rewrite lookup_insert_ne by exact Hne. apply Hk.
Qed.

Lemma IBankAccountRepository_save_wf entity : keeps_World_wf (IBankAccountRepository_save entity).
Proof.
  intros w r w' Hwf. destruct (accounts_heap w !! entity) as [a|] eqn:Ha.
  - destruct (IBankAccountRepository_save_Some _ _ _ Ha) as (w1 & -> & Hs & Hsame & Hok).
    intros [= <- <-]. destruct Hwf as [Hk Hco]. split; [|exact (Hok Hco)].
    eapply storage_keyed_by_id_insert; [exact Hk|exact Ha| |exact Hs].
    apply Hsame.
  - unfold IBankAccountRepository_save, CachingRepositoryProxy_save,
      InMemoryBankAccountRepository_save. mrun.
    destruct (useCaching w); rewrite !bind_run; unfold BankAccount_getId;
      rewrite fmap_run; unfold deref; rewrite Ha; intros [= <- <-]; exact Hwf.
Qed.

Lemma IBankAccountRepository_update_wf entity :
  keeps_World_wf (IBankAccountRepository_update entity).
Proof.
  intros w r w' Hwf. destruct (accounts_heap w !! entity) as [a|] eqn:Ha.
  - destruct (accountRepo_storage_ w !! BankAccount.id_ a) as [old|] eqn:Hold.
    + destruct (IBankAccountRepository_update_present _ _ _ _ Ha Hold)
        as (w1 & -> & Hs & Hsame & Hok).
      intros [= <- <-]. destruct Hwf as [Hk Hco]. split; [|exact (Hok Hco)].
      eapply storage_keyed_by_id_insert; [exact Hk|exact Ha| |exact Hs].
      apply Hsame.
    + destruct (InMemoryBankAccountRepository_update_absent _ _ _ Ha Hold)
        as (w1 & Hrun & Hs & Hc & Hsame).
      unfold IBankAccountRepository_update, CachingRepositoryProxy_update. mrun.
      destruct (useCaching w) eqn:Hcaching.
      * rewrite bind_run, Hrun. intros [= <- <-].
        eapply World_wf_same; [apply Hsame|exact Hs| |exact Hwf].
        eapply cache_ok_same; [apply Hsame|exact Hc|exact Hs|apply Hwf].
      * rewrite Hrun. intros [= <- <-].
        eapply World_wf_same; [apply Hsame|exact Hs| |exact Hwf].
        eapply cache_ok_same; [apply Hsame|exact Hc|exact Hs|apply Hwf].
  - unfold IBankAccountRepository_update, CachingRepositoryProxy_update,
      InMemoryBankAccountRepository_update. mrun.
    destruct (useCaching w); rewrite !bind_run; unfold BankAccount_getId;
      rewrite fmap_run; unfold deref; rewrite Ha; intros [= <- <-]; exact Hwf.
Qed.

Lemma IBankAccountRepository_remove_wf id : keeps_World_wf (IBankAccountRepository_remove id).
Proof.
  intros w r w' Hwf.
  destruct (IBankAccountRepository_remove_run id w)
    as (w1 & -> & Hh & Hu & Hs & Hc & _).
  intros [= <- <-]. eapply World_wf_remove; eassumption.
Qed.

Lemma IBankAccountRepository_findById_keeps id :
  keeps_World_wf (IBankAccountRepository_findById id).
Proof.
  intros w r w' Hwf.
  destruct (IBankAccountRepository_findById_wf w id Hwf) as (w1 & -> & _ & Hwf1).
  intros [= <- <-]. exact Hwf1.
Qed.

Lemma CachingRepositoryProxy_cacheAll_wf entities w r w' :
  World_wf w ->
  (forall p a, In p entities -> accounts_heap w !! p = Some a ->
               accountRepo_storage_ w !! BankAccount.id_ a = Some p) ->
  CachingRepositoryProxy_cacheAll entities w = (r, w') ->
  World_wf w'.
Proof.
  revert w. induction entities as [|entity rest IH]; intros w Hwf Hstored; simpl.
  - intros [= <- <-]. exact Hwf.
  - rewrite bind_run.
    destruct (CachingRepositoryProxy_cacheEntity entity w) as [r1 w1] eqn:Hrun.
    destruct (CachingRepositoryProxy_cacheEntity_wf _ _ _ _ Hwf
                (fun a => Hstored entity a (or_introl eq_refl)) Hrun)
      as (Hwf1 & Hh & Hs).
    destruct r1 as [[]|e].
    + apply IH; [exact Hwf1|]. intros p a Hin. rewrite Hh, Hs.
      apply Hstored. right. exact Hin.
    + intros [= <- <-]. exact Hwf1.
Qed.

Lemma CachingRepositoryProxy_findAll_wf : keeps_World_wf CachingRepositoryProxy_findAll.
Proof.
  intros w r w' Hwf. unfold CachingRepositoryProxy_findAll,
    InMemoryBankAccountRepository_findAll. mrun.
  destruct (CachingRepositoryProxy_cacheAll _ w) as [r1 w1] eqn:Hrun.
  assert (World_wf w1) as Hwf1.
  { eapply CachingRepositoryProxy_cacheAll_wf; [exact Hwf| |exact Hrun].
    intros p a Hin Ha.
    unfold InMemoryRepository.findAll in Hin.
    apply list_elem_of_In, list_elem_of_fmap in Hin as [[id p'] [-> Hin]].
    apply elem_of_map_to_list in Hin. simpl in *.
    destruct Hwf as [Hk _]. destruct (Hk _ _ Hin) as (a' & Ha' & Hid).
    replace a with a' by congruence. rewrite Hid. exact Hin. }
  destruct r1 as [[]|e]; intros [= <- <-]; exact Hwf1.
Qed.

Lemma World_wf_no_cache w w' :
  accounts_heap w' = accounts_heap w ->
  (accountRepo_storage_ w' = accountRepo_storage_ w \/ accountRepo_storage_ w' = ∅) ->
  accountRepo_cache_ w' = ∅ ->
  World_wf w -> World_wf w'.
Proof.
  intros Hh Hs Hc [Hk _]. split.
  - intros id p. rewrite Hh. destruct Hs as [-> | ->]; [apply Hk|].
    rewrite lookup_empty. discriminate.
  - intros _ id entry. rewrite Hc, lookup_empty. discriminate.
Qed.

(** X6. The invariant of the account repository (every stored pointer is
    live and stored under the id of its object; with the proxy, every
    cached pointer is the stored one) is kept by every call of [save],
    [update], [remove] and [findById] through the interface and by
    [findAll], [clear] and [setCacheDuration] of the proxy, whether the
    call returns or throws. *)
Theorem X6_account_repository_keeps_World_wf :
  (forall entity, keeps_World_wf (IBankAccountRepository_save entity))
  /\ (forall entity, keeps_World_wf (IBankAccountRepository_update entity))
  /\ (forall id, keeps_World_wf (IBankAccountRepository_remove id))
  /\ (forall id, keeps_World_wf (IBankAccountRepository_findById id))
  /\ keeps_World_wf CachingRepositoryProxy_findAll
  /\ keeps_World_wf CachingRepositoryProxy_clear
  /\ (forall duration, keeps_World_wf (CachingRepositoryProxy_setCacheDuration duration)).
Proof.
  split; [exact IBankAccountRepository_save_wf|].
  split; [exact IBankAccountRepository_update_wf|].
  split; [exact IBankAccountRepository_remove_wf|].
  split; [exact IBankAccountRepository_findById_keeps|].
  split; [exact CachingRepositoryProxy_findAll_wf|].
  split.
  - intros w r w' Hwf. unfold CachingRepositoryProxy_clear,
      InMemoryBankAccountRepository_clear, CachingRepositoryProxy_invalidateCache. mrun.
    intros [= <- <-]. eapply World_wf_no_cache; [| | |exact Hwf]; [reflexivity|right|]; reflexivity.
  - intros duration w r w' Hwf. unfold CachingRepositoryProxy_setCacheDuration,
      CachingRepositoryProxy_invalidateCache. mrun.
    intros [= <- <-]. eapply World_wf_no_cache; [| | |exact Hwf]; [reflexivity|left|]; reflexivity.
Qed.

(** X7. Under the invariant, [findById] through the interface returns
    what the in-memory repository holds under the id, whatever the cache
    holds and whatever the clock says: the proxy never answers with a
    stale pointer.  The accounts and the storage are unchanged. *)
Theorem X7_findById_answers_from_the_repository (w : World) (id : Id) :
  World_wf w ->
  exists w',
    IBankAccountRepository_findById id w
    = (Returned (InMemoryRepository.findById id (accountRepo_storage_ w)), w')
    /\ (IBankAccountRepository_findById id w).1
       = (InMemoryBankAccountRepository_findById id w).1
    /\ accounts_heap w' = accounts_heap w
    /\ accountRepo_storage_ w' = accountRepo_storage_ w
    /\ World_wf w'.
Proof.
  intros Hwf.
  destruct (IBankAccountRepository_findById_wf w id Hwf) as (w' & Hrun & Hsame & Hwf').
  exists w'. rewrite Hrun. split; [reflexivity|]. split; [reflexivity|].
  split; [apply Hsame|]. split; [apply Hsame|exact Hwf'].
Qed.

Lemma X7_findById_answers_from_the_repository_witness :
  let a := BankAccount.Build "ACC-A" "A" (Money.Build 100 "RUB") "" true 0 0 "RUB" in
  let w := BuildWorld {[1%positive := a]} {["ACC-A" := 1%positive]}
             {["ACC-A" := CacheEntry.Build 1%positive 1000]} 60 true ∅ ∅ ∅
             (fun n => (Z.of_nat n + 2000)%Z) 0 in
  CacheEntry_isExpired (CacheEntry.Build 1%positive 1000) w
  = (Returned true, set_oracle_reads 1 w)
  /\ exists w',
       IBankAccountRepository_findById "ACC-A" w = (Returned (Some 1%positive), w')
       /\ accounts_heap w' = accounts_heap w.
Proof.
  intros a w. split; [reflexivity|].
  assert (Hwf : World_wf w).
  { split.
    - intros id p Hp. cbn in Hp. apply lookup_singleton_Some in Hp as [<- <-].
      exists a. split; reflexivity.
    - intros _ id entry He. cbn in He.
      apply lookup_singleton_Some in He as [<- <-]. reflexivity. }
  destruct (X7_findById_answers_from_the_repository w "ACC-A" Hwf)
    as (w' & Hrun & _ & Hh & _).
  exists w'. split; [exact Hrun|exact Hh].
Defined.

(** X8. [remove] through the interface never throws, and [findById] of
    the removed id then finds nothing, also when the account was cached
    and the entry had not expired.  The account object itself and the
    operations stored for it stay as they are. *)
Theorem X8_remove_then_findById (w : World) (id : Id) :
  exists w1,
    IBankAccountRepository_remove id w = (Returned tt, w1)
    /\ IBankAccountRepository_findById id w1 = (Returned None, w1)
    /\ accountRepo_storage_ w1 = InMemoryRepository.remove id (accountRepo_storage_ w)
    /\ accounts_heap w1 = accounts_heap w
    /\ operationRepo_storage_ w1 = operationRepo_storage_ w.
Proof.
  destruct (IBankAccountRepository_remove_run id w)
    as (w1 & Hrun & Hh & Hu & Hs & Hc & Ho & _).
  exists w1. split; [exact Hrun|]. split; [|split; [exact Hs|split; assumption]].
  unfold IBankAccountRepository_findById. mrun.
  destruct (useCaching w1) eqn:Hcaching.
  - unfold CachingRepositoryProxy_findById. mrun.
    rewrite Hc by congruence. rewrite lookup_delete_eq. mrun.
    unfold InMemoryBankAccountRepository_findById, InMemoryRepository.findById. mrun.
    rewrite Hs, lookup_delete_eq. reflexivity.
  - unfold InMemoryBankAccountRepository_findById, InMemoryRepository.findById. mrun.
    rewrite Hs, lookup_delete_eq. reflexivity.
Qed.

Lemma IBankAccountRepository_findById_absent id w :
  accountRepo_storage_ w !! id = None ->
  (useCaching w = true -> accountRepo_cache_ w !! id = None) ->
  IBankAccountRepository_findById id w = (Returned None, w).
Proof.
  intros Hs Hc. unfold IBankAccountRepository_findById. mrun.
  destruct (useCaching w) eqn:Hcaching.
  - unfold CachingRepositoryProxy_findById. mrun. rewrite (Hc eq_refl). mrun.
    unfold InMemoryBankAccountRepository_findById, InMemoryRepository.findById. mrun.
    rewrite Hs. reflexivity.
  - unfold InMemoryBankAccountRepository_findById, InMemoryRepository.findById. mrun.
    rewrite Hs. reflexivity.
Qed.

(** ** [IdGenerator::generate] *)

Lemma hex_digit_hex_char d : Validator.hex_char (hex_digit d) = true.
Proof.
  destruct d as [|p]; [reflexivity|].
  repeat (destruct p as [p|p|]; try reflexivity).
Qed.

Lemma String_length_append s1 s2 :
  String.length (s1 ++ s2) = (String.length s1 + String.length s2)%nat.
Proof. induction s1 as [|c s1 IH]; simpl; [reflexivity|]. rewrite IH. reflexivity. Qed.

Lemma IdGenerator_random_part_run n w :
  exists random,
    IdGenerator_random_part n w
    = (Returned random, set_oracle_reads (n + oracle_reads w) w)
    /\ String.length random = n
    /\ Validator.all_chars Validator.hex_char random = true
    /\ Validator.all_chars Validator.id_char random = true.
Proof.
  revert w. induction n as [|n IH]; intros w; simpl.
  - exists "". split; [destruct w; reflexivity|]. repeat split.
  - unfold IdGenerator_dis. rewrite bind_run, fmap_run, read_oracle_run.
    destruct (IH (set_oracle_reads (S (oracle_reads w)) w))
      as (rest & Hrun & Hlen & Hhex & Hid).
    rewrite bind_run, Hrun. eexists. split.
    { mrun. simpl. rewrite Nat.add_succ_r. reflexivity. }
    simpl. rewrite Hlen, Hhex, Hid, hex_digit_hex_char, hex_digit_id_char.
    repeat split.
Qed.

(** X9. [IdGenerator::generate] with a prefix over [A-Za-z0-9-] (empty
    or not) takes nine readings (the clock, then eight random digits) and
    returns the prefix and a dash (nothing for the empty prefix), the
    seconds of the clock in hex, a dash and eight hex digits; the id
    always passes [Validator::validateId]. *)
Theorem X9_generated_ids_are_valid (prefix : string) (w : World) :
  Validator.all_chars Validator.id_char prefix = true ->
  exists random,
    IdGenerator_generate prefix w
    = (Returned ((if bool_decide (prefix = "") then "" else prefix ++ "-")
                   ++ hex_time_t (to_time_t (oracle w (oracle_reads w)))
                   ++ "-" ++ random),
       set_oracle_reads (9 + oracle_reads w) w)
    /\ String.length random = 8
    /\ Validator.all_chars Validator.hex_char random = true
    /\ forall id, (IdGenerator_generate prefix w).1 = Returned id ->
                  Validator.validateId id = Returned tt.
Proof.
  intros Hprefix.
  unfold IdGenerator_generate, DateTimeUtils_now.
  rewrite bind_run, read_oracle_run.
  destruct (IdGenerator_random_part_run 8 (set_oracle_reads (S (oracle_reads w)) w))
    as (random & Hrun & Hlen & Hhex & Hid).
  rewrite bind_run, Hrun. exists random. mrun. simpl.
  replace (S (S (S (S (S (S (S (S (S (oracle_reads w))))))))))
    with (9 + oracle_reads w)%nat by reflexivity.
  split; [reflexivity|]. split; [exact Hlen|]. split; [exact Hhex|].
  intros id [= <-].
  match goal with |- Validator.validateId ?s = _ => set (id := s) end.
  assert (Hne : id <> "").
  { intros Hempty. apply (f_equal String.length) in Hempty. subst id.
    rewrite !String_length_append in Hempty. simpl in Hempty. lia. }
  unfold Validator.validateId, Validator.validateNotEmpty.
  rewrite (bool_decide_eq_false_2 _ Hne).
  simpl mbind. cbv beta iota. subst id.
  rewrite !all_chars_app, hex_time_t_id_chars, Hid.
  case_bool_decide; simpl; [reflexivity|].
  rewrite all_chars_app, Hprefix. reflexivity.
Qed.

Lemma X9_generated_ids_are_valid_witness :
  exists id w',
    IdGenerator_generate "ACC" (initial_World true (fun n => Z.of_nat n))
    = (Returned id, w')
    /\ Validator.validateId id = Returned tt
    /\ oracle_reads w' = 9.
Proof.
  destruct (X9_generated_ids_are_valid "ACC" (initial_World true (fun n => Z.of_nat n)))
    as (random & Hrun & _ & _ & Hvalid); [reflexivity|].
  do 2 eexists. split; [exact Hrun|]. split; [|reflexivity].
  apply Hvalid. rewrite Hrun. reflexivity.
Defined.

(** ** [EntityFactory::createCategory] *)

Lemma validateNotEmpty_run value fieldName :
  Validator.validateNotEmpty value fieldName
  = if bool_decide (value = "")
    then Thrown (ValidationException (fieldName ++ " cannot be empty"))
    else Returned tt.
Proof. reflexivity. Qed.

Lemma validateMaxLength_run value maxLength fieldName :
  Validator.validateMaxLength value maxLength fieldName
  = if (String.length value <=? maxLength)%nat
    then Returned tt
    else Thrown (ValidationException
                   (fieldName ++ " exceeds maximum length of "
                      ++ Validator.decimal_of_nat maxLength)).
Proof.
  unfold Validator.validateMaxLength.
  destruct (String.length value <=? maxLength)%nat eqn:Hle.
  - apply Nat.leb_le in Hle. apply Nat.ltb_ge in Hle. rewrite Hle. reflexivity.
  - apply Nat.leb_gt in Hle. apply Nat.ltb_lt in Hle. rewrite Hle. reflexivity.
Qed.

Lemma EntityFactory_createCategory_outcome (type : CategoryType)
    (name description : string) (w : World) :
  exists w',
    w' = set_oracle_reads (oracle_reads w') w
    /\ (EntityFactory_createCategory type name description w).2 = w'
    /\ match (EntityFactory_createCategory type name description w).1 with
       | Returned c =>
           name <> "" /\ (String.length name <= 50)%nat
           /\ (String.length description <= 200)%nat
           /\ c = Category.Build (Category.id_ c) type name description "#000000" "default"
           /\ Validator.validateId (Category.id_ c) = Returned tt
       | Thrown e =>
           (name = "" \/ (50 < String.length name)%nat
            \/ (200 < String.length description)%nat)
           /\ exists what, e = ValidationException what
       end.
Proof.
  destruct (EntityFactory_createCategory type name description w) as [r w'] eqn:Hrun.
  pose proof (reads_only_createCategory type name description _ _ _ Hrun) as Hreads.
  exists w'. split; [exact Hreads|]. split; [reflexivity|]. simpl.
  revert Hrun. unfold EntityFactory_createCategory.
  rewrite validateNotEmpty_run, !validateMaxLength_run.
  case_bool_decide as Hname.
  { mrun. intros [= <- _]. split; [left; exact Hname|eauto]. }
  destruct (String.length name <=? 50)%nat eqn:Hlen.
  2:{ mrun. intros [= <- _]. apply Nat.leb_gt in Hlen. split; [auto|eauto]. }
  destruct (String.length description <=? 500)%nat eqn:Hdesc.
  2:{ mrun. intros [= <- _]. apply Nat.leb_gt in Hdesc. split; [right; right; lia|eauto]. }
  mrun.
  destruct (IdGenerator_generate_Returned "CAT" w) as (id & w1 & -> & Hid & Hw1);
    [discriminate|reflexivity|].
  mrun. unfold Category_new, Category_validate.
  cbn [Category.id_ Category.name_ Category.color_ Category.description_].
  rewrite Hid, validateNotEmpty_run, !validateMaxLength_run.
  rewrite (bool_decide_eq_false_2 _ Hname), Hlen.
  change (Validator.validateColor "#000000") with (Returned tt : Outcome unit).
  simpl mbind. cbv beta iota.
  apply Nat.leb_le in Hlen.
  destruct (String.length description <=? 200)%nat eqn:Hdesc2.
  - intros [= <- _]. apply Nat.leb_le in Hdesc2. simpl. auto 10.
  - intros [= <- _]. apply Nat.leb_gt in Hdesc2. split; [auto|eauto].
Qed.

(** ** [EntityFactory::createOperation] *)

Lemma validateId_Thrown id e :
  Validator.validateId id = Thrown e -> exists what, e = ValidationException what.
Proof.
  unfold Validator.validateId. rewrite validateNotEmpty_run.
  case_bool_decide; simpl; [intros [= <-]; eauto|].
  destruct (Validator.all_chars Validator.id_char id); [discriminate|].
  intros [= <-]. eauto.
Qed.

Lemma leb_0_not_positive (x : float) :
  (x <=? 0)%float = true -> (0 <? x)%float = false.
Proof.
  rewrite leb_spec, ltb_spec.
  change (Prim2SF 0) with (S754_zero false).
  destruct (Prim2SF x) as [s|s| |s m e]; try destruct s; simpl; try reflexivity;
    discriminate.
Qed.

Lemma EntityFactory_createOperation_outcome (type : OperationType) (bankAccountId : Id)
    (amount : Money.t) (categoryId : Id) (description : string) (date : DateTime)
    (w : World) :
  exists w',
    w' = set_oracle_reads (oracle_reads w') w
    /\ (EntityFactory_createOperation type bankAccountId amount categoryId
          description date w).2 = w'
    /\ match (EntityFactory_createOperation type bankAccountId amount categoryId
                description date w).1 with
       | Returned o =>
           Validator.validateId bankAccountId = Returned tt
           /\ Validator.validateId categoryId = Returned tt
           /\ (0 <? Money.getAmount amount)%float = true
           /\ (String.length description <= 500)%nat
           /\ o = Operation.Build (Operation.id_ o) type bankAccountId amount date
                    description categoryId (Operation.createdAt_ o)
                    (Operation.updatedAt_ o) false ""
           /\ Validator.validateId (Operation.id_ o) = Returned tt
       | Thrown e =>
           (Validator.validateId bankAccountId <> Returned tt
            \/ Validator.validateId categoryId <> Returned tt
            \/ (0 <? Money.getAmount amount)%float = false
            \/ (500 < String.length description)%nat)
           /\ exists what, e = ValidationException what
       end.
Proof.
  destruct (EntityFactory_createOperation type bankAccountId amount categoryId
              description date w) as [r w'] eqn:Hrun.
  pose proof (reads_only_createOperation _ _ _ _ _ _ _ _ _ Hrun) as Hreads.
  exists w'. split; [exact Hreads|]. split; [reflexivity|]. simpl.
  revert Hrun. unfold EntityFactory_createOperation.
  destruct (Validator.validateId bankAccountId) as [[]|e1] eqn:Hacc.
  2:{ mrun. intros [= <- _]. split; [left; discriminate|].
      exact (validateId_Thrown _ _ Hacc). }
  destruct (Validator.validateId categoryId) as [[]|e2] eqn:Hcat.
  2:{ mrun. intros [= <- _]. split; [right; left; discriminate|].
      exact (validateId_Thrown _ _ Hcat). }
  unfold Validator.validatePositive.
  destruct (Money.getAmount amount <=? 0)%float eqn:Hpos.
  { mrun. intros [= <- _]. split; [|eauto].
    right; right; left. apply leb_0_not_positive. exact Hpos. }
  rewrite validateMaxLength_run.
  destruct (String.length description <=? 500)%nat eqn:Hdesc.
  2:{ mrun. intros [= <- _]. apply Nat.leb_gt in Hdesc. split; [auto 10|eauto]. }
  mrun.
  destruct (IdGenerator_generate_Returned "OP" w) as (id & w1 & -> & Hid & Hw1);
    [discriminate|reflexivity|].
  mrun. unfold Operation_new, DateTimeUtils_now. rewrite !bind_run, !read_oracle_run.
  rewrite !bind_run, !read_oracle_run.
  unfold Operation_validate.
  cbn [Operation.id_ Operation.bankAccountId_ Operation.categoryId_ Operation.amount_
       Operation.description_].
  rewrite Hid, Hacc, Hcat, validateMaxLength_run, Hdesc.
  unfold Money.isPositive. fold (Money.getAmount amount).
  destruct (0 <? Money.getAmount amount)%float eqn:Hgt; simpl mbind; mrun.
  - intros [= <- _]. apply Nat.leb_le in Hdesc. simpl. auto 10.
  - intros [= <- _]. split; [auto 10|eauto].
Qed.

(** ** [Category::setColor] *)

Lemma validateColor_Thrown color e :
  Validator.validateColor color = Thrown e -> exists what, e = ValidationException what.
Proof.
  unfold Validator.validateColor. rewrite validateNotEmpty_run.
  case_bool_decide; simpl; [intros [= <-]; eauto|].
  destruct (Validator.color_matches color); [discriminate|].
  intros [= <-]. eauto.
Qed.

(** X12. On a category that passes [validate()], [setName],
    [setDescription] and [setIcon] leave a category that passes it again,
    but [setColor] accepts every string: it validates the colour the
    category has, not the new one.  After a colour that
    [Validator::validateColor] refuses has been set, the category no
    longer passes [validate()], and every later [setColor] throws a
    [ValidationException]. *)
Theorem X12_setColor_checks_the_old_colour (c : Category.t) :
  Category_validate c = Returned tt ->
  (forall name c',
      Category_setName name c = Returned c' -> Category_validate c' = Returned tt)
  /\ (forall description c',
        Category_setDescription description c = Returned c' ->
        Category_validate c' = Returned tt)
  /\ (forall icon, Category_validate (Category_setIcon icon c) = Returned tt)
  /\ forall color,
       exists c',
         Category_setColor color c = Returned c'
         /\ c' = Category.Build (Category.id_ c) (Category.type_ c) (Category.name_ c)
                   (Category.description_ c) color (Category.icon_ c)
         /\ (Validator.validateColor color <> Returned tt ->
             Category_validate c' <> Returned tt
             /\ forall color', exists what,
                  Category_setColor color' c' = Thrown (ValidationException what)).
Proof.
  unfold Category_validate, Category_setName, Category_setDescription, Category_setColor.
  intros Hvalid.
  destruct (Validator.validateId (Category.id_ c)) as [[]|] eqn:Hid; [|discriminate].
  destruct (Validator.validateColor (Category.color_ c)) as [[]|] eqn:Hcolor;
    [|discriminate].
  destruct (Validator.validateNotEmpty (Category.name_ c) "Category name")
    as [[]|] eqn:Hname; [|discriminate].
  destruct (Validator.validateMaxLength (Category.name_ c) 50 "Category name")
    as [[]|] eqn:Hlen; [|discriminate].
  simpl in Hvalid.
  split; [|split; [|split]].
  - intros name c'.
    destruct (Validator.validateNotEmpty name "Category name") as [[]|] eqn:Hname';
      [|discriminate].
    destruct (Validator.validateMaxLength name 50 "Category name") as [[]|] eqn:Hlen';
      [|discriminate].
    intros [= <-]. simpl. rewrite Hid, Hcolor, Hname', Hlen'. exact Hvalid.
  - intros description c'.
    destruct (Validator.validateMaxLength description 200 "Category description")
      as [[]|] eqn:Hdesc; [|discriminate].
    intros [= <-]. simpl. rewrite Hid, Hcolor, Hname, Hlen. exact Hdesc.
  - intros icon. simpl. rewrite Hid, Hcolor, Hname, Hlen. exact Hvalid.
  - intros color. eexists. split; [reflexivity|]. split; [reflexivity|].
    intros Hbad. cbn [Category.id_ Category.color_]. rewrite Hid.
    destruct (Validator.validateColor color) as [[]|e] eqn:Hnew; [congruence|].
    split; [discriminate|].
    intros color'. destruct (validateColor_Thrown _ _ Hnew) as [what ->].
    exists what. reflexivity.
Qed.

Lemma X12_setColor_checks_the_old_colour_witness :
  let c := Category.Build "CAT-1" CategoryType_EXPENSE "Food" "" "#000000" "default" in
  exists c',
    Category_setColor "red" c = Returned c'
    /\ Category.color_ c' = "red"
    /\ Category_validate c' <> Returned tt
    /\ exists what, Category_setColor "#FF5733" c' = Thrown (ValidationException what).
Proof.
  intros c.
  destruct (X12_setColor_checks_the_old_colour c) as (_ & _ & _ & Hset);
    [reflexivity|].
  destruct (Hset "red") as (c' & Hrun & Hc' & Hbad).
  exists c'. split; [exact Hrun|]. split; [rewrite Hc'; reflexivity|].
  destruct Hbad as [Hinvalid Hlater]; [discriminate|].
  split; [exact Hinvalid|apply Hlater].
Defined.

(** ** [Operation::cloneForDate] *)

(** X13. [cloneForDate] of an operation that passes [validate()] returns
    exactly when the description is of at most 488 characters, the clone
    having a generated id, the new date, the description followed by
    " (Recurring)", the other fields of the original, and not being
    recurring; a longer description makes it throw the
    [ValidationException] of the 500-character limit.  Only readings of
    the environment are consumed. *)
Theorem X13_cloneForDate_appends_to_the_description (self : Operation.t)
    (newDate : DateTime) (w : World) :
  Operation_validate self = Returned tt ->
  exists w',
    w' = set_oracle_reads (oracle_reads w') w
    /\ (Operation_cloneForDate self newDate w).2 = w'
    /\ match (Operation_cloneForDate self newDate w).1 with
       | Returned clone =>
           (String.length (Operation.description_ self) <= 488)%nat
           /\ clone = Operation.Build (Operation.id_ clone) (Operation.type_ self)
                        (Operation.bankAccountId_ self) (Operation.amount_ self) newDate
                        (Operation.description_ self ++ " (Recurring)")
                        (Operation.categoryId_ self) (Operation.createdAt_ clone)
                        (Operation.updatedAt_ clone) false ""
           /\ Validator.validateId (Operation.id_ clone) = Returned tt
       | Thrown e =>
           (488 < String.length (Operation.description_ self))%nat
           /\ e = ValidationException
                    "Operation description exceeds maximum length of 500"
       end.
Proof.
  unfold Operation_validate. intros Hvalid.
  destruct (Validator.validateId (Operation.id_ self)) as [[]|]; [|discriminate].
  destruct (Validator.validateId (Operation.bankAccountId_ self)) as [[]|] eqn:Hacc;
    [|discriminate].
  destruct (Validator.validateId (Operation.categoryId_ self)) as [[]|] eqn:Hcat;
    [|discriminate].
  destruct (Money.isPositive (Operation.amount_ self)) eqn:Hpos; [|discriminate].
  clear Hvalid.
  unfold Operation_cloneForDate.
  destruct (IdGenerator_generate_Returned "OP" w) as (id & w1 & Hgen & Hid & Hw1);
    [discriminate|reflexivity|].
  rewrite bind_run, Hgen.
  set (n := oracle_reads w1) in Hw1. clearbody n. subst w1.
  unfold Operation_new, DateTimeUtils_now. rewrite !bind_run, !read_oracle_run.
  rewrite !bind_run, !read_oracle_run.
  unfold Operation_validate.
  cbn [Operation.id_ Operation.bankAccountId_ Operation.categoryId_ Operation.amount_
       Operation.description_].
  rewrite Hid, Hacc, Hcat, Hpos, validateMaxLength_run.
  rewrite String_length_append.
  change (String.length " (Recurring)") with 12.
  destruct (String.length (Operation.description_ self) + 12 <=? 500)%nat eqn:Hlen;
    simpl mbind; mrun.
  - eexists. split; [|split; [reflexivity|]]; [reflexivity|].
    apply Nat.leb_le in Hlen. simpl. split; [lia|]. split; [reflexivity|exact Hid].
  - eexists. split; [|split; [reflexivity|]]; [reflexivity|].
    apply Nat.leb_gt in Hlen. simpl. split; [lia|reflexivity].
Qed.

Lemma X13_cloneForDate_appends_to_the_description_witness :
  let self := Operation.Build "OP-1" OperationType_EXPENSE "ACC-1" (Money.Build 10 "RUB")
                100 "rent" "CAT-1" 0 0 true "MONTHLY" in
  let w := initial_World true (fun n => Z.of_nat n) in
  exists clone,
    (Operation_cloneForDate self 200 w).1 = Returned clone
    /\ Operation.description_ clone = "rent (Recurring)"
    /\ Operation.date_ clone = 200%Z
    /\ Operation.isRecurring_ clone = false.
Proof.
  intros self w.
  destruct (X13_cloneForDate_appends_to_the_description self 200 w) as (w' & _ & _ & H);
    [reflexivity|].
  destruct (Operation_cloneForDate self 200 w).1 as [clone|e].
  - destruct H as (_ & Hclone & _). exists clone. rewrite Hclone. repeat split.
  - exfalso. destruct H as [H _]. simpl in H. lia.
Defined.

(** X10. [createCategory] returns a category exactly when the name is not
    empty and of at most 50 characters and the description is of at most
    200 characters; the category then carries the given fields, the
    default colour and icon and a generated id that [validateId] accepts.
    Otherwise a [ValidationException] is thrown.  So a description of 201
    to 500 characters, which the factory's own check lets through, is
    still refused (by the constructor).  Only readings of the environment
    are consumed. *)
Theorem X10_createCategory_validates (type : CategoryType) (name description : string)
    (w : World) :
  let valid := name <> "" /\ (String.length name <= 50)%nat
               /\ (String.length description <= 200)%nat in
  (valid ->
   exists id w',
     EntityFactory_createCategory type name description w
     = (Returned (Category.Build id type name description "#000000" "default"), w')
     /\ Validator.validateId id = Returned tt
     /\ w' = set_oracle_reads (oracle_reads w') w)
  /\ (~ valid ->
      exists what w',
        EntityFactory_createCategory type name description w
        = (Thrown (ValidationException what), w')
        /\ w' = set_oracle_reads (oracle_reads w') w)
  /\ ((200 < String.length description <= 500)%nat -> ~ valid).
Proof.
  intros valid.
  destruct (EntityFactory_createCategory_outcome type name description w)
    as (w' & Hw' & Hstate & Hout).
  destruct (EntityFactory_createCategory type name description w) as [r w0].
  simpl in Hstate, Hout. subst w0.
  split; [|split].
  - intros (Hname & Hlen & Hdesc). destruct r as [c|e].
    + destruct Hout as (_ & _ & _ & -> & Hid). eauto.
    + destruct Hout as [[?|[?|?]] _]; [contradiction|lia|lia].
  - intros Hinvalid. destruct r as [c|e].
    + destruct Hout as (Hname & Hlen & Hdesc & _). exfalso. apply Hinvalid.
      repeat split; assumption.
    + destruct Hout as [_ [what ->]]. eauto.
  - intros Hdesc (_ & _ & Hle). lia.
Qed.

Lemma X10_createCategory_validates_witness :
  let w := initial_World true (fun n => Z.of_nat n) in
  let description := string_of_list_ascii (repeat "x"%char 201) in
  (exists id w',
     EntityFactory_createCategory CategoryType_INCOME "Salary" "" w
     = (Returned (Category.Build id CategoryType_INCOME "Salary" "" "#000000" "default"),
        w')
     /\ Validator.validateId id = Returned tt)
  /\ (exists what w',
        EntityFactory_createCategory CategoryType_INCOME "" "" w
        = (Thrown (ValidationException what), w'))
  /\ exists what w',
       EntityFactory_createCategory CategoryType_INCOME "Salary" description w
       = (Thrown (ValidationException what), w').
Proof.
  intros w description. split; [|split].
  - destruct (X10_createCategory_validates CategoryType_INCOME "Salary" "" w)
      as (H & _ & _).
    destruct H as (id & w' & Hrun & Hid & _).
    { split; [discriminate|]. split; simpl; lia. }
    exists id, w'. split; assumption.
  - destruct (X10_createCategory_validates CategoryType_INCOME "" "" w)
      as (_ & H & _).
    destruct H as (what & w' & Hrun & _).
    { intros (Hname & _). apply Hname. reflexivity. }
    exists what, w'. exact Hrun.
  - destruct (X10_createCategory_validates CategoryType_INCOME "Salary" description w)
      as (_ & H & Hlong).
    destruct H as (what & w' & Hrun & _).
    { apply Hlong. vm_compute. split; lia. }
    exists what, w'. exact Hrun.
Defined.

(** X11. [createOperation] returns an operation exactly when both ids pass
    [validateId], the amount is greater than zero (so neither zero,
    negative nor NaN) and the description is of at most 500 characters;
    the operation then carries the given fields, is not recurring, and
    has a generated id that [validateId] accepts.  Otherwise a
    [ValidationException] is thrown.  Only readings of the environment are
    consumed. *)
Theorem X11_createOperation_validates (type : OperationType) (bankAccountId : Id)
    (amount : Money.t) (categoryId : Id) (description : string) (date : DateTime)
    (w : World) :
  let valid := Validator.validateId bankAccountId = Returned tt
               /\ Validator.validateId categoryId = Returned tt
               /\ (0 <? Money.getAmount amount)%float = true
               /\ (String.length description <= 500)%nat in
  (valid ->
   exists id createdAt updatedAt w',
     EntityFactory_createOperation type bankAccountId amount categoryId description date w
     = (Returned (Operation.Build id type bankAccountId amount date description
                    categoryId createdAt updatedAt false ""), w')
     /\ Validator.validateId id = Returned tt
     /\ w' = set_oracle_reads (oracle_reads w') w)
  /\ (~ valid ->
      exists what w',
        EntityFactory_createOperation type bankAccountId amount categoryId description
          date w
        = (Thrown (ValidationException what), w')
        /\ w' = set_oracle_reads (oracle_reads w') w).
Proof.
  intros valid.
  destruct (EntityFactory_createOperation_outcome type bankAccountId amount categoryId
              description date w) as (w' & Hw' & Hstate & Hout).
  destruct (EntityFactory_createOperation type bankAccountId amount categoryId
              description date w) as [r w0].
  simpl in Hstate, Hout. subst w0.
  split.
  - intros (Hacc & Hcat & Hpos & Hdesc). destruct r as [o|e].
    + destruct Hout as (_ & _ & _ & _ & -> & Hid). eauto 10.
    + destruct Hout as [[?|[?|[?|?]]] _]; [contradiction|contradiction|congruence|lia].
  - intros Hinvalid. destruct r as [o|e].
    + destruct Hout as (Hacc & Hcat & Hpos & Hdesc & _). exfalso. apply Hinvalid.
      repeat split; assumption.
    + destruct Hout as [_ [what ->]]. eauto.
Qed.

Lemma X11_createOperation_validates_witness :
  let w := initial_World true (fun n => Z.of_nat n) in
  (exists id createdAt updatedAt w',
     EntityFactory_createOperation OperationType_INCOME "ACC-A" (Money.Build 40 "RUB")
       "CAT-1" "salary" 5 w
     = (Returned (Operation.Build id OperationType_INCOME "ACC-A" (Money.Build 40 "RUB")
                    5 "salary" "CAT-1" createdAt updatedAt false ""), w')
     /\ Validator.validateId id = Returned tt)
  /\ (exists what w',
        EntityFactory_createOperation OperationType_INCOME "ACC-A" (Money.Build 0 "RUB")
          "CAT-1" "salary" 5 w
        = (Thrown (ValidationException what), w'))
  /\ exists what w',
       EntityFactory_createOperation OperationType_INCOME "ACC A" (Money.Build 40 "RUB")
         "CAT-1" "salary" 5 w
       = (Thrown (ValidationException what), w').
Proof.
  intros w. split; [|split].
  - destruct (X11_createOperation_validates OperationType_INCOME "ACC-A"
                (Money.Build 40 "RUB") "CAT-1" "salary" 5 w) as (H & _).
    destruct H as (id & createdAt & updatedAt & w' & Hrun & Hid & _).
    { repeat split; try reflexivity. simpl. lia. }
    exists id, createdAt, updatedAt, w'. split; assumption.
  - destruct (X11_createOperation_validates OperationType_INCOME "ACC-A"
                (Money.Build 0 "RUB") "CAT-1" "salary" 5 w) as (_ & H).
    destruct H as (what & w' & Hrun & _).
    { intros (_ & _ & Hpositive & _). vm_compute in Hpositive. discriminate. }
    exists what, w'. exact Hrun.
  - destruct (X11_createOperation_validates OperationType_INCOME "ACC A"
                (Money.Build 40 "RUB") "CAT-1" "salary" 5 w) as (_ & H).
    destruct H as (what & w' & Hrun & _).
    { intros (Hid & _). vm_compute in Hid. discriminate. }
    exists what, w'. exact Hrun.
Defined.

(** ** The invariant of [BankAccount] *)

Lemma BankAccount_setName_run w this a name :
  accounts_heap w !! this = Some a ->
  BankAccount_setName this name w =
  match Validator.validateNotEmpty name "Account name" ≫= (fun _ =>
        Validator.validateMaxLength name 100 "Account name") with
  | Returned _ => (Returned tt, touched this (BankAccount_set_name_ name a) w)
  | Thrown e => (Thrown e, w)
  end.
Proof.
  intros Ha. unfold BankAccount_setName.
  destruct (Validator.validateNotEmpty name "Account name") as [[]|e]; mrun;
    [|reflexivity].
  destruct (Validator.validateMaxLength name 100 "Account name") as [[]|e]; mrun;
    [|reflexivity].
  simpl. apply assign_then_updateTimestamp. exact Ha.
Qed.

Lemma BankAccount_setAccountNumber_run w this a accountNumber :
  accounts_heap w !! this = Some a ->
  BankAccount_setAccountNumber this accountNumber w =
  match Validator.validateMaxLength accountNumber 20 "Account number" with
  | Returned _ =>
      (Returned tt, touched this (BankAccount_set_accountNumber_ accountNumber a) w)
  | Thrown e => (Thrown e, w)
  end.
Proof.
  intros Ha. unfold BankAccount_setAccountNumber.
  destruct (Validator.validateMaxLength accountNumber 20 "Account number") as [[]|e];
    mrun; [|reflexivity].
  simpl. apply assign_then_updateTimestamp. exact Ha.
Qed.

Lemma BankAccount_activate_run w this a :
  accounts_heap w !! this = Some a ->
  BankAccount_activate this w
  = (Returned tt, touched this (BankAccount.set_isActive_ true a) w).
Proof. apply assign_then_updateTimestamp. Qed.

Lemma BankAccount_deactivate_run w this a :
  accounts_heap w !! this = Some a ->
  BankAccount_deactivate this w
  = (Returned tt, touched this (BankAccount.set_isActive_ false a) w).
Proof. apply assign_then_updateTimestamp. Qed.

Lemma accounts_heap_touched p a' w :
  accounts_heap (touched p a' w)
  = <[p := BankAccount.set_updatedAt_ (oracle w (oracle_reads w)) a']> (accounts_heap w).
Proof. reflexivity. Qed.

Lemma keeps_BankAccount_invariant_Thrown this (a : BankAccount.t) w (P : Prop) :
  accounts_heap w !! this = Some a ->
  BankAccount_invariant a ->
  exists a',
    accounts_heap w = <[this := a']> (accounts_heap w)
    /\ BankAccount_invariant a'
    /\ BankAccount.id_ a' = BankAccount.id_ a
    /\ BankAccount.createdAt_ a' = BankAccount.createdAt_ a
    /\ BankAccount.currency_ a' = BankAccount.currency_ a
    /\ (P -> a' = a).
Proof.
  intros Ha Hinv. exists a. split; [symmetry; apply insert_id; exact Ha|].
  repeat split; try apply Hinv.
Qed.

Lemma keeps_BankAccount_invariant_touched this (a a' : BankAccount.t) w :
  BankAccount_invariant a ->
  BankAccount.id_ a' = BankAccount.id_ a ->
  BankAccount.createdAt_ a' = BankAccount.createdAt_ a ->
  BankAccount.currency_ a' = BankAccount.currency_ a ->
  Money.currency_ (BankAccount.balance_ a') = BankAccount.currency_ a ->
  Validator.validateNotEmpty (BankAccount.name_ a') "Account name" = Returned tt ->
  Validator.validateMaxLength (BankAccount.name_ a') 100 "Account name" = Returned tt ->
  Validator.validateMaxLength (BankAccount.accountNumber_ a') 20 "Account number"
  = Returned tt ->
  exists a'',
    accounts_heap (touched this a' w) = <[this := a'']> (accounts_heap w)
    /\ BankAccount_invariant a''
    /\ BankAccount.id_ a'' = BankAccount.id_ a
    /\ BankAccount.createdAt_ a'' = BankAccount.createdAt_ a
    /\ BankAccount.currency_ a'' = BankAccount.currency_ a
    /\ (true = false -> a'' = a).
Proof.
  intros [Hvalid Hcur] Hid Hcreated Hcurrency Hbalance Hname Hlen Hnumber.
  eexists. split; [reflexivity|].
  split; [|repeat split; simpl; try assumption; discriminate].
  split; [|simpl; congruence].
  unfold BankAccount_validate in *. simpl. rewrite Hid, Hname, Hlen, Hnumber.
  destruct (Validator.validateId (BankAccount.id_ a)) as [[]|]; [reflexivity|discriminate].
Qed.

Lemma BankAccount_invariant_fields a :
  BankAccount_invariant a ->
  Validator.validateNotEmpty (BankAccount.name_ a) "Account name" = Returned tt
  /\ Validator.validateMaxLength (BankAccount.name_ a) 100 "Account name" = Returned tt
  /\ Validator.validateMaxLength (BankAccount.accountNumber_ a) 20 "Account number"
     = Returned tt.
Proof.
  intros [Hvalid _]. unfold BankAccount_validate in Hvalid.
  destruct (Validator.validateId (BankAccount.id_ a)) as [[]|]; [|discriminate].
  destruct (Validator.validateNotEmpty (BankAccount.name_ a) "Account name") as [[]|];
    [|discriminate].
  destruct (Validator.validateMaxLength (BankAccount.name_ a) 100 "Account name")
    as [[]|]; [|discriminate].
  destruct (Validator.validateMaxLength (BankAccount.accountNumber_ a) 20
              "Account number") as [[]|]; [|discriminate].
  repeat split.
Qed.

(** X14. The constructor of [BankAccount] establishes, and [setName],
    [setAccountNumber], [activate], [deactivate], [deposit], [withdraw]
    and [recalculateBalance] keep, that the fields pass [validate()] and
    the balance is in the currency of the account; none of them changes
    the id, the creation time or the currency, or any other object, and a
    call that throws leaves the account as it was. *)
Theorem X14_BankAccount_methods_keep_the_invariant (this : loc) :
  (forall id name initialBalance accountNumber isActive w a w',
      BankAccount_new id name initialBalance accountNumber isActive w = (Returned a, w') ->
      BankAccount_invariant a)
  /\ (forall name, keeps_BankAccount_invariant this (BankAccount_setName this name))
  /\ (forall accountNumber,
        keeps_BankAccount_invariant this (BankAccount_setAccountNumber this accountNumber))
  /\ keeps_BankAccount_invariant this (BankAccount_activate this)
  /\ keeps_BankAccount_invariant this (BankAccount_deactivate this)
  /\ (forall amount, keeps_BankAccount_invariant this (BankAccount_deposit this amount))
  /\ (forall amount, keeps_BankAccount_invariant this (BankAccount_withdraw this amount))
  /\ (forall newBalance,
        keeps_BankAccount_invariant this (BankAccount_recalculateBalance this newBalance)).
Proof.
  split.
  { intros id name initialBalance accountNumber isActive w a w'.
    unfold BankAccount_new, DateTimeUtils_now. rewrite !bind_run, !read_oracle_run.
    rewrite !bind_run, !read_oracle_run. mrun.
    match goal with |- context [BankAccount_validate ?x] =>
      destruct (BankAccount_validate x) as [[]|] eqn:Hvalid end; [|discriminate].
    intros [= <- _]. split; [exact Hvalid|reflexivity]. }
  split.
  { intros name w a r w' Ha Hinv.
    destruct (BankAccount_invariant_fields a Hinv) as (Hname & Hlen & Hnumber).
    rewrite (BankAccount_setName_run _ _ _ _ Ha).
    destruct (Validator.validateNotEmpty name "Account name") as [[]|e] eqn:H1; simpl.
    2:{ intros [= <- <-]. apply keeps_BankAccount_invariant_Thrown; assumption. }
    destruct (Validator.validateMaxLength name 100 "Account name") as [[]|e] eqn:H2.
    2:{ intros [= <- <-]. apply keeps_BankAccount_invariant_Thrown; assumption. }
    intros [= <- <-].
    apply keeps_BankAccount_invariant_touched; try assumption; try reflexivity.
    apply Hinv. }
  split.
  { intros accountNumber w a r w' Ha Hinv.
    destruct (BankAccount_invariant_fields a Hinv) as (Hname & Hlen & Hnumber).
    rewrite (BankAccount_setAccountNumber_run _ _ _ _ Ha).
    destruct (Validator.validateMaxLength accountNumber 20 "Account number")
      as [[]|e] eqn:H1.
    2:{ intros [= <- <-]. apply keeps_BankAccount_invariant_Thrown; assumption. }
    intros [= <- <-].
    apply keeps_BankAccount_invariant_touched; try assumption; try reflexivity.
    apply Hinv. }
  split.
  { intros w a r w' Ha Hinv.
    destruct (BankAccount_invariant_fields a Hinv) as (Hname & Hlen & Hnumber).
    rewrite (BankAccount_activate_run _ _ _ Ha). intros [= <- <-].
    apply keeps_BankAccount_invariant_touched; try assumption; try reflexivity.
    apply Hinv. }
  split.
  { intros w a r w' Ha Hinv.
    destruct (BankAccount_invariant_fields a Hinv) as (Hname & Hlen & Hnumber).
    rewrite (BankAccount_deactivate_run _ _ _ Ha). intros [= <- <-].
    apply keeps_BankAccount_invariant_touched; try assumption; try reflexivity.
    apply Hinv. }
  split.
  { intros amount w a r w' Ha Hinv.
    destruct (BankAccount_invariant_fields a Hinv) as (Hname & Hlen & Hnumber).
    rewrite (BankAccount_deposit_outcome _ _ _ _ Ha).
    destruct (deposit_outcome a amount) as [balance|e] eqn:Hout.
    2:{ intros [= <- <-]. apply keeps_BankAccount_invariant_Thrown; assumption. }
    intros [= <- <-].
    apply keeps_BankAccount_invariant_touched; try assumption; try reflexivity.
    simpl. unfold deposit_outcome in Hout.
    destruct (negb (BankAccount.isActive_ a)); [discriminate|].
    destruct (negb (bool_decide _)); [discriminate|].
    destruct (negb (Money.isPositive amount)); [discriminate|].
    apply Money_add_Returned in Hout as [_ ->]. simpl. apply Hinv. }
  split.
  { intros amount w a r w' Ha Hinv.
    destruct (BankAccount_invariant_fields a Hinv) as (Hname & Hlen & Hnumber).
    rewrite (BankAccount_withdraw_outcome _ _ _ _ Ha).
    destruct (withdraw_outcome a amount) as [balance|e] eqn:Hout.
    2:{ intros [= <- <-]. apply keeps_BankAccount_invariant_Thrown; assumption. }
    intros [= <- <-].
    apply keeps_BankAccount_invariant_touched; try assumption; try reflexivity.
    simpl. unfold withdraw_outcome in Hout.
    destruct (negb (BankAccount.isActive_ a)); [discriminate|].
    destruct (negb (bool_decide _)); [discriminate|].
    destruct (negb (Money.isPositive amount)); [discriminate|].
    destruct (Money.lt (BankAccount.balance_ a) amount) as [[]|]; try discriminate.
    simpl in Hout.
    apply Money_subtract_Returned in Hout as [_ ->]. simpl. apply Hinv. }
  intros newBalance w a r w' Ha Hinv.
  destruct (BankAccount_invariant_fields a Hinv) as (Hname & Hlen & Hnumber).
  rewrite (BankAccount_recalculateBalance_run _ _ _ _ Ha).
  case_bool_decide as Hcur; simpl.
  - intros [= <- <-].
    apply keeps_BankAccount_invariant_touched; try assumption; try reflexivity.
  - intros [= <- <-]. apply keeps_BankAccount_invariant_Thrown; assumption.
Qed.

(** ** [canWithdraw] and [withdraw] *)

Lemma BankAccount_canWithdraw_run w this a amount :
  accounts_heap w !! this = Some a ->
  BankAccount_canWithdraw this amount w =
  if BankAccount.isActive_ a
  then match Money.ge (BankAccount.balance_ a) amount with
       | Returned enough =>
           (Returned (enough
                      && bool_decide (Money.getCurrency amount = BankAccount.currency_ a)),
            w)
       | Thrown e => (Thrown e, w)
       end
  else (Returned false, w).
Proof.
  intros Ha. unfold BankAccount_canWithdraw. rewrite bind_run, (deref_Some _ _ _ Ha).
  destruct (BankAccount.isActive_ a); [|reflexivity].
  mrun. destruct (Money.ge (BankAccount.balance_ a) amount); reflexivity.
Qed.

(** X15. For an account whose balance is in its own currency and an
    amount the checked constructor built: [canWithdraw] changes nothing;
    on an active account it throws a [ValidationException] when the
    amount is in another currency (it does not return [false]); whenever
    [withdraw] returns, [canWithdraw] returns [true]; and when
    [canWithdraw] returns [true] and the amount is positive, [withdraw]
    returns. *)
Theorem X15_canWithdraw_agrees_with_withdraw (w : World) (this : loc)
    (a : BankAccount.t) (amount : Money.t) :
  accounts_heap w !! this = Some a ->
  Money.currency_ (BankAccount.balance_ a) = BankAccount.currency_ a ->
  Money.new (Money.amount_ amount) (Money.currency_ amount) = Returned amount ->
  (forall r w', BankAccount_canWithdraw this amount w = (r, w') -> w' = w)
  /\ (BankAccount.isActive_ a = true ->
      Money.getCurrency amount <> BankAccount.currency_ a ->
      BankAccount_canWithdraw this amount w
      = (Thrown (ValidationException "Cannot compare money with different currencies"),
         w))
  /\ (forall w', BankAccount_withdraw this amount w = (Returned tt, w') ->
                 BankAccount_canWithdraw this amount w = (Returned true, w))
  /\ (BankAccount_canWithdraw this amount w = (Returned true, w) ->
      Money.isPositive amount = true ->
      exists w', BankAccount_withdraw this amount w = (Returned tt, w')).
Proof.
  intros Ha Hcur Hnew.
  rewrite (BankAccount_canWithdraw_run _ _ _ _ Ha).
  unfold Money.ge, Money.lt, Money.getCurrency. rewrite Hcur.
  split.
  { intros r w'. destruct (BankAccount.isActive_ a); [|intros [= _ <-]; reflexivity].
    case_bool_decide; simpl; intros [= _ <-]; reflexivity. }
  split.
  { intros -> Hne. rewrite bool_decide_eq_false_2 by congruence. reflexivity. }
  split.
  { intros w' Hrun.
    destruct (BankAccount_withdraw_Returned _ _ _ _ _ Ha Hrun)
      as (-> & Hcurrency & _ & _ & Hlt & _).
    unfold Money.getCurrency in Hcurrency.
    rewrite bool_decide_eq_true_2 by congruence. simpl.
    rewrite Hlt, bool_decide_eq_true_2 by exact Hcurrency. reflexivity. }
  intros Hcan Hpos.
  rewrite (BankAccount_withdraw_run _ _ _ _ Ha).
  destruct (BankAccount.isActive_ a); [|discriminate]. simpl.
  unfold Money.lt, Money.subtract, Money.getCurrency. rewrite Hcur, Hpos. simpl.
  revert Hcan. case_bool_decide as Heq; [|discriminate]. simpl.
  rewrite bool_decide_eq_true_2 by congruence.
  destruct (Money.amount_ (BankAccount.balance_ a) <? Money.amount_ amount)%float;
    [discriminate|]. intros _. simpl.
  rewrite Heq, (Money_new_same_currency _ _ _ _ Hnew). eauto.
Qed.

Lemma X15_canWithdraw_agrees_with_withdraw_witness :
  let a := BankAccount.Build "ACC-1" "Main" (Money.Build 100 "RUB") "" true 0 0 "RUB" in
  let w := BuildWorld {[1%positive := a]} ∅ ∅ 60 false ∅ ∅ ∅ (fun _ => 7%Z) 0 in
  BankAccount_canWithdraw 1%positive (Money.Build 30 "RUB") w = (Returned true, w)
  /\ (exists w', BankAccount_withdraw 1%positive (Money.Build 30 "RUB") w
                 = (Returned tt, w'))
  /\ BankAccount_canWithdraw 1%positive (Money.Build 30 "USD") w
     = (Thrown (ValidationException "Cannot compare money with different currencies"), w).
Proof.
  intros a w.
  destruct (X15_canWithdraw_agrees_with_withdraw w 1%positive a (Money.Build 30 "RUB"))
    as (_ & _ & _ & Hcan); [reflexivity..|].
  destruct (X15_canWithdraw_agrees_with_withdraw w 1%positive a (Money.Build 30 "USD"))
    as (_ & Hthrows & _); [reflexivity..|].
  split; [reflexivity|]. split; [apply Hcan; reflexivity|].
  apply Hthrows; [reflexivity|discriminate].
Defined.

(** ** [deposit] followed by [withdraw] of the same amount *)

(** X16. When the balance is not negative and [deposit] of an amount
    returns, [withdraw] of the same amount returns too, and leaves the
    binary64 balance (old + amount) - amount, which equals the old
    balance under [Money] equality when the old balance and the amount
    are of absolute value at most 2^38; the id, the name, the active flag
    and the currency are those of before. *)
Theorem X16_deposit_then_withdraw (w : World) (this : loc) (a : BankAccount.t)
    (amount : Money.t) (w1 : World) :
  accounts_heap w !! this = Some a ->
  (Money.amount_ (BankAccount.balance_ a) <? 0)%float = false ->
  BankAccount_deposit this amount w = (Returned tt, w1) ->
  exists w2 a2,
    BankAccount_withdraw this amount w1 = (Returned tt, w2)
    /\ accounts_heap w2 = <[this := a2]> (accounts_heap w)
    /\ BankAccount.balance_ a2
       = Money.Build (Money.amount_ (BankAccount.balance_ a) + Money.amount_ amount
                      - Money.amount_ amount)%float
           (Money.currency_ (BankAccount.balance_ a))
    /\ ((abs (Money.amount_ (BankAccount.balance_ a)) <=? 0x1p38)%float = true ->
        (abs (Money.amount_ amount) <=? 0x1p38)%float = true ->
        Money.equals (BankAccount.balance_ a2) (BankAccount.balance_ a) = true)
    /\ BankAccount.id_ a2 = BankAccount.id_ a
    /\ BankAccount.name_ a2 = BankAccount.name_ a
    /\ BankAccount.isActive_ a2 = BankAccount.isActive_ a
    /\ BankAccount.currency_ a2 = BankAccount.currency_ a.
Proof.
  intros Ha Hnonneg Hdep.
  rewrite (BankAccount_deposit_outcome _ _ _ _ Ha) in Hdep.
  destruct (deposit_outcome a amount) as [deposited|] eqn:Hout; [|discriminate].
  injection Hdep as <-.
  pose proof (deposit_outcome_positive _ _ _ Hout) as Hpos.
  destruct (withdraw_outcome_after_deposit a amount deposited
              (oracle w (oracle_reads w)) Hout) as [Hwith Hdeposited].
  rewrite (BankAccount_withdraw_outcome _ _
             (BankAccount.set_updatedAt_ (oracle w (oracle_reads w))
                (BankAccount.set_balance_ deposited a)))
    by (rewrite accounts_heap_touched; apply lookup_insert_eq).
  rewrite Hwith. clear Hwith. subst deposited. cbn [Money.amount_ Money.currency_].
  rewrite (add_not_below _ _ Hnonneg Hpos).
  do 2 eexists. split; [reflexivity|].
  split; [rewrite !accounts_heap_touched; apply insert_insert_eq|].
  simpl. split; [reflexivity|].
  split; [|repeat split].
  intros Ha38 Hb38. unfold Money.equals. simpl.
  rewrite (add_sub_in_range _ _ Ha38 Hb38). rewrite bool_decide_eq_true_2; reflexivity.
Qed.

Lemma X16_deposit_then_withdraw_witness :
  let a := BankAccount.Build "ACC-1" "Main" (Money.Build 100 "RUB") "" true 0 0 "RUB" in
  let w := BuildWorld {[1%positive := a]} ∅ ∅ 60 false ∅ ∅ ∅ (fun _ => 7%Z) 0 in
  let amount := Money.Build 0x1.999999999999ap-4 "RUB" in
  let w1 := (BankAccount_deposit 1%positive amount w).2 in
  exists w2 a2,
    BankAccount_withdraw 1%positive amount w1 = (Returned tt, w2)
    /\ accounts_heap w2 = <[1%positive := a2]> (accounts_heap w)
    /\ Money.equals (BankAccount.balance_ a2) (Money.Build 100 "RUB") = true.
Proof.
  intros a w amount w1.
  destruct (X16_deposit_then_withdraw w 1%positive a amount w1)
    as (w2 & a2 & Hrun & Hheap & _ & Hequal & _); [reflexivity..|].
  exists w2, a2. split; [exact Hrun|]. split; [exact Hheap|].
  apply Hequal; reflexivity.
Defined.

(** ** [BaseCommand]: the [executed_] flag *)

Lemma Command_executed_set v c : Command_executed_ (Command_set_executed_ v c) = v.
Proof. destruct c; reflexivity. Qed.

Lemma Command_name_set v c : Command_name_ (Command_set_executed_ v c) = Command_name_ c.
Proof. destruct c; reflexivity. Qed.

(** X17. [execute] of a command that is marked executed and [undo] of one
    that is not throw [std::runtime_error] and change nothing.  After an
    [execute] that returned the command is marked executed, so a second
    [execute] throws; after an [undo] that returned it is not, so a
    second [undo] throws. *)
Theorem X17_BaseCommand_runs_once (w : World) (this : loc) (c : Command) :
  commands_heap w !! this = Some c ->
  (Command_executed_ c = true ->
   BaseCommand_execute this w
   = (Thrown (runtime_error ("Команда уже выполнена: " ++ Command_name_ c)), w))
  /\ (Command_executed_ c = false ->
      BaseCommand_undo this w
      = (Thrown (runtime_error ("Команда не выполнена: " ++ Command_name_ c)), w))
  /\ (forall w1,
        BaseCommand_execute this w = (Returned tt, w1) ->
        Command_executed_ c = false
        /\ exists c1,
             commands_heap w1 !! this = Some c1
             /\ Command_executed_ c1 = true
             /\ BaseCommand_execute this w1
                = (Thrown (runtime_error ("Команда уже выполнена: " ++ Command_name_ c1)),
                   w1))
  /\ (forall w1,
        BaseCommand_undo this w = (Returned tt, w1) ->
        Command_executed_ c = true
        /\ exists c1,
             commands_heap w1 !! this = Some c1
             /\ Command_executed_ c1 = false
             /\ BaseCommand_undo this w1
                = (Thrown (runtime_error ("Команда не выполнена: " ++ Command_name_ c1)),
                   w1)).
Proof.
  intros Hcmd.
  assert (Hexec : forall w0 c0, commands_heap w0 !! this = Some c0 ->
            Command_executed_ c0 = true ->
            BaseCommand_execute this w0
            = (Thrown (runtime_error ("Команда уже выполнена: " ++ Command_name_ c0)), w0)).
  { intros w0 c0 H0 Hdone. unfold BaseCommand_execute.
    rewrite bind_run, (deref_command_Some _ _ _ H0), Hdone. reflexivity. }
  assert (Hundo : forall w0 c0, commands_heap w0 !! this = Some c0 ->
            Command_executed_ c0 = false ->
            BaseCommand_undo this w0
            = (Thrown (runtime_error ("Команда не выполнена: " ++ Command_name_ c0)), w0)).
  { intros w0 c0 H0 Hdone. unfold BaseCommand_undo.
    rewrite bind_run, (deref_command_Some _ _ _ H0), Hdone. reflexivity. }
  split; [apply Hexec; exact Hcmd|]. split; [apply Hundo; exact Hcmd|]. split.
  - intros w1 Hrun.
    pose proof (BaseCommand_execute_Returned_fresh _ _ _ _ Hcmd Hrun) as Hfresh.
    split; [exact Hfresh|].
    rewrite (BaseCommand_execute_run _ _ _ Hcmd Hfresh) in Hrun.
    match type of Hrun with
    | (match ?m with _ => _ end) = _ => destruct m as [[[]|e] w2]; [|discriminate]
    end.
    destruct (commands_heap w2 !! this) as [c'|]; [|discriminate].
    injection Hrun as <-.
    exists (Command_set_executed_ true c').
    assert (Hc1 : commands_heap
                    (set_commands_heap
                       (<[this := Command_set_executed_ true c']> (commands_heap w2)) w2)
                  !! this = Some (Command_set_executed_ true c'))
      by apply lookup_insert_eq.
    split; [exact Hc1|]. split; [apply Command_executed_set|].
    apply Hexec; [exact Hc1|apply Command_executed_set].
  - intros w1 Hrun.
    assert (Hdone : Command_executed_ c = true).
    { revert Hrun. unfold BaseCommand_undo.
      rewrite bind_run, (deref_command_Some _ _ _ Hcmd).
      destruct (Command_executed_ c); [reflexivity|discriminate]. }
    split; [exact Hdone|].
    rewrite (BaseCommand_undo_run _ _ _ Hcmd Hdone) in Hrun.
    match type of Hrun with
    | (match ?m with _ => _ end) = _ => destruct m as [[[]|e] w2]; [|discriminate]
    end.
    destruct (commands_heap w2 !! this) as [c'|]; [|discriminate].
    injection Hrun as <-.
    exists (Command_set_executed_ false c').
    assert (Hc1 : commands_heap
                    (set_commands_heap
                       (<[this := Command_set_executed_ false c']> (commands_heap w2)) w2)
                  !! this = Some (Command_set_executed_ false c'))
      by apply lookup_insert_eq.
    split; [exact Hc1|]. split; [apply Command_executed_set|].
    apply Hundo; [exact Hc1|apply Command_executed_set].
Qed.

Lemma X17_BaseCommand_runs_once_witness :
  let w := BuildWorld ∅ ∅ ∅ 60 true ∅ ∅
             {[1%positive := CreateCategoryCommand_new CategoryType_EXPENSE "Food" ""]}
             (fun n => Z.of_nat n) 0 in
  let w1 := (BaseCommand_execute 1%positive w).2 in
  BaseCommand_undo 1%positive w
  = (Thrown (runtime_error "Команда не выполнена: -Создать Категорию-"), w)
  /\ (BaseCommand_execute 1%positive w).1 = Returned tt
  /\ exists c1,
       commands_heap w1 !! 1%positive = Some c1
       /\ BaseCommand_execute 1%positive w1
          = (Thrown (runtime_error ("Команда уже выполнена: " ++ Command_name_ c1)), w1).
Proof.
  intros w w1.
  destruct (X17_BaseCommand_runs_once w 1%positive
              (CreateCategoryCommand_new CategoryType_EXPENSE "Food" ""))
    as (_ & Hundo & Hexec & _); [reflexivity|].
  split; [apply Hundo; reflexivity|]. split; [vm_compute; reflexivity|].
  destruct (Hexec w1) as (_ & c1 & Hc1 & _ & Hagain).
  { subst w1. vm_compute. reflexivity. }
  exists c1. split; assumption.
Defined.

(** ** [CreateAccountCommand]: [execute] followed by [undo] *)

(** X18. After [execute] of a [CreateAccountCommand] has returned, the
    created account is stored under its id, and [undo] returns and
    removes that id from the repository (and the cache): [findById] of it
    finds nothing, and the storage is the one of before [execute] when
    the id was new.  The command is back in the state of a command that
    has not run; the account object itself stays on the heap. *)
Theorem X18_CreateAccountCommand_undo_removes_the_account
    (w : World) (this : loc) (cmd : CreateAccountCommand.t) (w1 : World) :
  commands_heap w !! this = Some (CreateAccount cmd) ->
  BaseCommand_execute this w = (Returned tt, w1) ->
  exists p a w2,
    accounts_heap w1 !! p = Some a
    /\ accountRepo_storage_ w1 !! BankAccount.id_ a = Some p
    /\ BaseCommand_undo this w1 = (Returned tt, w2)
    /\ accountRepo_storage_ w2
       = InMemoryRepository.remove (BankAccount.id_ a) (accountRepo_storage_ w)
    /\ (accountRepo_storage_ w !! BankAccount.id_ a = None ->
        accountRepo_storage_ w2 = accountRepo_storage_ w)
    /\ IBankAccountRepository_findById (BankAccount.id_ a) w2 = (Returned None, w2)
    /\ accounts_heap w2 = accounts_heap w1
    /\ commands_heap w2 !! this
       = Some (CreateAccount (CreateAccountCommand_set_createdAccount_ None cmd)).
Proof.
  intros Hcmd Hrun.
  pose proof (BaseCommand_execute_Returned_fresh _ _ _ _ Hcmd Hrun) as Hfresh.
  rewrite (BaseCommand_execute_run _ _ _ Hcmd Hfresh) in Hrun.
  unfold CreateAccountCommand_doExecute in Hrun.
  destruct (valid_account_request (CreateAccountCommand.accountName_ cmd)
              (CreateAccountCommand.initialBalance_ cmd)
              (CreateAccountCommand.accountNumber_ cmd)) eqn:Hvalid.
  2:{ destruct (EntityFactory_createBankAccount_invalid w _ _ _ Hvalid)
        as (what & w0 & Hcreate & _).
      rewrite !bind_run, Hcreate in Hrun. discriminate. }
  destruct (EntityFactory_createBankAccount_valid w _ _ _ Hvalid)
    as (p & a & w0 & Hcreate & Hfree & Hw0 & _).
  rewrite !bind_run, Hcreate in Hrun. unfold assign_command at 1 in Hrun.
  revert Hrun. mrun.
  set (cmd1 := CreateAccountCommand_set_createdAccount_ (Some p) cmd).
  set (w0' := set_commands_heap _ w0).
  assert (Ha : accounts_heap w0' !! p = Some a).
  { subst w0'. rewrite Hw0. simpl. apply lookup_insert_eq. }
  destruct (IBankAccountRepository_save_Some _ _ _ Ha)
    as (w3 & -> & Hstore & (Hheap & _ & _ & _ & _ & Hcmds & _) & _).
  assert (Hcmd3 : commands_heap w3 !! this = Some (CreateAccount cmd1)).
  { rewrite Hcmds. subst w0'. simpl. apply lookup_insert_eq. }
  rewrite Hcmd3. intros [= <-].
  set (w1 := set_commands_heap _ w3).
  assert (Ha1 : accounts_heap w1 !! p = Some a) by (subst w1; simpl; congruence).
  assert (Hs1 : accountRepo_storage_ w1
                = <[BankAccount.id_ a := p]> (accountRepo_storage_ w)).
  { subst w1. simpl. rewrite Hstore. subst w0'. rewrite Hw0. reflexivity. }
  exists p, a.
  assert (Hcmd1 : commands_heap w1 !! this
                  = Some (Command_set_executed_ true (CreateAccount cmd1)))
    by (subst w1; simpl; apply lookup_insert_eq).
  rewrite (BaseCommand_undo_run _ _ _ Hcmd1) by reflexivity.
  cbn [Command_set_executed_]. unfold CreateAccountCommand_doUndo.
  cbn [CreateAccountCommand.createdAccount_ cmd1 CreateAccountCommand_set_createdAccount_].
  rewrite bind_run, (BankAccount_getId_Some _ _ _ Ha1).
  destruct (IBankAccountRepository_remove_run (BankAccount.id_ a) w1)
    as (w2 & Hremove & Hh2 & Hu2 & Hs2 & Hc2 & Ho2 & Hcat2 & Hm2).
  rewrite bind_run, Hremove, assign_command_run.
  cbn [commands_heap set_commands_heap]. rewrite lookup_insert_eq.
  eexists. split; [exact Ha1|]. split; [rewrite Hs1; apply lookup_insert_eq|].
  split; [reflexivity|].
  cbn [accountRepo_storage_ accounts_heap commands_heap set_commands_heap].
  assert (Hs : accountRepo_storage_ w2
               = InMemoryRepository.remove (BankAccount.id_ a) (accountRepo_storage_ w)).
  { rewrite Hs2, Hs1. apply delete_insert_eq. }
  split; [exact Hs|].
  split; [intros Hnone; rewrite Hs; apply delete_id; exact Hnone|].
  split.
  { match goal with |- IBankAccountRepository_findById _ ?w' = _ => set (w4 := w') end.
    unfold IBankAccountRepository_findById. mrun.
    assert (Hs4 : accountRepo_storage_ w4 !! BankAccount.id_ a = None)
      by (subst w4; simpl; rewrite Hs2; apply lookup_delete_eq).
    destruct (useCaching w4) eqn:Hcaching.
    - unfold CachingRepositoryProxy_findById. mrun.
      replace (accountRepo_cache_ w4 !! BankAccount.id_ a) with (@None CacheEntry.t).
      2:{ subst w4. simpl. simpl in Hcaching. rewrite Hc2 by congruence.
          symmetry. apply lookup_delete_eq. }
      mrun. unfold InMemoryBankAccountRepository_findById, InMemoryRepository.findById.
      mrun. rewrite Hs4. reflexivity.
    - unfold InMemoryBankAccountRepository_findById, InMemoryRepository.findById.
      mrun. rewrite Hs4. reflexivity. }
  split; [exact Hh2|].
  rewrite lookup_insert_eq. f_equal.
  destruct cmd as [name executed accountName initialBalance accountNumber created].
  simpl in Hfresh. subst executed. reflexivity.
Qed.

Lemma X18_CreateAccountCommand_undo_removes_the_account_witness :
  let cmd := CreateAccountCommand.Build "-Создать Счет-" false "Main"
               (Money.Build 100000 "RUB") "" None in
  let w := BuildWorld ∅ ∅ ∅ 60 true ∅ ∅ {[1%positive := CreateAccount cmd]}
             (fun n => Z.of_nat n) 0 in
  let w1 := (BaseCommand_execute 1%positive w).2 in
  size (accountRepo_storage_ w1) = 1
  /\ exists w2,
       BaseCommand_undo 1%positive w1 = (Returned tt, w2)
       /\ accountRepo_storage_ w2 = ∅
       /\ commands_heap w2 !! 1%positive = Some (CreateAccount cmd).
Proof.
  intros cmd w w1. split; [vm_compute; reflexivity|].
  destruct (X18_CreateAccountCommand_undo_removes_the_account w 1%positive cmd w1)
    as (p & a & w2 & _ & _ & Hundo & Hs & _ & _ & _ & Hcmd).
  { reflexivity. }
  { subst w1. vm_compute. reflexivity. }
  exists w2. split; [exact Hundo|]. split; [|exact Hcmd].
  rewrite Hs. apply delete_empty.
Defined.

(** ** [CreateCategoryCommand]: [execute] followed by [undo] *)

(** X19. After [execute] of a [CreateCategoryCommand] has returned, the
    created category (of the requested name and type) is stored under its
    id, and [undo] returns and removes that id: the category repository
    is the one of before [execute] when the id was new.  Accounts and
    operations are untouched, and the command is back in the state of a
    command that has not run. *)
Theorem X19_CreateCategoryCommand_undo_removes_the_category
    (w : World) (this : loc) (cmd : CreateCategoryCommand.t) (w1 : World) :
  commands_heap w !! this = Some (CreateCategory cmd) ->
  BaseCommand_execute this w = (Returned tt, w1) ->
  exists created w2,
    categoryRepo_storage_ w1
    = InMemoryRepository.save Category.id_ created (categoryRepo_storage_ w)
    /\ Category.name_ created = CreateCategoryCommand.categoryName_ cmd
    /\ Category.type_ created = CreateCategoryCommand.type_ cmd
    /\ BaseCommand_undo this w1 = (Returned tt, w2)
    /\ categoryRepo_storage_ w2
       = InMemoryRepository.remove (Category.id_ created) (categoryRepo_storage_ w)
    /\ (categoryRepo_storage_ w !! Category.id_ created = None ->
        categoryRepo_storage_ w2 = categoryRepo_storage_ w)
    /\ operationRepo_storage_ w2 = operationRepo_storage_ w
    /\ accounts_heap w2 = accounts_heap w
    /\ accountRepo_storage_ w2 = accountRepo_storage_ w
    /\ commands_heap w2 !! this
       = Some (CreateCategory (CreateCategoryCommand_set_createdCategory_ None cmd)).
Proof.
  intros Hcmd Hrun.
  pose proof (BaseCommand_execute_Returned_fresh _ _ _ _ Hcmd Hrun) as Hfresh.
  rewrite (BaseCommand_execute_run _ _ _ Hcmd Hfresh) in Hrun.
  unfold CreateCategoryCommand_doExecute in Hrun. revert Hrun. rewrite bind_run.
  destruct (EntityFactory_createCategory _ _ _ w) as [[created|e] w0] eqn:Hcreate;
    [|discriminate].
  pose proof (reads_only_createCategory _ _ _ _ _ _ Hcreate) as Hw0.
  assert (Hfields : Category.name_ created = CreateCategoryCommand.categoryName_ cmd
                    /\ Category.type_ created = CreateCategoryCommand.type_ cmd).
  { revert Hcreate. unfold EntityFactory_createCategory.
    repeat (rewrite bind_run; unfold lift;
            match goal with
            | |- context [match ?v with Returned _ => _ | Thrown _ => _ end] =>
                destruct v; [|discriminate]
            end).
    rewrite bind_run.
    destruct (IdGenerator_generate "CAT" w) as [[id|e] w']; [|discriminate].
    unfold Category_new.
    destruct (Category_validate _); [|discriminate].
    simpl. intros [= <- _]. split; reflexivity. }
  rewrite bind_run, assign_command_run. unfold ICategoryRepository_save. mrun.
  cbn [commands_heap set_commands_heap set_categoryRepo_storage_].
  rewrite lookup_insert_eq. intros [= <-].
  exists created. eexists.
  split; [cbn; rewrite Hw0; reflexivity|].
  split; [apply Hfields|]. split; [apply Hfields|].
  match goal with |- BaseCommand_undo this ?w' = _ /\ _ => set (w1 := w') end.
  assert (Hcmd1 : commands_heap w1 !! this
                  = Some (Command_set_executed_ true
                            (CreateCategory
                               (CreateCategoryCommand_set_createdCategory_
                                  (Some created) cmd))))
    by (subst w1; simpl; apply lookup_insert_eq).
  rewrite (BaseCommand_undo_run _ _ _ Hcmd1) by reflexivity.
  cbn [Command_set_executed_]. unfold CreateCategoryCommand_doUndo.
  cbn [CreateCategoryCommand.createdCategory_ CreateCategoryCommand_set_createdCategory_].
  unfold ICategoryRepository_remove. mrun. rewrite assign_command_run.
  cbn [commands_heap set_commands_heap set_categoryRepo_storage_].
  rewrite lookup_insert_eq.
  split; [reflexivity|].
  subst w1. simpl. rewrite Hw0. simpl.
  unfold InMemoryRepository.remove, InMemoryRepository.save.
  split; [apply delete_insert_eq|].
  split; [intros Hnone; rewrite delete_insert_eq; apply delete_id; exact Hnone|].
  repeat (split; [reflexivity|]).
  rewrite lookup_insert_eq. f_equal.
  destruct cmd as [name executed type categoryName description created0].
  simpl in Hfresh. subst executed. reflexivity.
Qed.

Lemma X19_CreateCategoryCommand_undo_removes_the_category_witness :
  let cmd := CreateCategoryCommand.Build "-Создать Категорию-" false
               CategoryType_EXPENSE "Food" "" None in
  let w := BuildWorld ∅ ∅ ∅ 60 true ∅ ∅ {[1%positive := CreateCategory cmd]}
             (fun n => Z.of_nat n) 0 in
  let w1 := (BaseCommand_execute 1%positive w).2 in
  size (categoryRepo_storage_ w1) = 1
  /\ exists w2,
       BaseCommand_undo 1%positive w1 = (Returned tt, w2)
       /\ categoryRepo_storage_ w2 = ∅
       /\ commands_heap w2 !! 1%positive = Some (CreateCategory cmd).
Proof.
  intros cmd w w1. split; [vm_compute; reflexivity|].
  destruct (X19_CreateCategoryCommand_undo_removes_the_category w 1%positive cmd w1)
    as (created & w2 & _ & _ & _ & Hundo & Hs & _ & _ & _ & _ & Hcmd).
  { reflexivity. }
  { subst w1. vm_compute. reflexivity. }
  exists w2. split; [exact Hundo|]. split; [|exact Hcmd].
  rewrite Hs. apply delete_empty.
Defined.

(** ** A failed [AddOperationCommand] *)

Lemma processOperation_Thrown w operation e w' :
  World_wf w ->
  OperationProcessingService_processOperation operation w = (Thrown e, w') ->
  same_objects w w' /\ World_wf w'.
Proof.
  intros Hwf. unfold OperationProcessingService_processOperation.
  destruct (IBankAccountRepository_findById_wf w (Operation.bankAccountId_ operation) Hwf)
    as (w1 & Hfind & Hsame1 & Hwf1).
  rewrite bind_run, Hfind.
  destruct (accountRepo_storage_ w !! Operation.bankAccountId_ operation) as [p|] eqn:Hp.
  2:{ intros [= _ <-]. split; assumption. }
  destruct Hwf as [Hkeys Hok].
  destruct (Hkeys _ _ Hp) as (a & Ha & Hid).
  assert (Ha1 : accounts_heap w1 !! p = Some a) by (rewrite (proj1 Hsame1); exact Ha).
  rewrite bind_run.
  destruct ((if Operation.isIncome operation
             then BankAccount_deposit p (Operation.amount_ operation)
             else BankAccount_withdraw p (Operation.amount_ operation)) w1)
    as [[[]|e1] w2] eqn:Happly.
  - destruct (apply_operation_Returned _ _ _ _ _ Ha1 Happly)
      as (balance & -> & Hinv & _ & Hbalance).
    unfold IOperationRepository_save. mrun.
    set (w3 := set_operationRepo_storage_ _ _).
    pose (a' := BankAccount.set_updatedAt_ (oracle w1 (oracle_reads w1))
                  (BankAccount.set_balance_ balance a)).
    assert (Ha3 : accounts_heap w3 !! p = Some a')
      by (subst w3; simpl; apply lookup_insert_eq).
    assert (Hp3 : accountRepo_storage_ w3 !! BankAccount.id_ a' = Some p).
    { subst w3 a'. simpl. destruct Hsame1 as (_ & -> & _). rewrite Hid. exact Hp. }
    destruct (IBankAccountRepository_update_present _ _ _ _ Ha3 Hp3) as (w4 & -> & _).
    discriminate.
  - intros [= _ <-].
    assert (w2 = w1) as ->.
    { destruct (Operation.isIncome operation).
      - exact (BankAccount_deposit_Thrown _ _ _ _ _ _ Ha1 Happly).
      - exact (BankAccount_withdraw_Thrown _ _ _ _ _ _ Ha1 Happly). }
    split; assumption.
Qed.

(** X20. Under the invariant of the account repository, an [execute] of
    an [AddOperationCommand] that throws leaves every account object, the
    storage of the account repository, the operations and the categories
    as they were, and leaves the [executed_] flag of the command as it
    was. *)
Theorem X20_failed_AddOperation_changes_nothing
    (w : World) (this : loc) (cmd : AddOperationCommand.t) (e : Exception) (w' : World) :
  World_wf w ->
  commands_heap w !! this = Some (AddOperation cmd) ->
  BaseCommand_execute this w = (Thrown e, w') ->
  accounts_heap w' = accounts_heap w
  /\ accountRepo_storage_ w' = accountRepo_storage_ w
  /\ operationRepo_storage_ w' = operationRepo_storage_ w
  /\ categoryRepo_storage_ w' = categoryRepo_storage_ w
  /\ World_wf w'
  /\ exists cmd',
       commands_heap w' !! this = Some (AddOperation cmd')
       /\ AddOperationCommand.executed_ cmd' = AddOperationCommand.executed_ cmd.
Proof.
  intros Hwf Hcmd.
  destruct (AddOperationCommand.executed_ cmd) eqn:Hdone.
  { unfold BaseCommand_execute. rewrite bind_run, (deref_command_Some _ _ _ Hcmd).
    simpl. rewrite Hdone. intros [= _ <-]. repeat split; try apply Hwf. eauto. }
  rewrite (BaseCommand_execute_run _ _ _ Hcmd Hdone).
  destruct (AddOperationCommand_doExecute this cmd w) as [[[]|e1] w1] eqn:Hrun.
  { destruct (AddOperationCommand_doExecute_Returned _ _ _ _ Hwf Hrun)
      as (p & a & created & balance & updatedAt & H).
    destruct H as (_ & _ & _ & _ & _ & _ & _ & _ & _ & _ & _ & Hcmds & _).
    rewrite Hcmds, lookup_insert_eq. discriminate. }
  intros [= _ <-].
  revert Hrun. unfold AddOperationCommand_doExecute.
  destruct (IBankAccountRepository_findById_wf w
              (AddOperationCommand.bankAccountId_ cmd) Hwf)
    as (w0 & Hfind & (Hh0 & Hs0 & _ & Hu0 & Hc0 & Ho0 & Hm0 & _) & Hwf0).
  rewrite bind_run, Hfind.
  destruct (accountRepo_storage_ w !! AddOperationCommand.bankAccountId_ cmd)
    as [p|] eqn:Hp.
  2:{ intros [= _ <-]. repeat split; try assumption; try apply Hwf0.
      rewrite Hm0. eauto. }
  destruct (proj1 Hwf _ _ Hp) as (a & Ha & Hid).
  assert (Ha0 : accounts_heap w0 !! p = Some a) by (rewrite Hh0; exact Ha).
  rewrite bind_run, (BankAccount_getBalance_Some _ _ _ Ha0).
  set (c1 := AddOperationCommand_set_account_ (Some p) (BankAccount.balance_ a) cmd).
  rewrite bind_run, assign_command_run.
  unfold DateTimeUtils_now. rewrite bind_run, read_oracle_run.
  set (w2 := set_oracle_reads _ _).
  rewrite bind_run.
  assert (Hwf_frame : forall w3 c3,
            w3 = set_oracle_reads (oracle_reads w3) w2 ->
            World_wf (set_commands_heap (<[this := c3]> (commands_heap w3)) w3)).
  { intros w3 c3 Hw3. apply (World_wf_same w0); [| | |exact Hwf0].
    - rewrite Hw3. reflexivity.
    - rewrite Hw3. reflexivity.
    - eapply (cache_ok_same w0); [| | |exact (proj2 Hwf0)]; rewrite Hw3; reflexivity. }
  destruct (EntityFactory_createOperation _ _ _ _ _ _ w2) as [[created|e2] w3] eqn:Hcreate.
  - apply EntityFactory_createOperation_Returned in Hcreate as (_ & _ & _ & _ & Hw3).
    rewrite bind_run, assign_command_run.
    set (w4 := set_commands_heap _ w3).
    assert (Hwf4 : World_wf w4) by (apply Hwf_frame; exact Hw3).
    intros Hprocess.
    destruct (processOperation_Thrown _ _ _ _ Hwf4 Hprocess)
      as ((Hh5 & Hs5 & _ & _ & Hc5 & Ho5 & Hm5 & _) & Hwf5).
    rewrite Hh5, Hs5, Ho5, Hc5, Hm5. subst w4. rewrite Hw3. simpl.
    do 5 (split; [assumption|]).
    eexists. split; [apply lookup_insert_eq|exact Hdone].
  - pose proof (reads_only_createOperation _ _ _ _ _ _ _ _ _ Hcreate) as Hw3.
    intros [= _ <-].
    assert (Hwf3 : World_wf w3).
    { apply (World_wf_same w0); [| | |exact Hwf0].
      - rewrite Hw3. reflexivity.
      - rewrite Hw3. reflexivity.
      - eapply (cache_ok_same w0); [| | |exact (proj2 Hwf0)]; rewrite Hw3; reflexivity. }
    rewrite Hw3. simpl.
    do 4 (split; [assumption|]). split; [rewrite <- Hw3; exact Hwf3|].
    eexists. split; [apply lookup_insert_eq|exact Hdone].
Qed.

Lemma X20_failed_AddOperation_changes_nothing_witness :
  let a := BankAccount.Build "ACC-A" "A" (Money.Build 100 "RUB") "" true 0 0 "RUB" in
  let w := BuildWorld {[1%positive := a]} {["ACC-A" := 1%positive]} ∅ 60 true ∅ ∅
             {[1%positive := AddOperationCommand_new OperationType_EXPENSE "ACC-A"
                               (Money.Build 500 "RUB") "CAT-1" "rent"]}
             (fun n => Z.of_nat n) 0 in
  (BaseCommand_execute 1%positive w).1 = Thrown (InsufficientFundsException 500 100)
  /\ accounts_heap (BaseCommand_execute 1%positive w).2 = {[1%positive := a]}
  /\ operationRepo_storage_ (BaseCommand_execute 1%positive w).2 = ∅.
Proof.
  intros a w.
  assert (Hwf : World_wf w).
  { apply World_wf_empty_cache; [reflexivity|]. apply map_Forall_singleton.
    vm_compute. reflexivity. }
  destruct (X20_failed_AddOperation_changes_nothing w 1%positive
              (AddOperationCommand.Build "Добавить Операцию" false OperationType_EXPENSE
                 "ACC-A" (Money.Build 500 "RUB") "CAT-1" "rent" None None Money.default)
              (InsufficientFundsException 500 100)
              (BaseCommand_execute 1%positive w).2 Hwf)
    as (Hh & _ & Ho & _); [reflexivity|vm_compute; reflexivity|].
  split; [vm_compute; reflexivity|]. split; [exact Hh|exact Ho].
Defined.

(** ** A [TransferCommand] whose description is too long *)

(** X21. A [TransferCommand] between two stored, active accounts whose
    transfer is accepted but whose description is longer than 500
    characters throws a [ValidationException] from [createOperation]
    after the money has moved: the source holds the withdrawn balance and
    the destination the deposited one, no operation is recorded, and the
    command object is unchanged (not marked executed, so it cannot be
    undone). *)
Theorem X21_transfer_with_long_description_moves_the_money
    (w : World) (this : loc) (cmd : TransferCommand.t)
    (pa pb : loc) (a b : BankAccount.t) (withdrawn deposited : Money.t) :
  World_wf w ->
  commands_heap w !! this = Some (Transfer cmd) ->
  TransferCommand.executed_ cmd = false ->
  accountRepo_storage_ w !! TransferCommand.fromAccountId_ cmd = Some pa ->
  accountRepo_storage_ w !! TransferCommand.toAccountId_ cmd = Some pb ->
  accounts_heap w !! pa = Some a ->
  accounts_heap w !! pb = Some b ->
  BankAccount.isActive_ a = true ->
  BankAccount.isActive_ b = true ->
  BankAccount.id_ a <> BankAccount.id_ b ->
  withdraw_outcome a (TransferCommand.amount_ cmd) = Returned withdrawn ->
  deposit_outcome b (TransferCommand.amount_ cmd) = Returned deposited ->
  (500 < String.length (TransferCommand.description_ cmd))%nat ->
  exists what ta tb w',
    BaseCommand_execute this w = (Thrown (ValidationException what), w')
    /\ accounts_heap w'
       = <[pb := BankAccount.set_updatedAt_ tb (BankAccount.set_balance_ deposited b)]>
           (<[pa := BankAccount.set_updatedAt_ ta
                      (BankAccount.set_balance_ withdrawn a)]> (accounts_heap w))
    /\ accountRepo_storage_ w' = accountRepo_storage_ w
    /\ operationRepo_storage_ w' = operationRepo_storage_ w
    /\ commands_heap w' = commands_heap w.
Proof.
  intros Hwf Hcmd Hfresh Hpa Hpb Ha Hb Hacta Hactb Hid Hwithdraw Hdeposit Hlong.
  rewrite (BaseCommand_execute_run _ _ (Transfer cmd) Hcmd Hfresh).
  unfold TransferCommand_doExecute.
  destruct (IBankAccountRepository_findById_wf w (TransferCommand.fromAccountId_ cmd) Hwf)
    as (w1 & Hfind1 & Hsame1 & Hwf1).
  destruct (IBankAccountRepository_findById_wf w1 (TransferCommand.toAccountId_ cmd) Hwf1)
    as (w2 & Hfind2 & Hsame2 & Hwf2).
  pose proof (same_objects_trans _ _ _ Hsame1 Hsame2)
    as (Hh2 & Hs2 & _ & _ & _ & Ho2 & Hm2 & _).
  rewrite bind_run, Hfind1, bind_run, Hfind2.
  rewrite (proj1 (proj2 Hsame1)), Hpa, Hpb.
  destruct (proj1 Hwf _ _ Hpa) as (a0 & Ha0 & Haid).
  destruct (proj1 Hwf _ _ Hpb) as (b0 & Hb0 & Hbid).
  replace a0 with a in * by congruence. replace b0 with b in * by congruence.
  clear Ha0 Hb0.
  assert (Ha2 : accounts_heap w2 !! pa = Some a) by (rewrite Hh2; exact Ha).
  assert (Hb2 : accounts_heap w2 !! pb = Some b) by (rewrite Hh2; exact Hb).
  assert (Htransfer : exists w3,
            BankAccount_transfer pa pb (TransferCommand.amount_ cmd) w2
            = (Returned tt, w3)).
  { rewrite (BankAccount_transfer_run _ _ _ _ _ _ Ha2 Hb2), Hacta, Hactb.
    rewrite bool_decide_eq_false_2 by exact Hid. simpl.
    rewrite Hwithdraw, Hdeposit. eauto. }
  destruct Htransfer as [w3 Htransfer].
  rewrite bind_run, Htransfer.
  destruct (transfer_and_update_Returned w2 pa pb pa pb a b
              (TransferCommand.amount_ cmd) w3 Hwf2)
    as (withdrawn' & deposited' & ta & tb & w4 & w5 & _ & _ & _ & Hwithdraw'
        & Hdeposit' & Hupdate1 & Hupdate2 & Hh5 & Hs5 & _ & _ & Ho5 & Hm5 & Hwf5);
    try (rewrite ?Hh2, ?Hs2, ?Haid, ?Hbid; assumption); [left; split; reflexivity|].
  replace withdrawn' with withdrawn in * by congruence.
  replace deposited' with deposited in * by congruence.
  rewrite bind_run, Hupdate1, bind_run, Hupdate2.
  unfold ICategoryRepository_findByName. mrun.
  match goal with
  | |- context [match ?m w5 with (_, _) => _ end] =>
      destruct (m w5) as [[transferCategory|e] w6] eqn:Hcategory
  end.
  2:{ exfalso. revert Hcategory.
      destruct (head _) as [category|]; [discriminate|].
      rewrite bind_run.
      destruct (EntityFactory_createCategory_outcome CategoryType_EXPENSE
                  "Перевод" "Переводы между счетами" w5) as (w' & _ & _ & Hout).
      destruct (EntityFactory_createCategory _ _ _ w5) as [[category|e'] w0].
      - unfold ICategoryRepository_save. mrun. discriminate.
      - simpl in Hout. destruct Hout as [[?|[Hlen|Hlen]] _];
          [discriminate|vm_compute in Hlen; lia|vm_compute in Hlen; lia]. }
  apply transfer_category_frame in Hcategory as (Hh6 & Hs6 & Hc6 & Hu6 & Ho6 & Hm6).
  unfold DateTimeUtils_now. rewrite bind_run, read_oracle_run, bind_run.
  match goal with
  | |- context [EntityFactory_createOperation ?t ?i ?x ?c ?d ?dt ?w0] =>
      destruct (EntityFactory_createOperation_outcome t i x c d dt w0)
        as (w7 & Hw7 & Hstate & Hout);
      destruct (EntityFactory_createOperation t i x c d dt w0) as [[created|e] w7']
  end.
  { exfalso. simpl in Hout. destruct Hout as (_ & _ & _ & Hle & _). lia. }
  simpl in Hout, Hstate. subst w7'. destruct Hout as [_ [what ->]].
  exists what, ta, tb, w7. split; [reflexivity|].
  rewrite Hw7. cbn. rewrite Hh6, Hh5, Hh2, Hs6, Hs5, Hs2, Ho6, Ho5, Ho2, Hm6, Hm5, Hm2.
  repeat split.
Qed.

Lemma X21_transfer_with_long_description_moves_the_money_witness :
  let a := BankAccount.Build "ACC-A" "A" (Money.Build 100 "RUB") "" true 0 0 "RUB" in
  let b := BankAccount.Build "ACC-B" "B" (Money.Build 5 "RUB") "" true 0 0 "RUB" in
  let description := string_of_list_ascii (repeat "x"%char 501) in
  let w := BuildWorld {[1%positive := a; 2%positive := b]}
             {["ACC-A" := 1%positive; "ACC-B" := 2%positive]} ∅ 60 true ∅ ∅
             {[1%positive := TransferCommand_new "ACC-A" "ACC-B"
                               (Money.Build 30 "RUB") description]}
             (fun n => Z.of_nat n) 0 in
  exists what w',
    BaseCommand_execute 1%positive w = (Thrown (ValidationException what), w')
    /\ BankAccount.balance_ <$> accounts_heap w' !! 1%positive
       = Some (Money.Build 70 "RUB")
    /\ BankAccount.balance_ <$> accounts_heap w' !! 2%positive
       = Some (Money.Build 35 "RUB")
    /\ operationRepo_storage_ w' = ∅
    /\ commands_heap w' = commands_heap w.
Proof.
  intros a b description w.
  assert (Hwf : World_wf w).
  { apply World_wf_empty_cache; [reflexivity|].
    apply map_Forall_insert_2; [vm_compute; reflexivity|].
    apply map_Forall_singleton. vm_compute. reflexivity. }
  destruct (X21_transfer_with_long_description_moves_the_money w 1%positive
              (TransferCommand.Build "Перевод" false "ACC-A" "ACC-B"
                 (Money.Build 30 "RUB") description None None)
              1%positive 2%positive a b (Money.Build 70 "RUB") (Money.Build 35 "RUB")
              Hwf)
    as (what & ta & tb & w' & Hrun & Hheap & _ & Hops & Hcmds);
    try reflexivity; [discriminate|vm_compute; lia|].
  exists what, w'. split; [exact Hrun|]. rewrite Hheap, Hops, Hcmds.
  split; [reflexivity|]. split; [reflexivity|]. split; reflexivity.
Defined.

(** ** [CommandHistory]: the cursor *)

Section CommandHistory_more.
Context {State Cmd : Type}.
Variable ICommand_execute : Cmd -> State -> Outcome unit * State.
Variable ICommand_undo : Cmd -> State -> Outcome unit * State.
Variable ICommand_canUndo : Cmd -> State -> bool.

Local Abbreviation execute := (CommandHistory.execute ICommand_execute).
Local Abbreviation undo := (CommandHistory.undo ICommand_undo ICommand_canUndo).
Local Abbreviation redo := (CommandHistory.redo ICommand_execute).
Local Abbreviation canUndo := (CommandHistory.canUndo ICommand_canUndo).

(** X22. [currentIndex_ <= history_.size()] is kept by [execute], [undo],
    [redo] and [clear], whatever the commands do.  While it holds,
    [canUndo] returns, and [undo] and [redo] index the vector in range:
    they throw only what the [undo] or the [execute] of a command of the
    history throws. *)
Theorem X22_CommandHistory_index_stays_in_range (h : CommandHistory.t Cmd) (s : State) :
  (CommandHistory.currentIndex_ h <= length (CommandHistory.history_ h))%nat ->
  (forall command r h' s', execute command h s = (r, h', s') ->
     (CommandHistory.currentIndex_ h' <= length (CommandHistory.history_ h'))%nat)
  /\ (exists b, canUndo h s = Returned b)
  /\ (forall r h' s', undo h s = (r, h', s') ->
        (CommandHistory.currentIndex_ h' <= length (CommandHistory.history_ h'))%nat
        /\ forall e, r = Thrown e ->
             exists command,
               In command (CommandHistory.history_ h)
               /\ ICommand_undo command s = (Thrown e, s'))
  /\ (forall r h' s', redo h s = (r, h', s') ->
        (CommandHistory.currentIndex_ h' <= length (CommandHistory.history_ h'))%nat
        /\ forall e, r = Thrown e ->
             exists command,
               In command (CommandHistory.history_ h)
               /\ ICommand_execute command s = (Thrown e, s'))
  /\ (CommandHistory.currentIndex_ (CommandHistory.clear h)
      <= length (CommandHistory.history_ (CommandHistory.clear h)))%nat.
Proof.
  destruct h as [history index]. simpl. intros Hrange.
  assert (Hlookup : (0 < index)%nat -> exists command,
            history !! (index - 1)%nat = Some command /\ In command history).
  { intros Hpos. destruct (lookup_lt_is_Some_2 history (index - 1)%nat) as [c Hc];
      [lia|]. exists c. split; [exact Hc|].
    apply list_elem_of_In. eapply list_elem_of_lookup_2. exact Hc. }
  split; [|split; [|split; [|split]]].
  - intros command r h' s'. unfold CommandHistory.execute. simpl.
    destruct (ICommand_execute command s) as [[[]|e] s1].
    + intros [= _ <- _]. simpl. lia.
    + intros [= _ <- _]. destruct (index <? length history)%nat eqn:Hlt; simpl.
      * rewrite length_take. lia.
      * exact Hrange.
  - unfold CommandHistory.canUndo. simpl.
    destruct (0 <? index)%nat eqn:Hpos; [|eauto].
    apply Nat.ltb_lt in Hpos. destruct (Hlookup Hpos) as (c & -> & _). eauto.
  - intros r h' s'. unfold CommandHistory.undo, CommandHistory.canUndo. simpl.
    destruct (0 <? index)%nat eqn:Hpos.
    2:{ intros [= <- <- _]. split; [exact Hrange|discriminate]. }
    apply Nat.ltb_lt in Hpos. destruct (Hlookup Hpos) as (c & Hc & Hin). rewrite Hc.
    destruct (ICommand_canUndo c s).
    2:{ intros [= <- <- _]. split; [exact Hrange|discriminate]. }
    destruct (ICommand_undo c s) as [[[]|e] s1] eqn:Hundo.
    + intros [= <- <- _]. simpl. split; [lia|discriminate].
    + intros [= <- <- <-]. split; [exact Hrange|]. intros e' [= <-]. eauto.
  - intros r h' s'. unfold CommandHistory.redo, CommandHistory.canRedo. simpl.
    destruct (index <? length history)%nat eqn:Hlt.
    2:{ intros [= <- <- _]. split; [exact Hrange|discriminate]. }
    apply Nat.ltb_lt in Hlt.
    destruct (lookup_lt_is_Some_2 history index Hlt) as [c Hc]. rewrite Hc.
    destruct (ICommand_execute c s) as [[[]|e] s1] eqn:Hexec.
    + intros [= <- <- _]. simpl. split; [lia|discriminate].
    + intros [= <- <- <-]. split; [exact Hrange|]. intros e' [= <-].
      exists c. split; [|exact Hexec].
      apply list_elem_of_In. eapply list_elem_of_lookup_2. exact Hc.
  - simpl. lia.
Qed.

(** X23. When [undo] returns and has moved the cursor, it has undone the
    command just before the cursor and left the vector as it was;
    [canRedo] is then true, and [redo] executes that same command: if it
    returns, the history is exactly the one of before the [undo]; if it
    throws, the history stays in the undone state. *)
Theorem X23_undo_then_redo (h h1 : CommandHistory.t Cmd) (s s1 : State) :
  undo h s = (Returned tt, h1, s1) ->
  CommandHistory.currentIndex_ h1 <> CommandHistory.currentIndex_ h ->
  exists command,
    CommandHistory.history_ h !! (CommandHistory.currentIndex_ h - 1)%nat = Some command
    /\ ICommand_undo command s = (Returned tt, s1)
    /\ CommandHistory.history_ h1 = CommandHistory.history_ h
    /\ S (CommandHistory.currentIndex_ h1) = CommandHistory.currentIndex_ h
    /\ CommandHistory.canRedo h1 = true
    /\ redo h1 s1
       = match ICommand_execute command s1 with
         | (Returned _, s2) => (Returned tt, h, s2)
         | (Thrown e, s2) => (Thrown e, h1, s2)
         end.
Proof.
  destruct h as [history index].
  unfold CommandHistory.undo, CommandHistory.canUndo. simpl.
  destruct (0 <? index)%nat eqn:Hpos.
  2:{ intros [= <- _]. simpl. congruence. }
  apply Nat.ltb_lt in Hpos.
  destruct (history !! (index - 1)%nat) as [c|] eqn:Hc; [|discriminate].
  destruct (ICommand_canUndo c s).
  2:{ intros [= <- _]. simpl. congruence. }
  destruct (ICommand_undo c s) as [[[]|e] s'] eqn:Hundo; [|discriminate].
  intros [= <- <-] _. exists c. simpl.
  split; [reflexivity|]. split; [exact Hundo|]. split; [reflexivity|].
  split; [lia|].
  assert (Hlt : (index - 1 < length history)%nat).
  { apply lookup_lt_is_Some_1. eauto. }
  unfold CommandHistory.redo, CommandHistory.canRedo. simpl.
  rewrite (proj2 (Nat.ltb_lt _ _) Hlt), Hc. split; [reflexivity|].
  replace (S (index - 1)) with index by lia. reflexivity.
Qed.

(** X24. When the command passed to [CommandHistory::execute] throws, the
    command is not recorded and the cursor does not move, but the
    commands after the cursor are already erased: the history holds
    exactly the applied commands, [canRedo] is false, and [redo] does
    nothing. *)
Theorem X24_failed_execute_discards_the_redo_tail (command : Cmd)
    (h h' : CommandHistory.t Cmd) (s s' : State) (e : Exception) :
  execute command h s = (Thrown e, h', s') ->
  ICommand_execute command s = (Thrown e, s')
  /\ CommandHistory.history_ h' = CommandHistory.applied h
  /\ CommandHistory.currentIndex_ h' = CommandHistory.currentIndex_ h
  /\ CommandHistory.canRedo h' = false
  /\ redo h' s' = (Returned tt, h', s').
Proof.
  destruct h as [history index].
  unfold CommandHistory.execute, CommandHistory.applied. simpl.
  destruct (ICommand_execute command s) as [[[]|e0] s0]; [discriminate|].
  intros [= <- <- <-].
  assert (Hredo : CommandHistory.canRedo
                    (if (index <? length history)%nat
                     then CommandHistory.Build (take index history) index
                     else CommandHistory.Build history index) = false).
  { unfold CommandHistory.canRedo.
    destruct (index <? length history)%nat eqn:Hlt; simpl.
    - rewrite length_take. apply Nat.ltb_ge. lia.
    - exact Hlt. }
  split; [reflexivity|]. split.
  { destruct (index <? length history)%nat eqn:Hlt; simpl; [reflexivity|].
    apply Nat.ltb_ge in Hlt. symmetry. apply take_ge. exact Hlt. }
  split; [destruct (index <? length history)%nat; reflexivity|].
  split; [exact Hredo|].
  unfold CommandHistory.redo. rewrite Hredo. reflexivity.
Qed.

End CommandHistory_more.

Lemma X22_CommandHistory_index_stays_in_range_witness :
  let w := BuildWorld ∅ ∅ ∅ 60 true ∅ ∅
             {[1%positive := CreateCategoryCommand_new CategoryType_EXPENSE "Food" ""]}
             (fun n => Z.of_nat n) 0 in
  let r := CommandHistory.execute BaseCommand_execute 1%positive CommandHistory.new w in
  r.1.1 = Returned tt
  /\ (CommandHistory.currentIndex_ r.1.2 <= length (CommandHistory.history_ r.1.2))%nat
  /\ exists b, CommandHistory.canUndo ICommand_canUndo CommandHistory.new w = Returned b.
Proof.
  intros w r.
  destruct (X22_CommandHistory_index_stays_in_range BaseCommand_execute BaseCommand_undo
              ICommand_canUndo CommandHistory.new w) as (Hexec & Hcan & _).
  { simpl. lia. }
  split; [vm_compute; reflexivity|]. split; [|exact Hcan].
  apply (Hexec 1%positive r.1.1 r.1.2 r.2). subst r.
  destruct (CommandHistory.execute _ _ _ _) as [[? ?] ?]. reflexivity.
Defined.

Lemma X23_undo_then_redo_witness :
  let w := BuildWorld ∅ ∅ ∅ 60 true ∅ ∅
             {[1%positive := CreateCategoryCommand_new CategoryType_EXPENSE "Food" ""]}
             (fun n => Z.of_nat n) 0 in
  let r1 := CommandHistory.execute BaseCommand_execute 1%positive CommandHistory.new w in
  let r2 := CommandHistory.undo BaseCommand_undo ICommand_canUndo r1.1.2 r1.2 in
  let r3 := CommandHistory.redo BaseCommand_execute r2.1.2 r2.2 in
  categoryRepo_storage_ r2.2 = ∅
  /\ CommandHistory.canRedo r2.1.2 = true
  /\ r3.1.1 = Returned tt
  /\ r3.1.2 = r1.1.2
  /\ size (categoryRepo_storage_ r3.2) = 1.
Proof.
  intros w r1 r2 r3.
  destruct (X23_undo_then_redo BaseCommand_execute BaseCommand_undo ICommand_canUndo
              r1.1.2 r2.1.2 r1.2 r2.2) as (command & _ & _ & _ & _ & Hcan & _).
  { vm_compute. reflexivity. }
  { vm_compute. discriminate. }
  split; [vm_compute; reflexivity|]. split; [exact Hcan|].
  split; [vm_compute; reflexivity|]. split; vm_compute; reflexivity.
Defined.

Lemma X24_failed_execute_discards_the_redo_tail_witness :
  let w := BuildWorld ∅ ∅ ∅ 60 true ∅ ∅
             {[1%positive := CreateCategoryCommand_new CategoryType_EXPENSE "Food" "";
               2%positive := CreateCategoryCommand_new CategoryType_EXPENSE "" ""]}
             (fun n => Z.of_nat n) 0 in
  let r1 := CommandHistory.execute BaseCommand_execute 1%positive CommandHistory.new w in
  let r2 := CommandHistory.undo BaseCommand_undo ICommand_canUndo r1.1.2 r1.2 in
  let r3 := CommandHistory.execute BaseCommand_execute 2%positive r2.1.2 r2.2 in
  CommandHistory.canRedo r2.1.2 = true
  /\ r3.1.1 = Thrown (ValidationException "Category name cannot be empty")
  /\ CommandHistory.history_ r3.1.2 = []
  /\ CommandHistory.canRedo r3.1.2 = false.
Proof.
  intros w r1 r2 r3.
  destruct (X24_failed_execute_discards_the_redo_tail BaseCommand_execute 2%positive
              r2.1.2 r3.1.2 r2.2 r3.2
              (ValidationException "Category name cannot be empty"))
    as (_ & Hhistory & _ & Hcan & _).
  { vm_compute. reflexivity. }
  split; [vm_compute; reflexivity|]. split; [vm_compute; reflexivity|].
  split; [rewrite Hhistory; vm_compute; reflexivity|exact Hcan].
Defined.

(** ** [Money::equals] *)

Lemma SFcompare_finite_refl s m e :
  SFcompare (S754_finite s m e) (S754_finite s m e) = Some Eq.
Proof.
  destruct s; simpl; rewrite Z.compare_refl, Pos.compare_cont_refl; reflexivity.
Qed.

Lemma is_finite_spec (x : float) :
  is_finite x = match Prim2SF x with
                | S754_zero _ | S754_finite _ _ _ => true
                | _ => false
                end.
Proof.
  unfold is_finite, is_nan, is_infinity.
  rewrite !FloatAxioms.eqb_spec, abs_spec.
  change (Prim2SF infinity) with (S754_infinity false).
  destruct (Prim2SF x) as [s|s| |s m e]; try destruct s; try reflexivity;
    unfold SFeqb; rewrite SFcompare_finite_refl; reflexivity.
Qed.

Lemma sub_self_equals (x : float) :
  (abs (x - x) <? Money.epsilon)%float = is_finite x.
Proof.
  rewrite is_finite_spec, ltb_spec, abs_spec, sub_spec.
  pose proof (Prim2SF_valid x) as Hvalid.
  destruct (Prim2SF x) as [s|s| |s m e] eqn:Hx.
  - destruct s; reflexivity.
  - destruct s; reflexivity.
  - reflexivity.
  - destruct (SF_value_valid_sub_zero (S754_finite s m e) (S754_finite s m e)
                (cond_Zopp s (Zpos m * 2 ^ (e - emin))) Hvalid Hvalid eq_refl eq_refl)
      as [s' Hzero].
    rewrite Hzero. reflexivity.
Qed.

Lemma SFabs_binary_round s p e :
  SFabs (binary_round prec emax s p e) = SFabs (binary_round prec emax false p e).
Proof.
  unfold binary_round, binary_round_aux.
  destruct (shl_align _ _ _) as [mz ez].
  destruct (shr_fexp prec emax (Zpos mz) ez loc_Exact) as [mrs' e'].
  destruct (shr_fexp prec emax _ e' loc_Exact) as [mrs'' e''].
  destruct (shr_m mrs''); [reflexivity| |reflexivity].
  destruct (e'' <=? emax - prec)%Z; reflexivity.
Qed.

Lemma SFabs_binary_normalize_opp z e :
  SFabs (binary_normalize prec emax (- z) e false)
  = SFabs (binary_normalize prec emax z e false).
Proof.
  destruct z as [|p|p]; simpl; [reflexivity| |].
  - apply SFabs_binary_round.
  - symmetry. apply SFabs_binary_round.
Qed.

Lemma SFabs_sub_comm X Y : SFabs (SF64sub X Y) = SFabs (SF64sub Y X).
Proof.
  destruct X as [sx|sx| |sx mx ex], Y as [sy|sy| |sy my ey];
    try destruct sx; try destruct sy; try reflexivity;
    unfold SF64sub, SFsub; cbv zeta;
    rewrite (Z.min_comm ey ex), <- SFabs_binary_normalize_opp; f_equal; f_equal; lia.
Qed.

Lemma SFabs_sub_zero X : SFabs (SF64sub X (S754_zero false)) = SFabs X.
Proof. destruct X as [s|s| |s m e]; try destruct s; reflexivity. Qed.

(** X29. [Money::equals] is symmetric; a value equals itself exactly when
    its amount is finite (not for an infinite or NaN amount); and
    [isZero] is equality with zero of the same currency. *)
Theorem X29_Money_equals (a b : Money.t) :
  Money.equals a b = Money.equals b a
  /\ Money.equals a a = is_finite (Money.amount_ a)
  /\ Money.equals a (Money.Build 0 (Money.currency_ a)) = Money.isZero a.
Proof.
  unfold Money.equals, Money.isZero. split; [|split].
  - f_equal.
    + rewrite !ltb_spec, !abs_spec, !sub_spec. rewrite SFabs_sub_comm. reflexivity.
    + apply bool_decide_ext. split; congruence.
  - rewrite sub_self_equals, bool_decide_eq_true_2 by reflexivity. apply andb_true_r.
  - simpl. rewrite bool_decide_eq_true_2 by reflexivity. rewrite andb_true_r.
    rewrite !ltb_spec, !abs_spec, sub_spec.
    change (Prim2SF 0) with (S754_zero false). rewrite SFabs_sub_zero. reflexivity.
Qed.

(** ** [recalculateBalance] with [autoFix] *)

Lemma fold_operations_currency zero operations calculated :
  fold_operations zero operations = Returned calculated ->
  Money.currency_ calculated = Money.currency_ zero.
Proof.
  revert zero. induction operations as [|op rest IH]; intros zero; simpl.
  - intros [= <-]. reflexivity.
  - destruct (Operation.isIncome op).
    + destruct (Money.add zero (Operation.amount_ op)) as [m|] eqn:Hadd; [|discriminate].
      simpl. intros H. rewrite (IH _ H).
      apply Money_add_Returned in Hadd as [_ ->]. reflexivity.
    + destruct (Money.subtract zero (Operation.amount_ op)) as [m|] eqn:Hsub;
        [|discriminate].
      simpl. intros H. rewrite (IH _ H).
      apply Money_subtract_Returned in Hsub as [_ ->]. reflexivity.
Qed.

(** What [checkAccountBalance] computes from the account and the stored
    operations. *)
Lemma checkAccountBalance_run w accountId p a :
  World_wf w ->
  accountRepo_storage_ w !! accountId = Some p ->
  accounts_heap w !! p = Some a ->
  exists w',
    same_objects w w'
    /\ World_wf w'
    /\ BalanceReconciliationService_checkAccountBalance accountId w
       = (zero ← Money.zero (BankAccount.currency_ a);
          calculated ← fold_operations zero
                         (sort_by_date_desc
                            (filter (fun o => Operation.bankAccountId_ o = accountId)
                               (InMemoryRepository.findAll (operationRepo_storage_ w))));
          Returned (AccountBalance.Build accountId (BankAccount.name_ a)
                      (BankAccount.balance_ a) calculated
                      (negb (Money.equals (BankAccount.balance_ a) calculated))),
          w').
Proof.
  intros Hwf Hp Ha.
  destruct (IBankAccountRepository_findById_wf w accountId Hwf)
    as (w' & Hfind & Hsame & Hwf').
  assert (Ha' : accounts_heap w' !! p = Some a) by (rewrite (proj1 Hsame); exact Ha).
  exists w'. split; [exact Hsame|]. split; [exact Hwf'|].
  unfold BalanceReconciliationService_checkAccountBalance.
  rewrite bind_run, Hfind, Hp.
  rewrite (bind_Returned _ _ _ _ _ (deref_Some _ _ _ Ha')). cbv beta.
  unfold IOperationRepository_findByAccount. mrun.
  destruct Hsame as (_ & _ & _ & _ & _ & -> & _).
  destruct (Money.zero (BankAccount.currency_ a)) as [zero|e]; [|reflexivity].
  simpl. destruct (fold_operations zero _); reflexivity.
Qed.

Lemma recalculateBalance_after_check (w : World) (accountId : Id) (p : loc)
    (a : BankAccount.t) (result : AccountBalance.t) (w0 : World) :
  World_wf w ->
  accountRepo_storage_ w !! accountId = Some p ->
  accounts_heap w !! p = Some a ->
  BalanceReconciliationService_checkAccountBalance accountId w = (Returned result, w0) ->
  (exists w',
     BalanceReconciliationService_recalculateBalance accountId false w = (Returned tt, w')
     /\ same_objects w w' /\ World_wf w')
  /\ exists w' a',
       BalanceReconciliationService_recalculateBalance accountId true w
       = (Returned tt, w')
       /\ accounts_heap w' = <[p := a']> (accounts_heap w)
       /\ BankAccount.balance_ a'
          = (if AccountBalance.hasDiscrepancy result
             then AccountBalance.calculatedBalance result
             else BankAccount.balance_ a)
       /\ BankAccount.id_ a' = BankAccount.id_ a
       /\ BankAccount.name_ a' = BankAccount.name_ a
       /\ BankAccount.currency_ a' = BankAccount.currency_ a
       /\ accountRepo_storage_ w' = accountRepo_storage_ w
       /\ operationRepo_storage_ w' = operationRepo_storage_ w
       /\ World_wf w'
       /\ (exists w'',
             BalanceReconciliationService_checkAccountBalance accountId w'
             = (Returned
                  (AccountBalance.Build accountId (BankAccount.name_ a)
                     (BankAccount.balance_ a') (AccountBalance.calculatedBalance result)
                     (negb (Money.equals (BankAccount.balance_ a')
                              (AccountBalance.calculatedBalance result)))), w''))
       /\ (is_finite (Money.amount_ (AccountBalance.calculatedBalance result)) = true ->
           Money.equals (BankAccount.balance_ a')
             (AccountBalance.calculatedBalance result) = true).
Proof.
  intros Hwf Hp Ha Hcheck.
  destruct (checkAccountBalance_run w accountId p a Hwf Hp Ha)
    as (w1 & Hsame1 & Hwf1 & Hrun).
  set (operations := sort_by_date_desc
                       (filter (fun o => Operation.bankAccountId_ o = accountId)
                          (InMemoryRepository.findAll (operationRepo_storage_ w))))
    in Hrun.
  rewrite Hrun in Hcheck.
  destruct (Money.zero (BankAccount.currency_ a)) as [zero|] eqn:Hzero; [|discriminate].
  simpl in Hcheck.
  destruct (fold_operations zero operations) as [calculated|] eqn:Hfold; [|discriminate].
  simpl in Hcheck. injection Hcheck as <- <-.
  try rewrite Hzero in Hrun. simpl in Hrun. try rewrite Hfold in Hrun. simpl in Hrun.
  pose proof (fold_operations_currency _ _ _ Hfold) as Hcur.
  apply Money_new_Returned in Hzero as Hzero'. rewrite Hzero' in Hcur. simpl in Hcur.
  destruct Hsame1 as (Hh1 & Hs1 & Hd1 & Hu1 & Hc1 & Ho1 & Hm1 & Hor1).
  assert (Haid : BankAccount.id_ a = accountId).
  { destruct (proj1 Hwf _ _ Hp) as (a0 & Ha0 & Hid). congruence. }
  unfold BalanceReconciliationService_recalculateBalance.
  split.
  { rewrite bind_run, Hrun. cbv beta iota. rewrite andb_false_r.
    exists w1. split; [reflexivity|]. split; [repeat split; assumption|exact Hwf1]. }
  rewrite bind_run, Hrun. cbv beta iota.
  cbn [AccountBalance.hasDiscrepancy AccountBalance.calculatedBalance].
  rewrite andb_true_r.
  destruct (negb (Money.equals (BankAccount.balance_ a) calculated)) eqn:Hdisc.
  - destruct (IBankAccountRepository_findById_wf w1 accountId Hwf1)
      as (w2 & Hfind & (Hh2 & Hs2 & _ & Hu2 & Hc2 & Ho2 & Hm2 & _) & Hwf2).
    rewrite bind_run, Hfind, Hs1, Hp.
    assert (Ha2 : accounts_heap w2 !! p = Some a) by (rewrite Hh2, Hh1; exact Ha).
    rewrite bind_run, (BankAccount_recalculateBalance_run _ _ _ _ Ha2).
    unfold Money.getCurrency. rewrite bool_decide_eq_true_2 by exact Hcur. simpl.
    set (a3 := BankAccount.set_updatedAt_ (oracle w2 (oracle_reads w2))
                 (BankAccount.set_balance_ calculated a)).
    set (w3 := touched p (BankAccount.set_balance_ calculated a) w2).
    assert (Ha3 : accounts_heap w3 !! p = Some a3) by apply lookup_insert_eq.
    assert (Hp3 : accountRepo_storage_ w3 !! BankAccount.id_ a3 = Some p).
    { subst w3 a3. simpl. rewrite Hs2, Hs1, Haid. exact Hp. }
    destruct (IBankAccountRepository_update_present _ _ _ _ Ha3 Hp3)
      as (w4 & -> & Hs4 & (Hh4 & _ & Hu4 & Hc4 & Ho4 & Hm4 & _) & Hok4).
    assert (Hs : accountRepo_storage_ w4 = accountRepo_storage_ w).
    { rewrite Hs4. subst w3 a3. simpl. rewrite Hs2, Hs1, Haid. apply insert_id.
      exact Hp. }
    assert (Hh : accounts_heap w4 = <[p := a3]> (accounts_heap w)).
    { rewrite Hh4. subst w3. simpl. rewrite Hh2, Hh1. reflexivity. }
    assert (Ho : operationRepo_storage_ w4 = operationRepo_storage_ w).
    { rewrite Ho4. subst w3. simpl. rewrite Ho2, Ho1. reflexivity. }
    assert (Hwf4 : World_wf w4).
    { split.
      - eapply (storage_keyed_by_id_update w w4 p a a3); try eassumption.
        + apply Hwf.
        + reflexivity.
      - apply Hok4. eapply (cache_ok_same w2); [| | |exact (proj2 Hwf2)]; reflexivity. }
    exists w4, a3. split; [reflexivity|]. split; [exact Hh|].
    split; [reflexivity|]. split; [reflexivity|]. split; [reflexivity|].
    split; [reflexivity|]. split; [exact Hs|]. split; [exact Ho|].
    split; [exact Hwf4|]. split.
    + destruct (checkAccountBalance_run w4 accountId p a3 Hwf4) as (w5 & _ & _ & Hrun5).
      { rewrite Hs. exact Hp. }
      { rewrite Hh. apply lookup_insert_eq. }
      exists w5. rewrite Hrun5, Ho. fold operations.
      change (BankAccount.currency_ a3) with (BankAccount.currency_ a).
      rewrite Hzero. simpl. rewrite Hfold. reflexivity.
    + intros Hfinite. unfold Money.equals. simpl.
      rewrite sub_self_equals, Hfinite.
      rewrite bool_decide_eq_true_2; reflexivity.
  - exists w1, a. split; [reflexivity|].
    split; [rewrite Hh1; symmetry; apply insert_id; exact Ha|].
    split; [reflexivity|]. split; [reflexivity|]. split; [reflexivity|].
    split; [reflexivity|]. split; [exact Hs1|]. split; [exact Ho1|].
    split; [exact Hwf1|]. split.
    + destruct (checkAccountBalance_run w1 accountId p a Hwf1) as (w5 & _ & _ & Hrun5).
      { rewrite Hs1. exact Hp. }
      { rewrite Hh1. exact Ha. }
      exists w5. rewrite Hrun5, Ho1. fold operations.
      rewrite Hzero. simpl. rewrite Hfold. reflexivity.
    + intros _. apply negb_false_iff in Hdisc. exact Hdisc.
Qed.


(** X25. For a stored account on which [checkAccountBalance] returns:
    [recalculateBalance] without [autoFix] returns and changes no object;
    with [autoFix] it returns, and the balance of the account is then the
    calculated balance if a discrepancy was reported and the old balance
    otherwise, the id, name and currency, the storage and the operations
    being unchanged.  A new [checkAccountBalance] returns that balance
    and the same calculated balance, and reports no discrepancy when the
    calculated amount is finite. *)
Theorem X25_recalculateBalance_autoFix (w : World) (accountId : Id) (p : loc)
    (a : BankAccount.t) (result : AccountBalance.t) (w0 : World) :
  World_wf w ->
  accountRepo_storage_ w !! accountId = Some p ->
  accounts_heap w !! p = Some a ->
  BalanceReconciliationService_checkAccountBalance accountId w = (Returned result, w0) ->
  (exists w',
     BalanceReconciliationService_recalculateBalance accountId false w = (Returned tt, w')
     /\ same_objects w w')
  /\ exists w' a',
       BalanceReconciliationService_recalculateBalance accountId true w
       = (Returned tt, w')
       /\ accounts_heap w' = <[p := a']> (accounts_heap w)
       /\ BankAccount.balance_ a'
          = (if AccountBalance.hasDiscrepancy result
             then AccountBalance.calculatedBalance result
             else BankAccount.balance_ a)
       /\ BankAccount.id_ a' = BankAccount.id_ a
       /\ BankAccount.name_ a' = BankAccount.name_ a
       /\ BankAccount.currency_ a' = BankAccount.currency_ a
       /\ accountRepo_storage_ w' = accountRepo_storage_ w
       /\ operationRepo_storage_ w' = operationRepo_storage_ w
       /\ (exists w'',
             BalanceReconciliationService_checkAccountBalance accountId w'
             = (Returned
                  (AccountBalance.Build accountId (BankAccount.name_ a)
                     (BankAccount.balance_ a') (AccountBalance.calculatedBalance result)
                     (negb (Money.equals (BankAccount.balance_ a')
                              (AccountBalance.calculatedBalance result)))), w''))
       /\ (is_finite (Money.amount_ (AccountBalance.calculatedBalance result)) = true ->
           Money.equals (BankAccount.balance_ a')
             (AccountBalance.calculatedBalance result) = true).
Proof.
  intros Hwf Hp Ha Hcheck.
  destruct (recalculateBalance_after_check w accountId p a result w0 Hwf Hp Ha Hcheck)
    as ((w1 & Hrun1 & Hsame1 & _) & w2 & a2 & Hrun2 & H1 & H2 & H3 & H4 & H5 & H6 & H7
        & _ & H8 & H9).
  split; [eauto|]. exists w2, a2. auto 12.
Qed.

Lemma X25_recalculateBalance_autoFix_witness :
  let a := BankAccount.Build "ACC-A" "A" (Money.Build 100 "RUB") "" true 0 0 "RUB" in
  let op := Operation.Build "OP-1" OperationType_INCOME "ACC-A" (Money.Build 40 "RUB")
              5 "" "CAT-1" 0 0 false "" in
  let w := BuildWorld {[1%positive := a]} {["ACC-A" := 1%positive]} ∅ 60 true ∅
             {["OP-1" := op]} ∅ (fun n => Z.of_nat n) 0 in
  exists w' a',
    BalanceReconciliationService_recalculateBalance "ACC-A" true w = (Returned tt, w')
    /\ accounts_heap w' = <[1%positive := a']> (accounts_heap w)
    /\ BankAccount.balance_ a' = Money.Build 40 "RUB"
    /\ exists w'',
         BalanceReconciliationService_checkAccountBalance "ACC-A" w'
         = (Returned (AccountBalance.Build "ACC-A" "A" (Money.Build 40 "RUB")
                        (Money.Build 40 "RUB") false), w'').
Proof.
  intros a op w.
  assert (Hwf : World_wf w).
  { apply World_wf_empty_cache; [reflexivity|]. apply map_Forall_singleton.
    vm_compute. reflexivity. }
  destruct (X25_recalculateBalance_autoFix w "ACC-A" 1%positive a
              (AccountBalance.Build "ACC-A" "A" (Money.Build 100 "RUB")
                 (Money.Build 40 "RUB") true)
              (BalanceReconciliationService_checkAccountBalance "ACC-A" w).2 Hwf)
    as (_ & w' & a' & Hrun & Hheap & Hbalance & _ & _ & _ & _ & _ & [w'' Hcheck] & _);
    [reflexivity|reflexivity|vm_compute; reflexivity|].
  exists w', a'. split; [exact Hrun|]. split; [exact Hheap|].
  split; [exact Hbalance|]. exists w''. rewrite Hcheck, Hbalance. reflexivity.
Defined.

(** [recalculateBalance] in general: what it leaves alone. *)
Lemma recalculateBalance_frame w accountId autoFix r w' :
  World_wf w ->
  BalanceReconciliationService_recalculateBalance accountId autoFix w = (r, w') ->
  operationRepo_storage_ w' = operationRepo_storage_ w
  /\ accountRepo_storage_ w' = accountRepo_storage_ w
  /\ World_wf w'
  /\ (accountRepo_storage_ w !! accountId = None ->
      r = Thrown (EntityNotFoundException "BankAccount" accountId))
  /\ (r <> Returned tt -> accounts_heap w' = accounts_heap w)
  /\ (r = Returned tt ->
      exists result w0,
        BalanceReconciliationService_checkAccountBalance accountId w
        = (Returned result, w0)).
Proof.
  intros Hwf.
  destruct (accountRepo_storage_ w !! accountId) as [p|] eqn:Hp.
  - destruct (proj1 Hwf _ _ Hp) as (a & Ha & Hid).
    destruct (BalanceReconciliationService_checkAccountBalance accountId w)
      as [[result|e] w0] eqn:Hcheck.
    + destruct (recalculateBalance_after_check w accountId p a result w0 Hwf Hp Ha Hcheck)
        as ((w1 & Hrun1 & Hsame1 & Hwf1) & w2 & a2 & Hrun2 & H1 & _ & _ & _ & _ & H6
            & H7 & Hwf2 & _).
      destruct autoFix.
      * rewrite Hrun2. intros [= <- <-].
        split; [exact H7|]. split; [exact H6|]. split; [exact Hwf2|].
        split; [discriminate|]. split; [congruence|eauto].
      * rewrite Hrun1. intros [= <- <-].
        destruct Hsame1 as (Hh & Hs & _ & _ & _ & Ho & _).
        split; [exact Ho|]. split; [exact Hs|]. split; [exact Hwf1|].
        split; [discriminate|]. split; [congruence|eauto].
    + destruct (checkAccountBalance_run w accountId p a Hwf Hp Ha)
        as (w1 & (Hh & Hs & _ & _ & _ & Ho & _) & Hwf1 & Hrun).
      rewrite Hrun in Hcheck.
      unfold BalanceReconciliationService_recalculateBalance.
      rewrite bind_run, Hrun.
      match type of Hcheck with (?o, _) = _ => destruct o as [result|e'] end;
        [discriminate|].
      intros [= <- <-].
      split; [exact Ho|]. split; [exact Hs|]. split; [exact Hwf1|].
      split; [discriminate|]. split; [intros _; exact Hh|discriminate].
  - destruct (IBankAccountRepository_findById_wf w accountId Hwf)
      as (w1 & Hfind & (Hh & Hs & _ & _ & _ & Ho & _) & Hwf1).
    unfold BalanceReconciliationService_recalculateBalance,
      BalanceReconciliationService_checkAccountBalance.
    rewrite !bind_run, Hfind, Hp. intros [= <- <-].
    split; [exact Ho|]. split; [exact Hs|]. split; [exact Hwf1|].
    split; [reflexivity|]. split; [intros _; exact Hh|discriminate].
Qed.

(** ** [OperationFacade::deleteOperation] *)

(** X27. Under the invariant, [deleteOperation] of an id that is not
    stored throws [EntityNotFoundException] and changes nothing.  For a
    stored operation the operation is removed whether the call returns
    or throws; when the account of the operation is not stored, the call
    throws [EntityNotFoundException] for the account after the removal.
    A call that throws changes no account; after a call that returns,
    [checkAccountBalance] of the account returns with the balance the
    account then has, and reports no discrepancy when the calculated
    amount is finite. *)
Theorem X27_deleteOperation_removes_before_it_reconciles (w : World) (operationId : Id) :
  World_wf w ->
  match operationRepo_storage_ w !! operationId with
  | None =>
      OperationFacade_deleteOperation operationId w
      = (Thrown (EntityNotFoundException "Operation" operationId), w)
  | Some op =>
      exists r w',
        OperationFacade_deleteOperation operationId w = (r, w')
        /\ operationRepo_storage_ w'
           = InMemoryRepository.remove operationId (operationRepo_storage_ w)
        /\ accountRepo_storage_ w' = accountRepo_storage_ w
        /\ (accountRepo_storage_ w !! Operation.bankAccountId_ op = None ->
            r = Thrown (EntityNotFoundException "BankAccount"
                          (Operation.bankAccountId_ op)))
        /\ (r <> Returned tt -> accounts_heap w' = accounts_heap w)
        /\ (r = Returned tt ->
            exists p a' result w'',
              accountRepo_storage_ w !! Operation.bankAccountId_ op = Some p
              /\ accounts_heap w' !! p = Some a'
              /\ BalanceReconciliationService_checkAccountBalance
                   (Operation.bankAccountId_ op) w' = (Returned result, w'')
              /\ AccountBalance.balance result = BankAccount.balance_ a'
              /\ (is_finite (Money.amount_ (AccountBalance.calculatedBalance result))
                  = true ->
                  AccountBalance.hasDiscrepancy result = false))
  end.
Proof.
  intros Hwf.
  unfold OperationFacade_deleteOperation, OperationFacade_getOperation,
    IOperationRepository_findById, InMemoryRepository.findById. mrun.
  destruct (operationRepo_storage_ w !! operationId) as [op|] eqn:Hop; [|reflexivity].
  unfold IOperationRepository_remove. mrun.
  set (w1 := set_operationRepo_storage_ _ w).
  assert (Hwf1 : World_wf w1).
  { apply (World_wf_same w); [reflexivity|reflexivity| |exact Hwf].
    eapply (cache_ok_same w); [| | |exact (proj2 Hwf)]; reflexivity. }
  destruct (BalanceReconciliationService_recalculateBalance
              (Operation.bankAccountId_ op) true w1) as [r w'] eqn:Hrun.
  exists r, w'. split; [reflexivity|].
  destruct (recalculateBalance_frame _ _ _ _ _ Hwf1 Hrun)
    as (Ho & Hs & Hwf' & Hmissing & Hfailed & Hreturned).
  split; [exact Ho|]. split; [exact Hs|]. split; [exact Hmissing|].
  split; [exact Hfailed|].
  intros ->. destruct (Hreturned eq_refl) as (result & w0 & Hcheck).
  destruct (accountRepo_storage_ w !! Operation.bankAccountId_ op) as [p|] eqn:Hp.
  2:{ specialize (Hmissing Hp). discriminate. }
  destruct (proj1 Hwf _ _ Hp) as (a & Ha & Hid).
  destruct (recalculateBalance_after_check w1 (Operation.bankAccountId_ op) p a result w0
              Hwf1 Hp Ha Hcheck)
    as (_ & w2 & a2 & Hrun2 & Hheap & _ & _ & _ & _ & _ & _ & _ & [w'' Hcheck'] & Hfinite).
  rewrite Hrun in Hrun2. injection Hrun2 as <-.
  exists p, a2. eexists. exists w''.
  split; [reflexivity|]. split; [rewrite Hheap; apply lookup_insert_eq|].
  split; [exact Hcheck'|]. split; [reflexivity|].
  intros Hfin. simpl. rewrite (Hfinite Hfin). reflexivity.
Qed.

Lemma X27_deleteOperation_removes_before_it_reconciles_witness :
  let a := BankAccount.Build "ACC-A" "A" (Money.Build 150 "RUB") "" true 0 0 "RUB" in
  let op1 := Operation.Build "OP-1" OperationType_INCOME "ACC-A" (Money.Build 40 "RUB")
               5 "" "CAT-1" 0 0 false "" in
  let op2 := Operation.Build "OP-2" OperationType_INCOME "ACC-A" (Money.Build 10 "RUB")
               6 "" "CAT-1" 0 0 false "" in
  let w := BuildWorld {[1%positive := a]} {["ACC-A" := 1%positive]} ∅ 60 true ∅
             {["OP-1" := op1; "OP-2" := op2]} ∅ (fun n => Z.of_nat n) 0 in
  exists w',
    OperationFacade_deleteOperation "OP-2" w = (Returned tt, w')
    /\ operationRepo_storage_ w' = {["OP-1" := op1]}
    /\ BankAccount.balance_ <$> accounts_heap w' !! 1%positive
       = Some (Money.Build 40 "RUB").
Proof.
  intros a op1 op2 w.
  assert (Hwf : World_wf w).
  { apply World_wf_empty_cache; [reflexivity|]. apply map_Forall_singleton.
    vm_compute. reflexivity. }
  pose proof (X27_deleteOperation_removes_before_it_reconciles w "OP-2" Hwf) as H.
  replace (operationRepo_storage_ w !! "OP-2") with (Some op2) in H
    by (vm_compute; reflexivity).
  destruct H as (r & w' & Hrun & Hops & _).
  assert (Hr : (OperationFacade_deleteOperation "OP-2" w).1 = Returned tt)
    by (vm_compute; reflexivity).
  rewrite Hrun in Hr. simpl in Hr. subst r.
  exists w'. split; [exact Hrun|]. split.
  - rewrite Hops. vm_compute. reflexivity.
  - replace w' with (OperationFacade_deleteOperation "OP-2" w).2
      by (rewrite Hrun; reflexivity).
    vm_compute. reflexivity.
Defined.

(** ** [AccountFacade::deleteAccount] *)

(** X26. Under the invariant, [deleteAccount] throws
    [EntityNotFoundException] for an id that is not stored and a
    [DomainException] for an account whose balance is not within epsilon
    of zero, changing no object; otherwise it returns and the id is
    removed, so that [findById] finds nothing, while the account object
    and all operations, also those of the deleted account, stay. *)
Theorem X26_deleteAccount_needs_a_zero_balance (w : World) (accountId : Id) :
  World_wf w ->
  match accountRepo_storage_ w !! accountId with
  | None =>
      exists w',
        AccountFacade_deleteAccount accountId w
        = (Thrown (EntityNotFoundException "BankAccount" accountId), w')
        /\ same_objects w w'
  | Some p =>
      exists a,
        accounts_heap w !! p = Some a
        /\ if Money.isZero (BankAccount.balance_ a)
           then exists w',
                  AccountFacade_deleteAccount accountId w = (Returned tt, w')
                  /\ accountRepo_storage_ w'
                     = InMemoryRepository.remove accountId (accountRepo_storage_ w)
                  /\ IBankAccountRepository_findById accountId w' = (Returned None, w')
                  /\ accounts_heap w' = accounts_heap w
                  /\ operationRepo_storage_ w' = operationRepo_storage_ w
                  /\ World_wf w'
           else exists w',
                  AccountFacade_deleteAccount accountId w
                  = (Thrown (DomainException
                               "Невозможно удалить счёт с ненулевым балансом"), w')
                  /\ same_objects w w'
  end.
Proof.
  intros Hwf. unfold AccountFacade_deleteAccount, AccountFacade_getAccount.
  destruct (IBankAccountRepository_findById_wf w accountId Hwf)
    as (w1 & Hfind & Hsame & Hwf1).
  rewrite bind_run, Hfind.
  destruct (accountRepo_storage_ w !! accountId) as [p|] eqn:Hp.
  2:{ exists w1. split; [reflexivity|exact Hsame]. }
  destruct (proj1 Hwf _ _ Hp) as (a & Ha & Hid).
  exists a. split; [exact Ha|].
  assert (Ha1 : accounts_heap w1 !! p = Some a) by (rewrite (proj1 Hsame); exact Ha).
  rewrite bind_run, (BankAccount_getBalance_Some _ _ _ Ha1).
  destruct (Money.isZero (BankAccount.balance_ a)); simpl.
  2:{ exists w1. split; [reflexivity|exact Hsame]. }
  destruct (IBankAccountRepository_remove_run accountId w1)
    as (w2 & Hremove & Hh2 & Hu2 & Hs2 & Hc2 & Ho2 & _).
  destruct Hsame as (Hh1 & Hs1 & _ & _ & _ & Ho1 & _).
  exists w2. split; [exact Hremove|].
  split; [rewrite Hs2, Hs1; reflexivity|].
  split.
  { apply IBankAccountRepository_findById_absent.
    - rewrite Hs2. apply lookup_delete_eq.
    - intros Hcaching. rewrite Hc2 by congruence. apply lookup_delete_eq. }
  split; [congruence|]. split; [congruence|].
  eapply World_wf_remove; eassumption.
Qed.

Lemma X26_deleteAccount_needs_a_zero_balance_witness :
  let a := BankAccount.Build "ACC-A" "A" (Money.Build 0x1p-11 "RUB") "" true 0 0 "RUB" in
  let b := BankAccount.Build "ACC-B" "B" (Money.Build 5 "RUB") "" true 0 0 "RUB" in
  let op := Operation.Build "OP-1" OperationType_INCOME "ACC-A" (Money.Build 40 "RUB")
              5 "" "CAT-1" 0 0 false "" in
  let w := BuildWorld {[1%positive := a; 2%positive := b]}
             {["ACC-A" := 1%positive; "ACC-B" := 2%positive]} ∅ 60 true ∅
             {["OP-1" := op]} ∅ (fun n => Z.of_nat n) 0 in
  (exists w',
     AccountFacade_deleteAccount "ACC-A" w = (Returned tt, w')
     /\ accountRepo_storage_ w' = {["ACC-B" := 2%positive]}
     /\ operationRepo_storage_ w' = {["OP-1" := op]})
  /\ (AccountFacade_deleteAccount "ACC-B" w).1
     = Thrown (DomainException "Невозможно удалить счёт с ненулевым балансом").
Proof.
  intros a b op w.
  assert (Hwf : World_wf w).
  { apply World_wf_empty_cache; [reflexivity|].
    apply map_Forall_insert_2; [vm_compute; reflexivity|].
    apply map_Forall_singleton. vm_compute. reflexivity. }
  pose proof (X26_deleteAccount_needs_a_zero_balance w "ACC-A" Hwf) as H.
  replace (accountRepo_storage_ w !! "ACC-A") with (Some 1%positive) in H
    by (vm_compute; reflexivity).
  destruct H as (a' & Ha' & H).
  assert (Heq : Some a' = Some a) by (rewrite <- Ha'; vm_compute; reflexivity).
  injection Heq as ->.
  replace (Money.isZero (BankAccount.balance_ a)) with true in H
    by (vm_compute; reflexivity).
  destruct H as (w' & Hrun & Hs & _ & _ & Ho & _).
  split; [|vm_compute; reflexivity].
  exists w'. split; [exact Hrun|]. split.
  - rewrite Hs. vm_compute. reflexivity.
  - rewrite Ho. reflexivity.
Defined.

(** ** [CategoryFacade::deleteCategory] *)

(** X28. [deleteCategory] throws a [DomainException] and changes nothing
    when a stored operation refers to the category, or when no operation
    does but the category is not stored; when no operation refers to it
    and it is stored, the call returns and removes exactly that id from
    the category repository. *)
Theorem X28_deleteCategory_keeps_used_categories (w : World) (categoryId : Id) :
  let used := exists id op,
                operationRepo_storage_ w !! id = Some op
                /\ Operation.categoryId_ op = categoryId in
  (used ->
   CategoryFacade_deleteCategory categoryId w
   = (Thrown (DomainException
                "Невозможно удалить категорию с существующими операциями"), w))
  /\ (~ used ->
      categoryRepo_storage_ w !! categoryId = None ->
      CategoryFacade_deleteCategory categoryId w
      = (Thrown (DomainException "Категории с таким ID не существует!"), w))
  /\ (~ used ->
      is_Some (categoryRepo_storage_ w !! categoryId) ->
      CategoryFacade_deleteCategory categoryId w
      = (Returned tt,
         set_categoryRepo_storage_
           (InMemoryRepository.remove categoryId (categoryRepo_storage_ w)) w)).
Proof.
  intros used.
  unfold CategoryFacade_deleteCategory, IOperationRepository_findByCategory,
    ICategoryRepository_findById, ICategoryRepository_remove,
    InMemoryRepository.findById. mrun.
  set (operations := filter (fun o => Operation.categoryId_ o = categoryId)
                       (InMemoryRepository.findAll (operationRepo_storage_ w))).
  assert (Hused : used <-> operations <> []).
  { split.
    - intros (id & op & Hop & Hcat) Hempty.
      assert (Hin : op ∈ operations).
      { apply list_elem_of_filter. split; [exact Hcat|].
        apply list_elem_of_In, In_findAll. eauto. }
      rewrite Hempty in Hin. inversion Hin.
    - intros Hne. destruct operations as [|op rest] eqn:Hops; [contradiction|].
      assert (Hin : op ∈ operations) by (rewrite Hops; left).
      apply list_elem_of_filter in Hin as [Hcat Hin].
      apply list_elem_of_In, In_findAll in Hin as [id Hid]. exists id, op. auto. }
  split; [|split].
  - intros H. apply Hused in H. destruct operations; [contradiction|reflexivity].
  - intros H Hnone. destruct operations as [|op rest].
    + mrun. rewrite Hnone. reflexivity.
    + exfalso. apply H, Hused. discriminate.
  - intros H [c Hc]. destruct operations as [|op rest].
    + mrun. rewrite Hc. reflexivity.
    + exfalso. apply H, Hused. discriminate.
Qed.

Lemma X28_deleteCategory_keeps_used_categories_witness :
  let food := Category.Build "CAT-1" CategoryType_EXPENSE "Food" "" "#000000" "default" in
  let rent := Category.Build "CAT-2" CategoryType_EXPENSE "Rent" "" "#000000" "default" in
  let op := Operation.Build "OP-1" OperationType_EXPENSE "ACC-A" (Money.Build 40 "RUB")
              5 "" "CAT-1" 0 0 false "" in
  let w := BuildWorld ∅ ∅ ∅ 60 true {["CAT-1" := food; "CAT-2" := rent]}
             {["OP-1" := op]} ∅ (fun n => Z.of_nat n) 0 in
  CategoryFacade_deleteCategory "CAT-1" w
  = (Thrown (DomainException
               "Невозможно удалить категорию с существующими операциями"), w)
  /\ CategoryFacade_deleteCategory "CAT-3" w
     = (Thrown (DomainException "Категории с таким ID не существует!"), w)
  /\ categoryRepo_storage_ (CategoryFacade_deleteCategory "CAT-2" w).2
     = {["CAT-1" := food]}.
Proof.
  intros food rent op w.
  assert (Hunused : forall categoryId, categoryId <> "CAT-1" ->
            ~ exists id op', operationRepo_storage_ w !! id = Some op'
                             /\ Operation.categoryId_ op' = categoryId).
  { intros categoryId Hne (id & op' & Hop' & Hcat). cbn in Hop'.
    apply lookup_singleton_Some in Hop'. destruct Hop' as [_ <-].
    apply Hne. symmetry. exact Hcat. }
  split; [|split].
  - apply (X28_deleteCategory_keeps_used_categories w "CAT-1").
    exists "OP-1", op. split; [vm_compute; reflexivity|reflexivity].
  - apply (X28_deleteCategory_keeps_used_categories w "CAT-3").
    + apply Hunused. discriminate.
    + vm_compute. reflexivity.
  - destruct (X28_deleteCategory_keeps_used_categories w "CAT-2") as (_ & _ & H).
    rewrite H.
    + vm_compute. reflexivity.
    + apply Hunused. discriminate.
    + exists rent. vm_compute. reflexivity.
Defined.

(** ** [AccountFacade::deactivateAccount] and [activateAccount] *)

Lemma set_isActive_and_update w accountId p a active :
  World_wf w ->
  accountRepo_storage_ w !! accountId = Some p ->
  accounts_heap w !! p = Some a ->
  exists w1 t,
    (account ← AccountFacade_getAccount accountId;
     match account with
     | None => throw (EntityNotFoundException "BankAccount" accountId)
     | Some p =>
         (assign p (BankAccount.set_isActive_ active);; BankAccount_updateTimestamp p);;
         IBankAccountRepository_update p
     end) w = (Returned tt, w1)
    /\ accounts_heap w1
       = <[p := BankAccount.set_updatedAt_ t (BankAccount.set_isActive_ active a)]>
           (accounts_heap w)
    /\ accountRepo_storage_ w1 = accountRepo_storage_ w
    /\ operationRepo_storage_ w1 = operationRepo_storage_ w
    /\ World_wf w1.
Proof.
  intros Hwf Hp Ha. unfold AccountFacade_getAccount.
  destruct (IBankAccountRepository_findById_wf w accountId Hwf)
    as (w0 & Hfind & (Hh0 & Hs0 & _ & _ & _ & Ho0 & _) & Hwf0).
  rewrite bind_run, Hfind, Hp.
  destruct (proj1 Hwf _ _ Hp) as (a0 & Ha0 & Hid).
  replace a0 with a in * by congruence. clear Ha0.
  assert (Ha' : accounts_heap w0 !! p = Some a) by (rewrite Hh0; exact Ha).
  rewrite bind_run, (assign_then_updateTimestamp _ _ _ _ Ha').
  set (a1 := BankAccount.set_updatedAt_ (oracle w0 (oracle_reads w0))
               (BankAccount.set_isActive_ active a)).
  set (w1 := touched p (BankAccount.set_isActive_ active a) w0).
  assert (Ha1 : accounts_heap w1 !! p = Some a1) by apply lookup_insert_eq.
  assert (Hp1 : accountRepo_storage_ w1 !! BankAccount.id_ a1 = Some p).
  { subst w1 a1. simpl. rewrite Hs0, Hid. exact Hp. }
  destruct (IBankAccountRepository_update_present _ _ _ _ Ha1 Hp1)
    as (w2 & -> & Hs2 & (Hh2 & _ & _ & _ & Ho2 & _) & Hok2).
  exists w2, (oracle w0 (oracle_reads w0)). split; [reflexivity|].
  assert (Hh : accounts_heap w2 = <[p := a1]> (accounts_heap w)).
  { rewrite Hh2. subst w1. simpl. rewrite Hh0. reflexivity. }
  assert (Hs : accountRepo_storage_ w2 = accountRepo_storage_ w).
  { rewrite Hs2. subst w1 a1. simpl. rewrite Hs0, Hid. apply insert_id. exact Hp. }
  split; [exact Hh|]. split; [exact Hs|].
  split; [rewrite Ho2; subst w1; simpl; exact Ho0|].
  split.
  - eapply (storage_keyed_by_id_update w w2 p a a1); try eassumption.
    + apply Hwf.
    + reflexivity.
  - apply Hok2. eapply (cache_ok_same w0); [| | |exact (proj2 Hwf0)]; reflexivity.
Qed.

(** X30. For a stored account under the invariant, [deactivateAccount]
    returns, clears the active flag and keeps the balance and the
    storage; afterwards [deposit] and [withdraw] of any amount throw a
    [DomainException] and change nothing, and [canWithdraw] returns
    false; [activateAccount] then returns and sets the flag again, the
    balance still being the one of before. *)
Theorem X30_deactivated_account_refuses_money (w : World) (accountId : Id) (p : loc)
    (a : BankAccount.t) :
  World_wf w ->
  accountRepo_storage_ w !! accountId = Some p ->
  accounts_heap w !! p = Some a ->
  exists w1 a1,
    AccountFacade_deactivateAccount accountId w = (Returned tt, w1)
    /\ accounts_heap w1 = <[p := a1]> (accounts_heap w)
    /\ BankAccount.isActive_ a1 = false
    /\ BankAccount.balance_ a1 = BankAccount.balance_ a
    /\ accountRepo_storage_ w1 = accountRepo_storage_ w
    /\ (forall amount,
          BankAccount_deposit p amount w1
          = (Thrown (DomainException "Cannot deposit to inactive account"), w1))
    /\ (forall amount,
          BankAccount_withdraw p amount w1
          = (Thrown (DomainException "Cannot withdraw from inactive account"), w1))
    /\ (forall amount, BankAccount_canWithdraw p amount w1 = (Returned false, w1))
    /\ exists w2 a2,
         AccountFacade_activateAccount accountId w1 = (Returned tt, w2)
         /\ accounts_heap w2 = <[p := a2]> (accounts_heap w)
         /\ BankAccount.isActive_ a2 = true
         /\ BankAccount.balance_ a2 = BankAccount.balance_ a
         /\ accountRepo_storage_ w2 = accountRepo_storage_ w.
Proof.
  intros Hwf Hp Ha.
  destruct (set_isActive_and_update w accountId p a false Hwf Hp Ha)
    as (w1 & t1 & Hrun1 & Hh1 & Hs1 & _ & Hwf1).
  set (a1 := BankAccount.set_updatedAt_ t1 (BankAccount.set_isActive_ false a)) in *.
  assert (Ha1 : accounts_heap w1 !! p = Some a1)
    by (rewrite Hh1; apply lookup_insert_eq).
  exists w1, a1. split; [exact Hrun1|]. split; [exact Hh1|].
  split; [reflexivity|]. split; [reflexivity|]. split; [exact Hs1|].
  split; [intros amount; rewrite (BankAccount_deposit_run _ _ _ _ Ha1); reflexivity|].
  split; [intros amount; rewrite (BankAccount_withdraw_run _ _ _ _ Ha1); reflexivity|].
  split; [intros amount; rewrite (BankAccount_canWithdraw_run _ _ _ _ Ha1); reflexivity|].
  destruct (set_isActive_and_update w1 accountId p a1 true Hwf1)
    as (w2 & t2 & Hrun2 & Hh2 & Hs2 & _); [rewrite Hs1; exact Hp|exact Ha1|].
  eexists w2, _. split; [exact Hrun2|].
  split; [rewrite Hh2, Hh1; apply insert_insert_eq|].
  split; [reflexivity|]. split; [reflexivity|]. congruence.
Qed.

Lemma X30_deactivated_account_refuses_money_witness :
  let a := BankAccount.Build "ACC-A" "A" (Money.Build 100 "RUB") "" true 0 0 "RUB" in
  let w := BuildWorld {[1%positive := a]} {["ACC-A" := 1%positive]} ∅ 60 true ∅ ∅ ∅
             (fun n => Z.of_nat n) 0 in
  exists w1,
    AccountFacade_deactivateAccount "ACC-A" w = (Returned tt, w1)
    /\ BankAccount_withdraw 1%positive (Money.Build 30 "RUB") w1
       = (Thrown (DomainException "Cannot withdraw from inactive account"), w1)
    /\ BankAccount_canWithdraw 1%positive (Money.Build 30 "RUB") w1 = (Returned false, w1).
Proof.
  intros a w.
  assert (Hwf : World_wf w).
  { apply World_wf_empty_cache; [reflexivity|]. apply map_Forall_singleton.
    vm_compute. reflexivity. }
  destruct (X30_deactivated_account_refuses_money w "ACC-A" 1%positive a Hwf)
    as (w1 & a1 & Hrun & _ & _ & _ & _ & _ & Hwithdraw & Hcan & _);
    [reflexivity|reflexivity|].
  exists w1. split; [exact Hrun|]. split; [apply Hwithdraw|apply Hcan].
Defined.
